(** * Process scheduling engine: offline FCFS / RR / MLFQ and online SJF / MLFQ

    A shallow embedding of [offline_schedulers.h] and [online_schedulers.h].
    The two headers hold the same text for the process record, the queue,
    the clock, the CSV writer, [parseCommand], [executeProcess],
    [pauseProcess] and [resumeProcess]; those are embedded once, the
    schedulers themselves live in the modules [Offline] and [Online].

    The operating system is an oracle: every call the scheduler makes
    (clock, fork, waitpid, kill, fopen, malloc, select/read) is answered by
    a function of the number of calls made so far, and everything the
    scheduler emits is appended to a log. *)

From Stdlib Require Import ZArith Lia Bool String Ascii List.
From stdpp Require Import base tactics option list.

Local Open Scope Z_scope.

(** ** Machine integers *)

(** [uint64_t]: arithmetic modulo 2^64. *)
Definition u64 (z : Z) : Z := z mod 2 ^ 64.

(** [unsigned int]: arithmetic modulo 2^32. *)
Definition u32 (z : Z) : Z := z mod 2 ^ 32.

(** [int]: 32-bit two's complement (conversion of an out-of-range value
    wraps, as gcc defines it). *)
Definition i32 (z : Z) : Z := (z + 2 ^ 31) mod 2 ^ 32 - 2 ^ 31.

(** ** The process record *)

Record Process := mkProcess {
  command : string;
  finished : bool;
  error : bool;
  started : bool;
  arrival_time : Z;
  start_time : Z;
  context_start_time : Z;
  context_end_time : Z;
  completion_time : Z;
  burst_time : Z;
  turnaround_time : Z;
  waiting_time : Z;
  response_time : Z;
  process_id : Z
}.

(** Field assignments [p->f = v]. *)
Definition set_command v p :=
  mkProcess v (finished p) (error p) (started p) (arrival_time p)
    (start_time p) (context_start_time p) (context_end_time p)
    (completion_time p) (burst_time p) (turnaround_time p) (waiting_time p)
    (response_time p) (process_id p).
Definition set_finished v p :=
  mkProcess (command p) v (error p) (started p) (arrival_time p)
    (start_time p) (context_start_time p) (context_end_time p)
    (completion_time p) (burst_time p) (turnaround_time p) (waiting_time p)
    (response_time p) (process_id p).
Definition set_error v p :=
  mkProcess (command p) (finished p) v (started p) (arrival_time p)
    (start_time p) (context_start_time p) (context_end_time p)
    (completion_time p) (burst_time p) (turnaround_time p) (waiting_time p)
    (response_time p) (process_id p).
Definition set_started v p :=
  mkProcess (command p) (finished p) (error p) v (arrival_time p)
    (start_time p) (context_start_time p) (context_end_time p)
    (completion_time p) (burst_time p) (turnaround_time p) (waiting_time p)
    (response_time p) (process_id p).
Definition set_arrival_time v p :=
  mkProcess (command p) (finished p) (error p) (started p) v
    (start_time p) (context_start_time p) (context_end_time p)
    (completion_time p) (burst_time p) (turnaround_time p) (waiting_time p)
    (response_time p) (process_id p).
Definition set_start_time v p :=
  mkProcess (command p) (finished p) (error p) (started p) (arrival_time p)
    v (context_start_time p) (context_end_time p)
    (completion_time p) (burst_time p) (turnaround_time p) (waiting_time p)
    (response_time p) (process_id p).
Definition set_context_start_time v p :=
  mkProcess (command p) (finished p) (error p) (started p) (arrival_time p)
    (start_time p) v (context_end_time p)
    (completion_time p) (burst_time p) (turnaround_time p) (waiting_time p)
    (response_time p) (process_id p).
Definition set_context_end_time v p :=
  mkProcess (command p) (finished p) (error p) (started p) (arrival_time p)
    (start_time p) (context_start_time p) v
    (completion_time p) (burst_time p) (turnaround_time p) (waiting_time p)
    (response_time p) (process_id p).
Definition set_completion_time v p :=
  mkProcess (command p) (finished p) (error p) (started p) (arrival_time p)
    (start_time p) (context_start_time p) (context_end_time p)
    v (burst_time p) (turnaround_time p) (waiting_time p)
    (response_time p) (process_id p).
Definition set_burst_time v p :=
  mkProcess (command p) (finished p) (error p) (started p) (arrival_time p)
    (start_time p) (context_start_time p) (context_end_time p)
    (completion_time p) v (turnaround_time p) (waiting_time p)
    (response_time p) (process_id p).
Definition set_turnaround_time v p :=
  mkProcess (command p) (finished p) (error p) (started p) (arrival_time p)
    (start_time p) (context_start_time p) (context_end_time p)
    (completion_time p) (burst_time p) v (waiting_time p)
    (response_time p) (process_id p).
Definition set_waiting_time v p :=
  mkProcess (command p) (finished p) (error p) (started p) (arrival_time p)
    (start_time p) (context_start_time p) (context_end_time p)
    (completion_time p) (burst_time p) (turnaround_time p) v
    (response_time p) (process_id p).
Definition set_response_time v p :=
  mkProcess (command p) (finished p) (error p) (started p) (arrival_time p)
    (start_time p) (context_start_time p) (context_end_time p)
    (completion_time p) (burst_time p) (turnaround_time p) (waiting_time p)
    v (process_id p).
Definition set_process_id v p :=
  mkProcess (command p) (finished p) (error p) (started p) (arrival_time p)
    (start_time p) (context_start_time p) (context_end_time p)
    (completion_time p) (burst_time p) (turnaround_time p) (waiting_time p)
    (response_time p) v.

(** A record is terminal once [finished] or [error] is set. *)
Definition terminal (p : Process) : bool := finished p || error p.

(** ** The operating system as an oracle *)

Inductive signal := SIGSTOP | SIGCONT.

(** Result of polling standard input in [readInput]: [select] fails, no
    descriptor is ready, or [inputBuffer] holds the given text on return. *)
Inductive poll := SelectFailed | NoInput | Input (buffer : string).

Inductive parg := AStr (s : string) | AInt (z : Z).

Inductive event :=
| EvClock (ms : Z)
| EvFork (r : option positive)
| EvWaitpid (pid options result status : Z)
| EvKill (pid : Z) (sig : signal) (r : Z)
| EvUsleep (usec : Z)
| EvPrintf (fmt : string) (args : list parg)
| EvFopen (file mode : string) (ok : bool)
| EvCsvHeader (file : string)
| EvCsvRow (file : string) (p : Process)
| EvMalloc (ok : bool)
| EvPoll (r : poll).

(** What the OS answers at its [n]-th call. [os_fork] is the parent's view
    of [fork]: [None] for a failure, [Some pid] for the child's identifier;
    the child's own branch is [child_main] below. [os_junk] is the content
    of a freshly allocated, uninitialised [Process]. *)
Record OS := mkOS {
  os_clock : nat -> Z;
  os_fork : nat -> option positive;
  os_waitpid : nat -> Z * Z;
  os_kill : nat -> Z;
  os_fopen : nat -> bool;
  os_malloc : nat -> bool;
  os_junk : nat -> Process;
  os_stdin : nat -> poll
}.

Record World := mkWorld {
  env : OS;
  tick : nat;
  out : list event   (* newest first *)
}.

(** State monad over the world. *)
Definition M (A : Type) : Type := World -> A * World.

Definition ret {A} (a : A) : M A := fun w => (a, w).
Definition bind {A B} (m : M A) (k : A -> M B) : M B :=
  fun w => let (a, w') := m w in k a w'.

Notation "'let*' x ':=' m 'in' k" := (bind m (fun x => k))
  (at level 10, x name, m at level 100, k at level 200).
Notation "'let*' ' pat ':=' m 'in' k" := (bind m (fun x => match x with pat => k end))
  (at level 10, pat pattern, m at level 100, k at level 200).

Definition emit (e : event) : M unit :=
  fun w => (tt, mkWorld (env w) (tick w) (e :: out w)).

Definition ask {A} (answer : OS -> nat -> A) (ev : A -> event) : M A :=
  fun w => let a := answer (env w) (tick w) in
           (a, mkWorld (env w) (S (tick w)) (ev a :: out w)).

(** A call of [printf] by the scheduler process. The log holds the calls
    in the order they are made, not the bytes that [stdout] delivers: the
    offline schedulers never call [fflush]. *)
Definition printf (fmt : string) (args : list parg) : M unit :=
  emit (EvPrintf fmt args).

Definition fork : M (option positive) := ask os_fork EvFork.

Definition WNOHANG : Z := 1.

Definition waitpid (pid options : Z) : M (Z * Z) :=
  ask os_waitpid (fun r => EvWaitpid pid options (fst r) (snd r)).

Definition kill (pid : Z) (sig : signal) : M Z :=
  ask os_kill (EvKill pid sig).

(** The parameter of [usleep] is a [useconds_t], an [unsigned int]: the
    [int] that the schedulers pass is converted. *)
Definition usleep (usec : Z) : M unit := emit (EvUsleep (u32 usec)).

(** [<sys/wait.h>] status macros, as glibc defines them. *)
Definition WIFEXITED (status : Z) : bool := Z.land status 127 =? 0.
Definition WEXITSTATUS (status : Z) : Z := Z.shiftr (Z.land status 65280) 8.

(** The test [WIFEXITED(status) && WEXITSTATUS(status) == 0]. *)
Definition exited_ok (status : Z) : bool :=
  WIFEXITED status && (WEXITSTATUS status =? 0).

(** [getCurrentTimeInMilliseconds]: the value is a [uint64_t]. *)
Definition getCurrentTimeInMilliseconds : M Z :=
  let* t := ask os_clock EvClock in ret (u64 t).

Definition csv_header : string :=
  "Command, Finished, Error, Burst Time (in ms), Turnaround Time (in ms), Waiting Time (in ms), Response Time (in ms)".

Definition writeHeaderToCSV (filename : string) : M unit :=
  let* ok := ask os_fopen (EvFopen filename "w") in
  if ok then emit (EvCsvHeader filename)
  else printf "[ERROR]: File opening failed" [].

Definition writeProcessToCSV (p : Process) (filename : string) : M unit :=
  let* ok := ask os_fopen (EvFopen filename "a") in
  if ok then emit (EvCsvRow filename p)
  else printf "[ERROR]: File opening failed" [].

(** ** Process control *)

(** Parent side of [executeProcess]. *)
Definition executeProcess (p : Process) (t0 : Z) : M Process :=
  let* pid := fork in
  match pid with
  | None => let* _ := printf "[ERROR]: Fork failed" [] in ret p
  | Some c =>
      let p := set_process_id (Z.pos c) p in
      let p := set_started true p in
      let* now := getCurrentTimeInMilliseconds in
      let p := set_start_time (u64 (now - t0)) p in
      ret (set_context_start_time (start_time p) p)
  end.

Definition pauseProcess (p : Process) (t0 : Z) : M Process :=
  if negb (started p) || finished p then ret p
  else
    let* r := kill (process_id p) SIGSTOP in
    let* _ := (if r <? 0 then printf "[ERROR]: Pausing process failed" [] else ret tt) in
    let* now := getCurrentTimeInMilliseconds in
    let p := set_context_end_time (u64 (now - t0)) p in
    ret (set_burst_time
           (u64 (burst_time p + u64 (context_end_time p - context_start_time p))) p).

Definition resumeProcess (p : Process) (t0 : Z) : M Process :=
  if negb (started p) || finished p then ret p
  else
    let* r := kill (process_id p) SIGCONT in
    let* _ := (if r <? 0 then printf "[ERROR]: Resuming process failed" [] else ret tt) in
    let* now := getCurrentTimeInMilliseconds in
    ret (set_context_start_time (u64 (now - t0)) p).

(** ** Queues and small arrays *)

(** A [Queue] is the chain of [Process *] from [head] to [tail]; a pointer
    is the index of the record in the scheduler's process table. The [size]
    field, which only [enqueue] and [dequeue] write and keep equal to the
    length of the chain, is that length. *)
Definition Queue := list nat.

Definition qsize (q : Queue) : Z := Z.of_nat (length q).

Definition enqueue (q : Queue) (p : nat) : Queue := q ++ [p].

Definition dequeue (q : Queue) : option nat * Queue :=
  match q with
  | [] => (None, [])
  | p :: rest => (Some p, rest)
  end.

(** Arrays of three elements ([MLFQ[3]], [Quantum[3]], [hashTable[NUM_CELLS]]);
    every index the source computes is 0, 1 or 2. *)
Record arr3 (A : Type) := mkArr3 { a0 : A; a1 : A; a2 : A }.
Arguments mkArr3 {A}.
Arguments a0 {A}.
Arguments a1 {A}.
Arguments a2 {A}.

Definition aget {A} (a : arr3 A) (i : nat) : A :=
  match i with O => a0 a | S O => a1 a | _ => a2 a end.

Definition aset {A} (a : arr3 A) (i : nat) (v : A) : arr3 A :=
  match i with
  | O => mkArr3 v (a1 a) (a2 a)
  | S O => mkArr3 (a0 a) v (a2 a)
  | _ => mkArr3 (a0 a) (a1 a) v
  end.

(** Every record waiting in [src] is moved to the back of [dst], in order.
    Offline: [p = dequeue(src); while (p != NULL) { enqueue(dst, p);
    p = dequeue(src); }]; online: [while (src->size > 0) { p = dequeue(src);
    enqueue(dst, p); }]. *)
Fixpoint drain (src dst : Queue) : Queue :=
  match src with
  | [] => dst
  | p :: rest => drain rest (enqueue dst p)
  end.

(** The boost loop [for (int i = 1; i < 3; i++)] of both
    [MultiLevelFeedbackQueue]s. *)
Definition boost (MLFQ : arr3 Queue) : arr3 Queue :=
  let MLFQ := mkArr3 (drain (aget MLFQ 1) (aget MLFQ 0)) [] (aget MLFQ 2) in
  mkArr3 (drain (aget MLFQ 2) (aget MLFQ 0)) (aget MLFQ 1) [].

(** ** Loops *)

(** Outcome of one pass through a loop body: the loop goes on, or it is
    left (condition false, [break] or [return]). *)
Inductive ctl (S : Type) := Next (s : S) | Exit (s : S).
Arguments Next {S}.
Arguments Exit {S}.

Definition state_of {S} (c : ctl S) : S :=
  match c with Next s => s | Exit s => s end.

Definition exited {S} (c : ctl S) : bool :=
  match c with Next _ => false | Exit _ => true end.

(** The state after at most [k] passes. *)
Fixpoint iterate {S} (body : S -> M (ctl S)) (k : nat) (s : S) : M (ctl S) :=
  match k with
  | O => ret (Next s)
  | Datatypes.S k' =>
      let* c := iterate body k' s in
      match c with
      | Next s' => body s'
      | Exit s' => ret (Exit s')
      end
  end.

(** ** The blocks that close a run *)

(** [FCFS], lines 109-115. *)
Definition finished_FCFS (now t0 : Z) (p : Process) : Process :=
  let p := set_finished true p in
  let p := set_completion_time (u64 (now - t0)) p in
  let p := set_context_end_time (completion_time p) p in
  let p := set_burst_time (u64 (completion_time p - start_time p)) p in
  let p := set_turnaround_time (u64 (completion_time p - arrival_time p)) p in
  let p := set_waiting_time (u64 (turnaround_time p - burst_time p)) p in
  set_response_time (u64 (start_time p - arrival_time p)) p.

(** [ShortestJobFirst], lines 220-226. *)
Definition finished_SJF (now t0 : Z) (p : Process) : Process :=
  let p := set_finished true p in
  let p := set_completion_time (u64 (now - t0)) p in
  let p := set_context_end_time (completion_time p) p in
  let p := set_burst_time (u64 (context_end_time p - context_start_time p)) p in
  let p := set_turnaround_time (u64 (completion_time p - arrival_time p)) p in
  let p := set_waiting_time (u64 (turnaround_time p - burst_time p)) p in
  set_response_time (u64 (start_time p - arrival_time p)) p.

(** [RoundRobin], lines 180-186; the same text in both
    [MultiLevelFeedbackQueue]s. *)
Definition finished_RR (now t0 : Z) (p : Process) : Process :=
  let p := set_finished true p in
  let p := set_completion_time (u64 (now - t0)) p in
  let p := set_context_end_time (completion_time p) p in
  let p := set_burst_time
             (u64 (burst_time p + u64 (context_end_time p - context_start_time p))) p in
  let p := set_turnaround_time (u64 (completion_time p - arrival_time p)) p in
  let p := set_waiting_time (u64 (turnaround_time p - burst_time p)) p in
  set_response_time (u64 (start_time p - arrival_time p)) p.

(** [FCFS], lines 119-122; the same text in [ShortestJobFirst], 231-234. *)
Definition error_FCFS (now t0 : Z) (p : Process) : Process :=
  let p := set_error true p in
  let p := set_context_end_time (u64 (now - t0)) p in
  let p := set_burst_time (u64 (context_end_time p - context_start_time p)) p in
  set_response_time (u64 (start_time p - arrival_time p)) p.

(** [RoundRobin], lines 190-192; the same text in both
    [MultiLevelFeedbackQueue]s. *)
Definition error_RR (now t0 : Z) (p : Process) : Process :=
  let p := set_error true p in
  let p := set_context_end_time (u64 (now - t0)) p in
  set_response_time (u64 (start_time p - arrival_time p)) p.

(** The context-switch line [printf("%s|%lu|%lu\n", ...)]. *)
Definition print_switch (p : Process) : M unit :=
  printf "%s|%lu|%lu"
    [AStr (command p); AInt (context_start_time p); AInt (context_end_time p)].

Definition run {S} (init : M (ctl S)) (body : S -> M (ctl S)) (k : nat) : M (ctl S) :=
  let* c := init in
  match c with
  | Next s => iterate body k s
  | Exit s => ret (Exit s)
  end.

(** ** Offline schedulers ([offline_schedulers.h]) *)

Module Offline.

Definition initializeProcess (p : list Process) : list Process :=
  map (fun q => mkProcess (command q) false false false 0 0 0 0 0 0 0 0 0 (-1)) p.

(** *** First come first served *)

Record FCFS_state := mkFCFS {
  fc_p : list Process;
  fc_t0 : Z;
  fc_i : nat
}.

Definition FCFS_init (p : list Process) : M (ctl FCFS_state) :=
  let* _ := writeHeaderToCSV "result_offline_FCFS.csv" in
  let* t0 := getCurrentTimeInMilliseconds in
  ret (Next (mkFCFS (initializeProcess p) t0 0)).

(** One pass of [for (int i = 0; i < n; i++)]; [n] is the length of [p]. *)
Definition FCFS_body (s : FCFS_state) : M (ctl FCFS_state) :=
  let t0 := fc_t0 s in
  let i := fc_i s in
  match fc_p s !! i with
  | None => ret (Exit s)
  | Some pi =>
      let* pi := executeProcess pi t0 in
      let* '(result, status) := waitpid (process_id pi) 0 in
      if result <? 0 then
        let* _ := printf "[ERROR]: Waitpid failed" [] in
        ret (Next (mkFCFS (<[i := pi]> (fc_p s)) t0 (S i)))
      else
        let* pi :=
          (if exited_ok status then
             let* now := getCurrentTimeInMilliseconds in
             ret (finished_FCFS now t0 pi)
           else
             let* now := getCurrentTimeInMilliseconds in
             let pi := error_FCFS now t0 pi in
             let* _ := printf "Error in process %d" [AInt (Z.of_nat i)] in
             ret pi) in
        let* _ := writeProcessToCSV pi "result_offline_FCFS.csv" in
        let* _ := print_switch pi in
        ret (Next (mkFCFS (<[i := pi]> (fc_p s)) t0 (S i)))
  end.

Definition FCFS (p : list Process) (k : nat) : M (ctl FCFS_state) :=
  run (FCFS_init p) FCFS_body k.

(** *** Round robin *)

Record RR_state := mkRR {
  rr_p : list Process;
  rr_t0 : Z;
  rr_quantum : Z;
  rr_i : nat;
  rr_remaining_processes : Z
}.

Definition RR_init (p : list Process) (quantum : Z) : M (ctl RR_state) :=
  let* _ := writeHeaderToCSV "result_offline_RR.csv" in
  let* t0 := getCurrentTimeInMilliseconds in
  ret (Next (mkRR (initializeProcess p) t0 quantum 0 (Z.of_nat (length p)))).

(** One pass of [while (remaining_processes > 0)]. *)
Definition RR_body (s : RR_state) : M (ctl RR_state) :=
  let t0 := rr_t0 s in
  let i := rr_i s in
  let n := length (rr_p s) in
  if rr_remaining_processes s <=? 0 then ret (Exit s)
  else
    match rr_p s !! i with
    | None => ret (Exit s)
    | Some pi =>
        if finished pi || error pi then
          ret (Next (mkRR (rr_p s) t0 (rr_quantum s) (S i mod n)%nat
                       (rr_remaining_processes s)))
        else
          let* pi := (if negb (started pi) then executeProcess pi t0
                      else resumeProcess pi t0) in
          let* _ := usleep (i32 (rr_quantum s * 1000)) in
          let* '(result, status) := waitpid (process_id pi) WNOHANG in
          if result <? 0 then
            let* _ := printf "[ERROR]: Waitpid failed" [] in
            ret (Exit (mkRR (<[i := pi]> (rr_p s)) t0 (rr_quantum s) i
                         (rr_remaining_processes s)))
          else
            let* '(pi, remaining) :=
              (if result =? 0 then
                 let* pi := pauseProcess pi t0 in
                 ret (pi, rr_remaining_processes s)
               else
                 let* pi :=
                   (if exited_ok status then
                      let* now := getCurrentTimeInMilliseconds in
                      ret (finished_RR now t0 pi)
                    else
                      let* now := getCurrentTimeInMilliseconds in
                      let pi := error_RR now t0 pi in
                      let* _ := printf "Error in process %s" [AStr (command pi)] in
                      ret pi) in
                 let* _ := writeProcessToCSV pi "result_offline_RR.csv" in
                 ret (pi, i32 (rr_remaining_processes s - 1))) in
            let* _ := print_switch pi in
            ret (Next (mkRR (<[i := pi]> (rr_p s)) t0 (rr_quantum s) (S i mod n)%nat
                         remaining))
    end.

Definition RoundRobin (p : list Process) (quantum : Z) (k : nat) : M (ctl RR_state) :=
  run (RR_init p quantum) RR_body k.

(** *** Multi-level feedback queue *)

Record MLFQ_state := mkMLFQ {
  mq_p : list Process;
  mq_t0 : Z;
  mq_MLFQ : arr3 Queue;
  mq_Quantum : arr3 Z;
  mq_boostTime : Z;
  mq_remaining_processes : Z;
  mq_current_queue : nat;
  mq_last_boost_time : Z
}.

(** [for (int i = 0; i < n; i++) enqueue(&MLFQ[0], &p[i]);] *)
Definition enqueue_all (q : Queue) (n : nat) : Queue :=
  fold_left enqueue (seq 0 n) q.

Definition MLFQ_init (p : list Process) (quantum0 quantum1 quantum2 boostTime : Z)
  : M (ctl MLFQ_state) :=
  let* _ := writeHeaderToCSV "result_offline_MLFQ.csv" in
  let* t0 := getCurrentTimeInMilliseconds in
  let MLFQ := mkArr3 [] [] [] in
  let p := initializeProcess p in
  let MLFQ := aset MLFQ 0 (enqueue_all (aget MLFQ 0) (length p)) in
  ret (Next (mkMLFQ p t0 MLFQ (mkArr3 quantum0 quantum1 quantum2) boostTime
               (Z.of_nat (length p)) 0 t0)).

(** One pass of [while (remaining_processes > 0)]. *)
Definition MLFQ_body (s : MLFQ_state) : M (ctl MLFQ_state) :=
  let t0 := mq_t0 s in
  let current_queue := mq_current_queue s in
  if mq_remaining_processes s <=? 0 then ret (Exit s)
  else
    let '(p, q) := dequeue (aget (mq_MLFQ s) current_queue) in
    let MLFQ := aset (mq_MLFQ s) current_queue q in
    match p with
    | None =>
        ret (Next (mkMLFQ (mq_p s) t0 MLFQ (mq_Quantum s) (mq_boostTime s)
                     (mq_remaining_processes s) (S current_queue mod 3)%nat
                     (mq_last_boost_time s)))
    | Some p =>
        match mq_p s !! p with
        | None => ret (Exit s)
        | Some pr =>
            if finished pr || error pr then
              ret (Next (mkMLFQ (mq_p s) t0 MLFQ (mq_Quantum s) (mq_boostTime s)
                           (mq_remaining_processes s) current_queue
                           (mq_last_boost_time s)))
            else
              let* pr := (if negb (started pr) then executeProcess pr t0
                          else resumeProcess pr t0) in
              let* _ := usleep (i32 (aget (mq_Quantum s) current_queue * 1000)) in
              let* '(result, status) := waitpid (process_id pr) WNOHANG in
              if result <? 0 then
                let* _ := printf "[ERROR]: Waitpid failed" [] in
                ret (Exit (mkMLFQ (<[p := pr]> (mq_p s)) t0 MLFQ (mq_Quantum s)
                             (mq_boostTime s) (mq_remaining_processes s)
                             current_queue (mq_last_boost_time s)))
              else
                let* '(pr, MLFQ, remaining) :=
                  (if result =? 0 then
                     let* pr := pauseProcess pr t0 in
                     let MLFQ :=
                       (if (current_queue <? 2)%nat
                        then aset MLFQ (current_queue + 1)
                               (enqueue (aget MLFQ (current_queue + 1)) p)
                        else aset MLFQ current_queue
                               (enqueue (aget MLFQ current_queue) p)) in
                     ret (pr, MLFQ, mq_remaining_processes s)
                   else
                     let* pr :=
                       (if exited_ok status then
                          let* now := getCurrentTimeInMilliseconds in
                          ret (finished_RR now t0 pr)
                        else
                          let* now := getCurrentTimeInMilliseconds in
                          let pr := error_RR now t0 pr in
                          let* _ := printf "Error in process - %s" [AStr (command pr)] in
                          ret pr) in
                     let* _ := writeProcessToCSV pr "result_offline_MLFQ.csv" in
                     ret (pr, MLFQ, i32 (mq_remaining_processes s - 1))) in
                let* _ := print_switch pr in
                let* now := getCurrentTimeInMilliseconds in
                let* '(last_boost_time, MLFQ) :=
                  (if u64 (now - mq_last_boost_time s) >=? u64 (mq_boostTime s) then
                     let* now := getCurrentTimeInMilliseconds in
                     ret (now, boost MLFQ)
                   else ret (mq_last_boost_time s, MLFQ)) in
                ret (Next (mkMLFQ (<[p := pr]> (mq_p s)) t0 MLFQ (mq_Quantum s)
                             (mq_boostTime s) remaining current_queue
                             last_boost_time))
        end
    end.

Definition MultiLevelFeedbackQueue (p : list Process)
  (quantum0 quantum1 quantum2 boostTime : Z) (k : nat) : M (ctl MLFQ_state) :=
  run (MLFQ_init p quantum0 quantum1 quantum2 boostTime) MLFQ_body k.

End Offline.

(** ** Online schedulers ([online_schedulers.h]) *)

Module Online.

(** *** Burst-time history *)

(** A node of a bucket chain; the [hash] field is never written or read. *)
Record HashTableNode := mkNode {
  node_command : string;
  sum_burst_time : Z;
  num_bursts : Z
}.

(** A [Cell] is its chain from [head]; [size], which only [updateBurstTime]
    writes (one increment per node it links in), is the chain's length. *)
Definition Cell := list HashTableNode.

Definition csize (cell : Cell) : Z := Z.of_nat (length cell).

Definition MOD : Z := 1000000007.
Definition HASH_PRIME : Z := 131.
Definition NUM_CELLS : Z := 3.

(** A [char] of the command as the signed value it has on x86-64. *)
Definition char_value (c : ascii) : Z :=
  let n := Z.of_nat (nat_of_ascii c) in
  if n <? 128 then n else n - 256.

(** The characters are folded from the last to the first. *)
Definition hashFunction (command : string) : Z :=
  fold_left (fun sum c => u64 (u64 (sum * HASH_PRIME) + char_value c) mod MOD)
    (rev (list_ascii_of_string command)) 5147.

(** [hash % NUM_CELLS] with [int hash = hashFunction(command)]. *)
Definition cell_of (command : string) : nat :=
  Z.to_nat (Z.rem (i32 (hashFunction command)) NUM_CELLS).

Fixpoint find_in (chain : list HashTableNode) (command : string)
  : option HashTableNode :=
  match chain with
  | [] => None
  | current :: next =>
      if String.eqb (node_command current) command then Some current
      else find_in next command
  end.

Definition findNode (hashTable : arr3 Cell) (command : string)
  : option HashTableNode :=
  let cell := aget hashTable (cell_of command) in
  if csize cell =? 0 then None else find_in cell command.

Definition getExpectedBurstTime (hashTable : arr3 Cell) (p : Process) : Z :=
  match findNode hashTable (command p) with
  | None => 1000
  | Some node => u64 (Z.quot (sum_burst_time node) (num_bursts node))
  end.

Definition getMLFQIndex (Quantum : arr3 Z) (p : Process) (hashTable : arr3 Cell)
  : nat :=
  match findNode hashTable (command p) with
  | None => 1%nat
  | Some node =>
      let avgBurstTime := Z.quot (sum_burst_time node) (num_bursts node) in
      if avgBurstTime <=? aget Quantum 0 then 0%nat
      else if avgBurstTime <=? aget Quantum 1 then 1%nat
      else 2%nat
  end.

(** The in-place update of the node [findNode] returned. *)
Fixpoint add_burst (chain : list HashTableNode) (command : string) (burst_time : Z)
  : list HashTableNode :=
  match chain with
  | [] => []
  | current :: next =>
      if String.eqb (node_command current) command then
        mkNode (node_command current)
          (i32 (sum_burst_time current + burst_time))
          (i32 (num_bursts current + 1)) :: next
      else current :: add_burst next command burst_time
  end.

(** The parameter is an [int]: the caller's [uint64_t] is converted. *)
Definition updateBurstTime (hashTable : arr3 Cell) (burst_time : Z)
  (command : string) : arr3 Cell :=
  let burst_time := i32 burst_time in
  let cell := aget hashTable (cell_of command) in
  match findNode hashTable command with
  | None =>
      aset hashTable (cell_of command) (mkNode command burst_time 1 :: cell)
  | Some _ =>
      aset hashTable (cell_of command) (add_burst cell command burst_time)
  end.

Definition empty_table : arr3 Cell := mkArr3 [] [] [].

(** *** Ingestion *)

Definition readInput : M (option string) :=
  let* r := ask os_stdin EvPoll in
  match r with
  | SelectFailed => let* _ := printf "[ERROR]: Select failed" [] in ret None
  | NoInput => ret None
  | Input inputBuffer => ret (Some inputBuffer)
  end.

(** [cmd] is [inputBuffer] without its last character (the newline). For
    an empty [inputBuffer] the code writes [cmd[-1]] in a block of size 0,
    which C leaves undefined; [chop] gives the empty command. *)
Fixpoint chop (s : string) : string :=
  match s with
  | EmptyString => EmptyString
  | String c EmptyString => EmptyString
  | String c rest => String c (chop rest)
  end.

Definition malloc : M bool := ask os_malloc EvMalloc.

(** [malloc(sizeof(Process))]: a block of arbitrary content, or [NULL]. *)
Definition malloc_Process : M (option Process) :=
  ask (fun os n => if os_malloc os n then Some (os_junk os n) else None)
      (fun r => EvMalloc (match r with Some _ => true | None => false end)).

(** Lines 141-168 of [ShortestJobFirst], 282-309 of
    [MultiLevelFeedbackQueue]: the record of a command that has just been
    read; [None] when an allocation fails. The four timestamps besides
    [arrival_time] keep what the block held. *)
Definition new_process (inputBuffer : string) (t0 : Z) : M (option Process) :=
  let* p := malloc_Process in
  match p with
  | None => let* _ := printf "[ERROR]: Memory allocation failed" [] in ret None
  | Some p =>
      let* cmd := malloc in
      if negb cmd then
        let* _ := printf "[ERROR]: Memory allocation failed" [] in ret None
      else
        let p := set_command (chop inputBuffer) p in
        let* now := getCurrentTimeInMilliseconds in
        let p := set_arrival_time (u64 (now - t0)) p in
        let p := set_finished false p in
        let p := set_error false p in
        let p := set_started false p in
        let p := set_process_id (-1) p in
        let p := set_burst_time 0 p in
        let p := set_turnaround_time 0 p in
        let p := set_waiting_time 0 p in
        ret (Some (set_response_time 0 p))
  end.

(** The outer [while (true)] is cut where its inner [while (readInput(...))]
    is entered: a pass either reads one command, or schedules once. *)
Inductive phase := Ingest | Schedule.

(** *** Shortest job first *)

Record SJF_state := mkSJF {
  sj_hashTable : arr3 Cell;
  sj_t0 : Z;
  sj_PROCESS_LIST_CAPACITY : Z;
  sj_processList : list Process;
  sj_remainingProcesses : Z;
  sj_phase : phase
}.

Definition SJF_init : M (ctl SJF_state) :=
  let* _ := writeHeaderToCSV "result_online_SJF.csv" in
  let* t0 := getCurrentTimeInMilliseconds in
  let s := mkSJF empty_table t0 32 [] 0 Ingest in
  let* processList := malloc in
  if negb processList then
    let* _ := printf "[ERROR]: Memory allocation failed" [] in ret (Exit s)
  else ret (Next s).

(** The selection loop, lines 188-202: [(minIndex, minBurstTime)] after the
    records [(i, p)] have been scanned; [None] is [minIndex == -1]. *)
Definition SJF_scan (hashTable : arr3 Cell) (acc : option nat * Z)
  (ip : nat * Process) : option nat * Z :=
  let '(i, p) := ip in
  if finished p || error p then acc
  else
    let expectedBurstTime := getExpectedBurstTime hashTable p in
    if expectedBurstTime <? snd acc then (Some i, expectedBurstTime) else acc.

Definition SJF_select (hashTable : arr3 Cell) (processList : list Process)
  : option nat * Z :=
  fold_left (SJF_scan hashTable)
    (combine (seq 0 (length processList)) processList) (None, 1000000000).

(** One command read and appended to [processList]. *)
Definition SJF_ingest (s : SJF_state) (inputBuffer : string) : M (ctl SJF_state) :=
  let* p := new_process inputBuffer (sj_t0 s) in
  match p with
  | None => ret (Exit s)
  | Some p =>
      let numProcesses := Z.of_nat (length (sj_processList s)) in
      let* capacity :=
        (if numProcesses =? sj_PROCESS_LIST_CAPACITY s then
           let* ok := malloc in
           if ok then ret (Some (i32 (sj_PROCESS_LIST_CAPACITY s * 2)))
           else let* _ := printf "[ERROR]: Memory allocation failed" [] in ret None
         else ret (Some (sj_PROCESS_LIST_CAPACITY s))) in
      match capacity with
      | None => ret (Exit s)
      | Some capacity =>
          ret (Next (mkSJF (sj_hashTable s) (sj_t0 s) capacity
                       (sj_processList s ++ [p])
                       (i32 (sj_remainingProcesses s + 1)) Ingest))
      end
  end.

(** Lines 183-242: one scheduling decision. *)
Definition SJF_schedule (s : SJF_state) : M (ctl SJF_state) :=
  let t0 := sj_t0 s in
  let back hashTable processList remaining :=
    Next (mkSJF hashTable t0 (sj_PROCESS_LIST_CAPACITY s) processList remaining Ingest) in
  if sj_remainingProcesses s =? 0 then
    let* _ := usleep 10000 in
    ret (back (sj_hashTable s) (sj_processList s) (sj_remainingProcesses s))
  else
    match fst (SJF_select (sj_hashTable s) (sj_processList s)) with
    | None =>
        let* _ := printf "No process found" [] in
        ret (back (sj_hashTable s) (sj_processList s) (sj_remainingProcesses s))
    | Some minIndex =>
        match sj_processList s !! minIndex with
        | None => ret (Exit s)
        | Some p =>
            let* p := executeProcess p t0 in
            let* '(result, status) := waitpid (process_id p) 0 in
            if result <? 0 then
              let* _ := printf "[ERROR]: Waitpid failed" [] in
              ret (back (sj_hashTable s) (<[minIndex := p]> (sj_processList s))
                     (sj_remainingProcesses s))
            else
              let* '(p, hashTable) :=
                (if exited_ok status then
                   let* now := getCurrentTimeInMilliseconds in
                   let p := finished_SJF now t0 p in
                   ret (p, updateBurstTime (sj_hashTable s) (burst_time p) (command p))
                 else
                   let* now := getCurrentTimeInMilliseconds in
                   ret (error_FCFS now t0 p, sj_hashTable s)) in
              let* _ := writeProcessToCSV p "result_online_SJF.csv" in
              let* _ := print_switch p in
              ret (back hashTable (<[minIndex := p]> (sj_processList s))
                     (i32 (sj_remainingProcesses s - 1)))
        end
    end.

Definition SJF_body (s : SJF_state) : M (ctl SJF_state) :=
  match sj_phase s with
  | Ingest =>
      let* input := readInput in
      match input with
      | Some inputBuffer => SJF_ingest s inputBuffer
      | None =>
          ret (Next (mkSJF (sj_hashTable s) (sj_t0 s) (sj_PROCESS_LIST_CAPACITY s)
                       (sj_processList s) (sj_remainingProcesses s) Schedule))
      end
  | Schedule => SJF_schedule s
  end.

Definition ShortestJobFirst (k : nat) : M (ctl SJF_state) :=
  run SJF_init SJF_body k.

(** *** Multi-level feedback queue *)

(** [om_heap] holds every record allocated so far; a [Process *] is the
    index of its record. *)
Record MLFQ_state := mkMLFQ {
  om_heap : list Process;
  om_hashTable : arr3 Cell;
  om_t0 : Z;
  om_MLFQ : arr3 Queue;
  om_Quantum : arr3 Z;
  om_boostTime : Z;
  om_remainingProcesses : Z;
  om_lastBoostTime : Z;
  om_phase : phase
}.

Definition MLFQ_init (quantum0 quantum1 quantum2 boostTime : Z)
  : M (ctl MLFQ_state) :=
  let* _ := writeHeaderToCSV "result_online_MLFQ.csv" in
  let* t0 := getCurrentTimeInMilliseconds in
  ret (Next (mkMLFQ [] empty_table t0 (mkArr3 [] [] [])
               (mkArr3 quantum0 quantum1 quantum2) boostTime 0 t0 Ingest)).

(** One command read, classified and enqueued. *)
Definition MLFQ_ingest (s : MLFQ_state) (inputBuffer : string)
  : M (ctl MLFQ_state) :=
  let* p := new_process inputBuffer (om_t0 s) in
  match p with
  | None => ret (Exit s)
  | Some p =>
      let index := getMLFQIndex (om_Quantum s) p (om_hashTable s) in
      let ptr := length (om_heap s) in
      ret (Next (mkMLFQ (om_heap s ++ [p]) (om_hashTable s) (om_t0 s)
                   (aset (om_MLFQ s) index (enqueue (aget (om_MLFQ s) index) ptr))
                   (om_Quantum s) (om_boostTime s)
                   (i32 (om_remainingProcesses s + 1)) (om_lastBoostTime s) Ingest))
  end.

(** The loop [for (int i = 0; i < 3; i++)], lines 320-388: the head of the
    first non-empty queue gets one quantum. The result is the heap, the
    history, the queues and [remainingProcesses]. *)
Definition MLFQ_turn (s : MLFQ_state)
  : M (list Process * arr3 Cell * arr3 Queue * Z) :=
  let t0 := om_t0 s in
  let same := (om_heap s, om_hashTable s, om_MLFQ s, om_remainingProcesses s) in
  match find (fun i => negb (qsize (aget (om_MLFQ s) i) =? 0)) [0; 1; 2]%nat with
  | None => ret same
  | Some i =>
      let '(p, q) := dequeue (aget (om_MLFQ s) i) in
      let MLFQ := aset (om_MLFQ s) i q in
      match p with
      | None => ret same
      | Some p =>
          match om_heap s !! p with
          | None => ret same
          | Some pr =>
              let* pr := (if negb (started pr) then executeProcess pr t0
                          else resumeProcess pr t0) in
              let* _ := usleep (i32 (aget (om_Quantum s) i * 1000)) in
              let* '(result, status) := waitpid (process_id pr) WNOHANG in
              let* '(pr, hashTable, MLFQ, remaining) :=
                (if result <? 0 then
                   let* _ := printf "[ERROR]: Waitpid failed" [] in
                   ret (pr, om_hashTable s, MLFQ, om_remainingProcesses s)
                 else if result =? 0 then
                   let* pr := pauseProcess pr t0 in
                   let MLFQ :=
                     (if (i <? 2)%nat
                      then aset MLFQ (i + 1) (enqueue (aget MLFQ (i + 1)) p)
                      else aset MLFQ i (enqueue (aget MLFQ i) p)) in
                   ret (pr, om_hashTable s, MLFQ, om_remainingProcesses s)
                 else
                   let* '(pr, hashTable) :=
                     (if exited_ok status then
                        let* now := getCurrentTimeInMilliseconds in
                        let pr := finished_RR now t0 pr in
                        ret (pr, updateBurstTime (om_hashTable s) (burst_time pr)
                                   (command pr))
                      else
                        let* now := getCurrentTimeInMilliseconds in
                        ret (error_RR now t0 pr, om_hashTable s)) in
                   let* _ := writeProcessToCSV pr "result_online_MLFQ.csv" in
                   ret (pr, hashTable, MLFQ, i32 (om_remainingProcesses s - 1))) in
              let* _ := print_switch pr in
              ret (<[p := pr]> (om_heap s), hashTable, MLFQ, remaining)
          end
      end
  end.

(** Lines 315-402: one quantum, then the boost check. *)
Definition MLFQ_schedule (s : MLFQ_state) : M (ctl MLFQ_state) :=
  if om_remainingProcesses s =? 0 then
    let* _ := usleep 1000 in
    ret (Next (mkMLFQ (om_heap s) (om_hashTable s) (om_t0 s) (om_MLFQ s)
                 (om_Quantum s) (om_boostTime s) (om_remainingProcesses s)
                 (om_lastBoostTime s) Ingest))
  else
    let* '(heap, hashTable, MLFQ, remaining) := MLFQ_turn s in
    let* now := getCurrentTimeInMilliseconds in
    let* '(lastBoostTime, MLFQ) :=
      (if u64 (now - om_lastBoostTime s) >=? u64 (om_boostTime s) then
         let MLFQ := boost MLFQ in
         let* now := getCurrentTimeInMilliseconds in
         ret (now, MLFQ)
       else ret (om_lastBoostTime s, MLFQ)) in
    ret (Next (mkMLFQ heap hashTable (om_t0 s) MLFQ (om_Quantum s) (om_boostTime s)
                 remaining lastBoostTime Ingest)).

Definition MLFQ_body (s : MLFQ_state) : M (ctl MLFQ_state) :=
  match om_phase s with
  | Ingest =>
      let* input := readInput in
      match input with
      | Some inputBuffer => MLFQ_ingest s inputBuffer
      | None =>
          ret (Next (mkMLFQ (om_heap s) (om_hashTable s) (om_t0 s) (om_MLFQ s)
                       (om_Quantum s) (om_boostTime s) (om_remainingProcesses s)
                       (om_lastBoostTime s) Schedule))
      end
  | Schedule => MLFQ_schedule s
  end.

Definition MultiLevelFeedbackQueue (quantum0 quantum1 quantum2 boostTime : Z)
  (k : nat) : M (ctl MLFQ_state) :=
  run (MLFQ_init quantum0 quantum1 quantum2 boostTime) MLFQ_body k.

End Online.

(** ** The child's side of [executeProcess] *)

(** State of [parseCommand]: the tokens stored so far, the characters of the
    current token, the two capacities and the number of checked allocations
    ([calloc], [realloc]) made so far. [posToken] and [posTokens] are the
    lengths of [ps_token] and [ps_tokens]. *)
Record parse_state := mkParse {
  ps_tokens : list string;
  ps_token : list ascii;
  ps_curTokenSize : Z;
  ps_tokensSize : Z;
  ps_allocs : nat
}.

Definition posToken (st : parse_state) : Z := Z.of_nat (length (ps_token st)).
Definition posTokens (st : parse_state) : Z := Z.of_nat (length (ps_tokens st)).

(** A [realloc] guarded by [need]; [None] is the [return NULL]. The
    unchecked [malloc]s of the source are taken to succeed. *)
Definition checked_realloc (alloc : nat -> bool) (need : bool)
  (grow : parse_state -> parse_state) (st : parse_state) : option parse_state :=
  if need then
    if alloc (ps_allocs st) then
      let st := grow st in
      Some (mkParse (ps_tokens st) (ps_token st) (ps_curTokenSize st)
              (ps_tokensSize st) (S (ps_allocs st)))
    else None
  else Some st.

Definition grow_token (f : Z -> Z) (st : parse_state) : parse_state :=
  mkParse (ps_tokens st) (ps_token st) (i32 (f (ps_curTokenSize st)))
    (ps_tokensSize st) (ps_allocs st).

Definition grow_tokens (f : Z -> Z) (st : parse_state) : parse_state :=
  mkParse (ps_tokens st) (ps_token st) (ps_curTokenSize st)
    (i32 (f (ps_tokensSize st))) (ps_allocs st).

Definition push_token (st : parse_state) : parse_state :=
  mkParse (ps_tokens st ++ [string_of_list_ascii (ps_token st)]) [] 16
    (ps_tokensSize st) (ps_allocs st).

Definition is_blank (c : ascii) : bool :=
  Ascii.eqb c " "%char || Ascii.eqb c (ascii_of_nat 9).

(** The loop [while (input[posInput] != '\0')]. *)
Fixpoint parse_loop (alloc : nat -> bool) (input : list ascii) (st : parse_state)
  : option parse_state :=
  match input with
  | [] => Some st
  | c :: rest =>
      match checked_realloc alloc (posToken st >=? ps_curTokenSize st)
              (grow_token (fun n => n * 2)) st with
      | None => None
      | Some st =>
          match checked_realloc alloc (posTokens st >=? ps_tokensSize st)
                  (grow_tokens (fun n => n * 2)) st with
          | None => None
          | Some st =>
              if is_blank c then
                if posToken st =? 0 then parse_loop alloc rest st
                else parse_loop alloc rest (push_token st)
              else
                parse_loop alloc rest
                  (mkParse (ps_tokens st) (ps_token st ++ [c]) (ps_curTokenSize st)
                     (ps_tokensSize st) (ps_allocs st))
          end
      end
  end.

(** [parseCommand]: [None] is [NULL] (every [return NULL] follows a
    [printf("Invalid Command\\n")]), [Some tokens] the argument vector
    before its terminating [NULL]. *)
Definition parseCommand (alloc : nat -> bool) (input : string)
  : option (list string) :=
  if negb (alloc O) then None
  else
    match parse_loop alloc (list_ascii_of_string input) (mkParse [] [] 16 8 1) with
    | None => None
    | Some st =>
        let last :=
          (if 0 <? posToken st then
             match checked_realloc alloc (posToken st >=? ps_curTokenSize st)
                     (grow_token (fun n => n + 1)) st with
             | None => None
             | Some st => Some (push_token st)
             end
           else Some st) in
        match last with
        | None => None
        | Some st =>
            match checked_realloc alloc (posTokens st >=? ps_tokensSize st)
                    (grow_tokens (fun n => n + 1)) st with
            | None => None
            | Some st => Some (ps_tokens st)
            end
        end
    end.

(** What [execvp(file, argv)] does to the child: the image is replaced, the
    call returns [r], or the call faults with signal [sig]. *)
Inductive exec_result := ExecReplaced | ExecReturned (r : Z) | ExecFaulted (sig : Z).

(** How the [pid == 0] branch of [executeProcess] ends: [exit(status)], a
    new program image, death by a signal, or a return into the scheduler
    code (when [execvp] returns 0). *)
Inductive child_end :=
| ChildExit (status : Z)
| ChildRuns (file : option string) (argv : list string)
| ChildKilled (sig : Z)
| ChildReturns.

(** The [pid == 0] branch: the lines of the child's own [printf] calls and
    how it ends. [tokens[0]] is [NULL] when the vector is empty. The copy
    of the scheduler's [stdout] buffer that the child inherits, which its
    [exit] writes out again when lines are pending, is not part of this
    model. *)
Definition child_main (alloc : nat -> bool)
  (execvp : option string -> list string -> exec_result) (command : string)
  : list string * child_end :=
  match parseCommand alloc command with
  | None => (["Invalid Command"%string], ChildExit 0)
  | Some tokens =>
      match execvp (head tokens) tokens with
      | ExecReplaced => ([], ChildRuns (head tokens) tokens)
      | ExecFaulted sig => ([], ChildKilled sig)
      | ExecReturned r =>
          if r =? 0 then ([], ChildReturns)
          else (["[ERROR]: Command execution failed"%string], ChildExit 1)
      end
  end.

(** The status [waitpid] reports for a child that ended this way (glibc's
    [W_EXITCODE]); a replaced image reports the new program's own status. *)
Definition wait_status (e : child_end) : option Z :=
  match e with
  | ChildExit status => Some (Z.shiftl (Z.land status 255) 8)
  | ChildKilled sig => Some (Z.land sig 127)
  | ChildRuns _ _ => None
  | ChildReturns => None
  end.

(** ** What one pass may do to a record *)

(** The record after the parent branch of [executeProcess]. *)
Definition launched (c : positive) (now t0 : Z) (p : Process) : Process :=
  let p := set_process_id (Z.pos c) p in
  let p := set_started true p in
  let p := set_start_time (u64 (now - t0)) p in
  set_context_start_time (start_time p) p.

(** The record after the signalling branch of [resumeProcess]. *)
Definition resumed (now t0 : Z) (p : Process) : Process :=
  set_context_start_time (u64 (now - t0)) p.

(** The record after the signalling branch of [pauseProcess]. *)
Definition paused (now t0 : Z) (p : Process) : Process :=
  let p := set_context_end_time (u64 (now - t0)) p in
  set_burst_time
    (u64 (burst_time p + u64 (context_end_time p - context_start_time p))) p.

(** Dispatch: [executeProcess] (the fork may fail) or [resumeProcess]. *)
Inductive dispatch (t0 : Z) (p : Process) : Process -> Prop :=
| dispatch_failed : dispatch t0 p p
| dispatch_launched c now : dispatch t0 p (launched c now t0 p)
| dispatch_resumed now :
    started p = true -> dispatch t0 p (resumed now t0 p).

(** The three shapes of the code after the dispatch: [FCFS] and
    [ShortestJobFirst] wait and close the run; [RoundRobin] and both
    [MultiLevelFeedbackQueue]s poll, then pause or close the run. *)
Inductive style := AsFCFS | AsSJF | AsRR.

(** [settle st t0 d q b]: the running record [d] is left as [q]; [b] tells
    whether the pass took the branch of a successful exit. *)
Inductive settle (t0 : Z) : style -> Process -> Process -> bool -> Prop :=
| settle_same st d : settle t0 st d d false
| settle_paused d now : started d = true -> settle t0 AsRR d (paused now t0 d) false
| settle_finished_FCFS d now : settle t0 AsFCFS d (finished_FCFS now t0 d) true
| settle_finished_SJF d now : settle t0 AsSJF d (finished_SJF now t0 d) true
| settle_finished_RR d now : settle t0 AsRR d (finished_RR now t0 d) true
| settle_error_FCFS d now : settle t0 AsFCFS d (error_FCFS now t0 d) false
| settle_error_SJF d now : settle t0 AsSJF d (error_FCFS now t0 d) false
| settle_error_RR d now : settle t0 AsRR d (error_RR now t0 d) false.

(** A record as [new_process] leaves it. *)
Definition fresh (p : Process) : Prop :=
  finished p = false /\ error p = false /\ started p = false /\
  burst_time p = 0 /\ turnaround_time p = 0 /\ waiting_time p = 0 /\
  response_time p = 0 /\ 0 <= arrival_time p < 2 ^ 64.

(** The five scheduling policies. *)
Inductive policy := PolFCFS | PolRR | PolMLFQ | PolSJF | PolOnlineMLFQ.

Definition style_of (pol : policy) : style :=
  match pol with
  | PolFCFS => AsFCFS
  | PolSJF => AsSJF
  | PolRR | PolMLFQ | PolOnlineMLFQ => AsRR
  end.

Definition online (pol : policy) : bool :=
  match pol with
  | PolSJF | PolOnlineMLFQ => true
  | PolFCFS | PolRR | PolMLFQ => false
  end.

(** One pass over a process table [t], giving [t']: nothing changes, a
    fresh record is appended (online only), or one record that was not
    terminal is dispatched and settled. The last index is the observation
    handed to [updateBurstTime] in the pass, if any: the burst and the
    command of the record that exited successfully. *)
Inductive pass (t0 : Z) (pol : policy) (t : list Process)
  : list Process -> option (Z * string) -> Prop :=
| pass_idle : pass t0 pol t t None
| pass_arrival p : online pol = true -> fresh p -> pass t0 pol t (t ++ [p]) None
| pass_visit i p d q b :
    t !! i = Some p -> terminal p = false ->
    dispatch t0 p d -> settle t0 (style_of pol) d q b ->
    pass t0 pol t (<[i := q]> t)
      (if b then Some (burst_time q, command q) else None).

(** *** The same, with the clock readings *)

(** [dispatch_at os t0 st a b p d]: the dispatch takes the OS calls number
    [a] to [b - 1]; the clock is read at one of them. A record that has
    started is always resumed by the polling schedulers, so the dispatch
    does nothing, or launches, only if the record has not started or the
    scheduler is not a polling one. *)
Inductive dispatch_at (os : OS) (t0 : Z) (st : style) (a b : nat) (p : Process)
  : Process -> Prop :=
| dispatch_at_failed :
    (a <= b)%nat -> started p = false \/ st <> AsRR ->
    dispatch_at os t0 st a b p p
| dispatch_at_launched c n :
    (a <= n < b)%nat -> started p = false \/ st <> AsRR ->
    dispatch_at os t0 st a b p (launched c (u64 (os_clock os n)) t0 p)
| dispatch_at_resumed n :
    (a <= n < b)%nat -> started p = true ->
    dispatch_at os t0 st a b p (resumed (u64 (os_clock os n)) t0 p).

Inductive settle_at (os : OS) (t0 : Z) (a b : nat)
  : style -> Process -> Process -> bool -> Prop :=
| settle_at_same st d : (a <= b)%nat -> settle_at os t0 a b st d d false
| settle_at_paused d n :
    (a <= n < b)%nat -> started d = true ->
    settle_at os t0 a b AsRR d (paused (u64 (os_clock os n)) t0 d) false
| settle_at_finished_FCFS d n :
    (a <= n < b)%nat ->
    settle_at os t0 a b AsFCFS d (finished_FCFS (u64 (os_clock os n)) t0 d) true
| settle_at_finished_SJF d n :
    (a <= n < b)%nat ->
    settle_at os t0 a b AsSJF d (finished_SJF (u64 (os_clock os n)) t0 d) true
| settle_at_finished_RR d n :
    (a <= n < b)%nat ->
    settle_at os t0 a b AsRR d (finished_RR (u64 (os_clock os n)) t0 d) true
| settle_at_error_FCFS d n :
    (a <= n < b)%nat ->
    settle_at os t0 a b AsFCFS d (error_FCFS (u64 (os_clock os n)) t0 d) false
| settle_at_error_SJF d n :
    (a <= n < b)%nat ->
    settle_at os t0 a b AsSJF d (error_FCFS (u64 (os_clock os n)) t0 d) false
| settle_at_error_RR d n :
    (a <= n < b)%nat ->
    settle_at os t0 a b AsRR d (error_RR (u64 (os_clock os n)) t0 d) false.

(** [pass_at os t0 pol a b t t' u]: a pass that takes the OS calls number
    [a] to [b - 1]. *)
Inductive pass_at (os : OS) (t0 : Z) (pol : policy) (a b : nat) (t : list Process)
  : list Process -> option (Z * string) -> Prop :=
| pass_at_idle : (a <= b)%nat -> pass_at os t0 pol a b t t None
| pass_at_arrival p n :
    online pol = true -> fresh p -> (a <= n < b)%nat ->
    arrival_time p = u64 (u64 (os_clock os n) - t0) ->
    pass_at os t0 pol a b t (t ++ [p]) None
| pass_at_visit i p d q flag m :
    t !! i = Some p -> terminal p = false ->
    dispatch_at os t0 (style_of pol) a m p d ->
    settle_at os t0 m b (style_of pol) d q flag ->
    pass_at os t0 pol a b t (<[i := q]> t)
      (if flag then Some (burst_time q, command q) else None).

(** The history after the observation of a pass. *)
Definition observe (h : arr3 Online.Cell) (u : option (Z * string))
  : arr3 Online.Cell :=
  match u with
  | None => h
  | Some (burst, cmd) => Online.updateBurstTime h burst cmd
  end.

(** [FCFS] has not yet touched the records from [fc_i] on. *)
Definition FCFS_inv (s : Offline.FCFS_state) : Prop :=
  forall j p, (Offline.fc_i s <= j)%nat -> Offline.fc_p s !! j = Some p ->
              terminal p = false.

(** Every pointer held by the three queues. *)
Definition queued (MLFQ : arr3 Queue) : list nat :=
  a0 MLFQ ++ a1 MLFQ ++ a2 MLFQ.

(** The queues of the online [MultiLevelFeedbackQueue] hold each pointer at
    most once, and only pointers to records that are not terminal. *)
Definition queues_ok (heap : list Process) (MLFQ : arr3 Queue) : Prop :=
  NoDup (queued MLFQ) /\
  forall x, x ∈ queued MLFQ ->
            exists p, heap !! x = Some p /\ terminal p = false.

Definition MLFQ_online_inv (s : Online.MLFQ_state) : Prop :=
  queues_ok (Online.om_heap s) (Online.om_MLFQ s).

(** ** Process tables of the five schedulers after [k] passes *)

Definition FCFS_table (p : list Process) (k : nat) (w : World) : list Process :=
  Offline.fc_p (state_of (fst (Offline.FCFS p k w))).

Definition RR_table (p : list Process) (quantum : Z) (k : nat) (w : World)
  : list Process :=
  Offline.rr_p (state_of (fst (Offline.RoundRobin p quantum k w))).

Definition MLFQ_table (p : list Process) (quantum0 quantum1 quantum2 boostTime : Z)
  (k : nat) (w : World) : list Process :=
  Offline.mq_p (state_of (fst (Offline.MultiLevelFeedbackQueue p quantum0 quantum1
                                 quantum2 boostTime k w))).

Definition SJF_table (k : nat) (w : World) : list Process :=
  Online.sj_processList (state_of (fst (Online.ShortestJobFirst k w))).

Definition OnlineMLFQ_table (quantum0 quantum1 quantum2 boostTime : Z)
  (k : nat) (w : World) : list Process :=
  Online.om_heap (state_of (fst (Online.MultiLevelFeedbackQueue quantum0 quantum1
                                   quantum2 boostTime k w))).

(** The burst-time history of the two online schedulers after [k] passes. *)
Definition SJF_history (k : nat) (w : World) : arr3 Online.Cell :=
  Online.sj_hashTable (state_of (fst (Online.ShortestJobFirst k w))).

Definition OnlineMLFQ_history (quantum0 quantum1 quantum2 boostTime : Z)
  (k : nat) (w : World) : arr3 Online.Cell :=
  Online.om_hashTable (state_of (fst (Online.MultiLevelFeedbackQueue quantum0
                                        quantum1 quantum2 boostTime k w))).

(** A scheduler together with its arguments. *)
Inductive config :=
| CfgFCFS (p : list Process)
| CfgRR (p : list Process) (quantum : Z)
| CfgMLFQ (p : list Process) (quantum0 quantum1 quantum2 boostTime : Z)
| CfgSJF
| CfgOnlineMLFQ (quantum0 quantum1 quantum2 boostTime : Z).

Definition policy_of (c : config) : policy :=
  match c with
  | CfgFCFS _ => PolFCFS
  | CfgRR _ _ => PolRR
  | CfgMLFQ _ _ _ _ _ => PolMLFQ
  | CfgSJF => PolSJF
  | CfgOnlineMLFQ _ _ _ _ => PolOnlineMLFQ
  end.

(** The process table of a scheduler after [k] passes in world [w]. *)
Definition table_after (c : config) (k : nat) (w : World) : list Process :=
  match c with
  | CfgFCFS p => FCFS_table p k w
  | CfgRR p quantum => RR_table p quantum k w
  | CfgMLFQ p q0 q1 q2 bt => MLFQ_table p q0 q1 q2 bt k w
  | CfgSJF => SJF_table k w
  | CfgOnlineMLFQ q0 q1 q2 bt => OnlineMLFQ_table q0 q1 q2 bt k w
  end.

(** The table a scheduler starts from. *)
Definition table_at_start (c : config) : list Process :=
  match c with
  | CfgFCFS p | CfgRR p _ | CfgMLFQ p _ _ _ _ => Offline.initializeProcess p
  | CfgSJF | CfgOnlineMLFQ _ _ _ _ => []
  end.

(** ** Predicates of the properties *)

(** The finished and the error flag are not both set. *)
Definition flags_exclusive (t : list Process) : Prop :=
  Forall (fun p => finished p && error p = false) t.

(** Every record that is terminal in [t] is the same record in [t']. *)
Definition frozen (t t' : list Process) : Prop :=
  forall i p, t !! i = Some p -> terminal p = true -> t' !! i = Some p.

(** The three metric equations, in the [uint64_t] arithmetic of the code. *)
Definition metrics_closed (p : Process) : Prop :=
  turnaround_time p = u64 (completion_time p - arrival_time p) /\
  waiting_time p = u64 (turnaround_time p - burst_time p) /\
  response_time p = u64 (start_time p - arrival_time p).

Definition metrics_nonneg (p : Process) : Prop :=
  0 <= burst_time p /\ 0 <= turnaround_time p /\
  0 <= waiting_time p /\ 0 <= response_time p.

(** What the code establishes about the metrics of a record: the three
    equations once it has finished, the response time alone once it has
    ended with an error. *)
Definition metrics_settled (p : Process) : Prop :=
  (finished p = true -> metrics_closed p) /\
  (error p = true -> response_time p = u64 (start_time p - arrival_time p)) /\
  metrics_nonneg p.

(** *** Metrics without wrap-around *)

(** A clock that never goes back and whose readings fit in 64 bits. *)
Definition steady_clock (os : OS) : Prop :=
  (forall n m, (n <= m)%nat -> os_clock os n <= os_clock os m) /\
  (forall n, 0 <= os_clock os n < 2 ^ 64).

(** The three metric equations in the integers, all four metrics
    non-negative. *)
Definition metrics_exact (p : Process) : Prop :=
  turnaround_time p = completion_time p - arrival_time p /\
  waiting_time p = turnaround_time p - burst_time p /\
  response_time p = start_time p - arrival_time p /\
  0 <= burst_time p /\ 0 <= turnaround_time p /\
  0 <= waiting_time p /\ 0 <= response_time p.

(** What the timestamps of a record satisfy when [B] milliseconds have
    passed since the scheduler read its first clock: nothing is stamped
    later than [B]; a record that has started did so after it arrived, and
    began its present time slice after that; the burst of a record that
    still runs is at most the time from its start to the end of its last
    time slice, and nothing before the polling schedulers have paused it;
    the metrics of a record that has started and finished are exact, and
    so is the response time of one that has started and ended with an
    error. *)
Definition timely (st : style) (B : Z) (p : Process) : Prop :=
  0 <= arrival_time p <= B /\
  0 <= burst_time p /\
  (terminal p = false -> started p = false \/ st <> AsRR -> burst_time p = 0) /\
  (started p = true ->
   arrival_time p <= start_time p /\
   start_time p <= context_start_time p /\
   context_start_time p <= B /\
   (terminal p = false ->
    burst_time p <= context_start_time p - start_time p \/
    (context_start_time p <= context_end_time p <= B /\
     burst_time p <= context_end_time p - start_time p)) /\
   (finished p = true -> metrics_exact p) /\
   (error p = true -> response_time p = start_time p - arrival_time p)).

(** The metrics of a record that has started are exact: all of them once
    it has finished, the response time once it has ended with an error. *)
Definition exact_when_run (p : Process) : Prop :=
  started p = true ->
  (finished p = true -> metrics_exact p) /\
  (error p = true -> response_time p = start_time p - arrival_time p).

(** A record of an offline scheduler. *)
Definition offline_record (p : Process) : Prop :=
  arrival_time p = 0 /\
  turnaround_time p = completion_time p /\
  0 <= start_time p < 2 ^ 64 /\
  (terminal p = true -> response_time p = start_time p).

(** A terminal record whose arrival is 0, whose turnaround is its
    completion and whose response is its start. *)
Definition arrived_at_zero (p : Process) : Prop :=
  arrival_time p = 0 /\
  (terminal p = true ->
   turnaround_time p = completion_time p /\ response_time p = start_time p).

(** Whether the error branch of a policy assigns the burst time. *)
Definition error_sets_burst (pol : policy) : bool :=
  match style_of pol with
  | AsRR => false
  | AsFCFS | AsSJF => true
  end.

(** [error_frame t0 sets_burst d q]: [q] is the running record [d] after the
    error branch: the error flag is set, the context end is a clock reading
    and the response time is start - arrival; the burst is the last slice
    when [sets_burst], and [d]'s otherwise; every other field is [d]'s. *)
Definition error_frame (t0 : Z) (sets_burst : bool) (d q : Process) : Prop :=
  error q = true /\
  (exists now, context_end_time q = u64 (now - t0)) /\
  response_time q = u64 (start_time d - arrival_time d) /\
  burst_time q =
    (if sets_burst then u64 (context_end_time q - context_start_time d)
     else burst_time d) /\
  turnaround_time q = turnaround_time d /\
  waiting_time q = waiting_time d /\
  completion_time q = completion_time d /\
  command q = command d /\ finished q = finished d /\ started q = started d /\
  arrival_time q = arrival_time d /\ start_time q = start_time d /\
  context_start_time q = context_start_time d /\ process_id q = process_id d.

(** The dispatch leaves the three accumulated metrics alone. *)
Definition same_metrics (p d : Process) : Prop :=
  burst_time d = burst_time p /\ turnaround_time d = turnaround_time p /\
  waiting_time d = waiting_time p.

(** The record at [i] goes from not errored in [t] to errored in [t']. *)
Definition errs_at (i : nat) (p q : Process) (t t' : list Process) : Prop :=
  t !! i = Some p /\ t' !! i = Some q /\ error p = false /\ error q = true.

(** The bursts of the successful runs of [cmd] recorded in a table. *)
Definition observed (cmd : string) (t : list Process) : list Z :=
  map burst_time
    (List.filter (fun p => finished p && String.eqb (command p) cmd) t).

Definition total (l : list Z) : Z := fold_right Z.add 0 l.

(** The history holds an entry for exactly the commands with a successful
    run in the table; the entry's sum and count are those of the observed
    bursts, as [int]s. *)
Definition history_matches (t : list Process) (h : arr3 Online.Cell) : Prop :=
  forall cmd,
    match Online.findNode h cmd with
    | None => observed cmd t = []
    | Some node =>
        observed cmd t <> [] /\
        Online.sum_burst_time node = i32 (total (observed cmd t)) /\
        Online.num_bursts node = i32 (Z.of_nat (length (observed cmd t)))
    end.

(** The estimate for the command of [p], given the bursts [obs] observed
    for that command: 1000 without any, and their truncated mean when
    their sum and their number fit an [int]. *)
Definition estimate_follows (t : list Process) (h : arr3 Online.Cell) : Prop :=
  forall p,
    let obs := observed (command p) t in
    (Online.findNode h (command p) = None <-> obs = []) /\
    (obs = [] -> Online.getExpectedBurstTime h p = 1000) /\
    (obs <> [] -> total obs < 2 ^ 31 -> Z.of_nat (length obs) < 2 ^ 31 ->
     Online.getExpectedBurstTime h p = total obs / Z.of_nat (length obs)) /\
    (forall b, obs = [b] -> b < 2 ^ 31 -> Online.getExpectedBurstTime h p = b) /\
    (forall b1 b2, obs = [b1; b2] -> b1 + b2 < 2 ^ 31 ->
                   Online.getExpectedBurstTime h p = (b1 + b2) / 2).

(** ** Failures of control calls in the log *)

(** The diagnostic the code prints after a failed control call. *)
Definition diagnostic_of (e : event) : option string :=
  match e with
  | EvFork None => Some "[ERROR]: Fork failed"%string
  | EvWaitpid _ _ result _ =>
      if result <? 0 then Some "[ERROR]: Waitpid failed"%string else None
  | EvKill _ SIGSTOP r =>
      if r <? 0 then Some "[ERROR]: Pausing process failed"%string else None
  | EvKill _ SIGCONT r =>
      if r <? 0 then Some "[ERROR]: Resuming process failed"%string else None
  | _ => None
  end.

(** [e] is no failed control call, or [next], the event logged right after
    it, is its diagnostic. *)
Definition followed_up (next : option event) (e : event) : bool :=
  match diagnostic_of e with
  | None => true
  | Some msg =>
      match next with
      | Some (EvPrintf fmt []) => String.eqb fmt msg
      | _ => false
      end
  end.

(** Every failed [fork], [kill] and [waitpid] of a log (newest event first)
    is immediately followed by its diagnostic; [next] is the event logged
    after the head of the log. *)
Fixpoint diagnosed_from (next : option event) (log : list event) : bool :=
  match log with
  | [] => true
  | e :: older => followed_up next e && diagnosed_from (Some e) older
  end.

Definition diagnosed (log : list event) : bool := diagnosed_from None log.

(** A computation only adds events to the log, and what it adds is
    [diagnosed]. *)
Definition logs_ok {A} (m : M A) : Prop :=
  forall w, exists chunk,
    out (snd (m w)) = chunk ++ out w /\ diagnosed chunk = true.

(** A computation first prints the diagnostic [msg] and then adds a
    [diagnosed] chunk. *)
Definition logs_after_diagnostic {A} (msg : string) (m : M A) : Prop :=
  forall w, exists chunk,
    out (snd (m w)) = chunk ++ EvPrintf msg [] :: out w /\
    diagnosed chunk = true.

(** The log of a scheduler after [k] passes in world [w]. *)
Definition log_after (c : config) (k : nat) (w : World) : list event :=
  match c with
  | CfgFCFS p => out (snd (Offline.FCFS p k w))
  | CfgRR p quantum => out (snd (Offline.RoundRobin p quantum k w))
  | CfgMLFQ p q0 q1 q2 bt =>
      out (snd (Offline.MultiLevelFeedbackQueue p q0 q1 q2 bt k w))
  | CfgSJF => out (snd (Online.ShortestJobFirst k w))
  | CfgOnlineMLFQ q0 q1 q2 bt =>
      out (snd (Online.MultiLevelFeedbackQueue q0 q1 q2 bt k w))
  end.

(** The newest events of a log are a failed [waitpid] and its diagnostic. *)
Definition ends_with_failed_wait (log : list event) : Prop :=
  exists pid options result status older,
    result < 0 /\
    log = EvPrintf "[ERROR]: Waitpid failed" []
            :: EvWaitpid pid options result status :: older.

(** The newest event of a log is the diagnostic of a failed allocation. *)
Definition ends_with_failed_alloc (log : list event) : Prop :=
  exists older, log = EvPrintf "[ERROR]: Memory allocation failed" [] :: older.

(** Whether the scheduling loop has been left after [k] passes. *)
Definition exited_after (c : config) (k : nat) (w : World) : bool :=
  match c with
  | CfgFCFS p => exited (fst (Offline.FCFS p k w))
  | CfgRR p quantum => exited (fst (Offline.RoundRobin p quantum k w))
  | CfgMLFQ p q0 q1 q2 bt =>
      exited (fst (Offline.MultiLevelFeedbackQueue p q0 q1 q2 bt k w))
  | CfgSJF => exited (fst (Online.ShortestJobFirst k w))
  | CfgOnlineMLFQ q0 q1 q2 bt =>
      exited (fst (Online.MultiLevelFeedbackQueue q0 q1 q2 bt k w))
  end.

(** The loop condition is false: [FCFS] has visited every record,
    [RoundRobin] and the offline [MultiLevelFeedbackQueue] have no record
    left; the online loops are [while (true)]. *)
Definition loop_done (c : config) (k : nat) (w : World) : Prop :=
  match c with
  | CfgFCFS p =>
      let s := state_of (fst (Offline.FCFS p k w)) in
      (length (Offline.fc_p s) <= Offline.fc_i s)%nat
  | CfgRR p quantum =>
      Offline.rr_remaining_processes
        (state_of (fst (Offline.RoundRobin p quantum k w))) <= 0
  | CfgMLFQ p q0 q1 q2 bt =>
      Offline.mq_remaining_processes
        (state_of (fst (Offline.MultiLevelFeedbackQueue p q0 q1 q2 bt k w))) <= 0
  | CfgSJF | CfgOnlineMLFQ _ _ _ _ => False
  end.

(** The failure on which a policy leaves its loop, read off the log:
    none for [FCFS], a failed [waitpid] for [RoundRobin] and the offline
    [MultiLevelFeedbackQueue], a failed allocation for the online ones. *)
Definition leaves_on (pol : policy) (log : list event) : Prop :=
  match pol with
  | PolFCFS => False
  | PolRR | PolMLFQ => ends_with_failed_wait log
  | PolSJF | PolOnlineMLFQ => ends_with_failed_alloc log
  end.

(** [RoundRobin]'s cursor is inside the table, unless nothing remains. *)
Definition RR_inv (s : Offline.RR_state) : Prop :=
  (Offline.rr_i s < length (Offline.rr_p s))%nat \/
  Offline.rr_remaining_processes s <= 0.

(** The pointers queued by the offline [MultiLevelFeedbackQueue] are
    inside the table. *)
Definition MLFQ_offline_inv (s : Offline.MLFQ_state) : Prop :=
  forall x, x ∈ queued (Offline.mq_MLFQ s) -> (x < length (Offline.mq_p s))%nat.

(** *** What one pass adds to the log *)

(** The events that pass [k + 1] adds to the log, newest first. *)
Definition pass_log (c : config) (k : nat) (w : World) : list event :=
  take (length (log_after c (S k) w) - length (log_after c k w))
    (log_after c (S k) w).

(** The policies whose loop has a [break] after the diagnostic of a failed
    [waitpid]. *)
Definition breaks_on_wait (pol : policy) : bool :=
  match pol with
  | PolRR | PolMLFQ => true
  | PolFCFS | PolSJF | PolOnlineMLFQ => false
  end.

(** The number of children the scheduler has after the calls of a log:
    one more for every [fork] that succeeded, one less for every [waitpid]
    that returned the identifier of a child it reaped. *)
Fixpoint children (log : list event) : Z :=
  match log with
  | [] => 0
  | EvFork (Some _) :: older => children older + 1
  | EvWaitpid _ _ result _ :: older =>
      if 0 <? result then children older - 1 else children older
  | _ :: older => children older
  end.

(** [waitpid] as POSIX has it for a process without children: every
    [waitpid] of the log that was called while the scheduler had no child
    failed (with [ECHILD]). *)
Fixpoint echild (log : list event) : Prop :=
  match log with
  | [] => True
  | e :: older =>
      match e with
      | EvWaitpid _ _ result _ => children older <= 0 -> result < 0
      | _ => True
      end /\ echild older
  end.

(** A record that has not started holds the process identifier -1 that
    [initializeProcess] gave it. *)
Definition unstarted_pid (p : Process) : Prop :=
  started p = false -> process_id p = -1.

(** ** Further predicates *)

(** Every entry of a history counts at least one burst and at most [k]. *)
Definition counts_within (k : nat) (h : arr3 Online.Cell) : Prop :=
  forall cmd node,
    Online.findNode h cmd = Some node ->
    1 <= Online.num_bursts node <= Z.of_nat k.

(** The tokens of a command line in plain words: the maximal runs of
    characters other than space and tab, in order; [cur] is the run being
    read. *)
Fixpoint words_from (input cur : list ascii) : list string :=
  match input with
  | [] =>
      match cur with
      | [] => []
      | _ => [string_of_list_ascii cur]
      end
  | c :: rest =>
      if is_blank c then
        match cur with
        | [] => words_from rest []
        | _ => string_of_list_ascii cur :: words_from rest []
        end
      else words_from rest (cur ++ [c])
  end.

Definition words (input : string) : list string :=
  words_from (list_ascii_of_string input) [].

(** A token: not empty, and without space or tab. *)
Definition proper_token (t : string) : Prop :=
  t <> EmptyString /\
  Forall (fun c => is_blank c = false) (list_ascii_of_string t).

(** The tokens written one after the other, a space between two. *)
Fixpoint join_words (ts : list string) : string :=
  match ts with
  | [] => EmptyString
  | [t] => t
  | t :: rest => (t ++ String " " (join_words rest))%string
  end.

(** From table [t] to table [t'] every record keeps its place, its command
    and its arrival time, and stays started once it is; under the polling
    schedulers a started record also keeps its start time and its process
    identifier. *)
Definition keeps_identity (st : style) (t t' : list Process) : Prop :=
  forall i p,
    t !! i = Some p ->
    exists q,
      t' !! i = Some q /\
      command q = command p /\ arrival_time q = arrival_time p /\
      (started p = true -> started q = true) /\
      (started p = true -> st = AsRR ->
       start_time q = start_time p /\ process_id q = process_id p).

(** The number of records of a table that are not terminal. *)
Definition live (t : list Process) : nat :=
  length (List.filter (fun p => negb (terminal p)) t).

(** The three queues hold each pointer at most once, and the pointers they
    hold are those of the records that are not terminal. *)
Definition queues_hold_live (heap : list Process) (MLFQ : arr3 Queue) : Prop :=
  NoDup (queued MLFQ) /\
  forall x, x ∈ queued MLFQ <->
            exists p, heap !! x = Some p /\ terminal p = false.

(** *** The CSV file *)

(** The seven fields [writeProcessToCSV] prints. *)
Definition csv_row (p : Process) : string * bool * bool * Z * Z * Z * Z :=
  (command p, finished p, error p, burst_time p, turnaround_time p,
   waiting_time p, response_time p).

Inductive csv_line :=
| HeaderLine
| RowLine (row : string * bool * bool * Z * Z * Z * Z).

(** The lines of [file] after the events of a log (newest first): opening
    the file in mode ["w"] empties it, [writeHeaderToCSV] and
    [writeProcessToCSV] append a line. *)
Fixpoint csv_content (file : string) (log : list event) : list csv_line :=
  match log with
  | [] => []
  | e :: older =>
      let content := csv_content file older in
      match e with
      | EvFopen f mode true =>
          if String.eqb f file && String.eqb mode "w" then [] else content
      | EvCsvHeader f =>
          if String.eqb f file then content ++ [HeaderLine] else content
      | EvCsvRow f p =>
          if String.eqb f file then content ++ [RowLine (csv_row p)] else content
      | _ => content
      end
  end.

(** The file a scheduler writes. *)
Definition csv_file_of (c : config) : string :=
  match c with
  | CfgFCFS _ => "result_offline_FCFS.csv"
  | CfgRR _ _ => "result_offline_RR.csv"
  | CfgMLFQ _ _ _ _ _ => "result_offline_MLFQ.csv"
  | CfgSJF => "result_online_SJF.csv"
  | CfgOnlineMLFQ _ _ _ _ => "result_online_MLFQ.csv"
  end%string.

(** The file holds the header line and then one row for each terminal
    record of the table, in some order. *)
Definition csv_matches (file : string) (log : list event) (t : list Process)
  : Prop :=
  exists rows,
    csv_content file log
      = HeaderLine :: map (fun p => RowLine (csv_row p)) rows /\
    rows ≡ₚ List.filter terminal t.


(** *** The queue as the linked chain of the source *)

(** [enqueue] and [dequeue] as they are written, on the chain of
    [QueueNode]s. A [QueueNode *] is [Some] address or [None] for [NULL];
    the memory maps the addresses of the allocated nodes to their
    contents. The result [None] stands for the dereference of [NULL] or
    of a node that is not allocated. *)
Module Linked.

Record QueueNode := mkQueueNode {
  process : nat;
  next : option nat
}.

Record Queue := mkQueue {
  head : option nat;
  tail : option nat;
  size : Z
}.

Definition Mem := nat -> option QueueNode.

Definition store (m : Mem) (a : nat) (n : QueueNode) : Mem :=
  fun x => if Nat.eqb x a then Some n else m x.

Definition free (m : Mem) (a : nat) : Mem :=
  fun x => if Nat.eqb x a then None else m x.

(** [MLFQ[i].head = NULL; MLFQ[i].tail = NULL; MLFQ[i].size = 0;] *)
Definition empty : Queue := mkQueue None None 0.

(** [newNode] is what [malloc] returned; the source does not test it. *)
Definition enqueue (m : Mem) (q : Queue) (newNode : option nat) (p : nat)
  : option (Mem * Queue) :=
  match newNode with
  | None => None
  | Some a =>
      let m := store m a (mkQueueNode p None) in
      match head q with
      | None => Some (m, mkQueue (Some a) (Some a) (i32 (size q + 1)))
      | Some _ =>
          match tail q with
          | None => None
          | Some t =>
              match m t with
              | None => None
              | Some n =>
                  Some (store m t (mkQueueNode (process n) (Some a)),
                        mkQueue (head q) (Some a) (i32 (size q + 1)))
              end
          end
      end
  end.

Definition dequeue (m : Mem) (q : Queue) : option (Mem * Queue * option nat) :=
  match head q with
  | None => Some (m, q, None)
  | Some temp =>
      match m temp with
      | None => None
      | Some n =>
          let p := process n in
          let q := mkQueue (next n) (tail q) (size q) in
          let q := match head q with
                   | None => mkQueue (head q) None (size q)
                   | Some _ => q
                   end in
          Some (free m temp, mkQueue (head q) (tail q) (i32 (size q - 1)), Some p)
      end
  end.

(** The nodes at the addresses [xs], in this order from [a] on, hold the
    pointers [l] and end in [NULL]. *)
Fixpoint chain (m : Mem) (a : option nat) (xs : list nat) (l : list nat) : Prop :=
  match xs, l with
  | [], [] => a = None
  | x :: xs, p :: l =>
      a = Some x /\
      exists nx, m x = Some (mkQueueNode p nx) /\ chain m nx xs l
  | _, _ => False
  end.

(** The queue [q] in the memory [m] is the chain of the distinct nodes
    [xs] holding [l]: [head] starts it, [tail] is its last node ([NULL]
    when there is none) and [size], an [int], its length. *)
Definition holds (m : Mem) (q : Queue) (xs : list nat) (l : list nat) : Prop :=
  chain m (head q) xs l /\
  NoDup xs /\
  tail q = last xs /\
  size q = Z.of_nat (length xs) /\
  size q < 2 ^ 31.

End Linked.

(** A queue of two nodes, at the addresses 5 and 7, holding the pointers 1
    and 2. *)
Definition two_nodes : Linked.Mem :=
  Linked.store
    (Linked.store (fun _ => None) 7%nat (Linked.mkQueueNode 2 None))
    5%nat (Linked.mkQueueNode 1 (Some 7%nat)).

Definition two_queue : Linked.Queue := Linked.mkQueue (Some 5%nat) (Some 7%nat) 2.


(** *** The context-switch calls *)

(** The slice [command|start|end] that an event passes to [printf], if the
    event is the scheduler's [printf("%s|%lu|%lu\n", ...)]. *)
Definition switch_line (e : event) : option (string * Z * Z) :=
  match e with
  | EvPrintf fmt [AStr c; AInt s; AInt e] =>
      if String.eqb fmt "%s|%lu|%lu" then Some (c, s, e) else None
  | _ => None
  end.

(** The slices of the context-switch [printf] calls that the scheduler
    process makes, in the order of the calls. These are the calls, not the
    stream that reaches [stdout]: the offline schedulers never [fflush], so
    with a [stdout] that is not a terminal a forked child that reaches
    [exit] writes the lines pending in its copy of the buffer once more. *)
Definition switch_lines (log : list event) : list (string * Z * Z) :=
  omap switch_line (rev log).

(** Slices in sequence from the time [from] on: no slice ends before it
    starts, and none starts before the one of the call before it has ended
    (the first not before [from]). *)
Fixpoint in_sequence (from : Z) (lines : list (string * Z * Z)) : Prop :=
  match lines with
  | [] => True
  | (_, s, e) :: rest => from <= s /\ s <= e /\ in_sequence e rest
  end.

(** The slices of a log are in sequence and all have ended by the time [B]. *)
Definition slices_upto (B : Z) (log : list event) : Prop :=
  in_sequence 0 (switch_lines log) /\
  Forall (fun l => snd l <= B) (switch_lines log).

(** An OS with a steady clock on which no [fork] and no [waitpid] fails. *)
Definition calm (os : OS) : Prop :=
  steady_clock os /\
  (forall n, os_fork os n <> None) /\
  (forall n, 0 <= fst (os_waitpid os n)).


(** *** The order of arrival *)

(** Times that never decrease, none before [from]. *)
Fixpoint ascending (from : Z) (l : list Z) : Prop :=
  match l with
  | [] => True
  | x :: rest => from <= x /\ ascending x rest
  end.


(** *** Signals *)

(** Every [kill] of a log was called with a positive process identifier:
    no signal went to a process group ([pid <= 0]) or to every process
    ([pid == -1]). *)
Definition signals_children (log : list event) : Prop :=
  Forall (fun e => match e with EvKill pid _ _ => 0 < pid | _ => True end) log.

(** A record that has started holds the identifier of a child. *)
Definition holds_child (p : Process) : Prop :=
  started p = true -> 0 < process_id p.


(** *** The order of the metrics *)

(** The burst time of a record that has run to its end is no more than the
    time from its start to its completion. *)
Definition within_lifetime (p : Process) : Prop :=
  started p = true -> finished p = true ->
  burst_time p <= completion_time p - start_time p.

(** The metrics of a record that has run to its end are in order. *)
Definition metrics_ordered (p : Process) : Prop :=
  started p = true -> finished p = true ->
  0 <= response_time p /\ response_time p <= waiting_time p /\
  waiting_time p <= turnaround_time p /\ burst_time p <= turnaround_time p.


(** *** The shape of the history *)

(** Every bucket holds at most one node for a command, and only nodes of
    commands that hash to it. *)
Definition tidy (h : arr3 Online.Cell) : Prop :=
  forall i, (i <= 2)%nat ->
    NoDup (map Online.node_command (aget h i)) /\
    forall cmd, cmd ∈ map Online.node_command (aget h i) -> Online.cell_of cmd = i.

(** Every node of the history is the one that [findNode] returns for its
    command. *)
Definition nodes_found (h : arr3 Online.Cell) : Prop :=
  forall i node, (i <= 2)%nat -> node ∈ aget h i ->
    Online.findNode h (Online.node_command node) = Some node.

(** ** Sample inputs *)

Definition idle_record (cmd : string) : Process :=
  mkProcess cmd false false false 0 0 0 0 0 0 0 0 0 (-1).

(** A record that has started and ended with an error. *)
Definition errored_record : Process :=
  mkProcess "false" false true true 0 3 3 9 0 0 0 0 3 7.

(** A record that has ended successfully. *)
Definition finished_record : Process :=
  mkProcess "true" true false true 0 3 3 9 9 6 9 3 3 7.

(** A clock that advances 10 ms per OS call, with every call succeeding and
    every child reported as exited with [status]. *)
Definition steady_os (status : Z) : OS :=
  mkOS (fun n => 100 + 10 * Z.of_nat n) (fun _ => Some 7%positive)
    (fun _ => (7, status)) (fun _ => 0) (fun _ => true) (fun _ => true)
    (fun _ => errored_record) (fun _ => NoInput).

Definition boot (os : OS) : World := mkWorld os 0 [].

(** A clock that advances 10 ms per OS call until it stops at 10100; every
    call succeeds, and every fourth call that polls a child finds it
    exited with status 0. *)
Definition ticking_os : OS :=
  mkOS (fun n => 100 + 10 * Z.of_nat (Nat.min n 1000)) (fun _ => Some 7%positive)
    (fun n => if (n mod 4 =? 0)%nat then (7, 0) else (0, 0)) (fun _ => 0)
    (fun _ => true) (fun _ => true)
    (fun _ => errored_record) (fun _ => NoInput).

(** A clock that is set back by a second after its first reading. *)
Definition set_back_os : OS :=
  mkOS (fun n => if (n <? 2)%nat then 1000 else 0) (fun _ => Some 7%positive)
    (fun _ => (7, 0)) (fun _ => 0) (fun _ => true) (fun _ => true)
    (fun _ => errored_record) (fun _ => NoInput).

(** The online [MultiLevelFeedbackQueue] with quanta 20, 40, 80 before any
    arrival, its history holding one run of ["ls"] that took 30 ms. *)
Definition sample_online_state : Online.MLFQ_state :=
  Online.mkMLFQ [] (Online.updateBurstTime Online.empty_table 30 "ls") 0
    (mkArr3 [] [] []) (mkArr3 20 40 80) 500 0 0 Online.Ingest.

(** A line of input: the command and its newline. *)
Definition line (cmd : string) : string :=
  (cmd ++ String (ascii_of_nat 10) EmptyString)%string.

(** One command, ["job"], is read at the first poll and its child exits
    successfully; the clock is left open. *)
Definition job_os (clock : nat -> Z) : OS :=
  mkOS clock (fun _ => Some 7%positive)
    (fun _ => (7, 0)) (fun _ => 0) (fun _ => true) (fun _ => true)
    (fun _ => errored_record)
    (fun n => if (n =? 3)%nat then Input (line "job") else NoInput).

(** The clock advances 10 ms per OS call. *)
Definition short_job_os : OS := job_os (fun n => 100 + 10 * Z.of_nat n).

(** The clock jumps by 2^32 ms while the child runs. *)
Definition long_job_os : OS :=
  job_os (fun n => if (n <? 10)%nat then 0 else 2 ^ 32).

(** ["job"] is read twice, at the polls that are the 4th and the 14th OS
    call; the child of the first exits successfully after 10^9 ms. *)
Definition repeat_job_os : OS :=
  mkOS (fun n => if (n <? 10)%nat then 0 else 1000000000)
    (fun _ => Some 7%positive)
    (fun _ => (7, 0)) (fun _ => 0) (fun _ => true) (fun _ => true)
    (fun _ => errored_record)
    (fun n => if ((n =? 3) || (n =? 13))%nat then Input (line "job") else NoInput).

(** Every [waitpid] fails; everything else succeeds. *)
Definition failing_wait_os : OS :=
  mkOS (fun n => 100 + 10 * Z.of_nat n) (fun _ => Some 7%positive)
    (fun _ => (-1, 0)) (fun _ => 0) (fun _ => true) (fun _ => true)
    (fun _ => errored_record) (fun _ => NoInput).

(** Every [fork] fails: the scheduler never has a child, and every
    [waitpid] fails as well. *)
Definition no_child_os : OS :=
  mkOS (fun n => 100 + 10 * Z.of_nat n) (fun _ => None)
    (fun _ => (-1, 0)) (fun _ => 0) (fun _ => true) (fun _ => true)
    (fun _ => errored_record) (fun _ => NoInput).

(** * Properties *)

(** ** Machine integers *)

Lemma u64_range z : 0 <= u64 z < 2 ^ 64.
Proof. unfold u64. apply Z.mod_pos_bound. lia. Qed.

Lemma u64_small z : 0 <= z < 2 ^ 64 -> u64 z = z.
Proof. intros H. unfold u64. apply Z.mod_small. exact H. Qed.

Lemma u64_idem z : u64 (u64 z) = u64 z.
Proof. apply u64_small, u64_range. Qed.

Lemma u64_sub_0 z : u64 (u64 z - 0) = u64 z.
Proof. rewrite Z.sub_0_r. apply u64_idem. Qed.

Lemma i32_range z : - 2 ^ 31 <= i32 z < 2 ^ 31.
Proof.
  unfold i32. pose proof (Z.mod_pos_bound (z + 2 ^ 31) (2 ^ 32)). lia.
Qed.

Lemma i32_small z : - 2 ^ 31 <= z < 2 ^ 31 -> i32 z = z.
Proof. intros H. unfold i32. rewrite Z.mod_small; lia. Qed.

(** Adding wrapped summands and wrapping is wrapping the sum. *)
Lemma i32_add_i32 a b : i32 (i32 a + i32 b) = i32 (a + b).
Proof.
  unfold i32.
  replace ((a + 2 ^ 31) mod 2 ^ 32 - 2 ^ 31 + ((b + 2 ^ 31) mod 2 ^ 32 - 2 ^ 31) + 2 ^ 31)
    with ((a + 2 ^ 31) mod 2 ^ 32 + ((b + 2 ^ 31) mod 2 ^ 32 - 2 ^ 31)) by lia.
  f_equal.
  rewrite Z.add_mod_idemp_l by lia.
  replace (a + 2 ^ 31 + ((b + 2 ^ 31) mod 2 ^ 32 - 2 ^ 31))
    with ((b + 2 ^ 31) mod 2 ^ 32 + a) by lia.
  rewrite Z.add_mod_idemp_l by lia.
  f_equal. lia.
Qed.

(** ** The primitives of process control *)

Ltac run_os :=
  unfold bind, ret, printf, emit, fork, kill, waitpid, usleep,
    getCurrentTimeInMilliseconds, writeProcessToCSV, writeHeaderToCSV, ask in *;
  cbn [fst snd env tick out] in *.

(** The relations with clock readings refine those without. *)
Lemma dispatch_at_dispatch os t0 st a b p d :
  dispatch_at os t0 st a b p d -> dispatch t0 p d.
Proof. intros []; constructor; assumption. Qed.

Lemma settle_at_settle os t0 a b st d q flag :
  settle_at os t0 a b st d q flag -> settle t0 st d q flag.
Proof. intros []; constructor; assumption. Qed.

Lemma pass_at_pass os t0 pol a b t t' u :
  pass_at os t0 pol a b t t' u -> pass t0 pol t t' u.
Proof.
  intros [| p n Hon Hp _ _ | i p d q flag m Hi Hnt Hd Hs].
  - constructor.
  - constructor; assumption.
  - econstructor; eauto using dispatch_at_dispatch, settle_at_settle.
Qed.

(** The interval of OS calls may be widened. *)
Lemma dispatch_at_widen os t0 st a b a' b' p d :
  dispatch_at os t0 st a b p d -> (a' <= a)%nat -> (b <= b')%nat ->
  dispatch_at os t0 st a' b' p d.
Proof. intros [] Ha Hb; constructor; try assumption; lia. Qed.

Lemma settle_at_widen os t0 a b a' b' st d q flag :
  settle_at os t0 a b st d q flag -> (a' <= a)%nat -> (b <= b')%nat ->
  settle_at os t0 a' b' st d q flag.
Proof. intros [] Ha Hb; constructor; try assumption; lia. Qed.

Lemma dispatch_at_le os t0 st a b p d :
  dispatch_at os t0 st a b p d -> (a <= b)%nat.
Proof. intros []; lia. Qed.

Lemma settle_at_le os t0 a b st d q flag :
  settle_at os t0 a b st d q flag -> (a <= b)%nat.
Proof. intros []; lia. Qed.

Lemma pass_at_le os t0 pol a b t t' u :
  pass_at os t0 pol a b t t' u -> (a <= b)%nat.
Proof.
  intros [| p n _ _ Hn _ | i p d q flag m _ _ Hd Hs]; try lia.
  apply dispatch_at_le in Hd. apply settle_at_le in Hs. lia.
Qed.

Lemma pass_at_widen os t0 pol a b b' t t' u :
  pass_at os t0 pol a b t t' u -> (b <= b')%nat ->
  pass_at os t0 pol a b' t t' u.
Proof.
  intros [Hle | p n Hon Hp Hn Ha | i p d q flag m Hi Hnt Hd Hs] Hb.
  - constructor. lia.
  - apply (pass_at_arrival _ _ _ _ _ _ p n); try assumption. lia.
  - eapply pass_at_visit; [exact Hi | exact Hnt | exact Hd |].
    apply settle_at_le in Hs as Hle.
    eapply settle_at_widen; [exact Hs | lia | exact Hb].
Qed.

(** [executeProcess]: the fork fails, or the record is launched at the
    clock reading that follows the fork. *)
Lemma executeProcess_at st p t0 w :
  started p = false \/ st <> AsRR ->
  dispatch_at (env w) t0 st (tick w) (tick (snd (executeProcess p t0 w))) p
    (fst (executeProcess p t0 w)) /\
  env (snd (executeProcess p t0 w)) = env w.
Proof.
  intros Hst. unfold executeProcess. run_os.
  destruct (os_fork (env w) (tick w)); cbn; (split; [| reflexivity]).
  - apply (dispatch_at_launched _ _ _ _ _ _ _ (S (tick w))); [lia | exact Hst].
  - apply dispatch_at_failed; [lia | exact Hst].
Qed.

(** [resumeProcess] on a record that has started and not finished. *)
Lemma resumeProcess_at st p t0 w :
  started p = true -> finished p = false ->
  dispatch_at (env w) t0 st (tick w) (tick (snd (resumeProcess p t0 w))) p
    (fst (resumeProcess p t0 w)) /\
  env (snd (resumeProcess p t0 w)) = env w.
Proof.
  intros Hs Hf. unfold resumeProcess. rewrite Hs, Hf. cbn [negb orb].
  run_os. destruct (_ <? 0); cbn; (split; [| reflexivity]);
    apply (dispatch_at_resumed _ _ _ _ _ _ (S (tick w))); first [lia | exact Hs].
Qed.

Lemma pauseProcess_at p t0 w :
  settle_at (env w) t0 (tick w) (tick (snd (pauseProcess p t0 w))) AsRR p
    (fst (pauseProcess p t0 w)) false /\
  env (snd (pauseProcess p t0 w)) = env w.
Proof.
  unfold pauseProcess.
  destruct (negb (started p) || finished p) eqn:E; cbn.
  - split; [apply settle_at_same; lia | reflexivity].
  - apply orb_false_elim in E as [E1 E2].
    apply negb_false_iff in E1.
    run_os. destruct (_ <? 0); cbn; (split; [| reflexivity]);
      apply (settle_at_paused _ _ _ _ _ (S (tick w))); first [lia | exact E1].
Qed.

(** Either of the two dispatching calls of the polling schedulers, on a
    record that is not terminal. *)
Lemma dispatch_call_at p t0 w :
  terminal p = false ->
  let r := (if negb (started p) then executeProcess p t0
            else resumeProcess p t0) w in
  dispatch_at (env w) t0 AsRR (tick w) (tick (snd r)) p (fst r) /\
  env (snd r) = env w.
Proof.
  intros Hnt. apply orb_false_elim in Hnt as [Hf _].
  destruct (started p) eqn:E; cbn.
  - apply resumeProcess_at; assumption.
  - apply executeProcess_at. left. exact E.
Qed.

Lemma dispatch_terminal t0 p d : dispatch t0 p d -> terminal d = terminal p.
Proof. intros []; reflexivity. Qed.

Lemma pauseProcess_terminal p t0 w :
  terminal (fst (pauseProcess p t0 w)) = terminal p.
Proof.
  unfold pauseProcess.
  destruct (negb (started p) || finished p); [reflexivity |].
  run_os. destruct (_ <? 0); reflexivity.
Qed.

(** ** C9: when pausing and resuming do nothing *)

(** C9 (as the code has it). [pauseProcess] and [resumeProcess] return at
    once, with no OS call (so no signal), no output and the record
    unchanged, whenever the record has not started or has finished
    successfully. *)
Theorem pause_resume_noop (p : Process) (t0 : Z) (w : World) :
  started p = false \/ finished p = true ->
  pauseProcess p t0 w = (p, w) /\ resumeProcess p t0 w = (p, w).
Proof.
  intros H. unfold pauseProcess, resumeProcess.
  assert (negb (started p) || finished p = true) as ->.
  { destruct H as [-> | ->]; [reflexivity | apply orb_true_r]. }
  split; reflexivity.
Qed.

Lemma pause_resume_noop_witness :
  pauseProcess finished_record 0 (boot (steady_os 0))
    = (finished_record, boot (steady_os 0)) /\
  resumeProcess finished_record 0 (boot (steady_os 0))
    = (finished_record, boot (steady_os 0)).
Proof.
  apply (pause_resume_noop finished_record 0 (boot (steady_os 0))).
  right. reflexivity.
Defined.

(** C9, counterexample. [errored_record] is terminal (its error flag is
    set), yet [pauseProcess] sends it [SIGSTOP], stamps the context end and
    adds to the burst, and [resumeProcess] sends it [SIGCONT] and stamps
    the context start: the guard tests [started] and [finished] only. *)
Lemma pause_resume_errored_not_noop :
  terminal errored_record = true /\
  out (snd (pauseProcess errored_record 0 (boot (steady_os 0))))
    = [EvClock 110; EvKill 7 SIGSTOP 0] /\
  burst_time (fst (pauseProcess errored_record 0 (boot (steady_os 0)))) = 107 /\
  out (snd (resumeProcess errored_record 0 (boot (steady_os 0))))
    = [EvClock 110; EvKill 7 SIGCONT 0] /\
  context_start_time (fst (resumeProcess errored_record 0 (boot (steady_os 0)))) = 110.
Proof. vm_compute. repeat split; reflexivity. Qed.

(** ** Every pass of a scheduler is a [pass] *)

Arguments executeProcess : simpl never.
Arguments pauseProcess : simpl never.
Arguments resumeProcess : simpl never.

Ltac split_ifs :=
  repeat (cbn; match goal with
          | |- context [if ?b then _ else _] => destruct b
          end); cbn.

(** The leaf of a pass in which record [Hi] was dispatched ([Hd]) and then
    settled by one of the closing blocks. *)
Ltac visit_leaf Hi Hnt Hd :=
  eexists; eapply pass_at_visit;
  [exact Hi | exact Hnt | exact Hd | constructor; first [lia | assumption]].

Lemma FCFS_body_at s w :
  FCFS_inv s ->
  let r := Offline.FCFS_body s w in
  (exists u, pass_at (env w) (Offline.fc_t0 s) PolFCFS (tick w) (tick (snd r))
               (Offline.fc_p s) (Offline.fc_p (state_of (fst r))) u) /\
  FCFS_inv (state_of (fst r)) /\
  Offline.fc_t0 (state_of (fst r)) = Offline.fc_t0 s /\
  env (snd r) = env w.
Proof.
  intros Hinv. unfold Offline.FCFS_body.
  destruct (Offline.fc_p s !! Offline.fc_i s) as [pi|] eqn:Hi; cbn.
  2: { repeat split; try assumption. exists None. constructor. lia. }
  assert (Hnt : terminal pi = false) by (eapply Hinv; [reflexivity | exact Hi]).
  assert (Hlater : forall q, FCFS_inv
            (Offline.mkFCFS (<[Offline.fc_i s := q]> (Offline.fc_p s))
               (Offline.fc_t0 s) (S (Offline.fc_i s)))).
  { intros q j p Hj Hp. cbn in *.
    rewrite list_lookup_insert_ne in Hp by lia.
    eapply Hinv; [| exact Hp]. lia. }
  run_os.
  destruct (executeProcess_at AsFCFS pi (Offline.fc_t0 s) w) as [Hd Henv];
    [right; discriminate |].
  destruct (executeProcess pi (Offline.fc_t0 s) w) as [d w1]. cbn in Hd, Henv.
  pose proof (dispatch_at_le _ _ _ _ _ _ _ Hd) as Hle.
  cbn. destruct (os_waitpid _ _) as [result status]. cbn.
  destruct (result <? 0); cbn.
  - split; [| split; [apply Hlater | split; [reflexivity | exact Henv]]].
    visit_leaf Hi Hnt Hd.
  - destruct (exited_ok status); cbn; destruct (os_fopen _ _); cbn;
      rewrite Henv;
      (split; [| split; [apply Hlater | split; reflexivity]]);
      visit_leaf Hi Hnt Hd.
Qed.

Lemma RR_body_at s w :
  let r := Offline.RR_body s w in
  (exists u, pass_at (env w) (Offline.rr_t0 s) PolRR (tick w) (tick (snd r))
               (Offline.rr_p s) (Offline.rr_p (state_of (fst r))) u) /\
  Offline.rr_t0 (state_of (fst r)) = Offline.rr_t0 s /\
  env (snd r) = env w.
Proof.
  unfold Offline.RR_body.
  assert (Hidle : exists u, pass_at (env w) (Offline.rr_t0 s) PolRR (tick w) (tick w)
                    (Offline.rr_p s) (Offline.rr_p s) u).
  { exists None. constructor. lia. }
  destruct (Offline.rr_remaining_processes s <=? 0); cbn;
    [repeat split; assumption |].
  destruct (Offline.rr_p s !! Offline.rr_i s) as [pi|] eqn:Hi; cbn;
    [| repeat split; assumption].
  destruct (finished pi || error pi) eqn:Hnt; cbn;
    [repeat split; assumption |].
  run_os.
  destruct (dispatch_call_at pi (Offline.rr_t0 s) w Hnt) as [Hd Henv].
  destruct ((if negb (started pi) then executeProcess pi (Offline.rr_t0 s)
             else resumeProcess pi (Offline.rr_t0 s)) w) as [d w1].
  cbn in Hd, Henv.
  pose proof (dispatch_at_le _ _ _ _ _ _ _ Hd) as Hle.
  cbn. destruct (os_waitpid _ _) as [result status]. cbn.
  destruct (result <? 0); cbn.
  - split; [| split; [reflexivity | exact Henv]].
    visit_leaf Hi Hnt Hd.
  - destruct (result =? 0); cbn.
    + match goal with
      | |- context [pauseProcess d ?t ?w'] =>
          destruct (pauseProcess_at d t w') as [Hs Henv2];
          destruct (pauseProcess d t w') as [q w2]
      end.
      cbn in Hs, Henv2. rewrite Henv in Hs, Henv2.
      pose proof (settle_at_le _ _ _ _ _ _ _ _ Hs) as Hle2. cbn.
      split; [| split; [reflexivity | exact Henv2]].
      eexists. eapply pass_at_visit; [exact Hi | exact Hnt | exact Hd |].
      eapply settle_at_widen; [exact Hs | lia | lia].
    + destruct (exited_ok status); cbn; destruct (os_fopen _ _); cbn;
        rewrite Henv; (split; [| split; reflexivity]);
        visit_leaf Hi Hnt Hd.
Qed.

Lemma MLFQ_offline_body_at s w :
  let r := Offline.MLFQ_body s w in
  (exists u, pass_at (env w) (Offline.mq_t0 s) PolMLFQ (tick w) (tick (snd r))
               (Offline.mq_p s) (Offline.mq_p (state_of (fst r))) u) /\
  Offline.mq_t0 (state_of (fst r)) = Offline.mq_t0 s /\
  env (snd r) = env w.
Proof.
  unfold Offline.MLFQ_body.
  assert (Hidle : exists u, pass_at (env w) (Offline.mq_t0 s) PolMLFQ (tick w)
                    (tick w) (Offline.mq_p s) (Offline.mq_p s) u).
  { exists None. constructor. lia. }
  destruct (Offline.mq_remaining_processes s <=? 0); cbn;
    [repeat split; assumption |].
  destruct (dequeue _) as [[p|] q]; cbn; [| repeat split; assumption].
  destruct (Offline.mq_p s !! p) as [pr|] eqn:Hi; cbn;
    [| repeat split; assumption].
  destruct (finished pr || error pr) eqn:Hnt; cbn;
    [repeat split; assumption |].
  run_os.
  destruct (dispatch_call_at pr (Offline.mq_t0 s) w Hnt) as [Hd Henv].
  destruct ((if negb (started pr) then executeProcess pr (Offline.mq_t0 s)
             else resumeProcess pr (Offline.mq_t0 s)) w) as [d w1].
  cbn in Hd, Henv.
  pose proof (dispatch_at_le _ _ _ _ _ _ _ Hd) as Hle.
  cbn. destruct (os_waitpid _ _) as [result status]. cbn.
  destruct (result <? 0); cbn.
  - split; [| split; [reflexivity | exact Henv]].
    visit_leaf Hi Hnt Hd.
  - destruct (result =? 0); cbn.
    + match goal with
      | |- context [pauseProcess d ?t ?w'] =>
          destruct (pauseProcess_at d t w') as [Hs Henv2];
          destruct (pauseProcess d t w') as [r w2]
      end.
      cbn in Hs, Henv2. rewrite Henv in Hs, Henv2.
      pose proof (settle_at_le _ _ _ _ _ _ _ _ Hs) as Hle2.
      split_ifs; (split; [| split; [reflexivity | exact Henv2]]);
        (eexists; eapply pass_at_visit; [exact Hi | exact Hnt | exact Hd |]);
        (eapply settle_at_widen; [exact Hs | lia | lia]).
    + destruct (exited_ok status); split_ifs; rewrite Henv;
        (split; [| split; reflexivity]); visit_leaf Hi Hnt Hd.
Qed.

(** *** The selection loop of [ShortestJobFirst] *)

Lemma SJF_scan_spec h l : forall a mi mb,
  let r := fold_left (Online.SJF_scan h) (combine (seq a (length l)) l) (mi, mb) in
  (forall j q, l !! j = Some q -> terminal q = false ->
               snd r <= Online.getExpectedBurstTime h q) /\
  ((r = (mi, mb) /\
    forall j q, l !! j = Some q -> terminal q = false ->
                mb <= Online.getExpectedBurstTime h q) \/
   (snd r < mb /\
    exists i p, fst r = Some (a + i)%nat /\ l !! i = Some p /\
      terminal p = false /\ Online.getExpectedBurstTime h p = snd r /\
      forall j q, (j < i)%nat -> l !! j = Some q -> terminal q = false ->
                  snd r < Online.getExpectedBurstTime h q)).
Proof.
  induction l as [|p l IH]; intros a mi mb; cbn -[Z.ltb].
  { split; [intros j q Hq; rewrite lookup_nil in Hq; discriminate |].
    left. split; [reflexivity |].
    intros j q Hq; rewrite lookup_nil in Hq; discriminate. }
  fold (terminal p).
  destruct (terminal p) eqn:Ht.
  - specialize (IH (S a) mi mb). cbn zeta in IH.
    destruct IH as [Hmin Hsel]. split.
    + intros [|j] q Hq Hnt; cbn in Hq; [congruence | eauto].
    + destruct Hsel as [[-> Hall] | (Hlt & i & p' & Hi & Hp' & Hnt & He & Hbefore)].
      * left. split; [reflexivity |].
        intros [|j] q Hq Hnt; cbn in Hq; [congruence | eauto].
      * right. split; [exact Hlt |]. exists (S i), p'.
        repeat split; try assumption.
        { rewrite Hi. f_equal. lia. }
        intros [|j] q Hj Hq Hntq; cbn in Hq; [congruence |].
        eapply Hbefore; eauto. lia.
  - destruct (Online.getExpectedBurstTime h p <? mb) eqn:Hcmp.
    + apply Z.ltb_lt in Hcmp.
      specialize (IH (S a) (Some a) (Online.getExpectedBurstTime h p)).
      cbn zeta in IH. destruct IH as [Hmin Hsel]. split.
      * intros [|j] q Hq Hnt; cbn in Hq; [| eauto].
        injection Hq as <-.
        destruct Hsel as [[-> _] | [Hlt _]]; cbn; lia.
      * right.
        destruct Hsel as [[-> Hall] | (Hlt & i & p' & Hi & Hp' & Hnt & He & Hbefore)].
        { cbn. split; [exact Hcmp |]. exists O, p.
          repeat split; try assumption; try reflexivity.
          - f_equal. lia.
          - intros j q Hj. lia. }
        split; [lia |]. exists (S i), p'.
        repeat split; try assumption.
        { rewrite Hi. f_equal. lia. }
        intros [|j] q Hj Hq Hntq; cbn in Hq.
        { injection Hq as <-. exact Hlt. }
        eapply Hbefore; eauto. lia.
    + apply Z.ltb_ge in Hcmp.
      specialize (IH (S a) mi mb). cbn zeta in IH.
      destruct IH as [Hmin Hsel]. split.
      * intros [|j] q Hq Hnt; cbn in Hq; [| eauto].
        injection Hq as <-.
        destruct Hsel as [[-> _] | [Hlt _]]; cbn; lia.
      * destruct Hsel as [[-> Hall] | (Hlt & i & p' & Hi & Hp' & Hnt & He & Hbefore)].
        { left. split; [reflexivity |].
          intros [|j] q Hq Hnt; cbn in Hq; [| eauto].
          injection Hq as <-. exact Hcmp. }
        right. split; [exact Hlt |]. exists (S i), p'.
        repeat split; try assumption.
        { rewrite Hi. f_equal. lia. }
        intros [|j] q Hj Hq Hntq; cbn in Hq.
        { injection Hq as <-. lia. }
        eapply Hbefore; eauto. lia.
Qed.

(** What [SJF_select] returns: the first record of least estimate among
    those that are not terminal, when that estimate is below 10^9; nothing
    when no such record has an estimate below 10^9. *)
Lemma SJF_select_spec h l :
  match fst (Online.SJF_select h l) with
  | Some i =>
      exists p, l !! i = Some p /\ terminal p = false /\
        Online.getExpectedBurstTime h p < 1000000000 /\
        forall j q, l !! j = Some q -> terminal q = false ->
          Online.getExpectedBurstTime h p <= Online.getExpectedBurstTime h q /\
          (Online.getExpectedBurstTime h q = Online.getExpectedBurstTime h p ->
           (i <= j)%nat)
  | None =>
      forall j q, l !! j = Some q -> terminal q = false ->
        1000000000 <= Online.getExpectedBurstTime h q
  end.
Proof.
  unfold Online.SJF_select.
  pose proof (SJF_scan_spec h l O None 1000000000) as [Hmin Hsel].
  cbn zeta in *.
  destruct Hsel as [[-> Hall] | (Hlt & i & p & Hi & Hp & Hnt & He & Hbefore)].
  - cbn. exact Hall.
  - rewrite Hi. cbn. exists p.
    split; [exact Hp |]. split; [exact Hnt |]. split; [lia |].
    intros j q Hq Hntq. split.
    + rewrite He. eauto.
    + intros Heq. destruct (Nat.le_gt_cases i j) as [Hle | Hgt]; [exact Hle |].
      specialize (Hbefore j q Hgt Hq Hntq). lia.
Qed.

(** *** Ingestion *)

(** The record of a command that has just been read is [fresh], and its
    arrival is a clock reading of the ingestion. *)
Lemma new_process_at buffer t0 w :
  let r := Online.new_process buffer t0 w in
  env (snd r) = env w /\ (tick w <= tick (snd r))%nat /\
  forall p, fst r = Some p ->
    fresh p /\
    exists n, (tick w <= n < tick (snd r))%nat /\
      arrival_time p = u64 (u64 (os_clock (env w) n) - t0).
Proof.
  unfold Online.new_process, Online.malloc_Process, Online.malloc. run_os.
  destruct (os_malloc (env w) (tick w)); cbn;
    [| split; [reflexivity | split; [lia | discriminate]]].
  destruct (os_malloc (env w) (S (tick w))); cbn;
    [| split; [reflexivity | split; [lia | discriminate]]].
  split; [reflexivity | split; [lia |]].
  intros p [= <-]. split.
  - unfold fresh. cbn. repeat split; try reflexivity; apply u64_range.
  - exists (S (S (tick w))). split; [lia | reflexivity].
Qed.

Lemma new_process_fresh buffer t0 w p :
  fst (Online.new_process buffer t0 w) = Some p -> fresh p.
Proof.
  intros H. destruct (new_process_at buffer t0 w) as (_ & _ & Hp).
  apply (Hp p H).
Qed.

Lemma SJF_body_at s w :
  let r := Online.SJF_body s w in
  let s' := state_of (fst r) in
  (exists u, pass_at (env w) (Online.sj_t0 s) PolSJF (tick w) (tick (snd r))
               (Online.sj_processList s) (Online.sj_processList s') u /\
             Online.sj_hashTable s' = observe (Online.sj_hashTable s) u) /\
  Online.sj_t0 s' = Online.sj_t0 s /\
  env (snd r) = env w.
Proof.
  unfold Online.SJF_body.
  assert (Hidle : forall b, (tick w <= b)%nat ->
            exists u, pass_at (env w) (Online.sj_t0 s) PolSJF (tick w) b
                        (Online.sj_processList s) (Online.sj_processList s) u /\
                      Online.sj_hashTable s = observe (Online.sj_hashTable s) u).
  { intros b Hb. exists None. split; [constructor; exact Hb | reflexivity]. }
  destruct (Online.sj_phase s).
  - unfold Online.readInput. run_os.
    destruct (os_stdin (env w) (tick w)) as [| | buffer]; cbn;
      try (split; [apply Hidle; lia | split; reflexivity]).
    unfold Online.SJF_ingest. run_os.
    destruct (new_process_at buffer (Online.sj_t0 s)
                (mkWorld (env w) (S (tick w))
                   (EvPoll (Input buffer) :: out w))) as (Henv & Hle & Hf).
    destruct (Online.new_process _ _ _) as [[p|] w1]; cbn in Henv, Hle, Hf |- *;
      [| split; [apply Hidle; lia | split; [reflexivity | exact Henv]]].
    destruct (Hf p eq_refl) as (Hfresh & n & Hn & Harr).
    unfold Online.malloc. run_os.
    split_ifs; (split; [| split; [reflexivity | exact Henv]]);
      try (apply Hidle; lia);
      exists None;
      (split; [apply (pass_at_arrival _ _ _ _ _ _ p n);
               [reflexivity | exact Hfresh | lia | exact Harr]
              | reflexivity]).
  - unfold Online.SJF_schedule.
    destruct (Online.sj_remainingProcesses s =? 0); cbn;
      [split; [apply Hidle; lia | split; reflexivity] |].
    pose proof (SJF_select_spec (Online.sj_hashTable s) (Online.sj_processList s)) as Hsel.
    destruct (fst (Online.SJF_select _ _)) as [i|]; cbn;
      [| split; [apply Hidle; lia | split; reflexivity]].
    destruct Hsel as (p & Hp & Hnt & _). rewrite Hp. run_os.
    destruct (executeProcess_at AsSJF p (Online.sj_t0 s) w) as [Hd Henv];
      [right; discriminate |].
    destruct (executeProcess p (Online.sj_t0 s) w) as [d w1]. cbn in Hd, Henv.
    pose proof (dispatch_at_le _ _ _ _ _ _ _ Hd) as Hle.
    cbn. destruct (os_waitpid _ _) as [result status]. cbn.
    destruct (result <? 0); cbn.
    + split; [| split; [reflexivity | exact Henv]].
      exists None. split; [| reflexivity].
      eapply (pass_at_visit _ _ _ _ _ _ _ _ _ _ false);
        [exact Hp | exact Hnt | exact Hd | constructor; lia].
    + destruct (exited_ok status); cbn; destruct (os_fopen _ _); cbn;
        rewrite Henv; (split; [| split; reflexivity]).
      1, 2: eexists; split;
        [eapply (pass_at_visit _ _ _ _ _ _ _ _ _ _ true);
         [exact Hp | exact Hnt | exact Hd | constructor; lia]
        | reflexivity].
      1, 2: eexists; split;
        [eapply (pass_at_visit _ _ _ _ _ _ _ _ _ _ false);
         [exact Hp | exact Hnt | exact Hd | constructor; lia]
        | reflexivity].
Qed.

(** *** The queues of the online [MultiLevelFeedbackQueue] *)

Lemma drain_app src : forall dst, drain src dst = dst ++ src.
Proof.
  induction src as [|x src IH]; intros dst; cbn.
  - symmetry. apply app_nil_r.
  - rewrite IH. unfold enqueue. rewrite <- app_assoc. reflexivity.
Qed.

Lemma queued_boost M : queued (boost M) = queued M.
Proof.
  unfold boost, queued. cbn. rewrite !drain_app, !app_nil_r, <- !app_assoc.
  reflexivity.
Qed.

Lemma queued_aget M i : queued M ≡ₚ aget M i ++ queued (aset M i []).
Proof.
  unfold queued. destruct i as [|[|i]]; cbn; rewrite ?app_nil_r; solve_Permutation.
Qed.

Lemma queued_aset M i q : queued (aset M i q) ≡ₚ q ++ queued (aset M i []).
Proof.
  unfold queued. destruct i as [|[|i]]; cbn; rewrite ?app_nil_r; solve_Permutation.
Qed.

Lemma aset_aset {A} (M : arr3 A) i x y : aset (aset M i x) i y = aset M i y.
Proof. destruct i as [|[|i]]; reflexivity. Qed.

Lemma aget_aset {A} (M : arr3 A) i x : aget (aset M i x) i = x.
Proof. destruct i as [|[|i]]; reflexivity. Qed.

(** Taking the head [x] of queue [i] leaves the other pointers. *)
Lemma queued_dequeue M i x q :
  dequeue (aget M i) = (Some x, q) -> queued M ≡ₚ x :: queued (aset M i q).
Proof.
  unfold dequeue. destruct (aget M i) as [|y rest] eqn:E; [discriminate |].
  intros [= -> ->]. rewrite (queued_aget M i), (queued_aset M i q), E.
  reflexivity.
Qed.

(** Putting [x] at the back of queue [j] adds it to the pointers. *)
Lemma queued_enqueue M j x :
  queued (aset M j (enqueue (aget M j) x)) ≡ₚ x :: queued M.
Proof.
  rewrite queued_aset, (queued_aget M j). unfold enqueue. solve_Permutation.
Qed.

Section QueuesOk.

Context (heap : list Process) (M1 : arr3 Queue) (x : nat) (r : Process).
Hypothesis Hfresh : x ∉ queued M1.
Hypothesis Hnodup : NoDup (queued M1).
Hypothesis Hvalid :
  forall y, y ∈ queued M1 -> exists p, heap !! y = Some p /\ terminal p = false.

(** The record at [x] may change when [x] has left the queues. *)
Lemma queues_ok_drop : queues_ok (<[x := r]> heap) M1.
Proof.
  split; [exact Hnodup |].
  intros y Hy. rewrite list_lookup_insert_ne; [auto |].
  intros ->. contradiction.
Qed.

(** [x] may go back to a queue when its record is still not terminal. *)
Lemma queues_ok_requeue M2 pr :
  heap !! x = Some pr -> terminal r = false ->
  queued M2 ≡ₚ x :: queued M1 ->
  queues_ok (<[x := r]> heap) M2.
Proof.
  intros Hx Hr Hperm. split.
  - rewrite Hperm. apply NoDup_cons. split; assumption.
  - intros y Hy. rewrite Hperm in Hy. apply elem_of_cons in Hy as [-> | Hy].
    + exists r. split; [| exact Hr].
      apply list_lookup_insert_eq. eapply lookup_lt_Some, Hx.
    + rewrite list_lookup_insert_ne; [auto |].
      intros ->. contradiction.
Qed.

End QueuesOk.


Lemma MLFQ_turn_at s w :
  queues_ok (Online.om_heap s) (Online.om_MLFQ s) ->
  let r := Online.MLFQ_turn s w in
  match fst r with
  | (heap', h', M', _) =>
      (exists u, pass_at (env w) (Online.om_t0 s) PolOnlineMLFQ (tick w)
                   (tick (snd r)) (Online.om_heap s) heap' u /\
                 h' = observe (Online.om_hashTable s) u) /\
      queues_ok heap' M'
  end /\ env (snd r) = env w.
Proof.
  intros Hok. unfold Online.MLFQ_turn.
  assert (Hidle : ((exists u, pass_at (env w) (Online.om_t0 s) PolOnlineMLFQ
                     (tick w) (tick w) (Online.om_heap s) (Online.om_heap s) u /\
                   Online.om_hashTable s = observe (Online.om_hashTable s) u) /\
                  queues_ok (Online.om_heap s) (Online.om_MLFQ s)) /\
                  env w = env w).
  { split; [split; [| exact Hok] | reflexivity].
    exists None. split; [constructor; lia | reflexivity]. }
  destruct (find _ _) as [i|]; [| exact Hidle].
  destruct (dequeue _) as [[x|] q] eqn:Hdq; [| exact Hidle].
  pose proof (queued_dequeue _ _ _ _ Hdq) as Hperm.
  destruct Hok as [Hnd Hval].
  rewrite Hperm in Hnd. apply NoDup_cons in Hnd as [Hx Hnd].
  assert (Hval1 : forall y, y ∈ queued (aset (Online.om_MLFQ s) i q) ->
            exists p, Online.om_heap s !! y = Some p /\ terminal p = false).
  { intros y Hy. apply Hval. rewrite Hperm. apply elem_of_cons. right. exact Hy. }
  destruct (Hval x) as (pr & Hpr & Hnt).
  { rewrite Hperm. apply elem_of_cons. left. reflexivity. }
  rewrite Hpr. run_os.
  destruct (dispatch_call_at pr (Online.om_t0 s) w Hnt) as [Hd Henv].
  destruct ((if negb (started pr) then executeProcess pr (Online.om_t0 s)
             else resumeProcess pr (Online.om_t0 s)) w) as [d w1].
  cbn in Hd, Henv.
  pose proof (dispatch_at_le _ _ _ _ _ _ _ Hd) as Hle.
  cbn. destruct (os_waitpid _ _) as [result status]. cbn.
  destruct (result <? 0); cbn.
  { split; [| exact Henv].
    split; [| apply queues_ok_drop; assumption].
    exists None. split; [| reflexivity].
    eapply (pass_at_visit _ _ _ _ _ _ _ _ _ _ false);
      [exact Hpr | exact Hnt | exact Hd | constructor; lia]. }
  destruct (result =? 0); cbn.
  - match goal with
    | |- context [pauseProcess d ?t ?w'] =>
        destruct (pauseProcess_at d t w') as [Hs Henv2];
        pose proof (pauseProcess_terminal d t w') as Ht;
        destruct (pauseProcess d t w') as [r w2]
    end.
    cbn in Hs, Ht, Henv2. rewrite Henv in Hs, Henv2.
    rewrite (dispatch_terminal _ _ _ (dispatch_at_dispatch _ _ _ _ _ _ _ Hd)), Hnt in Ht.
    cbn. split; [| exact Henv2]. split.
    + exists None. split; [| reflexivity].
      eapply (pass_at_visit _ _ _ _ _ _ _ _ _ _ false);
        [exact Hpr | exact Hnt | exact Hd |].
      eapply settle_at_widen; [exact Hs | lia | lia].
    + match goal with |- context [if ?b then _ else _] => destruct b end;
        eapply queues_ok_requeue; eauto; rewrite queued_enqueue; reflexivity.
  - destruct (exited_ok status); cbn; destruct (os_fopen _ _); cbn;
      rewrite Henv; (split; [| reflexivity]);
      (split; [| apply queues_ok_drop; assumption]).
    1, 2: eexists; split;
      [eapply (pass_at_visit _ _ _ _ _ _ _ _ _ _ true);
       [exact Hpr | exact Hnt | exact Hd | constructor; lia]
      | reflexivity].
    1, 2: eexists; split;
      [eapply (pass_at_visit _ _ _ _ _ _ _ _ _ _ false);
       [exact Hpr | exact Hnt | exact Hd | constructor; lia]
      | reflexivity].
Qed.

Lemma queues_ok_boost heap M : queues_ok heap M -> queues_ok heap (boost M).
Proof. unfold queues_ok. rewrite queued_boost. trivial. Qed.

Lemma queues_ok_arrival heap M j p :
  queues_ok heap M -> terminal p = false ->
  queues_ok (heap ++ [p]) (aset M j (enqueue (aget M j) (length heap))).
Proof.
  intros [Hnd Hval] Hp. split.
  - rewrite queued_enqueue. apply NoDup_cons. split; [| exact Hnd].
    intros Hin. destruct (Hval _ Hin) as (q & Hq & _).
    apply lookup_lt_Some in Hq. lia.
  - intros y Hy. rewrite queued_enqueue in Hy.
    apply elem_of_cons in Hy as [-> | Hy].
    + exists p. split; [| exact Hp]. apply list_lookup_middle. reflexivity.
    + destruct (Hval _ Hy) as (q & Hq & Hnt). exists q. split; [| exact Hnt].
      rewrite lookup_app_l; [exact Hq |]. eapply lookup_lt_Some, Hq.
Qed.

Lemma fresh_terminal p : fresh p -> terminal p = false.
Proof. intros (Hf & He & _). unfold terminal. rewrite Hf, He. reflexivity. Qed.


Lemma MLFQ_online_body_at s w :
  MLFQ_online_inv s ->
  let r := Online.MLFQ_body s w in
  let s' := state_of (fst r) in
  (exists u, pass_at (env w) (Online.om_t0 s) PolOnlineMLFQ (tick w) (tick (snd r))
               (Online.om_heap s) (Online.om_heap s') u /\
             Online.om_hashTable s' = observe (Online.om_hashTable s) u) /\
  MLFQ_online_inv s' /\ Online.om_t0 s' = Online.om_t0 s /\
  env (snd r) = env w.
Proof.
  intros Hok. unfold Online.MLFQ_body, MLFQ_online_inv in *.
  assert (Hidle : forall b, (tick w <= b)%nat ->
            exists u, pass_at (env w) (Online.om_t0 s) PolOnlineMLFQ (tick w) b
                        (Online.om_heap s) (Online.om_heap s) u /\
                      Online.om_hashTable s = observe (Online.om_hashTable s) u).
  { intros b Hb. exists None. split; [constructor; exact Hb | reflexivity]. }
  destruct (Online.om_phase s).
  - unfold Online.readInput. run_os.
    destruct (os_stdin (env w) (tick w)) as [| | buffer]; cbn;
      try (split; [apply Hidle; lia | split; [exact Hok | split; reflexivity]]).
    unfold Online.MLFQ_ingest. run_os.
    destruct (new_process_at buffer (Online.om_t0 s)
                (mkWorld (env w) (S (tick w))
                   (EvPoll (Input buffer) :: out w))) as (Henv & Hle & Hf).
    destruct (Online.new_process _ _ _) as [[p|] w1]; cbn in Henv, Hle, Hf |- *;
      [| split; [apply Hidle; lia | split; [exact Hok | split; [reflexivity | exact Henv]]]].
    destruct (Hf p eq_refl) as (Hfresh & n & Hn & Harr).
    split; [| split; [| split; [reflexivity | exact Henv]]].
    + exists None. split; [| reflexivity].
      apply (pass_at_arrival _ _ _ _ _ _ p n);
        [reflexivity | exact Hfresh | lia | exact Harr].
    + apply queues_ok_arrival; [exact Hok | apply fresh_terminal, Hfresh].
  - unfold Online.MLFQ_schedule.
    destruct (Online.om_remainingProcesses s =? 0); cbn;
      [split; [apply Hidle; lia | split; [exact Hok | split; reflexivity]] |].
    run_os. destruct (MLFQ_turn_at s w Hok) as [Hturn Henv].
    destruct (Online.MLFQ_turn s w) as [[[[heap' h'] M'] rem'] w1].
    cbn in Hturn, Henv. destruct Hturn as [(u & Hpass & Hobs) Hok']. cbn.
    assert (Hwide : forall b, (tick w1 <= b)%nat ->
              exists u, pass_at (env w) (Online.om_t0 s) PolOnlineMLFQ
                          (tick w) b (Online.om_heap s) heap' u /\
                        h' = observe (Online.om_hashTable s) u).
    { intros b Hb. exists u. split; [| exact Hobs].
      eapply pass_at_widen; [exact Hpass | exact Hb]. }
    destruct (_ >=? _); cbn;
      (split; [apply Hwide; lia | split; [| split; [reflexivity | exact Henv]]]).
    + apply queues_ok_boost, Hok'.
    + exact Hok'.
Qed.

(** *** Without the clock readings *)

Lemma FCFS_body_pass s w :
  FCFS_inv s ->
  (exists u, pass (Offline.fc_t0 s) PolFCFS (Offline.fc_p s)
               (Offline.fc_p (state_of (fst (Offline.FCFS_body s w)))) u) /\
  FCFS_inv (state_of (fst (Offline.FCFS_body s w))) /\
  Offline.fc_t0 (state_of (fst (Offline.FCFS_body s w))) = Offline.fc_t0 s.
Proof.
  intros H. destruct (FCFS_body_at s w H) as ((u & Hu) & Hi & Ht & _).
  split; [| split; assumption].
  exists u. eapply pass_at_pass, Hu.
Qed.

Lemma RR_body_pass s w :
  (exists u, pass (Offline.rr_t0 s) PolRR (Offline.rr_p s)
               (Offline.rr_p (state_of (fst (Offline.RR_body s w)))) u) /\
  Offline.rr_t0 (state_of (fst (Offline.RR_body s w))) = Offline.rr_t0 s.
Proof.
  destruct (RR_body_at s w) as ((u & Hu) & Ht & _).
  split; [| assumption].
  exists u. eapply pass_at_pass, Hu.
Qed.

Lemma MLFQ_offline_body_pass s w :
  (exists u, pass (Offline.mq_t0 s) PolMLFQ (Offline.mq_p s)
               (Offline.mq_p (state_of (fst (Offline.MLFQ_body s w)))) u) /\
  Offline.mq_t0 (state_of (fst (Offline.MLFQ_body s w))) = Offline.mq_t0 s.
Proof.
  destruct (MLFQ_offline_body_at s w) as ((u & Hu) & Ht & _).
  split; [| assumption].
  exists u. eapply pass_at_pass, Hu.
Qed.

Lemma SJF_body_pass s w :
  let s' := state_of (fst (Online.SJF_body s w)) in
  (exists u, pass (Online.sj_t0 s) PolSJF (Online.sj_processList s)
               (Online.sj_processList s') u /\
             Online.sj_hashTable s' = observe (Online.sj_hashTable s) u) /\
  Online.sj_t0 s' = Online.sj_t0 s.
Proof.
  destruct (SJF_body_at s w) as ((u & Hu & Ho) & Ht & _).
  split; [| assumption].
  exists u. split; [eapply pass_at_pass, Hu | exact Ho].
Qed.

Lemma MLFQ_online_body_pass s w :
  MLFQ_online_inv s ->
  let s' := state_of (fst (Online.MLFQ_body s w)) in
  (exists u, pass (Online.om_t0 s) PolOnlineMLFQ (Online.om_heap s) (Online.om_heap s') u /\
             Online.om_hashTable s' = observe (Online.om_hashTable s) u) /\
  MLFQ_online_inv s' /\ Online.om_t0 s' = Online.om_t0 s.
Proof.
  intros H. destruct (MLFQ_online_body_at s w H) as ((u & Hu & Ho) & Hi & Ht & _).
  split; [| split; assumption].
  exists u. split; [eapply pass_at_pass, Hu | exact Ho].
Qed.

(** ** Runs *)

Section Runs.

Context {S : Type} (init : M (ctl S)) (body : S -> M (ctl S)).

Lemma iterate_succ k s w :
  iterate body (Datatypes.S k) s w =
  match iterate body k s w with
  | (Next s', w') => body s' w'
  | (Exit s', w') => (Exit s', w')
  end.
Proof.
  cbn [iterate]. unfold bind. destruct (iterate body k s w) as [[s'|s'] w']; reflexivity.
Qed.

Lemma iterate_keeps (J : S -> Prop) :
  (forall s w, J s -> J (state_of (fst (body s w)))) ->
  forall k s w, J s -> J (state_of (fst (iterate body k s w))).
Proof.
  intros Hbody k. induction k as [|k IH]; intros s w Hs; [exact Hs |].
  rewrite iterate_succ. specialize (IH s w Hs).
  destruct (iterate body k s w) as [[s'|s'] w']; cbn in *; auto.
Qed.

Lemma run_keeps (J : S -> Prop) :
  (forall w, J (state_of (fst (init w)))) ->
  (forall s w, J s -> J (state_of (fst (body s w)))) ->
  forall k w, J (state_of (fst (run init body k w))).
Proof.
  intros Hinit Hbody k w. unfold run, bind. specialize (Hinit w).
  destruct (init w) as [[s|s] w1]; cbn in *; [| exact Hinit].
  apply iterate_keeps; assumption.
Qed.

(** A relation between the states before and after each pass relates the
    state after [k] passes and the state after [k + 1]. *)
Lemma run_next (J : S -> Prop) (R : S -> S -> Prop) :
  (forall s, R s s) ->
  (forall w, J (state_of (fst (init w)))) ->
  (forall s w, J s -> J (state_of (fst (body s w)))) ->
  (forall s w, J s -> R s (state_of (fst (body s w)))) ->
  forall k w, R (state_of (fst (run init body k w)))
                (state_of (fst (run init body (Datatypes.S k) w))).
Proof.
  intros Hrefl Hinit Hbody Hstep k w. unfold run, bind. specialize (Hinit w).
  destruct (init w) as [[s|s] w1]; cbn -[iterate] in *; [| apply Hrefl].
  rewrite iterate_succ.
  pose proof (iterate_keeps J Hbody k s w1 Hinit) as Hk.
  destruct (iterate body k s w1) as [[s'|s'] w']; cbn in *; auto.
Qed.

End Runs.

(** A scheduler whose passes are [pass]es of a policy. *)
Section Policy.

Context {S : Type} (pol : policy) (init : M (ctl S)) (body : S -> M (ctl S))
  (table : S -> list Process) (t0 : S -> Z) (Inv : S -> Prop).

Hypothesis init_inv : forall w, Inv (state_of (fst (init w))).
Hypothesis body_pass : forall s w, Inv s ->
  (exists u, pass (t0 s) pol (table s) (table (state_of (fst (body s w)))) u) /\
  Inv (state_of (fst (body s w))).

(** A property of tables that every pass keeps holds after any number of
    passes. *)
Lemma table_always (T : list Process -> Prop) :
  (forall t0 t t' u, pass t0 pol t t' u -> T t -> T t') ->
  (forall w, T (table (state_of (fst (init w))))) ->
  forall k w, T (table (state_of (fst (run init body k w)))).
Proof.
  intros Hpass Hinit k w.
  apply (run_keeps init body (fun s => Inv s /\ T (table s))).
  - intros w'. split; [apply init_inv | apply Hinit].
  - intros s w' [Hs HT]. destruct (body_pass s w' Hs) as [[u Hu] Hs'].
    split; [exact Hs' | eapply Hpass; eauto].
Qed.

(** A relation that every pass establishes between the table before and
    the table after holds between consecutive tables of a run. *)
Lemma table_next (R : list Process -> list Process -> Prop) :
  (forall t, R t t) ->
  (forall t0 t t' u, pass t0 pol t t' u -> R t t') ->
  forall k w, R (table (state_of (fst (run init body k w))))
                (table (state_of (fst (run init body (Datatypes.S k) w)))).
Proof.
  intros Hrefl Hpass k w.
  apply (run_next init body Inv (fun s s' => R (table s) (table s'))).
  - intros s. apply Hrefl.
  - apply init_inv.
  - intros s w' Hs. apply (body_pass s w' Hs).
  - intros s w' Hs. destruct (body_pass s w' Hs) as [[u Hu] _].
    eapply Hpass, Hu.
Qed.

(** The same for a table and any later one, when the relation is
    transitive. *)
Lemma table_later (R : list Process -> list Process -> Prop) :
  (forall t, R t t) ->
  (forall t1 t2 t3, R t1 t2 -> R t2 t3 -> R t1 t3) ->
  (forall t0 t t' u, pass t0 pol t t' u -> R t t') ->
  forall k n w, R (table (state_of (fst (run init body k w))))
                  (table (state_of (fst (run init body (k + n) w)))).
Proof.
  intros Hrefl Htrans Hpass k n w. induction n as [|n IH].
  - rewrite Nat.add_0_r. apply Hrefl.
  - rewrite Nat.add_succ_r. eapply Htrans; [exact IH |].
    apply table_next; assumption.
Qed.

End Policy.

(** *** The five schedulers as policies *)

Lemma initializeProcess_idle p :
  Forall (fun q => q = idle_record (command q)) (Offline.initializeProcess p).
Proof. induction p as [|q p IH]; constructor; [reflexivity | exact IH]. Qed.

Lemma FCFS_init_inv p w : FCFS_inv (state_of (fst (Offline.FCFS_init p w))).
Proof.
  unfold Offline.FCFS_init. run_os. cbn. destruct (os_fopen _ _); cbn;
    intros j q _ Hq; cbn in Hq;
    apply (Forall_lookup_1 _ _ _ _ (initializeProcess_idle p)) in Hq;
    rewrite Hq; reflexivity.
Qed.

Lemma FCFS_policy s w :
  FCFS_inv s ->
  (exists u, pass (Offline.fc_t0 s) PolFCFS (Offline.fc_p s)
               (Offline.fc_p (state_of (fst (Offline.FCFS_body s w)))) u) /\
  FCFS_inv (state_of (fst (Offline.FCFS_body s w))).
Proof. intros H. destruct (FCFS_body_pass s w H) as (Hp & Hi & _). auto. Qed.

Lemma RR_policy s w :
  True ->
  (exists u, pass (Offline.rr_t0 s) PolRR (Offline.rr_p s)
               (Offline.rr_p (state_of (fst (Offline.RR_body s w)))) u) /\ True.
Proof. intros _. destruct (RR_body_pass s w) as (Hp & _). auto. Qed.

Lemma MLFQ_policy s w :
  True ->
  (exists u, pass (Offline.mq_t0 s) PolMLFQ (Offline.mq_p s)
               (Offline.mq_p (state_of (fst (Offline.MLFQ_body s w)))) u) /\ True.
Proof. intros _. destruct (MLFQ_offline_body_pass s w) as (Hp & _). auto. Qed.

Lemma SJF_policy s w :
  True ->
  (exists u, pass (Online.sj_t0 s) PolSJF (Online.sj_processList s)
               (Online.sj_processList (state_of (fst (Online.SJF_body s w)))) u) /\
  True.
Proof.
  intros _. destruct (SJF_body_pass s w) as ((u & Hp & _) & _). eauto.
Qed.

Lemma OnlineMLFQ_init_inv q0 q1 q2 bt w :
  MLFQ_online_inv (state_of (fst (Online.MLFQ_init q0 q1 q2 bt w))).
Proof.
  unfold Online.MLFQ_init. run_os. cbn. destruct (os_fopen _ _); cbn;
    (split; [constructor | intros x Hx; inversion Hx]).
Qed.

Lemma OnlineMLFQ_policy s w :
  MLFQ_online_inv s ->
  (exists u, pass (Online.om_t0 s) PolOnlineMLFQ (Online.om_heap s)
               (Online.om_heap (state_of (fst (Online.MLFQ_body s w)))) u) /\
  MLFQ_online_inv (state_of (fst (Online.MLFQ_body s w))).
Proof.
  intros H. destruct (MLFQ_online_body_pass s w H) as ((u & Hp & _) & Hi & _).
  eauto.
Qed.

(** The tables the schedulers start from. *)
Lemma FCFS_init_table p w :
  Offline.fc_p (state_of (fst (Offline.FCFS_init p w))) = Offline.initializeProcess p.
Proof. unfold Offline.FCFS_init. run_os. cbn. destruct (os_fopen _ _); reflexivity. Qed.

Lemma RR_init_table p quantum w :
  Offline.rr_p (state_of (fst (Offline.RR_init p quantum w)))
    = Offline.initializeProcess p.
Proof. unfold Offline.RR_init. run_os. cbn. destruct (os_fopen _ _); reflexivity. Qed.

Lemma MLFQ_init_table p q0 q1 q2 bt w :
  Offline.mq_p (state_of (fst (Offline.MLFQ_init p q0 q1 q2 bt w)))
    = Offline.initializeProcess p.
Proof. unfold Offline.MLFQ_init. run_os. cbn. destruct (os_fopen _ _); reflexivity. Qed.

Lemma SJF_init_table w :
  Online.sj_processList (state_of (fst (Online.SJF_init w))) = [].
Proof.
  unfold Online.SJF_init, Online.malloc. run_os. cbn.
  destruct (os_fopen _ _); cbn; destruct (os_malloc _ _); reflexivity.
Qed.

Lemma OnlineMLFQ_init_table q0 q1 q2 bt w :
  Online.om_heap (state_of (fst (Online.MLFQ_init q0 q1 q2 bt w))) = [].
Proof. unfold Online.MLFQ_init. run_os. cbn. destruct (os_fopen _ _); reflexivity. Qed.

Lemma tables_always (T : policy -> list Process -> Prop) :
  (forall pol t0 t t' u, pass t0 pol t t' u -> T pol t -> T pol t') ->
  (forall c, T (policy_of c) (table_at_start c)) ->
  forall c k w, T (policy_of c) (table_after c k w).
Proof.
  intros Hpass Hstart [p | p quantum | p q0 q1 q2 bt | | q0 q1 q2 bt] k w; cbn.
  - apply (table_always PolFCFS _ _ Offline.fc_p Offline.fc_t0 FCFS_inv
             (FCFS_init_inv p) FCFS_policy (T PolFCFS)); [apply Hpass |].
    intros w'. rewrite FCFS_init_table. apply (Hstart (CfgFCFS p)).
  - apply (table_always PolRR _ _ Offline.rr_p Offline.rr_t0 (fun _ => True)
             (fun _ => I) RR_policy (T PolRR)); [apply Hpass |].
    intros w'. rewrite RR_init_table. apply (Hstart (CfgRR p quantum)).
  - apply (table_always PolMLFQ _ _ Offline.mq_p Offline.mq_t0 (fun _ => True)
             (fun _ => I) MLFQ_policy (T PolMLFQ)); [apply Hpass |].
    intros w'. rewrite MLFQ_init_table. apply (Hstart (CfgMLFQ p q0 q1 q2 bt)).
  - apply (table_always PolSJF _ _ Online.sj_processList Online.sj_t0
             (fun _ => True) (fun _ => I) SJF_policy (T PolSJF)); [apply Hpass |].
    intros w'. rewrite SJF_init_table. apply (Hstart CfgSJF).
  - apply (table_always PolOnlineMLFQ _ _ Online.om_heap Online.om_t0
             MLFQ_online_inv (OnlineMLFQ_init_inv q0 q1 q2 bt) OnlineMLFQ_policy
             (T PolOnlineMLFQ)); [apply Hpass |].
    intros w'. rewrite OnlineMLFQ_init_table.
    apply (Hstart (CfgOnlineMLFQ q0 q1 q2 bt)).
Qed.

Lemma tables_later (R : list Process -> list Process -> Prop) :
  (forall t, R t t) ->
  (forall t1 t2 t3, R t1 t2 -> R t2 t3 -> R t1 t3) ->
  (forall pol t0 t t' u, pass t0 pol t t' u -> R t t') ->
  forall c k n w, R (table_after c k w) (table_after c (k + n) w).
Proof.
  intros Hrefl Htrans Hpass [p | p quantum | p q0 q1 q2 bt | | q0 q1 q2 bt] k n w;
    cbn.
  - apply (table_later PolFCFS _ _ Offline.fc_p Offline.fc_t0 FCFS_inv
             (FCFS_init_inv p) FCFS_policy R Hrefl Htrans (Hpass PolFCFS)).
  - apply (table_later PolRR _ _ Offline.rr_p Offline.rr_t0 (fun _ => True)
             (fun _ => I) RR_policy R Hrefl Htrans (Hpass PolRR)).
  - apply (table_later PolMLFQ _ _ Offline.mq_p Offline.mq_t0 (fun _ => True)
             (fun _ => I) MLFQ_policy R Hrefl Htrans (Hpass PolMLFQ)).
  - apply (table_later PolSJF _ _ Online.sj_processList Online.sj_t0
             (fun _ => True) (fun _ => I) SJF_policy R Hrefl Htrans (Hpass PolSJF)).
  - apply (table_later PolOnlineMLFQ _ _ Online.om_heap Online.om_t0
             MLFQ_online_inv (OnlineMLFQ_init_inv q0 q1 q2 bt) OnlineMLFQ_policy
             R Hrefl Htrans (Hpass PolOnlineMLFQ)).
Qed.

(** ** C7: the two terminal flags *)

Lemma visit_flags t0 st p d q b :
  terminal p = false -> dispatch t0 p d -> settle t0 st d q b ->
  finished q && error q = false.
Proof.
  unfold terminal. intros Hp Hd Hs.
  apply orb_false_elim in Hp as [Hf He].
  revert Hs. destruct Hd; intros Hs; inversion Hs; subst; cbn;
    rewrite ?Hf, ?He; reflexivity.
Qed.

Lemma pass_flags pol t0 t t' u :
  pass t0 pol t t' u -> flags_exclusive t -> flags_exclusive t'.
Proof.
  unfold flags_exclusive. intros [| p _ Hp | i p d q b Hi Hnt Hd Hs] Ht.
  - exact Ht.
  - apply Forall_app. split; [exact Ht |]. constructor; [| constructor].
    destruct Hp as (-> & _). reflexivity.
  - apply Forall_insert; [exact Ht |]. eapply visit_flags; eauto.
Qed.

Lemma pass_frozen pol t0 t t' u : pass t0 pol t t' u -> frozen t t'.
Proof.
  intros [| p _ Hp | i p d q b Hi Hnt Hd Hs] j r Hj Hr.
  - exact Hj.
  - rewrite lookup_app_l; [exact Hj | eapply lookup_lt_Some, Hj].
  - rewrite list_lookup_insert_ne; [exact Hj |].
    intros ->. congruence.
Qed.

Lemma frozen_refl t : frozen t t.
Proof. intros i p Hi _. exact Hi. Qed.

Lemma frozen_trans t1 t2 t3 : frozen t1 t2 -> frozen t2 t3 -> frozen t1 t3.
Proof. intros H12 H23 i p Hi Hp. apply H23, Hp. apply H12; assumption. Qed.

Lemma table_at_start_idle c :
  Forall (fun q => q = idle_record (command q)) (table_at_start c).
Proof. destruct c; cbn; try apply initializeProcess_idle; constructor. Qed.

(** C7. Under each of the five schedulers, after any number [k] of passes
    no record of the process table has both its finished and its error
    flag set, and every record that is terminal after [k] passes is the
    very same record (flags and all other fields) after any later number
    [k + n] of passes. *)
Theorem flags_exclusive_and_final (c : config) (k n : nat) (w : World) :
  flags_exclusive (table_after c k w) /\
  frozen (table_after c k w) (table_after c (k + n) w).
Proof.
  split.
  - apply (tables_always (fun _ => flags_exclusive)).
    + intros pol t0 t t' u. apply pass_flags.
    + intros c'. eapply Forall_impl; [apply table_at_start_idle |].
      intros q ->. reflexivity.
  - apply (tables_later frozen frozen_refl frozen_trans).
    intros pol t0 t t' u. apply pass_frozen.
Qed.

(** ** C1: the metrics of terminal records *)

Ltac u64_bounds :=
  repeat match goal with
         | |- context [u64 ?z] =>
             lazymatch goal with
             | _ : 0 <= u64 z < 2 ^ 64 |- _ => fail
             | _ => pose proof (u64_range z)
             end
         end.

Lemma visit_metrics t0 st p d q b :
  terminal p = false -> metrics_nonneg p ->
  dispatch t0 p d -> settle t0 st d q b -> metrics_settled q.
Proof.
  unfold terminal, metrics_settled, metrics_closed, metrics_nonneg.
  intros Hp (Hb & Ht & Hw & Hr) Hd Hs.
  apply orb_false_elim in Hp as [Hf He].
  revert Hs. destruct Hd; intros Hs; inversion Hs; subst; cbn;
    rewrite ?Hf, ?He;
    (split; [intros; try discriminate; repeat split; reflexivity |]);
    (split; [intros; try discriminate; reflexivity |]);
    u64_bounds; repeat split; lia.
Qed.

Lemma pass_metrics pol t0 t t' u :
  pass t0 pol t t' u -> Forall metrics_settled t -> Forall metrics_settled t'.
Proof.
  intros [| p _ Hp | i p d q b Hi Hnt Hd Hs] Ht.
  - exact Ht.
  - apply Forall_app. split; [exact Ht |]. constructor; [| constructor].
    destruct Hp as (Hf & He & _ & Hb & Htu & Hw & Hr & _).
    unfold metrics_settled, metrics_nonneg. rewrite Hf, He, Hb, Htu, Hw, Hr.
    repeat split; try discriminate; lia.
  - apply Forall_insert; [exact Ht |].
    eapply visit_metrics; eauto.
    apply (Forall_lookup_1 _ _ _ _ Ht Hi).
Qed.

(** *** No wrap-around under a steady clock *)

(** Reductions modulo 2^64 that do nothing are dropped, innermost first. *)
Ltac u64_exact :=
  repeat match goal with
         | |- context [u64 ?z] =>
             lazymatch z with
             | context [u64 _] => fail
             | _ => rewrite (u64_small z) by lia
             end
         end.

(** Premises that are decided are discharged or dropped. *)
Ltac settle_premises :=
  repeat match goal with
         | H : ?x = ?x -> _ |- _ => specialize (H eq_refl)
         | H : true = false -> _ |- _ => clear H
         | H : false = true -> _ |- _ => clear H
         | H : _ /\ _ |- _ => destruct H
         end.

Ltac timely_fields :=
  unfold timely, metrics_exact in *;
  lazy [terminal launched resumed paused finished_FCFS finished_SJF finished_RR
       error_FCFS error_RR orb
       set_command set_finished set_error set_started set_arrival_time
       set_start_time set_context_start_time set_context_end_time
       set_completion_time set_burst_time set_turnaround_time
       set_waiting_time set_response_time set_process_id
       command finished error started arrival_time start_time
       context_start_time context_end_time completion_time burst_time
       turnaround_time waiting_time response_time process_id] in *.

Lemma timely_mono st B B' p : B <= B' -> timely st B p -> timely st B' p.
Proof.
  unfold timely. intros HB (Ha & Hb & Hz & Hs).
  split; [lia | split; [exact Hb | split; [exact Hz |]]].
  intros E. destruct (Hs E) as (H1 & H2 & H3 & H4 & H5).
  split; [exact H1 | split; [exact H2 | split; [lia | split; [| exact H5]]]].
  intros Hnt. destruct (H4 Hnt) as [H | [H H']]; [left; exact H | right].
  split; [lia | exact H'].
Qed.

Lemma timely_exact st B p : timely st B p -> exact_when_run p.
Proof. intros (_ & _ & _ & Hs) E. apply (Hs E). Qed.

Lemma dispatch_timely os t0 st a m p d :
  steady_clock os -> 0 <= t0 <= os_clock os a ->
  terminal p = false -> timely st (os_clock os a - t0) p ->
  dispatch_at os t0 st a m p d ->
  timely st (os_clock os m - t0) d /\ terminal d = false /\
  (started d = true -> burst_time d <= context_start_time d - start_time d).
Proof.
  intros [Hmono Hfit] Ht0 Hnt Hp Hd.
  destruct Hd as [Hle Hst | c n Hn Hst | n Hn Hst].
  - pose proof (Hmono a m Hle) as Hc1.
    split; [apply (timely_mono st (os_clock os a - t0)); [lia | exact Hp] |].
    split; [exact Hnt |].
    destruct Hp as (Ha & Hb & Hz & Hs). intros E.
    destruct (Hs E) as (H1 & H2 & H3 & H4 & H5).
    destruct Hst as [Hst | Hst]; [congruence |].
    rewrite (Hz Hnt (or_intror Hst)). lia.
  - pose proof (Hmono a n ltac:(lia)) as Hc1.
    pose proof (Hmono n m ltac:(lia)) as Hc2.
    pose proof (Hfit n) as Hc3. pose proof (Hfit a) as Hc4.
    destruct Hp as (Ha & Hb & Hz & Hs).
    specialize (Hz Hnt Hst). clear Hs Hst.
    destruct p. timely_fields. subst.
    apply orb_false_elim in Hnt as [-> ->]. u64_exact.
    split; [| split; [reflexivity | lia]].
    split; [lia | split; [lia | split; [intros _ [E | E]; [discriminate | reflexivity] |]]].
    intros _.
    split; [lia | split; [lia | split; [lia | split; [| split; discriminate]]]].
    intros _. left. lia.
  - pose proof (Hmono a n ltac:(lia)) as Hc1.
    pose proof (Hmono n m ltac:(lia)) as Hc2.
    pose proof (Hfit n) as Hc3. pose proof (Hfit a) as Hc4.
    destruct Hp as (Ha & Hb & Hz & Hs).
    destruct (Hs Hst) as (H1 & H2 & H3 & H4 & H5).
    specialize (H4 Hnt). clear Hs.
    destruct p. timely_fields. subst.
    apply orb_false_elim in Hnt as [-> ->]. u64_exact.
    split; [| split; [reflexivity | lia]].
    split; [lia | split; [lia | split; [intros _; apply Hz; reflexivity |]]].
    intros _.
    split; [lia | split; [lia | split; [lia | split; [| split; discriminate]]]].
    intros _. left. lia.
Qed.

Lemma settle_timely os t0 st m b d q flag :
  steady_clock os -> 0 <= t0 <= os_clock os m ->
  terminal d = false -> timely st (os_clock os m - t0) d ->
  (started d = true -> burst_time d <= context_start_time d - start_time d) ->
  settle_at os t0 m b st d q flag ->
  timely st (os_clock os b - t0) q.
Proof.
  intros [Hmono Hfit] Ht0 Hnt Hp Hrun Hs.
  destruct Hs as [st d Hle | d n Hn Hst | d n Hn | d n Hn | d n Hn
                 | d n Hn | d n Hn | d n Hn].
  1: { pose proof (Hmono m b Hle) as Hc1.
       apply (timely_mono st (os_clock os m - t0)); [lia | exact Hp]. }
  all: pose proof (Hmono m n ltac:(lia)) as Hc1;
    pose proof (Hmono n b ltac:(lia)) as Hc2;
    pose proof (Hfit n) as Hc3; pose proof (Hfit m) as Hc4;
    destruct Hp as (Ha & Hb & Hz & Hs);
    specialize (Hz Hnt);
    destruct d as [? ? ? sta ? ? ? ? ? ? ? ? ? ?];
    unfold terminal in Hnt; cbn in Hnt;
    apply orb_false_elim in Hnt as [-> ->];
    timely_fields; destruct sta; settle_premises; try discriminate.
  all: try match type of Hz with
           | false = false \/ _ -> _ => specialize (Hz (or_introl eq_refl))
           | _ \/ ?P -> _ =>
               let Hne := fresh in
               assert (Hne : P) by discriminate; specialize (Hz (or_intror Hne))
           end.
  all: subst; u64_exact; u64_bounds.
  all: repeat split; intros; try discriminate; try lia.
  match goal with
  | H : true = false \/ ?x <> ?x |- _ =>
      destruct H as [H | H]; [discriminate H | exfalso; apply H; reflexivity]
  end.
Qed.

Lemma pass_timely os t0 pol a b t t' u :
  steady_clock os -> 0 <= t0 <= os_clock os a ->
  pass_at os t0 pol a b t t' u ->
  Forall (timely (style_of pol) (os_clock os a - t0)) t ->
  Forall (timely (style_of pol) (os_clock os b - t0)) t'.
Proof.
  intros Hos Ht0 Hpass Ht.
  assert (Hab : os_clock os a <= os_clock os b).
  { apply Hos. eapply pass_at_le, Hpass. }
  assert (Hlater : Forall (timely (style_of pol) (os_clock os b - t0)) t).
  { eapply Forall_impl; [exact Ht |].
    intros p. apply timely_mono. lia. }
  destruct Hpass as [Hle | p n Hon Hp Hn Harr | i p d q flag m Hi Hnt Hd Hs].
  - exact Hlater.
  - apply Forall_app. split; [exact Hlater |].
    constructor; [| constructor].
    destruct Hos as [Hmono Hfit].
    pose proof (Hmono a n ltac:(lia)) as Hc1.
    pose proof (Hmono n b ltac:(lia)) as Hc2.
    pose proof (Hfit n) as Hc3.
    rewrite (u64_small (os_clock os n)) in Harr by lia.
    rewrite (u64_small (os_clock os n - t0)) in Harr by lia.
    destruct Hp as (Hf & He & Hst & Hb & _).
    unfold timely, terminal. rewrite Hf, He, Hst, Hb, Harr.
    repeat split; try lia; discriminate.
  - apply Forall_insert; [exact Hlater |].
    pose proof (Forall_lookup_1 _ _ _ _ Ht Hi) as Hp.
    destruct (dispatch_timely os t0 _ a m p d Hos Ht0 Hnt Hp Hd)
      as (Hd1 & Hd2 & Hd3).
    eapply settle_timely; [exact Hos | | exact Hd2 | exact Hd1 | exact Hd3 | exact Hs].
    split; [lia |]. transitivity (os_clock os a); [lia |].
    apply Hos. eapply dispatch_at_le, Hd.
Qed.

(** *** Runs, with the world *)

Section RunsAt.

Context {S : Type} (init : M (ctl S)) (body : S -> M (ctl S)).

Lemma iterate_keeps_at (J : S -> World -> Prop) :
  (forall s w, J s w -> J (state_of (fst (body s w))) (snd (body s w))) ->
  forall k s w, J s w ->
    J (state_of (fst (iterate body k s w))) (snd (iterate body k s w)).
Proof.
  intros Hbody k. induction k as [|k IH]; intros s w Hs; [exact Hs |].
  rewrite iterate_succ. specialize (IH s w Hs).
  destruct (iterate body k s w) as [[s'|s'] w']; cbn in *; auto.
Qed.

Lemma run_keeps_at (P : World -> Prop) (J : S -> World -> Prop) :
  (forall w, P w -> J (state_of (fst (init w))) (snd (init w))) ->
  (forall s w, J s w -> J (state_of (fst (body s w))) (snd (body s w))) ->
  forall k w, P w ->
    J (state_of (fst (run init body k w))) (snd (run init body k w)).
Proof.
  intros Hinit Hbody k w Hw. unfold run, bind. specialize (Hinit w Hw).
  destruct (init w) as [[s|s] w1]; cbn in *; [| exact Hinit].
  apply iterate_keeps_at; assumption.
Qed.

End RunsAt.

(** A scheduler whose passes are [pass_at]es of a policy, and which reads
    [t0] from the clock before its first pass. *)
Section Clocked.

Context {S : Type} (pol : policy) (init : M (ctl S)) (body : S -> M (ctl S))
  (table : S -> list Process) (t0 : S -> Z) (Inv : S -> Prop).

Hypothesis init_at : forall w,
  Inv (state_of (fst (init w))) /\ env (snd (init w)) = env w /\
  exists n, (n <= tick (snd (init w)))%nat /\
    t0 (state_of (fst (init w))) = u64 (os_clock (env w) n).
Hypothesis body_at : forall s w, Inv s ->
  (exists u, pass_at (env w) (t0 s) pol (tick w) (tick (snd (body s w)))
               (table s) (table (state_of (fst (body s w)))) u) /\
  Inv (state_of (fst (body s w))) /\
  t0 (state_of (fst (body s w))) = t0 s /\
  env (snd (body s w)) = env w.

(** A property of tables and elapsed times that every pass keeps, under a
    steady clock, holds after any number of passes. *)
Lemma clocked_always (T : Z -> list Process -> Prop) :
  (forall os t0 a b t t' u,
     steady_clock os -> 0 <= t0 <= os_clock os a ->
     pass_at os t0 pol a b t t' u ->
     T (os_clock os a - t0) t -> T (os_clock os b - t0) t') ->
  (forall w B, 0 <= B -> T B (table (state_of (fst (init w))))) ->
  forall k w, steady_clock (env w) ->
    exists B, T B (table (state_of (fst (run init body k w)))).
Proof.
  intros Hpass Hinit k w Hos.
  pose (J := fun s w' =>
    Inv s /\ env w' = env w /\ 0 <= t0 s <= os_clock (env w) (tick w') /\
    T (os_clock (env w) (tick w') - t0 s) (table s)).
  assert (HJ : J (state_of (fst (run init body k w))) (snd (run init body k w))).
  { apply (run_keeps_at init body (fun w' => w' = w) J); [| | reflexivity].
    - intros w' ->. destruct (init_at w) as (Hi & He & n & Hn & Ht).
      assert (Hin : 0 <= t0 (state_of (fst (init w)))
                    <= os_clock (env w) (tick (snd (init w)))).
      { rewrite Ht, u64_small by apply Hos.
        split; [apply Hos | apply Hos, Hn]. }
      split; [exact Hi | split; [exact He | split; [exact Hin |]]].
      apply Hinit. lia.
    - intros s w' (Hi & He & Ht & HT).
      destruct (body_at s w' Hi) as ((u & Hu) & Hi' & Ht' & He').
      rewrite He in Hu.
      assert (Hle : os_clock (env w) (tick w')
                    <= os_clock (env w) (tick (snd (body s w')))).
      { apply Hos. eapply pass_at_le, Hu. }
      split; [exact Hi' | split; [congruence | rewrite Ht'; split; [lia |]]].
      eapply Hpass; eauto. }
  destruct HJ as (_ & _ & _ & HT). eexists. exact HT.
Qed.

End Clocked.

(** *** The five schedulers, with the clock readings *)

Lemma FCFS_clocked_init p w :
  FCFS_inv (state_of (fst (Offline.FCFS_init p w))) /\
  env (snd (Offline.FCFS_init p w)) = env w /\
  exists n, (n <= tick (snd (Offline.FCFS_init p w)))%nat /\
    Offline.fc_t0 (state_of (fst (Offline.FCFS_init p w)))
      = u64 (os_clock (env w) n).
Proof.
  split; [apply FCFS_init_inv |].
  unfold Offline.FCFS_init. run_os. cbn. destruct (os_fopen _ _); cbn;
    (split; [reflexivity | eexists; split; [| reflexivity]; lia]).
Qed.

Lemma RR_clocked_init p quantum w :
  True /\ env (snd (Offline.RR_init p quantum w)) = env w /\
  exists n, (n <= tick (snd (Offline.RR_init p quantum w)))%nat /\
    Offline.rr_t0 (state_of (fst (Offline.RR_init p quantum w)))
      = u64 (os_clock (env w) n).
Proof.
  split; [exact I |].
  unfold Offline.RR_init. run_os. cbn. destruct (os_fopen _ _); cbn;
    (split; [reflexivity | eexists; split; [| reflexivity]; lia]).
Qed.

Lemma MLFQ_clocked_init p q0 q1 q2 bt w :
  True /\ env (snd (Offline.MLFQ_init p q0 q1 q2 bt w)) = env w /\
  exists n, (n <= tick (snd (Offline.MLFQ_init p q0 q1 q2 bt w)))%nat /\
    Offline.mq_t0 (state_of (fst (Offline.MLFQ_init p q0 q1 q2 bt w)))
      = u64 (os_clock (env w) n).
Proof.
  split; [exact I |].
  unfold Offline.MLFQ_init. run_os. cbn. destruct (os_fopen _ _); cbn;
    (split; [reflexivity | eexists; split; [| reflexivity]; lia]).
Qed.

Lemma SJF_clocked_init w :
  True /\ env (snd (Online.SJF_init w)) = env w /\
  exists n, (n <= tick (snd (Online.SJF_init w)))%nat /\
    Online.sj_t0 (state_of (fst (Online.SJF_init w))) = u64 (os_clock (env w) n).
Proof.
  split; [exact I |].
  unfold Online.SJF_init, Online.malloc. run_os. cbn.
  destruct (os_fopen _ _); cbn; destruct (os_malloc _ _); cbn;
    (split; [reflexivity | eexists; split; [| reflexivity]; lia]).
Qed.

Lemma OnlineMLFQ_clocked_init q0 q1 q2 bt w :
  MLFQ_online_inv (state_of (fst (Online.MLFQ_init q0 q1 q2 bt w))) /\
  env (snd (Online.MLFQ_init q0 q1 q2 bt w)) = env w /\
  exists n, (n <= tick (snd (Online.MLFQ_init q0 q1 q2 bt w)))%nat /\
    Online.om_t0 (state_of (fst (Online.MLFQ_init q0 q1 q2 bt w)))
      = u64 (os_clock (env w) n).
Proof.
  split; [apply OnlineMLFQ_init_inv |].
  unfold Online.MLFQ_init. run_os. cbn. destruct (os_fopen _ _); cbn;
    (split; [reflexivity | eexists; split; [| reflexivity]; lia]).
Qed.

Lemma FCFS_clocked s w :
  FCFS_inv s ->
  (exists u, pass_at (env w) (Offline.fc_t0 s) PolFCFS (tick w)
               (tick (snd (Offline.FCFS_body s w))) (Offline.fc_p s)
               (Offline.fc_p (state_of (fst (Offline.FCFS_body s w)))) u) /\
  FCFS_inv (state_of (fst (Offline.FCFS_body s w))) /\
  Offline.fc_t0 (state_of (fst (Offline.FCFS_body s w))) = Offline.fc_t0 s /\
  env (snd (Offline.FCFS_body s w)) = env w.
Proof. apply FCFS_body_at. Qed.

Lemma RR_clocked s w :
  True ->
  (exists u, pass_at (env w) (Offline.rr_t0 s) PolRR (tick w)
               (tick (snd (Offline.RR_body s w))) (Offline.rr_p s)
               (Offline.rr_p (state_of (fst (Offline.RR_body s w)))) u) /\
  True /\
  Offline.rr_t0 (state_of (fst (Offline.RR_body s w))) = Offline.rr_t0 s /\
  env (snd (Offline.RR_body s w)) = env w.
Proof.
  intros _. destruct (RR_body_at s w) as (Hp & Ht & He). auto.
Qed.

Lemma MLFQ_clocked s w :
  True ->
  (exists u, pass_at (env w) (Offline.mq_t0 s) PolMLFQ (tick w)
               (tick (snd (Offline.MLFQ_body s w))) (Offline.mq_p s)
               (Offline.mq_p (state_of (fst (Offline.MLFQ_body s w)))) u) /\
  True /\
  Offline.mq_t0 (state_of (fst (Offline.MLFQ_body s w))) = Offline.mq_t0 s /\
  env (snd (Offline.MLFQ_body s w)) = env w.
Proof.
  intros _. destruct (MLFQ_offline_body_at s w) as (Hp & Ht & He). auto.
Qed.

Lemma SJF_clocked s w :
  True ->
  (exists u, pass_at (env w) (Online.sj_t0 s) PolSJF (tick w)
               (tick (snd (Online.SJF_body s w))) (Online.sj_processList s)
               (Online.sj_processList (state_of (fst (Online.SJF_body s w)))) u) /\
  True /\
  Online.sj_t0 (state_of (fst (Online.SJF_body s w))) = Online.sj_t0 s /\
  env (snd (Online.SJF_body s w)) = env w.
Proof.
  intros _. destruct (SJF_body_at s w) as ((u & Hu & _) & Ht & He). eauto.
Qed.

Lemma OnlineMLFQ_clocked s w :
  MLFQ_online_inv s ->
  (exists u, pass_at (env w) (Online.om_t0 s) PolOnlineMLFQ (tick w)
               (tick (snd (Online.MLFQ_body s w))) (Online.om_heap s)
               (Online.om_heap (state_of (fst (Online.MLFQ_body s w)))) u) /\
  MLFQ_online_inv (state_of (fst (Online.MLFQ_body s w))) /\
  Online.om_t0 (state_of (fst (Online.MLFQ_body s w))) = Online.om_t0 s /\
  env (snd (Online.MLFQ_body s w)) = env w.
Proof.
  intros H. destruct (MLFQ_online_body_at s w H) as ((u & Hu & _) & Hi & Ht & He).
  eauto.
Qed.

Lemma tables_clocked (T : policy -> Z -> list Process -> Prop) :
  (forall pol os t0 a b t t' u,
     steady_clock os -> 0 <= t0 <= os_clock os a ->
     pass_at os t0 pol a b t t' u ->
     T pol (os_clock os a - t0) t -> T pol (os_clock os b - t0) t') ->
  (forall c B, 0 <= B -> T (policy_of c) B (table_at_start c)) ->
  forall c k w, steady_clock (env w) ->
    exists B, T (policy_of c) B (table_after c k w).
Proof.
  intros Hpass Hstart [p | p quantum | p q0 q1 q2 bt | | q0 q1 q2 bt] k w; cbn.
  - apply (clocked_always PolFCFS _ _ Offline.fc_p Offline.fc_t0 FCFS_inv
             (FCFS_clocked_init p) FCFS_clocked (T PolFCFS)); [apply Hpass |].
    intros w' B HB. rewrite FCFS_init_table. apply (Hstart (CfgFCFS p)), HB.
  - apply (clocked_always PolRR _ _ Offline.rr_p Offline.rr_t0 (fun _ => True)
             (RR_clocked_init p quantum) RR_clocked (T PolRR)); [apply Hpass |].
    intros w' B HB. rewrite RR_init_table. apply (Hstart (CfgRR p quantum)), HB.
  - apply (clocked_always PolMLFQ _ _ Offline.mq_p Offline.mq_t0 (fun _ => True)
             (MLFQ_clocked_init p q0 q1 q2 bt) MLFQ_clocked (T PolMLFQ));
      [apply Hpass |].
    intros w' B HB. rewrite MLFQ_init_table.
    apply (Hstart (CfgMLFQ p q0 q1 q2 bt)), HB.
  - apply (clocked_always PolSJF _ _ Online.sj_processList Online.sj_t0
             (fun _ => True) SJF_clocked_init SJF_clocked (T PolSJF));
      [apply Hpass |].
    intros w' B HB. rewrite SJF_init_table. apply (Hstart CfgSJF), HB.
  - apply (clocked_always PolOnlineMLFQ _ _ Online.om_heap Online.om_t0
             MLFQ_online_inv (OnlineMLFQ_clocked_init q0 q1 q2 bt)
             OnlineMLFQ_clocked (T PolOnlineMLFQ)); [apply Hpass |].
    intros w' B HB. rewrite OnlineMLFQ_init_table.
    apply (Hstart (CfgOnlineMLFQ q0 q1 q2 bt)), HB.
Qed.

Lemma tables_timely c k w :
  steady_clock (env w) ->
  exists B, Forall (timely (style_of (policy_of c)) B) (table_after c k w).
Proof.
  apply (tables_clocked (fun pol B => Forall (timely (style_of pol) B))).
  - intros pol os t0 a b t t' u. apply pass_timely.
  - intros c' B HB. eapply Forall_impl; [apply table_at_start_idle |].
    intros q ->. unfold timely, terminal. cbn.
    repeat split; try lia; discriminate.
Qed.

(** C1 (as the code has it). Under each of the five schedulers, after any
    number of passes, every record of the process table whose finished
    flag is set satisfies turnaround = completion - arrival, waiting =
    turnaround - burst and response = start - arrival, in the unsigned
    64-bit arithmetic of the code; every record whose error flag is set
    satisfies response = start - arrival; and burst, turnaround, waiting
    and response are non-negative in every record. When the clock never
    goes back and its readings fit in 64 bits, the equations hold in the
    integers for every record that has started: the three of them once it
    has finished, response = start - arrival once it has ended with an
    error. *)
Theorem metrics_of_terminal_records (c : config) (k : nat) (w : World) :
  Forall metrics_settled (table_after c k w) /\
  (steady_clock (env w) -> Forall exact_when_run (table_after c k w)).
Proof.
  split.
  - apply (tables_always (fun _ => Forall metrics_settled)).
    + intros pol t0 t t' u. apply pass_metrics.
    + intros c'. eapply Forall_impl; [apply table_at_start_idle |].
      intros q ->. unfold metrics_settled, metrics_nonneg. cbn.
      repeat split; try discriminate; lia.
  - intros Hos. destruct (tables_timely c k w Hos) as [B HB].
    eapply Forall_impl; [exact HB |].
    intros p. apply timely_exact.
Qed.

Lemma metrics_of_terminal_records_witness :
  steady_clock (env (boot ticking_os)) /\
  Forall exact_when_run
    (table_after (CfgMLFQ [idle_record "a"; idle_record "b"] 5 10 20 1000) 8
       (boot ticking_os)).
Proof.
  assert (Hos : steady_clock (env (boot ticking_os))).
  { split; cbn; intros; lia. }
  split; [exact Hos |].
  apply (metrics_of_terminal_records
           (CfgMLFQ [idle_record "a"; idle_record "b"] 5 10 20 1000) 8
           (boot ticking_os)).
  exact Hos.
Defined.

(** The run of the witness: both records have started and finished, the
    second after one pause, with a burst of 50 ms in a turnaround of
    160 ms. *)
Example ticking_run_metrics :
  map (fun p => (started p && finished p, burst_time p, turnaround_time p,
                 waiting_time p, response_time p))
      (table_after (CfgMLFQ [idle_record "a"; idle_record "b"] 5 10 20 1000) 8
         (boot ticking_os))
    = [(true, 20, 40, 20, 20); (true, 50, 160, 110, 80)].
Proof. vm_compute. reflexivity. Qed.

(** C1, with a clock that is set back. [FCFS] on one record: the scheduler
    reads 1000 ms as its first clock and 0 ms at every later call, and the
    record, started and finished, has a start, a completion and a
    turnaround of 2^64 - 1000 ms. *)
Example set_back_clock_wraps :
  map (fun p => (started p, finished p, start_time p, turnaround_time p))
      (table_after (CfgFCFS [idle_record "a"]) 1 (boot set_back_os))
    = [(true, true, 2 ^ 64 - 1000, 2 ^ 64 - 1000)].
Proof. vm_compute. reflexivity. Qed.

(** C1, counterexample. [FCFS] on one record whose child exits with status
    1 (wait status 256): the record ends with its error flag set, a burst
    of 20 ms and turnaround and waiting left at 0, so that waiting differs
    from turnaround - burst, as an integer and modulo 2^64. *)
Lemma error_record_metrics_open :
  exists p,
    table_after (CfgFCFS [idle_record "false"]) 1 (boot (steady_os 256)) = [p] /\
    terminal p = true /\
    burst_time p = 20 /\ turnaround_time p = 0 /\ waiting_time p = 0 /\
    waiting_time p <> turnaround_time p - burst_time p /\
    waiting_time p <> u64 (turnaround_time p - burst_time p).
Proof.
  eexists. split; [vm_compute; reflexivity |].
  vm_compute. repeat split; discriminate.
Qed.

(** ** C10: offline arrival times *)

Lemma visit_offline t0 st p d q b :
  terminal p = false ->
  offline_record p -> dispatch t0 p d -> settle t0 st d q b -> offline_record q.
Proof.
  unfold offline_record, terminal. intros Hp (Ha & Ht & Hs0 & Hr) Hd Hs.
  apply orb_false_elim in Hp as [Hf He].
  revert Hs. destruct Hd; intros Hs; inversion Hs; subst; cbn;
    rewrite ?Ha, ?Hf, ?He, ?Z.sub_0_r, ?u64_idem;
    u64_bounds;
    (split; [reflexivity |]); (split; [first [reflexivity | assumption] |]);
    (split; [assumption |]);
    intros Hq; try discriminate; rewrite ?u64_small by assumption; reflexivity.
Qed.

Lemma pass_offline pol t0 t t' u :
  online pol = false ->
  pass t0 pol t t' u -> Forall offline_record t -> Forall offline_record t'.
Proof.
  intros Hoff [| p Hon Hp | i p d q b Hi Hnt Hd Hs] Ht.
  - exact Ht.
  - congruence.
  - apply Forall_insert; [exact Ht |].
    eapply visit_offline; eauto.
    apply (Forall_lookup_1 _ _ _ _ Ht Hi).
Qed.

Lemma offline_tables (c : config) (k : nat) (w : World) :
  online (policy_of c) = false -> Forall arrived_at_zero (table_after c k w).
Proof.
  intros Hoff.
  apply (Forall_impl offline_record).
  - revert Hoff.
    apply (tables_always
             (fun pol t => online pol = false -> Forall offline_record t)).
    + intros pol t0 t t' u Hpass Ht Hoff. eapply pass_offline; eauto.
    + intros c' _. eapply Forall_impl; [apply table_at_start_idle |].
      intros q ->. unfold offline_record. cbn. repeat split; try lia; reflexivity.
  - intros p (Ha & Ht & _ & Hr). split; [exact Ha |].
    intros Hterm. split; [exact Ht | exact (Hr Hterm)].
Qed.

Lemma pass_commands pol t0 t t' u :
  online pol = false -> pass t0 pol t t' u -> map command t' = map command t.
Proof.
  intros Hoff [| p Hon _ | i p d q b Hi Hnt Hd Hs].
  - reflexivity.
  - congruence.
  - assert (Hc : command q = command p).
    { revert Hs. destruct Hd; intros Hs; inversion Hs; subst; reflexivity. }
    rewrite list_fmap_insert, Hc.
    apply list_insert_id. rewrite list_lookup_fmap, Hi. reflexivity.
Qed.

Lemma initializeProcess_commands p :
  map command (Offline.initializeProcess p) = map command p.
Proof. unfold Offline.initializeProcess. rewrite map_map. reflexivity. Qed.

(** The offline tables hold the processes they were given. *)
Lemma offline_tables_given :
  (forall p k w, map command (FCFS_table p k w) = map command p) /\
  (forall p quantum k w, map command (RR_table p quantum k w) = map command p) /\
  (forall p quantum0 quantum1 quantum2 boostTime k w,
     map command (MLFQ_table p quantum0 quantum1 quantum2 boostTime k w)
       = map command p).
Proof.
  split; [| split].
  - intros p k w.
    apply (table_always PolFCFS _ _ Offline.fc_p Offline.fc_t0 FCFS_inv
             (FCFS_init_inv p) FCFS_policy
             (fun t => map command t = map command p)).
    + intros t0 t t' u Hpass Ht. rewrite <- Ht.
      eapply pass_commands; [| exact Hpass]; reflexivity.
    + intros w'. rewrite FCFS_init_table. apply initializeProcess_commands.
  - intros p quantum k w.
    apply (table_always PolRR _ _ Offline.rr_p Offline.rr_t0 (fun _ => True)
             (fun _ => I) RR_policy (fun t => map command t = map command p)).
    + intros t0 t t' u Hpass Ht. rewrite <- Ht.
      eapply pass_commands; [| exact Hpass]; reflexivity.
    + intros w'. rewrite RR_init_table. apply initializeProcess_commands.
  - intros p q0 q1 q2 bt k w.
    apply (table_always PolMLFQ _ _ Offline.mq_p Offline.mq_t0 (fun _ => True)
             (fun _ => I) MLFQ_policy (fun t => map command t = map command p)).
    + intros t0 t t' u Hpass Ht. rewrite <- Ht.
      eapply pass_commands; [| exact Hpass]; reflexivity.
    + intros w'. rewrite MLFQ_init_table. apply initializeProcess_commands.
Qed.

(** C10. [FCFS], [RoundRobin] and the offline [MultiLevelFeedbackQueue]
    initialise every process they are given: after any number of passes
    (also after none, before scheduling begins) the table holds one record
    for each given process, with its command, in the order given, and every
    one of these records has arrival time 0, which is set before the first
    pass and never written again; every terminal record has its turnaround
    time equal to its completion time and its response time equal to its
    start time. *)
Theorem offline_arrival_zero :
  (forall p k w,
     map command (FCFS_table p k w) = map command p /\
     Forall arrived_at_zero (FCFS_table p k w)) /\
  (forall p quantum k w,
     map command (RR_table p quantum k w) = map command p /\
     Forall arrived_at_zero (RR_table p quantum k w)) /\
  (forall p quantum0 quantum1 quantum2 boostTime k w,
     map command (MLFQ_table p quantum0 quantum1 quantum2 boostTime k w)
       = map command p /\
     Forall arrived_at_zero
       (MLFQ_table p quantum0 quantum1 quantum2 boostTime k w)).
Proof.
  destruct offline_tables_given as (Hf & Hr & Hm).
  split; [| split].
  - intros p k w. split; [apply Hf |].
    apply (offline_tables (CfgFCFS p)). reflexivity.
  - intros p quantum k w. split; [apply Hr |].
    apply (offline_tables (CfgRR p quantum)). reflexivity.
  - intros p q0 q1 q2 bt k w. split; [apply Hm |].
    apply (offline_tables (CfgMLFQ p q0 q1 q2 bt)). reflexivity.
Qed.

(** ** Online runs with their history *)

Section OnlinePolicy.

Context {S : Type} (pol : policy) (init : M (ctl S)) (body : S -> M (ctl S))
  (table : S -> list Process) (hist : S -> arr3 Online.Cell) (t0 : S -> Z)
  (Inv : S -> Prop).

Hypothesis init_inv : forall w, Inv (state_of (fst (init w))).
Hypothesis body_pass : forall s w, Inv s ->
  (exists u, pass (t0 s) pol (table s) (table (state_of (fst (body s w)))) u /\
             hist (state_of (fst (body s w))) = observe (hist s) u) /\
  Inv (state_of (fst (body s w))).

Lemma online_always (T : list Process -> arr3 Online.Cell -> Prop) :
  (forall t0 t t' u h, pass t0 pol t t' u -> T t h -> T t' (observe h u)) ->
  (forall w, T (table (state_of (fst (init w)))) (hist (state_of (fst (init w))))) ->
  forall k w, T (table (state_of (fst (run init body k w))))
                (hist (state_of (fst (run init body k w)))).
Proof.
  intros Hpass Hinit k w.
  apply (run_keeps init body (fun s => Inv s /\ T (table s) (hist s))).
  - intros w'. split; [apply init_inv | apply Hinit].
  - intros s w' [Hs HT]. destruct (body_pass s w' Hs) as [(u & Hu & Hh) Hs'].
    split; [exact Hs' |]. rewrite Hh. eapply Hpass; eauto.
Qed.

Lemma online_next
  (R : list Process -> arr3 Online.Cell -> list Process -> arr3 Online.Cell -> Prop) :
  (forall t h, R t h t h) ->
  (forall t0 t t' u h, pass t0 pol t t' u -> R t h t' (observe h u)) ->
  forall k w,
    R (table (state_of (fst (run init body k w))))
      (hist (state_of (fst (run init body k w))))
      (table (state_of (fst (run init body (Datatypes.S k) w))))
      (hist (state_of (fst (run init body (Datatypes.S k) w)))).
Proof.
  intros Hrefl Hpass k w.
  apply (run_next init body Inv
           (fun s s' => R (table s) (hist s) (table s') (hist s'))).
  - intros s. apply Hrefl.
  - apply init_inv.
  - intros s w' Hs. apply (body_pass s w' Hs).
  - intros s w' Hs. destruct (body_pass s w' Hs) as [(u & Hu & Hh) _].
    rewrite Hh. eapply Hpass, Hu.
Qed.

End OnlinePolicy.

Lemma SJF_online_policy s w :
  True ->
  (exists u, pass (Online.sj_t0 s) PolSJF (Online.sj_processList s)
               (Online.sj_processList (state_of (fst (Online.SJF_body s w)))) u /\
             Online.sj_hashTable (state_of (fst (Online.SJF_body s w)))
               = observe (Online.sj_hashTable s) u) /\
  True.
Proof. intros _. destruct (SJF_body_pass s w) as (Hp & _). auto. Qed.

Lemma OnlineMLFQ_online_policy s w :
  MLFQ_online_inv s ->
  (exists u, pass (Online.om_t0 s) PolOnlineMLFQ (Online.om_heap s)
               (Online.om_heap (state_of (fst (Online.MLFQ_body s w)))) u /\
             Online.om_hashTable (state_of (fst (Online.MLFQ_body s w)))
               = observe (Online.om_hashTable s) u) /\
  MLFQ_online_inv (state_of (fst (Online.MLFQ_body s w))).
Proof. intros H. destruct (MLFQ_online_body_pass s w H) as (Hp & Hi & _). auto. Qed.

Lemma SJF_init_history w :
  Online.sj_hashTable (state_of (fst (Online.SJF_init w))) = Online.empty_table.
Proof.
  unfold Online.SJF_init, Online.malloc. run_os. cbn.
  destruct (os_fopen _ _); cbn; destruct (os_malloc _ _); reflexivity.
Qed.

Lemma OnlineMLFQ_init_history q0 q1 q2 bt w :
  Online.om_hashTable (state_of (fst (Online.MLFQ_init q0 q1 q2 bt w)))
    = Online.empty_table.
Proof. unfold Online.MLFQ_init. run_os. cbn. destruct (os_fopen _ _); reflexivity. Qed.

(** ** C5: the error transition *)

Lemma dispatch_same_metrics t0 p d : dispatch t0 p d -> same_metrics p d.
Proof. intros []; repeat split. Qed.

(** In a pass that makes record [i] errored, the record was dispatched and
    then went through the error branch of the policy, and the pass hands
    nothing to [updateBurstTime]. *)
Lemma pass_errs pol t0 t t' u i p q :
  pass t0 pol t t' u -> errs_at i p q t t' ->
  u = None /\
  exists d, dispatch t0 p d /\ error_frame t0 (error_sets_burst pol) d q.
Proof.
  intros Hpass (Hp & Hq & Hep & Heq).
  destruct Hpass as [| r _ Hr | j r d q' b Hj Hnt Hd Hs].
  - congruence.
  - rewrite lookup_app_l in Hq by (eapply lookup_lt_Some, Hp). congruence.
  - destruct (decide (j = i)) as [-> | Hne].
    2: { rewrite list_lookup_insert_ne in Hq by exact Hne. congruence. }
    rewrite list_lookup_insert_eq in Hq by (eapply lookup_lt_Some, Hp).
    assert (r = p) as -> by congruence. assert (q' = q) as -> by congruence.
    assert (Hed : error d = false).
    { destruct Hd; cbn; exact Hep. }
    unfold error_sets_burst.
    inversion Hs; subst; cbn in Heq; try congruence;
      (split; [reflexivity |]); exists d; (split; [exact Hd |]);
      unfold error_frame; cbn; repeat split; eexists; reflexivity.
Qed.

Lemma tables_next (R : policy -> list Process -> list Process -> Prop) :
  (forall pol t, R pol t t) ->
  (forall pol t0 t t' u, pass t0 pol t t' u -> R pol t t') ->
  forall c k w, R (policy_of c) (table_after c k w) (table_after c (S k) w).
Proof.
  intros Hrefl Hpass [p | p quantum | p q0 q1 q2 bt | | q0 q1 q2 bt] k w; cbn.
  - apply (table_next PolFCFS _ _ Offline.fc_p Offline.fc_t0 FCFS_inv
             (FCFS_init_inv p) FCFS_policy (R PolFCFS) (Hrefl _) (Hpass _)).
  - apply (table_next PolRR _ _ Offline.rr_p Offline.rr_t0 (fun _ => True)
             (fun _ => I) RR_policy (R PolRR) (Hrefl _) (Hpass _)).
  - apply (table_next PolMLFQ _ _ Offline.mq_p Offline.mq_t0 (fun _ => True)
             (fun _ => I) MLFQ_policy (R PolMLFQ) (Hrefl _) (Hpass _)).
  - apply (table_next PolSJF _ _ Online.sj_processList Online.sj_t0
             (fun _ => True) (fun _ => I) SJF_policy (R PolSJF) (Hrefl _) (Hpass _)).
  - apply (table_next PolOnlineMLFQ _ _ Online.om_heap Online.om_t0
             MLFQ_online_inv (OnlineMLFQ_init_inv q0 q1 q2 bt) OnlineMLFQ_policy
             (R PolOnlineMLFQ) (Hrefl _) (Hpass _)).
Qed.

Lemma errs_at_same i p q t : ~ errs_at i p q t t.
Proof. intros (Hp & Hq & Hep & Heq). congruence. Qed.

(** C5 (as the code has it). Whenever a pass of one of the five schedulers
    takes the record at [i] from not errored ([p]) to errored ([q]), there
    is the record [d] as it was running, obtained from [p] by the dispatch
    of that pass with burst, turnaround and waiting untouched, such that [q]
    is [d] with the error flag set, the context end stamped and the
    response time set to start - arrival; under [RoundRobin] and both
    [MultiLevelFeedbackQueue]s the burst is [d]'s, under [FCFS] and
    [ShortestJobFirst] it is set to context end - context start; turnaround,
    waiting and every other field are [d]'s. In the two online schedulers
    the burst-time history is the same before and after such a pass. *)
Theorem error_transition_frame :
  (forall c k w i p q,
     errs_at i p q (table_after c k w) (table_after c (S k) w) ->
     exists t0 d, dispatch t0 p d /\ same_metrics p d /\
                  error_frame t0 (error_sets_burst (policy_of c)) d q) /\
  (forall k w i p q,
     errs_at i p q (SJF_table k w) (SJF_table (S k) w) ->
     SJF_history (S k) w = SJF_history k w) /\
  (forall quantum0 quantum1 quantum2 boostTime k w i p q,
     errs_at i p q (OnlineMLFQ_table quantum0 quantum1 quantum2 boostTime k w)
       (OnlineMLFQ_table quantum0 quantum1 quantum2 boostTime (S k) w) ->
     OnlineMLFQ_history quantum0 quantum1 quantum2 boostTime (S k) w
       = OnlineMLFQ_history quantum0 quantum1 quantum2 boostTime k w).
Proof.
  split; [| split].
  - intros c k w.
    apply (tables_next (fun pol t t' => forall i p q, errs_at i p q t t' ->
             exists t0 d, dispatch t0 p d /\ same_metrics p d /\
                          error_frame t0 (error_sets_burst pol) d q)).
    + intros pol t i p q H. destruct (errs_at_same _ _ _ _ H).
    + intros pol t0 t t' u Hpass i p q H.
      destruct (pass_errs _ _ _ _ _ _ _ _ Hpass H) as (_ & d & Hd & Hf).
      exists t0, d. split; [exact Hd |]. split; [| exact Hf].
      apply (dispatch_same_metrics _ _ _ Hd).
  - intros k w.
    apply (online_next PolSJF _ _ Online.sj_processList Online.sj_hashTable
             Online.sj_t0 (fun _ => True) (fun _ => I) SJF_online_policy
             (fun t h t' h' => forall i p q, errs_at i p q t t' -> h' = h)).
    + reflexivity.
    + intros t0 t t' u h Hpass i p q H.
      destruct (pass_errs _ _ _ _ _ _ _ _ Hpass H) as (-> & _). reflexivity.
  - intros q0 q1 q2 bt k w.
    apply (online_next PolOnlineMLFQ _ _ Online.om_heap Online.om_hashTable
             Online.om_t0 MLFQ_online_inv (OnlineMLFQ_init_inv q0 q1 q2 bt)
             OnlineMLFQ_online_policy
             (fun t h t' h' => forall i p q, errs_at i p q t t' -> h' = h)).
    + reflexivity.
    + intros t0 t t' u h Hpass i p q H.
      destruct (pass_errs _ _ _ _ _ _ _ _ Hpass H) as (-> & _). reflexivity.
Qed.

Lemma error_transition_frame_witness :
  exists t0 d,
    dispatch t0 (idle_record "false") d /\
    same_metrics (idle_record "false") d /\
    error_frame t0 true d
      (mkProcess "false" false true true 0 20 20 40 0 20 0 0 20 7).
Proof.
  apply (proj1 error_transition_frame (CfgFCFS [idle_record "false"]) 0%nat
           (boot (steady_os 256)) 0%nat).
  vm_compute. repeat split; reflexivity.
Defined.

(** C5, counterexample. [FCFS] on one record whose child exits with status
    1: before the pass the burst is 0 (and the dispatch does not touch it);
    the error branch leaves it at 20, the length of the run. *)
Lemma FCFS_error_rewrites_burst :
  exists p q,
    table_after (CfgFCFS [idle_record "false"]) 0 (boot (steady_os 256)) = [p] /\
    table_after (CfgFCFS [idle_record "false"]) 1 (boot (steady_os 256)) = [q] /\
    error p = false /\ error q = true /\
    burst_time p = 0 /\ burst_time q = 20.
Proof.
  eexists. eexists. split; [vm_compute; reflexivity |].
  split; [vm_compute; reflexivity |]. vm_compute. repeat split; reflexivity.
Qed.

(** ** C3: the tier of a new arrival *)

Lemma enqueue_all_seq n : forall q, Offline.enqueue_all q n = q ++ seq 0 n.
Proof.
  unfold Offline.enqueue_all. generalize O.
  induction n as [|n IH]; intros a q; cbn.
  - symmetry. apply app_nil_r.
  - rewrite IH. unfold enqueue. rewrite <- app_assoc. reflexivity.
Qed.

Lemma aget_aset_ne {A} (M : arr3 A) i j x :
  (i <= 2)%nat -> (j <= 2)%nat -> i <> j -> aget (aset M i x) j = aget M j.
Proof.
  intros Hi Hj Hne.
  destruct i as [|[|[|i]]], j as [|[|[|j]]]; try lia; reflexivity.
Qed.

Lemma getMLFQIndex_le_2 Quantum p h : (Online.getMLFQIndex Quantum p h <= 2)%nat.
Proof.
  unfold Online.getMLFQIndex. destruct (Online.findNode _ _); [| lia].
  repeat (destruct (_ <=? _)); lia.
Qed.

(** C3 (as the code has it). Online, the record of a command that has just
    been read goes to the back of exactly one queue and the other two are
    left alone; that queue is 1 when the history has no entry for the
    command, and otherwise, with [avg] the entry's sum divided by its count:
    0 when [avg <= quantum0], 1 when [quantum0 < avg <= quantum1], and 2 when
    [avg] exceeds both quanta. Offline, every record is placed in queue 0,
    in index order, and queues 1 and 2 start empty. *)
Theorem mlfq_arrival_tier :
  (forall s inputBuffer w s',
     fst (Online.MLFQ_ingest s inputBuffer w) = Next s' ->
     exists p tier,
       Online.om_heap s' = Online.om_heap s ++ [p] /\
       command p = Online.chop inputBuffer /\
       aget (Online.om_MLFQ s') tier
         = aget (Online.om_MLFQ s) tier ++ [length (Online.om_heap s)] /\
       (forall j, (j <= 2)%nat -> j <> tier ->
                  aget (Online.om_MLFQ s') j = aget (Online.om_MLFQ s) j) /\
       match Online.findNode (Online.om_hashTable s) (command p) with
       | None => tier = 1%nat
       | Some node =>
           let avg := Z.quot (Online.sum_burst_time node) (Online.num_bursts node) in
           (avg <= aget (Online.om_Quantum s) 0 -> tier = 0%nat) /\
           (aget (Online.om_Quantum s) 0 < avg <= aget (Online.om_Quantum s) 1 ->
            tier = 1%nat) /\
           (aget (Online.om_Quantum s) 0 < avg ->
            aget (Online.om_Quantum s) 1 < avg -> tier = 2%nat)
       end) /\
  (forall p quantum0 quantum1 quantum2 boostTime w,
     let s := state_of (fst (Offline.MLFQ_init p quantum0 quantum1 quantum2
                               boostTime w)) in
     aget (Offline.mq_MLFQ s) 0 = seq 0 (length p) /\
     aget (Offline.mq_MLFQ s) 1 = [] /\ aget (Offline.mq_MLFQ s) 2 = []).
Proof.
  split.
  - intros s buffer w s'. unfold Online.MLFQ_ingest. run_os.
    destruct (Online.new_process buffer (Online.om_t0 s) w) as [[p|] w1] eqn:Hnew;
      cbn; [| discriminate].
    intros [= <-]. cbn.
    exists p, (Online.getMLFQIndex (Online.om_Quantum s) p (Online.om_hashTable s)).
    split; [reflexivity |]. split.
    { revert Hnew. unfold Online.new_process, Online.malloc_Process, Online.malloc.
      run_os. destruct (os_malloc _ _); cbn; [| discriminate].
      destruct (os_malloc _ _); cbn; [| discriminate].
      intros [= <- _]. reflexivity. }
    split; [apply aget_aset |]. split.
    { intros j Hj Hne. apply aget_aset_ne; [apply getMLFQIndex_le_2 | exact Hj |].
      congruence. }
    unfold Online.getMLFQIndex.
    destruct (Online.findNode _ _) as [node|]; [| reflexivity].
    cbn zeta.
    destruct (_ <=? aget (Online.om_Quantum s) 0) eqn:E0;
      [apply Z.leb_le in E0 | apply Z.leb_gt in E0].
    { repeat split; intros; cbn [aget] in *; first [reflexivity | lia]. }
    destruct (_ <=? aget (Online.om_Quantum s) 1) eqn:E1;
      [apply Z.leb_le in E1 | apply Z.leb_gt in E1];
      repeat split; intros; cbn [aget] in *; first [reflexivity | lia].
  - intros p q0 q1 q2 bt w. unfold Offline.MLFQ_init. run_os. cbn.
    destruct (os_fopen _ _); cbn; rewrite enqueue_all_seq; cbn;
      (replace (length (Offline.initializeProcess p)) with (length p)
         by (unfold Offline.initializeProcess; symmetry; apply length_map));
      repeat split; reflexivity.
Qed.

Lemma mlfq_arrival_tier_witness :
  exists p tier,
    Online.om_heap
      (state_of (fst (Online.MLFQ_ingest sample_online_state (line "ls")
                        (boot (steady_os 0)))))
      = Online.om_heap sample_online_state ++ [p] /\
    command p = Online.chop (line "ls") /\
    aget (Online.om_MLFQ
            (state_of (fst (Online.MLFQ_ingest sample_online_state (line "ls")
                              (boot (steady_os 0)))))) tier
      = aget (Online.om_MLFQ sample_online_state) tier
          ++ [length (Online.om_heap sample_online_state)] /\
    (forall j, (j <= 2)%nat -> j <> tier ->
       aget (Online.om_MLFQ
               (state_of (fst (Online.MLFQ_ingest sample_online_state (line "ls")
                                 (boot (steady_os 0)))))) j
         = aget (Online.om_MLFQ sample_online_state) j) /\
    match Online.findNode (Online.om_hashTable sample_online_state) (command p) with
    | None => tier = 1%nat
    | Some node =>
        let avg := Z.quot (Online.sum_burst_time node) (Online.num_bursts node) in
        (avg <= aget (Online.om_Quantum sample_online_state) 0 -> tier = 0%nat) /\
        (aget (Online.om_Quantum sample_online_state) 0 < avg
           <= aget (Online.om_Quantum sample_online_state) 1 -> tier = 1%nat) /\
        (aget (Online.om_Quantum sample_online_state) 0 < avg ->
         aget (Online.om_Quantum sample_online_state) 1 < avg -> tier = 2%nat)
    end.
Proof.
  apply (proj1 mlfq_arrival_tier sample_online_state (line "ls")
           (boot (steady_os 0))).
  vm_compute. reflexivity.
Defined.

(** C3, counterexample. Offline there is no history, so the claim puts a
    new record in tier 1; [MultiLevelFeedbackQueue] with quanta 20, 40, 80
    puts the only record (pointer 0) in queue 0 and leaves queue 1 empty. *)
Lemma offline_arrival_in_tier_0 :
  let s := state_of (fst (Offline.MLFQ_init [idle_record "sleep 1"] 20 40 80 500
                            (boot (steady_os 0)))) in
  aget (Offline.mq_MLFQ s) 0 = [0%nat] /\ aget (Offline.mq_MLFQ s) 1 = [].
Proof. vm_compute. split; reflexivity. Qed.

(** ** C2: the burst-time history *)

Lemma cell_of_le_2 cmd : (Online.cell_of cmd <= 2)%nat.
Proof.
  unfold Online.cell_of, Online.NUM_CELLS.
  pose proof (Z.rem_bound_abs (i32 (Online.hashFunction cmd)) 3 ltac:(lia)).
  lia.
Qed.

Lemma csize_zero cell : (Online.csize cell =? 0) = true <-> cell = [].
Proof.
  unfold Online.csize. destruct cell; cbn; split; intros H;
    first [reflexivity | discriminate | (apply Z.eqb_eq in H; lia)].
Qed.

Lemma find_in_command chain cmd node :
  Online.find_in chain cmd = Some node -> Online.node_command node = cmd.
Proof.
  induction chain as [|x chain IH]; cbn; [discriminate |].
  destruct (String.eqb (Online.node_command x) cmd) eqn:E; [| exact IH].
  intros [= <-]. apply String.eqb_eq, E.
Qed.

Lemma find_in_add_same chain cmd b node :
  Online.find_in chain cmd = Some node ->
  Online.find_in (Online.add_burst chain cmd b) cmd
    = Some (Online.mkNode (Online.node_command node)
              (i32 (Online.sum_burst_time node + b))
              (i32 (Online.num_bursts node + 1))).
Proof.
  induction chain as [|x chain IH]; cbn; [discriminate |].
  destruct (String.eqb (Online.node_command x) cmd) eqn:E; cbn; rewrite E.
  - intros [= <-]. reflexivity.
  - exact IH.
Qed.

Lemma find_in_add_other chain cmd cmd' b :
  cmd' <> cmd ->
  Online.find_in (Online.add_burst chain cmd b) cmd' = Online.find_in chain cmd'.
Proof.
  intros Hne. induction chain as [|x chain IH]; cbn; [reflexivity |].
  destruct (String.eqb (Online.node_command x) cmd) eqn:E; cbn.
  - apply String.eqb_eq in E.
    destruct (String.eqb (Online.node_command x) cmd') eqn:E'; [| reflexivity].
    apply String.eqb_eq in E'. congruence.
  - destruct (String.eqb (Online.node_command x) cmd'); [reflexivity | exact IH].
Qed.

Lemma add_burst_nil chain cmd b :
  Online.add_burst chain cmd b = [] <-> chain = [].
Proof.
  destruct chain as [|x chain]; cbn; [tauto |].
  destruct (String.eqb _ _); split; discriminate.
Qed.

Lemma findNode_find_in h cmd :
  Online.findNode h cmd = Online.find_in (aget h (Online.cell_of cmd)) cmd.
Proof.
  unfold Online.findNode.
  destruct (Online.csize _ =? 0) eqn:E; [| reflexivity].
  apply csize_zero in E. rewrite E. reflexivity.
Qed.

(** After [updateBurstTime] the command has an entry: a new one holding the
    burst, or its old one with the burst added and the count incremented. *)
Lemma findNode_update_same h b cmd :
  Online.findNode (Online.updateBurstTime h b cmd) cmd =
  Some match Online.findNode h cmd with
       | None => Online.mkNode cmd (i32 b) 1
       | Some node =>
           Online.mkNode (Online.node_command node)
             (i32 (Online.sum_burst_time node + i32 b))
             (i32 (Online.num_bursts node + 1))
       end.
Proof.
  unfold Online.updateBurstTime.
  destruct (Online.findNode h cmd) as [node|] eqn:E;
    rewrite findNode_find_in, aget_aset.
  - apply find_in_add_same. rewrite <- findNode_find_in. exact E.
  - cbn. rewrite String.eqb_refl. reflexivity.
Qed.

(** The entries of the other commands are left alone. *)
Lemma findNode_update_other h b cmd cmd' :
  cmd' <> cmd ->
  Online.findNode (Online.updateBurstTime h b cmd) cmd' = Online.findNode h cmd'.
Proof.
  intros Hne. unfold Online.updateBurstTime. rewrite !findNode_find_in.
  destruct (decide (Online.cell_of cmd' = Online.cell_of cmd)) as [Heq | Hcell].
  - rewrite Heq.
    destruct (Online.find_in (aget h (Online.cell_of cmd)) cmd); rewrite aget_aset.
    + apply find_in_add_other, Hne.
    + cbn. destruct (String.eqb cmd cmd') eqn:E; [| reflexivity].
      apply String.eqb_eq in E. congruence.
  - destruct (Online.find_in (aget h (Online.cell_of cmd)) cmd);
      rewrite aget_aset_ne; auto using cell_of_le_2.
Qed.

Lemma observed_app cmd t p :
  finished p = false -> observed cmd (t ++ [p]) = observed cmd t.
Proof.
  intros Hp. unfold observed. rewrite List.filter_app. cbn. rewrite Hp. cbn.
  rewrite app_nil_r. reflexivity.
Qed.

Lemma total_cons b l : total (b :: l) = b + total l.
Proof. reflexivity. Qed.

Lemma observed_cons cmd x t :
  observed cmd (x :: t) =
  if finished x && String.eqb (command x) cmd
  then burst_time x :: observed cmd t else observed cmd t.
Proof.
  unfold observed. cbn.
  destruct (finished x && String.eqb (command x) cmd); reflexivity.
Qed.

(** Replacing a record that has not finished: a finished record of [cmd]
    adds its burst to the observations, any other leaves them alone. *)
Lemma observed_insert cmd q : forall t i p,
  t !! i = Some p -> finished p = false ->
  if finished q && String.eqb (command q) cmd then
    total (observed cmd (<[i := q]> t)) = total (observed cmd t) + burst_time q /\
    length (observed cmd (<[i := q]> t)) = S (length (observed cmd t))
  else observed cmd (<[i := q]> t) = observed cmd t.
Proof.
  induction t as [|x t IH]; intros i p Hi Hp; [rewrite lookup_nil in Hi; discriminate |].
  destruct i as [|i]; cbn in Hi.
  - injection Hi as ->. change (<[O := q]> (p :: t)) with (q :: t).
    rewrite !observed_cons, Hp.
    cbn [andb].
    destruct (finished q && String.eqb (command q) cmd); [| reflexivity].
    rewrite total_cons. split; [lia | reflexivity].
  - specialize (IH i p Hi Hp).
    change (<[S i := q]> (x :: t)) with (x :: <[i := q]> t).
    rewrite !observed_cons.
    destruct (finished q && String.eqb (command q) cmd);
      destruct (finished x && String.eqb (command x) cmd).
    + destruct IH as [Ht Hl]. rewrite !total_cons, Ht. cbn [length]. rewrite Hl.
      split; [lia | reflexivity].
    + exact IH.
    + rewrite IH. reflexivity.
    + exact IH.
Qed.

Lemma visit_finished t0 st p d q b :
  finished p = false -> dispatch t0 p d -> settle t0 st d q b ->
  finished q = b /\ command q = command p.
Proof.
  intros Hp Hd Hs. revert Hs.
  destruct Hd; intros Hs; inversion Hs; subst; cbn; rewrite ?Hp; split; reflexivity.
Qed.

Lemma i32_succ a : i32 (i32 a + 1) = i32 (a + 1).
Proof. rewrite <- (i32_add_i32 a 1). reflexivity. Qed.

Lemma pass_history pol t0 t t' u h :
  pass t0 pol t t' u -> history_matches t h -> history_matches t' (observe h u).
Proof.
  intros [| p _ Hp | i p d q b Hi Hnt Hd Hs] Hm cmd; cbn.
  - apply Hm.
  - rewrite observed_app by apply Hp. apply Hm.
  - apply orb_false_elim in Hnt as [Hf _].
    destruct (visit_finished _ _ _ _ _ _ Hf Hd Hs) as [Hq Hc].
    pose proof (observed_insert cmd q t i p Hi Hf) as Hobs.
    specialize (Hm cmd). rewrite Hq in Hobs.
    destruct b; cbn in *; [| rewrite Hobs; exact Hm].
    destruct (String.eqb (command q) cmd) eqn:E.
    + apply String.eqb_eq in E. subst cmd. destruct Hobs as [Htot Hlen].
      rewrite findNode_update_same.
      destruct (Online.findNode h (command q)) as [node|]; cbn.
      * destruct Hm as (_ & Hsum & Hnum).
        split; [intros Hnil; rewrite Hnil in Hlen; discriminate |].
        rewrite Htot, Hlen, Hsum, Hnum, i32_add_i32, i32_succ.
        split; [reflexivity | f_equal; lia].
      * rewrite Hm in Htot, Hlen. cbn in Htot, Hlen.
        split; [intros Hnil; rewrite Hnil in Hlen; discriminate |].
        rewrite Htot, Hlen. split; reflexivity.
    + apply String.eqb_neq in E.
      rewrite findNode_update_other by congruence.
      rewrite Hobs. exact Hm.
Qed.

Lemma observed_total_nonneg cmd t :
  Forall metrics_settled t -> 0 <= total (observed cmd t).
Proof.
  induction 1 as [|p t Hp _ IH]; [cbn; lia |].
  rewrite observed_cons.
  destruct (finished p && String.eqb (command p) cmd); [| exact IH].
  rewrite total_cons. destruct Hp as (_ & _ & Hb & _). lia.
Qed.

Lemma history_estimate t h :
  history_matches t h -> Forall metrics_settled t -> estimate_follows t h.
Proof.
  intros Hm Hnn p. cbn zeta. specialize (Hm (command p)).
  pose proof (observed_total_nonneg (command p) t Hnn) as Htot.
  unfold Online.getExpectedBurstTime.
  assert (Hmean : forall node,
            Online.findNode h (command p) = Some node ->
            total (observed (command p) t) < 2 ^ 31 ->
            Z.of_nat (length (observed (command p) t)) < 2 ^ 31 ->
            u64 (Z.quot (Online.sum_burst_time node) (Online.num_bursts node))
              = total (observed (command p) t)
                / Z.of_nat (length (observed (command p) t))).
  { intros node Hnode Hs Hl. rewrite Hnode in Hm. destruct Hm as (Hne & -> & ->).
    assert (0 < Z.of_nat (length (observed (command p) t))).
    { destruct (observed (command p) t); [congruence | cbn; lia]. }
    rewrite !i32_small by lia. rewrite Z.quot_div_nonneg by lia.
    apply u64_small.
    assert (total (observed (command p) t)
              / Z.of_nat (length (observed (command p) t))
            <= total (observed (command p) t))
      by (apply Z.div_le_upper_bound; nia).
    split; [apply Z.div_pos; lia | lia]. }
  destruct (Online.findNode h (command p)) as [node|] eqn:Hnode.
  - destruct Hm as (Hne & Hsum & Hnum).
    split; [split; [discriminate | contradiction] |].
    split; [contradiction |].
    split; [intros _; apply Hmean; reflexivity |].
    split.
    + intros b Hb Hlt. rewrite Hb in *. cbn in Htot.
      rewrite (Hmean node eq_refl) by (cbn; lia). cbn.
      rewrite Z.add_0_r. apply Z.div_1_r.
    + intros b1 b2 Hb Hlt. rewrite Hb in *. cbn in Htot.
      rewrite (Hmean node eq_refl) by (cbn; lia). cbn.
      rewrite Z.add_0_r. reflexivity.
  - split; [split; [intros _; exact Hm | reflexivity] |].
    split; [reflexivity |].
    split; [intros Hne; contradiction |].
    split; intros; congruence.
Qed.

Lemma history_matches_start : history_matches [] Online.empty_table.
Proof.
  intros cmd. rewrite findNode_find_in.
  destruct (Online.cell_of cmd) as [|[|i]]; reflexivity.
Qed.

(** C2 (as the code has it). In [ShortestJobFirst] and in the online
    [MultiLevelFeedbackQueue], after any number of passes and for the
    command of any record [p], with [obs] the bursts of the records of that
    command whose finished flag is set: the history has no entry for the
    command exactly when [obs] is empty; the estimate is 1000 when [obs] is
    empty; it is the integer quotient of the sum of [obs] by their number
    when that sum and that number are below 2^31 (the history keeps them in
    [int]s); so it is [b] after one successful run of burst [b < 2^31], and
    [(b1 + b2) / 2] after two runs with [b1 + b2 < 2^31]. *)
Theorem burst_history_estimate :
  (forall k w, estimate_follows (SJF_table k w) (SJF_history k w)) /\
  (forall quantum0 quantum1 quantum2 boostTime k w,
     estimate_follows (OnlineMLFQ_table quantum0 quantum1 quantum2 boostTime k w)
       (OnlineMLFQ_history quantum0 quantum1 quantum2 boostTime k w)).
Proof.
  assert (Hpass : forall pol t0 t t' u h,
            pass t0 pol t t' u ->
            history_matches t h /\ Forall metrics_settled t ->
            history_matches t' (observe h u) /\ Forall metrics_settled t').
  { intros pol t0 t t' u h Hp [Hm Hs].
    split; [eapply pass_history | eapply pass_metrics]; eauto. }
  split.
  - intros k w.
    destruct (online_always PolSJF Online.SJF_init Online.SJF_body
                Online.sj_processList Online.sj_hashTable
                Online.sj_t0 (fun _ => True) (fun _ => I) SJF_online_policy
                (fun t h => history_matches t h /\ Forall metrics_settled t)
                (Hpass PolSJF)) with (k := k) (w := w) as [Hm Hs].
    { intros w'. rewrite SJF_init_table, SJF_init_history.
      split; [apply history_matches_start | constructor]. }
    apply history_estimate; assumption.
  - intros q0 q1 q2 bt k w.
    destruct (online_always PolOnlineMLFQ (Online.MLFQ_init q0 q1 q2 bt)
                Online.MLFQ_body Online.om_heap Online.om_hashTable
                Online.om_t0 MLFQ_online_inv (OnlineMLFQ_init_inv q0 q1 q2 bt)
                OnlineMLFQ_online_policy
                (fun t h => history_matches t h /\ Forall metrics_settled t)
                (Hpass PolOnlineMLFQ)) with (k := k) (w := w) as [Hm Hs].
    { intros w'. rewrite OnlineMLFQ_init_table, OnlineMLFQ_init_history.
      split; [apply history_matches_start | constructor]. }
    apply history_estimate; assumption.
Qed.

Lemma burst_history_estimate_witness :
  Online.getExpectedBurstTime (SJF_history 3 (boot short_job_os))
    (idle_record "job") = 20.
Proof.
  apply (proj1 burst_history_estimate 3%nat (boot short_job_os) (idle_record "job")).
  - vm_compute. reflexivity.
  - vm_compute. reflexivity.
Defined.

(** C2, counterexample. A run of ["job"] that takes 2^32 ms exits
    successfully; the burst handed to [updateBurstTime] is converted to
    [int], the entry's sum is 0 and the estimate for ["job"] is 0, not the
    observed burst. *)
Lemma long_burst_estimate_wraps :
  observed "job" (SJF_table 3 (boot long_job_os)) = [4294967296] /\
  Online.getExpectedBurstTime (SJF_history 3 (boot long_job_os))
    (idle_record "job") = 0.
Proof. vm_compute. split; reflexivity. Qed.

(** ** C4: the selection of [ShortestJobFirst] *)

Lemma run_succ {S} (init : M (ctl S)) (body : S -> M (ctl S)) k w :
  run init body (Datatypes.S k) w =
  match run init body k w with
  | (Next s, w') => body s w'
  | (Exit s, w') => (Exit s, w')
  end.
Proof.
  unfold run, bind. destruct (init w) as [[s|s] w1]; [| reflexivity].
  apply iterate_succ.
Qed.

(** Once the second ["job"] has been read, every later pass finds no input
    and selects nothing. *)
Lemma repeat_job_stuck n :
  let r := Online.ShortestJobFirst (6 + n) (boot repeat_job_os) in
  env (snd r) = repeat_job_os /\ (14 <= tick (snd r))%nat /\
  exists ph,
    fst r = Next (Online.mkSJF (SJF_history 6 (boot repeat_job_os)) 0 32
                    (SJF_table 6 (boot repeat_job_os)) 1 ph).
Proof.
  induction n as [|n IH].
  - vm_compute. split; [reflexivity |]. split; [lia |]. eexists. reflexivity.
  - replace (6 + S n)%nat with (S (6 + n)) by lia.
    unfold Online.ShortestJobFirst in *. rewrite run_succ. cbn zeta in IH.
    destruct (run Online.SJF_init Online.SJF_body (6 + n) (boot repeat_job_os))
      as [c w]. cbn [fst snd] in IH. destruct IH as (Henv & Htick & ph & ->).
    destruct ph.
    + unfold Online.SJF_body, Online.readInput. run_os. cbn.
      rewrite Henv. cbn.
      replace ((tick w =? 3) || (tick w =? 13))%nat with false.
      2: { symmetry. apply orb_false_iff. split; apply Nat.eqb_neq; lia. }
      cbn. split; [reflexivity |]. split; [lia |]. eexists. reflexivity.
    + vm_compute. split; [exact Henv |]. split; [exact Htick |].
      eexists. reflexivity.
Qed.

(** C4, evaluated where the selection fails. ["job"] ran once for 10^9 ms
    and is submitted again: its record is the only one that is not
    terminal, its estimate is 10^9, and after 6 or more passes it still has
    not started: the selection loop compares with [<] against the initial
    [minBurstTime = 1e9] and selects nothing. *)
Theorem SJF_long_job_never_selected (n : nat) :
  SJF_table (6 + n) (boot repeat_job_os) =
    [ mkProcess "job" true false true 0 0 0 1000000000 1000000000 1000000000
        1000000000 0 0 7;
      mkProcess "job" false false false 1000000000 3 3 9 0 0 0 0 0 (-1) ] /\
  Online.getExpectedBurstTime (SJF_history (6 + n) (boot repeat_job_os))
    (idle_record "job") = 1000000000 /\
  fst (Online.SJF_select (SJF_history (6 + n) (boot repeat_job_os))
         (SJF_table (6 + n) (boot repeat_job_os))) = None.
Proof.
  unfold SJF_table, SJF_history.
  destruct (repeat_job_stuck n) as (_ & _ & ph & ->). cbn [fst state_of].
  vm_compute. repeat split; reflexivity.
Qed.

(** ** C8: the child of an empty command *)

(** An allocation failure is the only way [parseCommand] returns [NULL];
    the child then exits with status 0. *)
Lemma unparseable_child_exits_0 alloc execvp cmd :
  parseCommand alloc cmd = None ->
  snd (child_main alloc execvp cmd) = ChildExit 0 /\
  option_map exited_ok (wait_status (snd (child_main alloc execvp cmd))) = Some true.
Proof. unfold child_main. intros ->. split; reflexivity. Qed.

(** The empty command parses to the empty vector, not to [NULL]. *)
Lemma parseCommand_empty alloc :
  alloc O = true -> parseCommand alloc "" = Some [].
Proof. intros H. unfold parseCommand. rewrite H. reflexivity. Qed.

(** So its child calls [execvp(NULL, ...)] and does not exit with 0. *)
Lemma empty_command_child alloc execvp :
  alloc O = true ->
  snd (child_main alloc execvp "") <> ChildExit 0.
Proof.
  intros H. unfold child_main. rewrite (parseCommand_empty alloc H). cbn.
  destruct (execvp None []) as [| r |sig]; cbn; try discriminate.
  destruct (r =? 0); discriminate.
Qed.

(** C8, evaluated on the empty command. With every allocation succeeding
    and [execvp] returning -1, the child of the empty command prints the
    execution error and exits with status 1; the parent's [waitpid] reports
    wait status 256, which is not a successful exit, and [FCFS] marks the
    record as errored, not as finished. *)
Theorem FCFS_empty_command_errors :
  child_main (fun _ => true) (fun _ _ => ExecReturned (-1)) ""
    = (["[ERROR]: Command execution failed"%string], ChildExit 1) /\
  wait_status (ChildExit 1) = Some 256 /\
  exited_ok 256 = false /\
  exists p, table_after (CfgFCFS [idle_record ""]) 1 (boot (steady_os 256)) = [p] /\
            error p = true /\ finished p = false.
Proof.
  split; [reflexivity |]. split; [reflexivity |]. split; [reflexivity |].
  eexists. split; [vm_compute; reflexivity |]. split; reflexivity.
Qed.

(** ** C6: failures of control calls *)

Lemma diagnosed_from_weaken next log :
  diagnosed_from None log = true -> diagnosed_from next log = true.
Proof.
  destruct log as [|e older]; [reflexivity |]. cbn.
  unfold followed_up. destruct (diagnostic_of e); [discriminate | trivial].
Qed.

Lemma diagnosed_from_app next chunk old :
  diagnosed_from next chunk = true -> diagnosed old = true ->
  diagnosed_from next (chunk ++ old) = true.
Proof.
  revert next. induction chunk as [|e chunk IH]; intros next Hc Ho; cbn in *.
  - apply diagnosed_from_weaken, Ho.
  - apply andb_true_iff in Hc as [He Hc]. rewrite He. cbn. apply IH; assumption.
Qed.

Lemma diagnosed_app chunk old :
  diagnosed chunk = true -> diagnosed old = true -> diagnosed (chunk ++ old) = true.
Proof. apply diagnosed_from_app. Qed.

Section LogsOk.

Context {A B : Type}.

Lemma logs_ok_ret (a : A) : logs_ok (ret a).
Proof. intros w. exists []. split; reflexivity. Qed.

Lemma logs_ok_bind (m : M A) (k : A -> M B) :
  logs_ok m -> (forall a, logs_ok (k a)) -> logs_ok (bind m k).
Proof.
  intros Hm Hk w. unfold bind. destruct (Hm w) as (c1 & E1 & D1).
  destruct (m w) as [a w1]. destruct (Hk a w1) as (c2 & E2 & D2).
  exists (c2 ++ c1). cbn in *. rewrite E2, E1, app_assoc.
  split; [reflexivity | apply diagnosed_app; assumption].
Qed.

Lemma logs_ok_ask (answer : OS -> nat -> A) (ev : A -> event) :
  (forall a, diagnostic_of (ev a) = None) -> logs_ok (ask answer ev).
Proof.
  intros H w. eexists [_]. split; [reflexivity |].
  cbn. unfold followed_up. rewrite H. reflexivity.
Qed.

Lemma logs_after_diagnostic_printf msg (k : unit -> M A) :
  (forall x, logs_ok (k x)) -> logs_after_diagnostic msg (bind (printf msg []) k).
Proof. intros Hk w. apply (Hk tt). Qed.

Lemma logs_after_diagnostic_bind msg (m : M A) (k : A -> M B) :
  logs_after_diagnostic msg m -> (forall a, logs_ok (k a)) ->
  logs_after_diagnostic msg (bind m k).
Proof.
  intros Hm Hk w. unfold bind. destruct (Hm w) as (c1 & E1 & D1).
  destruct (m w) as [a w1]. destruct (Hk a w1) as (c2 & E2 & D2).
  exists (c2 ++ c1). cbn in *. rewrite E2, E1, app_assoc.
  split; [reflexivity | apply diagnosed_app; assumption].
Qed.

(** A [waitpid] is followed up when its continuation starts with the
    diagnostic whenever the result is negative. *)
Lemma logs_ok_waitpid pid options (k : Z * Z -> M A) :
  (forall result status, (result <? 0) = false -> logs_ok (k (result, status))) ->
  (forall result status, (result <? 0) = true ->
     logs_after_diagnostic "[ERROR]: Waitpid failed" (k (result, status))) ->
  logs_ok (bind (waitpid pid options) k).
Proof.
  intros Hok Hfail w. unfold bind, waitpid, ask. cbn.
  destruct (os_waitpid (env w) (tick w)) as [result status]. cbn.
  destruct (result <? 0) eqn:E.
  - destruct (Hfail result status E
                (mkWorld (env w) (S (tick w))
                   (EvWaitpid pid options result status :: out w)))
      as (c & Ec & Dc).
    cbn in Ec.
    exists (c ++ [EvPrintf "[ERROR]: Waitpid failed" [];
                  EvWaitpid pid options result status]).
    rewrite Ec, <- app_assoc. split; [reflexivity |].
    apply diagnosed_app; [exact Dc |]. cbn. unfold followed_up. cbn.
    rewrite E. reflexivity.
  - destruct (Hok result status E
                (mkWorld (env w) (S (tick w))
                   (EvWaitpid pid options result status :: out w)))
      as (c & Ec & Dc).
    cbn in Ec. exists (c ++ [EvWaitpid pid options result status]).
    rewrite Ec, <- app_assoc. split; [reflexivity |].
    apply diagnosed_app; [exact Dc |]. cbn. unfold followed_up. cbn.
    rewrite E. reflexivity.
Qed.

End LogsOk.

Lemma logs_ok_emit e : diagnostic_of e = None -> logs_ok (emit e).
Proof.
  intros H w. exists [e]. split; [reflexivity |].
  cbn. unfold followed_up. rewrite H. reflexivity.
Qed.

Lemma logs_ok_printf fmt args : logs_ok (printf fmt args).
Proof. apply logs_ok_emit. reflexivity. Qed.

Lemma logs_ok_usleep usec : logs_ok (usleep usec).
Proof. apply logs_ok_emit. reflexivity. Qed.

Lemma logs_ok_clock : logs_ok getCurrentTimeInMilliseconds.
Proof.
  apply logs_ok_bind; [apply logs_ok_ask; reflexivity | intros; apply logs_ok_ret].
Qed.

Lemma logs_ok_writeProcessToCSV p file : logs_ok (writeProcessToCSV p file).
Proof.
  apply logs_ok_bind; [apply logs_ok_ask; reflexivity |].
  intros [|]; [apply logs_ok_emit; reflexivity | apply logs_ok_printf].
Qed.

Lemma logs_ok_writeHeaderToCSV file : logs_ok (writeHeaderToCSV file).
Proof.
  apply logs_ok_bind; [apply logs_ok_ask; reflexivity |].
  intros [|]; [apply logs_ok_emit; reflexivity | apply logs_ok_printf].
Qed.

(** A failed [fork] is followed by "Fork failed". *)
Lemma logs_ok_executeProcess p t0 : logs_ok (executeProcess p t0).
Proof.
  intros w. unfold executeProcess. run_os.
  destruct (os_fork (env w) (tick w)); cbn; eexists [_; _];
    (split; [reflexivity |]); reflexivity.
Qed.

(** A failed [kill] is followed by "Pausing process failed". *)
Lemma logs_ok_pauseProcess p t0 : logs_ok (pauseProcess p t0).
Proof.
  intros w. unfold pauseProcess.
  destruct (negb (started p) || finished p); [apply logs_ok_ret |].
  run_os. destruct (os_kill (env w) (tick w) <? 0) eqn:E; cbn.
  - eexists [_; _; _]. split; [reflexivity |]. cbn. unfold followed_up. cbn.
    rewrite E. reflexivity.
  - eexists [_; _]. split; [reflexivity |]. cbn. unfold followed_up. cbn.
    rewrite E. reflexivity.
Qed.

(** A failed [kill] is followed by "Resuming process failed". *)
Lemma logs_ok_resumeProcess p t0 : logs_ok (resumeProcess p t0).
Proof.
  intros w. unfold resumeProcess.
  destruct (negb (started p) || finished p); [apply logs_ok_ret |].
  run_os. destruct (os_kill (env w) (tick w) <? 0) eqn:E; cbn.
  - eexists [_; _; _]. split; [reflexivity |]. cbn. unfold followed_up. cbn.
    rewrite E. reflexivity.
  - eexists [_; _]. split; [reflexivity |]. cbn. unfold followed_up. cbn.
    rewrite E. reflexivity.
Qed.

Lemma logs_ok_print_switch p : logs_ok (print_switch p).
Proof. apply logs_ok_printf. Qed.

Ltac logs :=
  repeat first
    [ apply logs_ok_ret
    | apply logs_ok_printf
    | apply logs_ok_usleep
    | apply logs_ok_clock
    | apply logs_ok_writeProcessToCSV
    | apply logs_ok_writeHeaderToCSV
    | apply logs_ok_executeProcess
    | apply logs_ok_pauseProcess
    | apply logs_ok_resumeProcess
    | apply logs_ok_print_switch
    | apply logs_ok_waitpid;
      (let E := fresh "E" in
       intros ? ? E; cbn beta iota; rewrite ?E; cbn beta iota)
    | apply logs_after_diagnostic_printf; intros ?
    | apply logs_after_diagnostic_bind; [| intros ?]
    | apply logs_ok_bind; [| intros ?]
    | match goal with
      | |- logs_ok (if ?b then _ else _) => destruct b
      | |- logs_ok (match ?x with _ => _ end) => destruct x
      end ].

Lemma logs_ok_FCFS_body s : logs_ok (Offline.FCFS_body s).
Proof. unfold Offline.FCFS_body. cbn zeta. logs. Qed.

Lemma logs_ok_RR_body s : logs_ok (Offline.RR_body s).
Proof. unfold Offline.RR_body. cbn zeta. logs. Qed.

Lemma logs_ok_MLFQ_body s : logs_ok (Offline.MLFQ_body s).
Proof. unfold Offline.MLFQ_body. cbn zeta. logs. Qed.

Lemma logs_ok_malloc : logs_ok Online.malloc.
Proof. apply logs_ok_ask. reflexivity. Qed.

Lemma logs_ok_malloc_Process : logs_ok Online.malloc_Process.
Proof. apply logs_ok_ask. reflexivity. Qed.

Lemma logs_ok_readInput : logs_ok Online.readInput.
Proof.
  unfold Online.readInput.
  apply logs_ok_bind; [apply logs_ok_ask; reflexivity | intros r].
  destruct r; logs.
Qed.

Lemma logs_ok_new_process buffer t0 : logs_ok (Online.new_process buffer t0).
Proof.
  unfold Online.new_process.
  apply logs_ok_bind; [apply logs_ok_malloc_Process | intros p].
  destruct p; [| logs].
  apply logs_ok_bind; [apply logs_ok_malloc | intros ok]. logs.
Qed.

Lemma logs_ok_SJF_body s : logs_ok (Online.SJF_body s).
Proof.
  unfold Online.SJF_body. destruct (Online.sj_phase s).
  - apply logs_ok_bind; [apply logs_ok_readInput | intros input].
    destruct input; [| logs]. unfold Online.SJF_ingest.
    apply logs_ok_bind; [apply logs_ok_new_process | intros p].
    destruct p; [| logs].
    apply logs_ok_bind; [| intros c; destruct c; logs].
    destruct (_ =? _); [| logs].
    apply logs_ok_bind; [apply logs_ok_malloc | intros ok]. logs.
  - unfold Online.SJF_schedule. cbn zeta. logs.
Qed.

Lemma logs_ok_MLFQ_turn s : logs_ok (Online.MLFQ_turn s).
Proof. unfold Online.MLFQ_turn. cbn zeta. logs. Qed.

Lemma logs_ok_OnlineMLFQ_body s : logs_ok (Online.MLFQ_body s).
Proof.
  unfold Online.MLFQ_body. destruct (Online.om_phase s).
  - apply logs_ok_bind; [apply logs_ok_readInput | intros input].
    destruct input; [| logs]. unfold Online.MLFQ_ingest.
    apply logs_ok_bind; [apply logs_ok_new_process | intros p].
    destruct p; logs.
  - unfold Online.MLFQ_schedule. destruct (_ =? _); [logs |].
    apply logs_ok_bind; [apply logs_ok_MLFQ_turn | intros r].
    destruct r as [[[heap h] M'] rem]. logs.
Qed.

Lemma logs_ok_iterate {S} (body : S -> M (ctl S)) :
  (forall s, logs_ok (body s)) -> forall k s, logs_ok (iterate body k s).
Proof.
  intros Hbody k. induction k as [|k IH]; intros s; cbn [iterate].
  - apply logs_ok_ret.
  - apply logs_ok_bind; [apply IH | intros [s'|s']]; [apply Hbody | apply logs_ok_ret].
Qed.

Lemma logs_ok_run {S} (init : M (ctl S)) (body : S -> M (ctl S)) k :
  logs_ok init -> (forall s, logs_ok (body s)) -> logs_ok (run init body k).
Proof.
  intros Hinit Hbody. unfold run.
  apply logs_ok_bind; [exact Hinit | intros [s|s]];
    [apply logs_ok_iterate, Hbody | apply logs_ok_ret].
Qed.

Lemma logs_ok_diagnosed {A} (m : M A) w :
  logs_ok m -> diagnosed (out w) = true -> diagnosed (out (snd (m w))) = true.
Proof.
  intros Hm Hw. destruct (Hm w) as (c & -> & Hc). apply diagnosed_app; assumption.
Qed.

(** Every failed [fork], [kill] and [waitpid] of a run is followed by its
    diagnostic. *)
Lemma runs_diagnosed c k w :
  diagnosed (out w) = true -> diagnosed (log_after c k w) = true.
Proof.
  destruct c as [p | p quantum | p q0 q1 q2 bt | | q0 q1 q2 bt]; cbn;
    apply logs_ok_diagnosed, logs_ok_run.
  - unfold Offline.FCFS_init. logs.
  - apply logs_ok_FCFS_body.
  - unfold Offline.RR_init. logs.
  - apply logs_ok_RR_body.
  - unfold Offline.MLFQ_init. cbn zeta. logs.
  - apply logs_ok_MLFQ_body.
  - unfold Online.SJF_init. cbn zeta.
    apply logs_ok_bind; [logs | intros _].
    apply logs_ok_bind; [logs | intros t0].
    apply logs_ok_bind; [apply logs_ok_malloc | intros ok]. logs.
  - apply logs_ok_SJF_body.
  - unfold Online.MLFQ_init. logs.
  - apply logs_ok_OnlineMLFQ_body.
Qed.

(** *** Why a loop is left *)

Section Exits.

Context {S : Type} (init : M (ctl S)) (body : S -> M (ctl S))
  (Inv : S -> Prop) (Reason : S -> World -> Prop).

Hypothesis init_ok : forall w,
  Inv (state_of (fst (init w))) /\
  (exited (fst (init w)) = true -> Reason (state_of (fst (init w))) (snd (init w))).
Hypothesis body_ok : forall s w, Inv s ->
  Inv (state_of (fst (body s w))) /\
  (exited (fst (body s w)) = true ->
   Reason (state_of (fst (body s w))) (snd (body s w))).

Lemma run_exit k w :
  exited (fst (run init body k w)) = true ->
  Reason (state_of (fst (run init body k w))) (snd (run init body k w)).
Proof.
  assert (H : Inv (state_of (fst (run init body k w))) /\
              (exited (fst (run init body k w)) = true ->
               Reason (state_of (fst (run init body k w)))
                 (snd (run init body k w)))); [| apply H].
  induction k as [|k IH].
  - unfold run, bind. specialize (init_ok w).
    destruct (init w) as [[s|s] w1]; cbn in *; [| exact init_ok].
    split; [apply init_ok | discriminate].
  - rewrite run_succ. destruct (run init body k w) as [[s|s] w1]; cbn in *.
    + apply body_ok, IH.
    + exact IH.
Qed.

End Exits.

Lemma FCFS_body_exit s w :
  True ->
  True /\
  (exited (fst (Offline.FCFS_body s w)) = true ->
   (length (Offline.fc_p (state_of (fst (Offline.FCFS_body s w))))
    <= Offline.fc_i (state_of (fst (Offline.FCFS_body s w))))%nat).
Proof.
  intros _. split; [exact I |]. unfold Offline.FCFS_body.
  destruct (Offline.fc_p s !! Offline.fc_i s) as [pi|] eqn:Hi; cbn.
  - run_os. destruct (executeProcess pi (Offline.fc_t0 s) w) as [d w1].
    cbn. destruct (os_waitpid _ _) as [result status]. cbn.
    destruct (result <? 0); cbn; [discriminate |].
    destruct (exited_ok status); cbn; destruct (os_fopen _ _); discriminate.
  - intros _. apply lookup_ge_None, Hi.
Qed.

Lemma RR_body_exit s w :
  RR_inv s ->
  RR_inv (state_of (fst (Offline.RR_body s w))) /\
  (exited (fst (Offline.RR_body s w)) = true ->
   Offline.rr_remaining_processes (state_of (fst (Offline.RR_body s w))) <= 0 \/
   ends_with_failed_wait (out (snd (Offline.RR_body s w)))).
Proof.
  intros Hinv. unfold Offline.RR_body.
  destruct (Offline.rr_remaining_processes s <=? 0) eqn:Hrem; cbn.
  { split; [exact Hinv |]. intros _. left. apply Z.leb_le, Hrem. }
  apply Z.leb_gt in Hrem.
  destruct (Offline.rr_p s !! Offline.rr_i s) as [pi|] eqn:Hi; cbn.
  2: { apply lookup_ge_None in Hi. destruct Hinv; lia. }
  assert (Hlen : (0 < length (Offline.rr_p s))%nat)
    by (apply lookup_lt_Some in Hi; lia).
  assert (Hnext : forall t r,
            length t = length (Offline.rr_p s) ->
            RR_inv (Offline.mkRR t (Offline.rr_t0 s) (Offline.rr_quantum s)
                      (S (Offline.rr_i s) mod length (Offline.rr_p s)) r)).
  { intros t r Ht. left. cbn. rewrite Ht. apply Nat.mod_upper_bound. lia. }
  destruct (finished pi || error pi); cbn;
    [split; [apply Hnext; reflexivity | discriminate] |].
  run_os.
  destruct ((if negb (started pi) then executeProcess pi (Offline.rr_t0 s)
             else resumeProcess pi (Offline.rr_t0 s)) w) as [d w1].
  cbn. destruct (os_waitpid _ _) as [result status] eqn:Ew. cbn.
  destruct (result <? 0) eqn:Hres; cbn.
  - split.
    + left. cbn. rewrite length_insert. apply lookup_lt_Some in Hi. exact Hi.
    + intros _. right. unfold ends_with_failed_wait.
      apply Z.ltb_lt in Hres. eauto 10.
  - destruct (result =? 0); cbn.
    + destruct (pauseProcess d (Offline.rr_t0 s) _) as [q w2]. cbn.
      split; [apply Hnext, length_insert | discriminate].
    + destruct (exited_ok status); cbn; destruct (os_fopen _ _); cbn;
        (split; [apply Hnext, length_insert | discriminate]).
Qed.

Lemma queued_after_dequeue M i o q :
  dequeue (aget M i) = (o, q) ->
  forall x, x ∈ queued (aset M i q) -> x ∈ queued M.
Proof.
  intros Hdq x. rewrite (queued_aset M i q), (queued_aget M i).
  unfold dequeue in Hdq. destruct (aget M i) as [|y rest].
  - injection Hdq as _ <-. trivial.
  - injection Hdq as _ <-. rewrite !elem_of_app, elem_of_cons. tauto.
Qed.

Lemma queued_after_requeue M i p q j :
  dequeue (aget M i) = (Some p, q) ->
  forall x,
    x ∈ queued (aset (aset M i q) j (enqueue (aget (aset M i q) j) p)) ->
    x ∈ queued M.
Proof.
  intros Hdq x. rewrite queued_enqueue, (queued_dequeue M i p q Hdq). trivial.
Qed.

Arguments boost : simpl never.
Arguments queued : simpl never.

Lemma MLFQ_offline_body_exit s w :
  MLFQ_offline_inv s ->
  MLFQ_offline_inv (state_of (fst (Offline.MLFQ_body s w))) /\
  (exited (fst (Offline.MLFQ_body s w)) = true ->
   Offline.mq_remaining_processes (state_of (fst (Offline.MLFQ_body s w))) <= 0 \/
   ends_with_failed_wait (out (snd (Offline.MLFQ_body s w)))).
Proof.
  intros Hinv. unfold Offline.MLFQ_body.
  destruct (Offline.mq_remaining_processes s <=? 0) eqn:Hrem; cbn.
  { split; [exact Hinv |]. intros _. left. apply Z.leb_le, Hrem. }
  destruct (dequeue _) as [[p|] q] eqn:Hdq; cbn.
  2: { split; [| discriminate]. intros x Hx. cbn in Hx.
       apply Hinv. eapply queued_after_dequeue; eauto. }
  assert (Hp : (p < length (Offline.mq_p s))%nat).
  { apply Hinv. rewrite (queued_dequeue _ _ _ _ Hdq). apply elem_of_cons. auto. }
  destruct (Offline.mq_p s !! p) as [pr|] eqn:Hi; cbn.
  2: { apply lookup_ge_None in Hi. lia. }
  assert (Hdrop : forall x r,
            x ∈ queued (aset (Offline.mq_MLFQ s) (Offline.mq_current_queue s) q) ->
            (x < length (<[p := r]> (Offline.mq_p s)))%nat).
  { intros x r Hx. rewrite length_insert. apply Hinv.
    eapply queued_after_dequeue; eauto. }
  assert (Hback : forall x r j,
            x ∈ queued
                  (aset (aset (Offline.mq_MLFQ s) (Offline.mq_current_queue s) q) j
                     (enqueue
                        (aget (aset (Offline.mq_MLFQ s)
                                 (Offline.mq_current_queue s) q) j) p)) ->
            (x < length (<[p := r]> (Offline.mq_p s)))%nat).
  { intros x r j Hx. rewrite length_insert. apply Hinv.
    eapply queued_after_requeue; eauto. }
  destruct (finished pr || error pr); cbn.
  { split; [| discriminate]. intros x Hx. cbn in Hx.
    apply Hinv. eapply queued_after_dequeue; eauto. }
  run_os.
  destruct ((if negb (started pr) then executeProcess pr (Offline.mq_t0 s)
             else resumeProcess pr (Offline.mq_t0 s)) w) as [d w1].
  cbn. destruct (os_waitpid _ _) as [result status] eqn:Ew. cbn.
  destruct (result <? 0) eqn:Hres; cbn.
  - split.
    + intros x Hx. cbn in *. apply Hdrop, Hx.
    + intros _. right. unfold ends_with_failed_wait.
      apply Z.ltb_lt in Hres. eauto 10.
  - destruct (result =? 0); cbn.
    + destruct (pauseProcess d (Offline.mq_t0 s) _) as [r w2]. cbn.
      repeat match goal with
             | |- context [if ?b then _ else _] => destruct b; cbn
             end;
        (split; [| discriminate]); intros x Hx; cbn in *;
        rewrite ?queued_boost in Hx; eapply Hback, Hx.
    + destruct (exited_ok status); cbn;
        repeat match goal with
               | |- context [if ?b then _ else _] => destruct b; cbn
               end;
        (split; [| discriminate]); intros x Hx; cbn in *;
        rewrite ?queued_boost in Hx; apply Hdrop, Hx.
Qed.

Lemma new_process_none buffer t0 w :
  fst (Online.new_process buffer t0 w) = None ->
  ends_with_failed_alloc (out (snd (Online.new_process buffer t0 w))).
Proof.
  unfold Online.new_process, Online.malloc_Process, Online.malloc. run_os.
  destruct (os_malloc (env w) (tick w)); cbn;
    [| intros _; eexists; reflexivity].
  destruct (os_malloc (env w) (S (tick w))); cbn;
    [discriminate | intros _; eexists; reflexivity].
Qed.

Lemma SJF_body_exit s w :
  True ->
  True /\
  (exited (fst (Online.SJF_body s w)) = true ->
   ends_with_failed_alloc (out (snd (Online.SJF_body s w)))).
Proof.
  intros _. split; [exact I |]. unfold Online.SJF_body.
  destruct (Online.sj_phase s).
  - unfold Online.readInput. run_os.
    destruct (os_stdin (env w) (tick w)) as [| | buffer]; cbn; try discriminate.
    unfold Online.SJF_ingest. run_os.
    match goal with
    | |- context [Online.new_process buffer ?t ?w'] =>
        pose proof (new_process_none buffer t w') as Hnone;
        destruct (Online.new_process buffer t w') as [[p|] w1]
    end; cbn in *; [| intros _; apply Hnone; reflexivity].
    unfold Online.malloc. run_os.
    destruct (_ =? _); cbn; [| discriminate].
    destruct (os_malloc _ _); cbn; [discriminate |].
    intros _. eexists. reflexivity.
  - unfold Online.SJF_schedule.
    destruct (Online.sj_remainingProcesses s =? 0); cbn; [discriminate |].
    pose proof (SJF_select_spec (Online.sj_hashTable s) (Online.sj_processList s))
      as Hsel.
    destruct (fst (Online.SJF_select _ _)) as [i|]; cbn; [| discriminate].
    destruct Hsel as (p & Hp & _). rewrite Hp. run_os.
    destruct (executeProcess p (Online.sj_t0 s) w) as [d w1].
    cbn. destruct (os_waitpid _ _) as [result status]. cbn.
    destruct (result <? 0); cbn; [discriminate |].
    destruct (exited_ok status); cbn; destruct (os_fopen _ _); discriminate.
Qed.

Lemma OnlineMLFQ_body_exit s w :
  True ->
  True /\
  (exited (fst (Online.MLFQ_body s w)) = true ->
   ends_with_failed_alloc (out (snd (Online.MLFQ_body s w)))).
Proof.
  intros _. split; [exact I |]. unfold Online.MLFQ_body.
  destruct (Online.om_phase s).
  - unfold Online.readInput. run_os.
    destruct (os_stdin (env w) (tick w)) as [| | buffer]; cbn; try discriminate.
    unfold Online.MLFQ_ingest. run_os.
    match goal with
    | |- context [Online.new_process buffer ?t ?w'] =>
        pose proof (new_process_none buffer t w') as Hnone;
        destruct (Online.new_process buffer t w') as [[p|] w1]
    end; cbn in *; [discriminate | intros _; apply Hnone; reflexivity].
  - unfold Online.MLFQ_schedule.
    destruct (Online.om_remainingProcesses s =? 0); cbn; [discriminate |].
    run_os. destruct (Online.MLFQ_turn s w) as [[[[heap h] M'] rem] w1]. cbn.
    destruct (_ >=? _); discriminate.
Qed.

Lemma initializeProcess_length p :
  length (Offline.initializeProcess p) = length p.
Proof. apply length_map. Qed.

(** Why each of the five loops can be left. *)
Lemma runs_exit c k w :
  exited_after c k w = true ->
  loop_done c k w \/ leaves_on (policy_of c) (log_after c k w).
Proof.
  destruct c as [p | p quantum | p q0 q1 q2 bt | | q0 q1 q2 bt]; cbn; intros Hex.
  - left. revert Hex.
    apply (run_exit (Offline.FCFS_init p) Offline.FCFS_body (fun _ => True)
             (fun s _ => (length (Offline.fc_p s) <= Offline.fc_i s)%nat)).
    + intros w'. split; [exact I |]. unfold Offline.FCFS_init. run_os. cbn.
      destruct (os_fopen _ _); discriminate.
    + intros s w' _. apply FCFS_body_exit, I.
  - revert Hex.
    apply (run_exit (Offline.RR_init p quantum) Offline.RR_body RR_inv
             (fun s w' => Offline.rr_remaining_processes s <= 0 \/
                          ends_with_failed_wait (out w'))).
    + intros w'. unfold Offline.RR_init. run_os. cbn.
      destruct (os_fopen _ _); cbn; (split; [| discriminate]);
        unfold RR_inv; cbn; rewrite initializeProcess_length; lia.
    + intros s w'. apply RR_body_exit.
  - revert Hex.
    apply (run_exit (Offline.MLFQ_init p q0 q1 q2 bt) Offline.MLFQ_body
             MLFQ_offline_inv
             (fun s w' => Offline.mq_remaining_processes s <= 0 \/
                          ends_with_failed_wait (out w'))).
    + intros w'. unfold Offline.MLFQ_init. run_os. cbn.
      destruct (os_fopen _ _); cbn; (split; [| discriminate]);
        intros x Hx; cbn in *; unfold queued in Hx; cbn in Hx;
        rewrite enqueue_all_seq, !app_nil_r in Hx; cbn in Hx;
        apply elem_of_seq in Hx; lia.
    + intros s w'. apply MLFQ_offline_body_exit.
  - right. revert Hex.
    apply (run_exit Online.SJF_init Online.SJF_body (fun _ => True)
             (fun _ w' => ends_with_failed_alloc (out w'))).
    + intros w'. split; [exact I |].
      unfold Online.SJF_init, Online.malloc. run_os. cbn.
      destruct (os_fopen _ _); cbn; destruct (os_malloc _ _); cbn;
        first [discriminate | intros _; eexists; reflexivity].
    + intros s w' _. apply SJF_body_exit, I.
  - right. revert Hex.
    apply (run_exit (Online.MLFQ_init q0 q1 q2 bt) Online.MLFQ_body
             (fun _ => True) (fun _ w' => ends_with_failed_alloc (out w'))).
    + intros w'. split; [exact I |]. unfold Online.MLFQ_init. run_os. cbn.
      destruct (os_fopen _ _); discriminate.
    + intros s w' _. apply OnlineMLFQ_body_exit, I.
Qed.

(** *** What one pass adds to the log *)

Lemma extends_nil (old : list event) : old = [] ++ old.
Proof. reflexivity. Qed.

Lemma extends_cons (e : event) log chunk old :
  log = chunk ++ old -> e :: log = (e :: chunk) ++ old.
Proof. intros ->. reflexivity. Qed.

Lemma extends_app (first : list event) log chunk old :
  log = chunk ++ old -> first ++ log = (first ++ chunk) ++ old.
Proof. intros ->. apply app_assoc. Qed.

(** The chunk that a log has gained over an older one. *)
Ltac gained :=
  repeat first [apply extends_nil | apply extends_cons | apply extends_app].

(** Membership in a chunk of known events. *)
Ltac among H :=
  repeat match type of H with
         | _ ∈ _ :: _ => apply elem_of_cons in H as [H | H]
         | _ ∈ _ ++ _ => apply elem_of_app in H as [H | H]
         | _ ∈ [] => apply elem_of_nil in H; contradiction
         end.

Lemma take_gained (chunk old : list event) :
  take (length (chunk ++ old) - length old) (chunk ++ old) = chunk.
Proof.
  rewrite length_app, Nat.add_sub. apply take_app_length.
Qed.

(** The parent's side of [executeProcess]: no [waitpid], and after a failed
    [fork] nothing but its diagnostic, the record left as it was. *)
Lemma executeProcess_chunk p t0 w :
  exists chunk,
    out (snd (executeProcess p t0 w)) = chunk ++ out w /\
    (forall pid o r st, EvWaitpid pid o r st ∉ chunk) /\
    (EvFork None ∈ chunk ->
     chunk = [EvPrintf "[ERROR]: Fork failed" []; EvFork None] /\
     fst (executeProcess p t0 w) = p).
Proof.
  unfold executeProcess. run_os.
  destruct (os_fork (env w) (tick w)) as [c|]; cbn;
    (eexists; split; [gained |]); (split; [intros pid o r st H; among H; discriminate |]).
  - intros H. among H; discriminate.
  - intros _. split; reflexivity.
Qed.

Lemma resumeProcess_chunk p t0 w :
  exists chunk,
    out (snd (resumeProcess p t0 w)) = chunk ++ out w /\
    (forall pid o r st, EvWaitpid pid o r st ∉ chunk) /\ EvFork None ∉ chunk.
Proof.
  unfold resumeProcess. destruct (negb (started p) || finished p); cbn.
  - exists []. split; [reflexivity |].
    split; [intros pid o r st H | intros H]; among H.
  - run_os. destruct (_ <? 0); cbn; (eexists; split; [gained |]);
      (split; [intros pid o r st H | intros H]); among H; discriminate.
Qed.

Lemma pauseProcess_chunk p t0 w :
  exists chunk,
    out (snd (pauseProcess p t0 w)) = chunk ++ out w /\
    (forall pid o r st, EvWaitpid pid o r st ∉ chunk) /\ EvFork None ∉ chunk.
Proof.
  unfold pauseProcess. destruct (negb (started p) || finished p); cbn.
  - exists []. split; [reflexivity |].
    split; [intros pid o r st H | intros H]; among H.
  - run_os. destruct (_ <? 0); cbn; (eexists; split; [gained |]);
      (split; [intros pid o r st H | intros H]); among H; discriminate.
Qed.

(** The dispatch of the polling schedulers. *)
Lemma dispatch_call_chunk p t0 w :
  let r := (if negb (started p) then executeProcess p t0
            else resumeProcess p t0) w in
  exists chunk,
    out (snd r) = chunk ++ out w /\
    (forall pid o r st, EvWaitpid pid o r st ∉ chunk) /\
    (EvFork None ∈ chunk ->
     chunk = [EvPrintf "[ERROR]: Fork failed" []; EvFork None] /\
     fst r = p /\ started p = false).
Proof.
  destruct (started p) eqn:Hs; cbn.
  - destruct (resumeProcess_chunk p t0 w) as (chunk & Ho & Hw & Hf).
    exists chunk. split; [exact Ho |]. split; [exact Hw |]. intros H. contradiction.
  - destruct (executeProcess_chunk p t0 w) as (chunk & Ho & Hw & Hf).
    exists chunk. split; [exact Ho |]. split; [exact Hw |]. intros H.
    destruct (Hf H) as [Hc Hp]. split; [exact Hc |]. split; [exact Hp | reflexivity].
Qed.

(** The cases of a [waitpid] found in the chunk of a pass whose own
    [waitpid] did not fail ([Hres]). *)
Ltac wait_cases H Hres :=
  among H;
  first
    [ discriminate H
    | exfalso;
      match goal with
      | Hw : forall pid o r st, EvWaitpid pid o r st ∉ _ |- _ =>
          exact (Hw _ _ _ _ H)
      end
    | injection H as -> -> -> ->; apply Z.ltb_ge in Hres; lia ].

(** The cases of a failed [fork] found in the chunk of a pass: it is the
    one of the dispatch. *)
Ltac fork_cases H :=
  among H;
  try discriminate H;
  try (exfalso;
       match goal with
       | Hf : EvFork None ∉ _ |- _ => exact (Hf H)
       end).

Lemma RR_body_breaks s w :
  Forall unstarted_pid (Offline.rr_p s) ->
  exists chunk,
    out (snd (Offline.RR_body s w)) = chunk ++ out w /\
    (forall pid o r st, EvWaitpid pid o r st ∈ chunk -> r < 0 ->
       exited (fst (Offline.RR_body s w)) = true /\
       ends_with_failed_wait (out (snd (Offline.RR_body s w)))) /\
    (EvFork None ∈ chunk ->
       exists later r st usec,
         chunk = later ++ [EvWaitpid (-1) WNOHANG r st; EvUsleep usec;
                           EvPrintf "[ERROR]: Fork failed" []; EvFork None]).
Proof.
  intros Ht. unfold Offline.RR_body.
  assert (Hidle : exists chunk : list event,
            out w = chunk ++ out w /\
            (forall pid o r st, EvWaitpid pid o r st ∈ chunk -> r < 0 ->
               false = true /\ ends_with_failed_wait (out w)) /\
            (EvFork None ∈ chunk ->
               exists later r st usec,
                 chunk = later ++ [EvWaitpid (-1) WNOHANG r st; EvUsleep usec;
                                   EvPrintf "[ERROR]: Fork failed" [];
                                   EvFork None])).
  { exists []. split; [reflexivity |].
    split; [intros pid o r st H | intros H]; among H. }
  destruct (Offline.rr_remaining_processes s <=? 0); cbn.
  { exists []. split; [reflexivity |].
    split; [intros pid o r st H | intros H]; among H. }
  destruct (Offline.rr_p s !! Offline.rr_i s) as [pi|] eqn:Hi; cbn.
  2: { exists []. split; [reflexivity |].
       split; [intros pid o r st H | intros H]; among H. }
  destruct (finished pi || error pi); cbn; [exact Hidle |]. clear Hidle.
  pose proof (Forall_lookup_1 _ _ _ _ Ht Hi) as Hpid.
  run_os.
  destruct (dispatch_call_chunk pi (Offline.rr_t0 s) w) as (cd & Hod & Hwd & Hfd).
  destruct ((if negb (started pi) then executeProcess pi (Offline.rr_t0 s)
             else resumeProcess pi (Offline.rr_t0 s)) w) as [d w1].
  cbn in Hod, Hfd. cbn.
  destruct (os_waitpid _ _) as [result status]. cbn.
  destruct (result <? 0) eqn:Hres; cbn.
  - rewrite Hod. eexists. split; [gained |]. split.
    + intros pid o r st _ _. split; [reflexivity |].
      apply Z.ltb_lt in Hres. unfold ends_with_failed_wait. eauto 10.
    + intros H. fork_cases H. destruct (Hfd H) as (-> & -> & Hs).
      rewrite (Hpid Hs). eexists _, _, _, _. gained.
  - destruct (result =? 0); cbn.
    + match goal with
      | |- context [pauseProcess d ?t ?w'] =>
          destruct (pauseProcess_chunk d t w') as (cp & Hop & Hwp & Hfp);
          destruct (pauseProcess d t w') as [q w2]
      end.
      cbn in Hop. cbn. rewrite Hop, Hod. eexists. split; [gained |]. split.
      * intros pid o r st H Hr. wait_cases H Hres.
      * intros H. fork_cases H. destruct (Hfd H) as (-> & -> & Hs).
        rewrite (Hpid Hs). eexists _, _, _, _. gained.
    + destruct (exited_ok status); cbn; destruct (os_fopen _ _); cbn;
        rewrite Hod; (eexists; split; [gained |]); split;
        try (intros pid o r st H Hr; wait_cases H Hres);
        (intros H; fork_cases H; destruct (Hfd H) as (-> & -> & Hs);
         rewrite (Hpid Hs); eexists _, _, _, _; gained).
Qed.

Lemma MLFQ_offline_body_breaks s w :
  Forall unstarted_pid (Offline.mq_p s) ->
  exists chunk,
    out (snd (Offline.MLFQ_body s w)) = chunk ++ out w /\
    (forall pid o r st, EvWaitpid pid o r st ∈ chunk -> r < 0 ->
       exited (fst (Offline.MLFQ_body s w)) = true /\
       ends_with_failed_wait (out (snd (Offline.MLFQ_body s w)))) /\
    (EvFork None ∈ chunk ->
       exists later r st usec,
         chunk = later ++ [EvWaitpid (-1) WNOHANG r st; EvUsleep usec;
                           EvPrintf "[ERROR]: Fork failed" []; EvFork None]).
Proof.
  intros Ht. unfold Offline.MLFQ_body.
  assert (Hidle : exists chunk : list event,
            out w = chunk ++ out w /\
            (forall pid o r st, EvWaitpid pid o r st ∈ chunk -> r < 0 ->
               false = true /\ ends_with_failed_wait (out w)) /\
            (EvFork None ∈ chunk ->
               exists later r st usec,
                 chunk = later ++ [EvWaitpid (-1) WNOHANG r st; EvUsleep usec;
                                   EvPrintf "[ERROR]: Fork failed" [];
                                   EvFork None])).
  { exists []. split; [reflexivity |].
    split; [intros pid o r st H | intros H]; among H. }
  destruct (Offline.mq_remaining_processes s <=? 0); cbn.
  { exists []. split; [reflexivity |].
    split; [intros pid o r st H | intros H]; among H. }
  destruct (dequeue _) as [[p|] q0]; cbn; [| exact Hidle].
  destruct (Offline.mq_p s !! p) as [pr|] eqn:Hi; cbn.
  2: { exists []. split; [reflexivity |].
       split; [intros pid o r st H | intros H]; among H. }
  destruct (finished pr || error pr); cbn; [exact Hidle |]. clear Hidle.
  pose proof (Forall_lookup_1 _ _ _ _ Ht Hi) as Hpid.
  run_os.
  destruct (dispatch_call_chunk pr (Offline.mq_t0 s) w) as (cd & Hod & Hwd & Hfd).
  destruct ((if negb (started pr) then executeProcess pr (Offline.mq_t0 s)
             else resumeProcess pr (Offline.mq_t0 s)) w) as [d w1].
  cbn in Hod, Hfd. cbn.
  destruct (os_waitpid _ _) as [result status]. cbn.
  destruct (result <? 0) eqn:Hres; cbn.
  - rewrite Hod. eexists. split; [gained |]. split.
    + intros pid o r st _ _. split; [reflexivity |].
      apply Z.ltb_lt in Hres. unfold ends_with_failed_wait. eauto 10.
    + intros H. fork_cases H. destruct (Hfd H) as (-> & -> & Hs).
      rewrite (Hpid Hs). eexists _, _, _, _. gained.
  - destruct (result =? 0); cbn.
    + match goal with
      | |- context [pauseProcess d ?t ?w'] =>
          destruct (pauseProcess_chunk d t w') as (cp & Hop & Hwp & Hfp);
          destruct (pauseProcess d t w') as [q w2]
      end.
      cbn in Hop. split_ifs; rewrite Hop, Hod;
        (eexists; split; [gained |]); split;
        try (intros pid o r st H Hr; wait_cases H Hres);
        (intros H; fork_cases H; destruct (Hfd H) as (-> & -> & Hs);
         rewrite (Hpid Hs); eexists _, _, _, _; gained).
    + destruct (exited_ok status); cbn; destruct (os_fopen _ _); split_ifs;
        rewrite Hod; (eexists; split; [gained |]); split;
        try (intros pid o r st H Hr; wait_cases H Hres);
        (intros H; fork_cases H; destruct (Hfd H) as (-> & -> & Hs);
         rewrite (Hpid Hs); eexists _, _, _, _; gained).
Qed.

(** Under the offline schedulers a record that has not started keeps the
    process identifier -1. *)
Lemma pass_unstarted_pid pol t0 t t' u :
  online pol = false ->
  pass t0 pol t t' u -> Forall unstarted_pid t -> Forall unstarted_pid t'.
Proof.
  intros Hoff [| p Hon Hp | i p d q b Hi Hnt Hd Hs] Ht.
  - exact Ht.
  - congruence.
  - apply Forall_insert; [exact Ht |].
    pose proof (Forall_lookup_1 _ _ _ _ Ht Hi) as Hp.
    assert (Hdp : unstarted_pid d).
    { destruct Hd; [exact Hp | intros E; destruct p; discriminate E
                   | destruct p; exact Hp]. }
    destruct Hs; try exact Hdp; destruct d; exact Hdp.
Qed.

Lemma offline_unstarted_pid c k w :
  online (policy_of c) = false -> Forall unstarted_pid (table_after c k w).
Proof.
  apply (tables_always
           (fun pol t => online pol = false -> Forall unstarted_pid t)).
  - intros pol t0 t t' u Hpass Ht Hoff. eapply pass_unstarted_pid; eauto.
  - intros c' _. eapply Forall_impl; [apply table_at_start_idle |].
    intros q -> _. reflexivity.
Qed.

Lemma echild_at later pid o r st old :
  echild (later ++ EvWaitpid pid o r st :: old) -> children old <= 0 -> r < 0.
Proof.
  induction later as [|e later IH]; cbn.
  - intros [H _]. exact H.
  - intros [_ H]. exact (IH H).
Qed.

(** A pass only adds events to the log. *)
Lemma log_after_gains c k w :
  exists chunk, log_after c (S k) w = chunk ++ log_after c k w.
Proof.
  destruct c as [p | p quantum | p q0 q1 q2 bt | | q0 q1 q2 bt]; cbn;
    unfold Offline.FCFS, Offline.RoundRobin, Offline.MultiLevelFeedbackQueue,
      Online.ShortestJobFirst, Online.MultiLevelFeedbackQueue;
    rewrite run_succ;
    match goal with
    | |- context [run ?init ?body k w] =>
        destruct (run init body k w) as [[s|s] w']
    end; cbn; try (exists []; reflexivity).
  - destruct (logs_ok_FCFS_body s w') as (chunk & Hc & _). eauto.
  - destruct (logs_ok_RR_body s w') as (chunk & Hc & _). eauto.
  - destruct (logs_ok_MLFQ_body s w') as (chunk & Hc & _). eauto.
  - destruct (logs_ok_SJF_body s w') as (chunk & Hc & _). eauto.
  - destruct (logs_ok_OnlineMLFQ_body s w') as (chunk & Hc & _). eauto.
Qed.

Lemma log_after_pass_log c k w :
  log_after c (S k) w = pass_log c k w ++ log_after c k w.
Proof.
  destruct (log_after_gains c k w) as (chunk & Hc). unfold pass_log.
  rewrite Hc at 1. rewrite Hc, take_gained. reflexivity.
Qed.

(** What a pass of [RoundRobin] or of the offline
    [MultiLevelFeedbackQueue] adds: a [waitpid] that failed ends the loop,
    and a [fork] that failed is followed by [waitpid(-1, &status, WNOHANG)]. *)
Lemma polling_pass c k w :
  breaks_on_wait (policy_of c) = true ->
  (forall pid o r st, EvWaitpid pid o r st ∈ pass_log c k w -> r < 0 ->
     exited_after c (S k) w = true /\
     ends_with_failed_wait (log_after c (S k) w)) /\
  (EvFork None ∈ pass_log c k w ->
     exists later r st usec,
       pass_log c k w = later ++ [EvWaitpid (-1) WNOHANG r st; EvUsleep usec;
                                  EvPrintf "[ERROR]: Fork failed" [];
                                  EvFork None]).
Proof.
  intros Hpol.
  assert (H : exists chunk,
            log_after c (S k) w = chunk ++ log_after c k w /\
            (forall pid o r st, EvWaitpid pid o r st ∈ chunk -> r < 0 ->
               exited_after c (S k) w = true /\
               ends_with_failed_wait (log_after c (S k) w)) /\
            (EvFork None ∈ chunk ->
               exists later r st usec,
                 chunk = later ++ [EvWaitpid (-1) WNOHANG r st; EvUsleep usec;
                                   EvPrintf "[ERROR]: Fork failed" [];
                                   EvFork None])).
  { destruct c as [p | p quantum | p q0 q1 q2 bt | | q0 q1 q2 bt];
      try discriminate Hpol.
    - pose proof (offline_unstarted_pid (CfgRR p quantum) k w eq_refl) as Ht.
      cbn in Ht |- *. unfold RR_table, Offline.RoundRobin in *.
      rewrite run_succ.
      destruct (run (Offline.RR_init p quantum) Offline.RR_body k w)
        as [[s|s] w']; cbn in Ht |- *.
      + apply RR_body_breaks, Ht.
      + exists []. split; [reflexivity |].
        split; [intros pid o r st H | intros H]; among H.
    - pose proof (offline_unstarted_pid (CfgMLFQ p q0 q1 q2 bt) k w eq_refl) as Ht.
      cbn in Ht |- *. unfold MLFQ_table, Offline.MultiLevelFeedbackQueue in *.
      rewrite run_succ.
      destruct (run (Offline.MLFQ_init p q0 q1 q2 bt) Offline.MLFQ_body k w)
        as [[s|s] w']; cbn in Ht |- *.
      + apply MLFQ_offline_body_breaks, Ht.
      + exists []. split; [reflexivity |].
        split; [intros pid o r st H | intros H]; among H. }
  destruct H as (chunk & Hc & Hw & Hf).
  assert (Hp : pass_log c k w = chunk).
  { unfold pass_log. rewrite Hc. apply take_gained. }
  rewrite Hp. split; assumption.
Qed.

(** C6 (as the code has it). In a run of any of the five schedulers that
    starts from a log where it holds, every failed [fork], [kill] and
    [waitpid] of the log is immediately followed by its diagnostic. A
    failed [kill] never ends a scheduling loop, and neither does a failed
    [fork] or [waitpid] under [FCFS], [ShortestJobFirst] and the online
    [MultiLevelFeedbackQueue]: [FCFS] is left only once every record has
    been visited, the two online loops only on a failed allocation.
    [RoundRobin] and the offline [MultiLevelFeedbackQueue] are left when no
    record remains, or right after a failed [waitpid] and its diagnostic:
    whenever the [waitpid] of one of their passes fails, that pass ends the
    loop. A failed [fork] is fatal there through this [break]: it leaves the
    process identifier of the record at -1, the same pass calls
    [waitpid(-1, WNOHANG)], and when the scheduler has no child, so that
    this call fails as POSIX has it, the pass ends the loop. *)
Theorem control_call_failures (c : config) (k : nat) (w : World) :
  diagnosed (out w) = true ->
  diagnosed (log_after c k w) = true /\
  (exited_after c k w = true ->
   loop_done c k w \/ leaves_on (policy_of c) (log_after c k w)) /\
  log_after c (S k) w = pass_log c k w ++ log_after c k w /\
  (breaks_on_wait (policy_of c) = true ->
   (forall pid options result status,
      EvWaitpid pid options result status ∈ pass_log c k w -> result < 0 ->
      exited_after c (S k) w = true /\
      ends_with_failed_wait (log_after c (S k) w)) /\
   (EvFork None ∈ pass_log c k w ->
    (exists result status,
       EvWaitpid (-1) WNOHANG result status ∈ pass_log c k w) /\
    (children (log_after c k w) <= 0 -> echild (log_after c (S k) w) ->
     exited_after c (S k) w = true /\
     ends_with_failed_wait (log_after c (S k) w)))).
Proof.
  intros Hw. split; [apply runs_diagnosed, Hw |].
  split; [apply runs_exit |]. split; [apply log_after_pass_log |].
  intros Hpol. destruct (polling_pass c k w Hpol) as [Hwait Hfork].
  split; [exact Hwait |]. intros Hin.
  destruct (Hfork Hin) as (later & r & st & usec & Hlog).
  assert (Hmem : EvWaitpid (-1) WNOHANG r st ∈ pass_log c k w).
  { rewrite Hlog. apply elem_of_app. right. apply elem_of_cons. left. reflexivity. }
  split; [eauto |]. intros Hnone Hposix.
  apply (Hwait (-1) WNOHANG r st Hmem).
  rewrite log_after_pass_log, Hlog, <- app_assoc in Hposix.
  apply (echild_at _ _ _ _ _ _ Hposix). exact Hnone.
Qed.

Lemma control_call_failures_witness :
  diagnosed
    (log_after (CfgRR [idle_record "true"; idle_record "ls"] 5) 0
       (boot no_child_os)) = true /\
  (exited_after (CfgRR [idle_record "true"; idle_record "ls"] 5) 0
     (boot no_child_os) = true ->
   loop_done (CfgRR [idle_record "true"; idle_record "ls"] 5) 0
     (boot no_child_os) \/
   leaves_on PolRR
     (log_after (CfgRR [idle_record "true"; idle_record "ls"] 5) 0
        (boot no_child_os))) /\
  log_after (CfgRR [idle_record "true"; idle_record "ls"] 5) 1 (boot no_child_os)
  = pass_log (CfgRR [idle_record "true"; idle_record "ls"] 5) 0 (boot no_child_os)
    ++ log_after (CfgRR [idle_record "true"; idle_record "ls"] 5) 0
         (boot no_child_os) /\
  (breaks_on_wait PolRR = true ->
   (forall pid options result status,
      EvWaitpid pid options result status
        ∈ pass_log (CfgRR [idle_record "true"; idle_record "ls"] 5) 0
            (boot no_child_os) ->
      result < 0 ->
      exited_after (CfgRR [idle_record "true"; idle_record "ls"] 5) 1
        (boot no_child_os) = true /\
      ends_with_failed_wait
        (log_after (CfgRR [idle_record "true"; idle_record "ls"] 5) 1
           (boot no_child_os))) /\
   (EvFork None
      ∈ pass_log (CfgRR [idle_record "true"; idle_record "ls"] 5) 0
          (boot no_child_os) ->
    (exists result status,
       EvWaitpid (-1) WNOHANG result status
         ∈ pass_log (CfgRR [idle_record "true"; idle_record "ls"] 5) 0
             (boot no_child_os)) /\
    (children
       (log_after (CfgRR [idle_record "true"; idle_record "ls"] 5) 0
          (boot no_child_os)) <= 0 ->
     echild
       (log_after (CfgRR [idle_record "true"; idle_record "ls"] 5) 1
          (boot no_child_os)) ->
     exited_after (CfgRR [idle_record "true"; idle_record "ls"] 5) 1
       (boot no_child_os) = true /\
     ends_with_failed_wait
       (log_after (CfgRR [idle_record "true"; idle_record "ls"] 5) 1
          (boot no_child_os))))).
Proof.
  apply (control_call_failures (CfgRR [idle_record "true"; idle_record "ls"] 5) 0
           (boot no_child_os)).
  reflexivity.
Defined.

(** C6, counterexample. [RoundRobin] on two records when [waitpid] fails:
    the first pass dispatches the first record, logs "Waitpid failed" and
    leaves the loop; after any number of passes two records remain and the
    second has never been started. *)
Lemma RR_failed_wait_ends_run :
  exited_after (CfgRR [idle_record "true"; idle_record "ls"] 5) 1
    (boot failing_wait_os) = true /\
  Offline.rr_remaining_processes
    (state_of (fst (Offline.RoundRobin [idle_record "true"; idle_record "ls"] 5 9
                      (boot failing_wait_os)))) = 2 /\
  Forall (fun p => terminal p = false)
    (table_after (CfgRR [idle_record "true"; idle_record "ls"] 5) 9
       (boot failing_wait_os)) /\
  (exists p, table_after (CfgRR [idle_record "true"; idle_record "ls"] 5) 9
               (boot failing_wait_os) !! 1%nat = Some p /\ started p = false) /\
  hd_error (log_after (CfgRR [idle_record "true"; idle_record "ls"] 5) 9
              (boot failing_wait_os))
    = Some (EvPrintf "[ERROR]: Waitpid failed" []).
Proof.
  split; [vm_compute; reflexivity |]. split; [vm_compute; reflexivity |].
  split; [vm_compute; repeat constructor |].
  split; [eexists; split; vm_compute; reflexivity | vm_compute; reflexivity].
Qed.

(** C6, the failed [fork]. On a system where every [fork] fails, so that
    the scheduler never has a child and every [waitpid] fails: the first
    pass of [RoundRobin] and of the offline [MultiLevelFeedbackQueue] logs
    the failed [fork] and its diagnostic, calls
    [waitpid(-1, &status, WNOHANG)], logs its diagnostic and leaves the
    loop; no record is ever started. [FCFS] on the same system goes on to
    the next record. *)
Example failed_fork_ends_polling_loops :
  (pass_log (CfgRR [idle_record "true"; idle_record "ls"] 5) 0 (boot no_child_os)
   = [EvPrintf "[ERROR]: Waitpid failed" []; EvWaitpid (-1) WNOHANG (-1) 0;
      EvUsleep 5000; EvPrintf "[ERROR]: Fork failed" []; EvFork None] /\
   children (log_after (CfgRR [idle_record "true"; idle_record "ls"] 5) 0
               (boot no_child_os)) = 0 /\
   echild (log_after (CfgRR [idle_record "true"; idle_record "ls"] 5) 1
             (boot no_child_os)) /\
   exited_after (CfgRR [idle_record "true"; idle_record "ls"] 5) 1
     (boot no_child_os) = true /\
   Forall (fun p => started p = false)
     (table_after (CfgRR [idle_record "true"; idle_record "ls"] 5) 9
        (boot no_child_os))) /\
  (pass_log (CfgMLFQ [idle_record "true"; idle_record "ls"] 5 10 20 1000) 0
     (boot no_child_os)
   = [EvPrintf "[ERROR]: Waitpid failed" []; EvWaitpid (-1) WNOHANG (-1) 0;
      EvUsleep 5000; EvPrintf "[ERROR]: Fork failed" []; EvFork None] /\
   children (log_after (CfgMLFQ [idle_record "true"; idle_record "ls"] 5 10 20 1000)
               0 (boot no_child_os)) = 0 /\
   echild (log_after (CfgMLFQ [idle_record "true"; idle_record "ls"] 5 10 20 1000)
             1 (boot no_child_os)) /\
   exited_after (CfgMLFQ [idle_record "true"; idle_record "ls"] 5 10 20 1000) 1
     (boot no_child_os) = true /\
   Forall (fun p => started p = false)
     (table_after (CfgMLFQ [idle_record "true"; idle_record "ls"] 5 10 20 1000) 9
        (boot no_child_os))) /\
  (pass_log (CfgFCFS [idle_record "true"; idle_record "ls"]) 0 (boot no_child_os)
   = [EvPrintf "[ERROR]: Waitpid failed" []; EvWaitpid (-1) 0 (-1) 0;
      EvPrintf "[ERROR]: Fork failed" []; EvFork None] /\
   exited_after (CfgFCFS [idle_record "true"; idle_record "ls"]) 2
     (boot no_child_os) = false).
Proof.
  split; [| split].
  - split; [vm_compute; reflexivity |]. split; [vm_compute; reflexivity |].
    split; [vm_compute; repeat split; intros; lia |].
    split; [vm_compute; reflexivity | vm_compute; repeat constructor].
  - split; [vm_compute; reflexivity |]. split; [vm_compute; reflexivity |].
    split; [vm_compute; repeat split; intros; lia |].
    split; [vm_compute; reflexivity | vm_compute; repeat constructor].
  - split; vm_compute; reflexivity.
Qed.

(** * Further properties *)

(** ** Tables only grow *)

Lemma table_after_0 c w : table_after c 0 w = table_at_start c.
Proof.
  destruct c as [p | p quantum | p q0 q1 q2 bt | | q0 q1 q2 bt]; cbn;
    unfold FCFS_table, RR_table, MLFQ_table, SJF_table, OnlineMLFQ_table,
      Offline.FCFS, Offline.RoundRobin, Offline.MultiLevelFeedbackQueue,
      Online.ShortestJobFirst, Online.MultiLevelFeedbackQueue, run, bind.
  - rewrite <- (FCFS_init_table p w).
    destruct (Offline.FCFS_init p w) as [[s|s] w1]; reflexivity.
  - rewrite <- (RR_init_table p quantum w).
    destruct (Offline.RR_init p quantum w) as [[s|s] w1]; reflexivity.
  - rewrite <- (MLFQ_init_table p q0 q1 q2 bt w).
    destruct (Offline.MLFQ_init p q0 q1 q2 bt w) as [[s|s] w1]; reflexivity.
  - rewrite <- (SJF_init_table w).
    destruct (Online.SJF_init w) as [[s|s] w1]; reflexivity.
  - rewrite <- (OnlineMLFQ_init_table q0 q1 q2 bt w).
    destruct (Online.MLFQ_init q0 q1 q2 bt w) as [[s|s] w1]; reflexivity.
Qed.

Lemma pass_length t0 pol t t' u :
  pass t0 pol t t' u -> (length t' <= S (length t))%nat.
Proof.
  intros [| p _ _ | i p d q b _ _ _ _].
  - lia.
  - rewrite length_app. cbn. lia.
  - rewrite length_insert. lia.
Qed.

Lemma table_length c k w :
  (length (table_after c k w) <= length (table_at_start c) + k)%nat.
Proof.
  induction k as [|k IH].
  - rewrite table_after_0. lia.
  - assert (Hk : (length (table_after c (S k) w)
                   <= S (length (table_after c k w)))%nat).
    { apply (tables_next (fun _ t t' => (length t' <= S (length t))%nat)).
      - intros _ t. lia.
      - intros pol t0 t t' u. apply pass_length. }
    lia.
Qed.

(** ** The burst-time history *)

Lemma hash_fold_range l : forall sum,
  0 <= sum < Online.MOD ->
  0 <= fold_left
         (fun sum c =>
            u64 (u64 (sum * Online.HASH_PRIME) + Online.char_value c) mod Online.MOD)
         l sum < Online.MOD.
Proof.
  induction l as [|c l IH]; intros sum Hsum; cbn; [exact Hsum |].
  apply IH. apply Z.mod_pos_bound. reflexivity.
Qed.

(** [hashFunction] returns a value below [MOD], so the conversion to [int]
    in [findNode] and [updateBurstTime] loses nothing, and the bucket
    index [hash % NUM_CELLS] is 0, 1 or 2. *)
Theorem hashFunction_in_range (cmd : string) :
  0 <= Online.hashFunction cmd < Online.MOD /\
  i32 (Online.hashFunction cmd) = Online.hashFunction cmd /\
  Online.cell_of cmd = Z.to_nat (Online.hashFunction cmd mod Online.NUM_CELLS) /\
  (Online.cell_of cmd < 3)%nat.
Proof.
  assert (H : 0 <= Online.hashFunction cmd < Online.MOD).
  { apply hash_fold_range. unfold Online.MOD. lia. }
  assert (Hi : i32 (Online.hashFunction cmd) = Online.hashFunction cmd).
  { apply i32_small. unfold Online.MOD in H. lia. }
  split; [exact H | split; [exact Hi |]].
  unfold Online.cell_of. rewrite Hi.
  rewrite Z.rem_mod_nonneg by (unfold Online.NUM_CELLS; lia).
  split; [reflexivity |].
  pose proof (Z.mod_pos_bound (Online.hashFunction cmd) Online.NUM_CELLS
                ltac:(reflexivity)) as Hm.
  unfold Online.NUM_CELLS in *. lia.
Qed.

(** [updateBurstTime] followed by [findNode]: a command without an entry
    gets one holding the burst and the count 1; a command with an entry
    has the burst added to its sum and 1 to its count (as [int]s); the
    entry and the estimate of every other command are left as they were,
    also when the two commands fall in the same bucket. *)
Theorem history_update_lookup (h : arr3 Online.Cell) (b : Z) (cmd : string) :
  (Online.findNode h cmd = None ->
   Online.findNode (Online.updateBurstTime h b cmd) cmd
     = Some (Online.mkNode cmd (i32 b) 1)) /\
  (forall node,
     Online.findNode h cmd = Some node ->
     Online.findNode (Online.updateBurstTime h b cmd) cmd
       = Some (Online.mkNode cmd (i32 (Online.sum_burst_time node + i32 b))
                 (i32 (Online.num_bursts node + 1)))) /\
  (forall cmd', cmd' <> cmd ->
     Online.findNode (Online.updateBurstTime h b cmd) cmd' = Online.findNode h cmd') /\
  (forall p, command p <> cmd ->
     Online.getExpectedBurstTime (Online.updateBurstTime h b cmd) p
       = Online.getExpectedBurstTime h p).
Proof.
  split; [| split; [| split]].
  - intros Hn. rewrite findNode_update_same, Hn. reflexivity.
  - intros node Hn. rewrite findNode_update_same, Hn.
    rewrite findNode_find_in in Hn. apply find_in_command in Hn.
    rewrite Hn. reflexivity.
  - intros cmd' Hne. apply findNode_update_other, Hne.
  - intros p Hne. unfold Online.getExpectedBurstTime.
    rewrite findNode_update_other by exact Hne. reflexivity.
Qed.

Lemma history_update_lookup_witness :
  Online.findNode (Online.updateBurstTime Online.empty_table 30 "ls") "ls"
    = Some (Online.mkNode "ls" 30 1) /\
  Online.findNode
    (Online.updateBurstTime (Online.updateBurstTime Online.empty_table 30 "ls")
       50 "ls") "ls"
    = Some (Online.mkNode "ls" 80 2) /\
  Online.findNode (Online.updateBurstTime Online.empty_table 30 "ls") "pwd"
    = Online.findNode Online.empty_table "pwd" /\
  Online.getExpectedBurstTime (Online.updateBurstTime Online.empty_table 30 "ls")
    (idle_record "pwd")
    = Online.getExpectedBurstTime Online.empty_table (idle_record "pwd").
Proof.
  destruct (history_update_lookup Online.empty_table 30 "ls") as (H1 & _ & H3 & H4).
  destruct (history_update_lookup
              (Online.updateBurstTime Online.empty_table 30 "ls") 50 "ls")
    as (_ & H2 & _).
  split; [apply H1; reflexivity |].
  split; [apply (H2 (Online.mkNode "ls" 30 1)); reflexivity |].
  split; [apply H3; discriminate | apply H4; discriminate].
Defined.

Lemma observed_length cmd t : (length (observed cmd t) <= length t)%nat.
Proof.
  unfold observed. rewrite length_map.
  induction t as [|p t IH]; cbn; [lia |].
  destruct (finished p && String.eqb (command p) cmd); cbn; lia.
Qed.

Lemma matches_counts_within k t h :
  Z.of_nat k < 2 ^ 31 -> (length t <= k)%nat ->
  history_matches t h -> counts_within k h.
Proof.
  intros Hk Hlen Hm cmd node Hnode. specialize (Hm cmd).
  rewrite Hnode in Hm. destruct Hm as (Hne & _ & ->).
  pose proof (observed_length cmd t) as Hl.
  assert (0 < length (observed cmd t))%nat
    by (destruct (observed cmd t); [congruence | cbn; lia]).
  rewrite i32_small by lia. lia.
Qed.

(** In a run of [ShortestJobFirst] or of the online
    [MultiLevelFeedbackQueue] of fewer than 2^31 passes, every entry of the
    history counts at least one burst (and at most as many as there were
    passes): the quotient [sum_burst_time / num_bursts] of
    [getExpectedBurstTime] and [getMLFQIndex] never divides by zero. *)
Theorem history_counts_within :
  (forall k w, Z.of_nat k < 2 ^ 31 -> counts_within k (SJF_history k w)) /\
  (forall quantum0 quantum1 quantum2 boostTime k w,
     Z.of_nat k < 2 ^ 31 ->
     counts_within k (OnlineMLFQ_history quantum0 quantum1 quantum2 boostTime k w)).
Proof.
  split.
  - intros k w Hk.
    apply (matches_counts_within k (SJF_table k w)); [exact Hk | |].
    + apply (table_length CfgSJF k w).
    + apply (online_always PolSJF Online.SJF_init Online.SJF_body
               Online.sj_processList Online.sj_hashTable
               Online.sj_t0 (fun _ => True) (fun _ => I) SJF_online_policy
               history_matches).
      * intros t0 t t' u h. apply pass_history.
      * intros w'. rewrite SJF_init_table, SJF_init_history.
        apply history_matches_start.
  - intros q0 q1 q2 bt k w Hk.
    apply (matches_counts_within k (OnlineMLFQ_table q0 q1 q2 bt k w));
      [exact Hk | |].
    + apply (table_length (CfgOnlineMLFQ q0 q1 q2 bt) k w).
    + apply (online_always PolOnlineMLFQ (Online.MLFQ_init q0 q1 q2 bt)
               Online.MLFQ_body Online.om_heap Online.om_hashTable
               Online.om_t0 MLFQ_online_inv (OnlineMLFQ_init_inv q0 q1 q2 bt)
               OnlineMLFQ_online_policy history_matches).
      * intros t0 t t' u h. apply pass_history.
      * intros w'. rewrite OnlineMLFQ_init_table, OnlineMLFQ_init_history.
        apply history_matches_start.
Qed.

Lemma history_counts_within_witness :
  Z.of_nat 10 < 2 ^ 31 /\ counts_within 10 (SJF_history 10 (boot short_job_os)).
Proof.
  split; [reflexivity |].
  apply (proj1 history_counts_within 10%nat (boot short_job_os)). reflexivity.
Defined.

(** The run of the witness has an entry, for ["job"], with one burst. *)
Example short_job_history :
  Online.findNode (SJF_history 10 (boot short_job_os)) "job"
    = Some (Online.mkNode "job" 20 1).
Proof. vm_compute. reflexivity. Qed.

(** ** [parseCommand] *)

Lemma checked_realloc_keeps alloc need grow st st' :
  (forall s, ps_tokens (grow s) = ps_tokens s /\ ps_token (grow s) = ps_token s) ->
  checked_realloc alloc need grow st = Some st' ->
  ps_tokens st' = ps_tokens st /\ ps_token st' = ps_token st.
Proof.
  intros Hg. unfold checked_realloc.
  destruct need; [| intros [= <-]; auto].
  destruct (alloc (ps_allocs st)); [| discriminate].
  intros [= <-]. cbn. apply Hg.
Qed.

Lemma checked_realloc_fails alloc need grow st :
  checked_realloc alloc need grow st = None -> exists n, alloc n = false.
Proof.
  unfold checked_realloc. destruct need; [| discriminate].
  destruct (alloc (ps_allocs st)) eqn:E; [discriminate |]. eauto.
Qed.

Lemma grow_token_keeps f s :
  ps_tokens (grow_token f s) = ps_tokens s /\ ps_token (grow_token f s) = ps_token s.
Proof. split; reflexivity. Qed.

Lemma grow_tokens_keeps f s :
  ps_tokens (grow_tokens f s) = ps_tokens s /\ ps_token (grow_tokens f s) = ps_token s.
Proof. split; reflexivity. Qed.

Lemma posToken_zero st : (posToken st =? 0) = true <-> ps_token st = [].
Proof.
  unfold posToken. destruct (ps_token st); cbn; split; intros H;
    first [reflexivity | discriminate | (apply Z.eqb_eq in H; lia)].
Qed.

(** The loop of [parseCommand] collects the words of its input. *)
Lemma parse_loop_words alloc input : forall st st',
  parse_loop alloc input st = Some st' ->
  ps_tokens st' ++ words_from [] (ps_token st')
    = ps_tokens st ++ words_from input (ps_token st).
Proof.
  induction input as [|c rest IH]; intros st st'; cbn [parse_loop].
  - intros [= <-]. reflexivity.
  - destruct (checked_realloc alloc _ _ st) as [st1|] eqn:E1; [| discriminate].
    apply checked_realloc_keeps in E1 as [Ht1 Hc1]; [| apply grow_token_keeps].
    destruct (checked_realloc alloc _ _ st1) as [st2|] eqn:E2; [| discriminate].
    apply checked_realloc_keeps in E2 as [Ht2 Hc2]; [| apply grow_tokens_keeps].
    rewrite <- Ht1, <- Hc1, <- Ht2, <- Hc2.
    destruct (is_blank c) eqn:Ec.
    + destruct (posToken st2 =? 0) eqn:Ez; intros Hloop;
        rewrite (IH _ _ Hloop); cbn [words_from]; rewrite Ec.
      * apply posToken_zero in Ez. rewrite Ez. reflexivity.
      * cbn. destruct (ps_token st2) as [|x cur] eqn:Ecur.
        { exfalso. unfold posToken in Ez. rewrite Ecur in Ez. discriminate. }
        rewrite <- app_assoc. reflexivity.
    + intros Hloop. rewrite (IH _ _ Hloop). cbn [words_from]. rewrite Ec.
      reflexivity.
Qed.

Lemma parse_loop_fails alloc input : forall st,
  parse_loop alloc input st = None -> exists n, alloc n = false.
Proof.
  induction input as [|c rest IH]; intros st; cbn [parse_loop]; [discriminate |].
  destruct (checked_realloc alloc _ _ st) as [st1|] eqn:E1;
    [| intros _; eapply checked_realloc_fails, E1].
  destruct (checked_realloc alloc _ _ st1) as [st2|] eqn:E2;
    [| intros _; eapply checked_realloc_fails, E2].
  destruct (is_blank c); [destruct (posToken st2 =? 0) |]; apply IH.
Qed.

Lemma parseCommand_words alloc input ts :
  parseCommand alloc input = Some ts -> ts = words input.
Proof.
  unfold parseCommand, words.
  destruct (negb (alloc 0%nat)); [discriminate |].
  destruct (parse_loop alloc _ _) as [st|] eqn:Eloop; [| discriminate].
  apply parse_loop_words in Eloop. cbn in Eloop. rewrite <- Eloop.
  destruct (0 <? posToken st) eqn:Epos.
  - destruct (checked_realloc alloc _ _ st) as [st1|] eqn:E1; [| discriminate].
    apply checked_realloc_keeps in E1 as [Ht1 Hc1]; [| apply grow_token_keeps].
    destruct (checked_realloc alloc _ _ (push_token st1)) as [st2|] eqn:E2;
      [| discriminate].
    apply checked_realloc_keeps in E2 as [Ht2 Hc2]; [| apply grow_tokens_keeps].
    intros [= <-]. rewrite Ht2. cbn. rewrite Ht1, Hc1.
    destruct (ps_token st) as [|x cur] eqn:Ecur; [| reflexivity].
    unfold posToken in Epos. rewrite Ecur in Epos. discriminate.
  - destruct (checked_realloc alloc _ _ st) as [st1|] eqn:E1; [| discriminate].
    apply checked_realloc_keeps in E1 as [Ht1 Hc1]; [| apply grow_tokens_keeps].
    intros [= <-]. rewrite Ht1.
    destruct (ps_token st) as [|x cur] eqn:Ecur; [symmetry; apply app_nil_r |].
    unfold posToken in Epos. rewrite Ecur in Epos. discriminate.
Qed.

Lemma parseCommand_fails alloc input :
  parseCommand alloc input = None -> exists n, alloc n = false.
Proof.
  unfold parseCommand.
  destruct (alloc 0%nat) eqn:E0; cbn; [| eauto].
  destruct (parse_loop alloc _ _) as [st|] eqn:Eloop;
    [| intros _; eapply parse_loop_fails, Eloop].
  destruct (0 <? posToken st).
  - destruct (checked_realloc alloc _ _ st) as [st1|] eqn:E1;
      [| intros _; eapply checked_realloc_fails, E1].
    destruct (checked_realloc alloc _ _ (push_token st1)) as [st2|] eqn:E2;
      [discriminate | intros _; eapply checked_realloc_fails, E2].
  - destruct (checked_realloc alloc _ _ st) as [st1|] eqn:E1;
      [discriminate | intros _; eapply checked_realloc_fails, E1].
Qed.

Lemma list_ascii_of_string_app s1 s2 :
  list_ascii_of_string (s1 ++ s2)
    = list_ascii_of_string s1 ++ list_ascii_of_string s2.
Proof. induction s1 as [|c s1 IH]; cbn; [reflexivity | rewrite IH; reflexivity]. Qed.

Lemma string_of_list_ascii_nil l : string_of_list_ascii l = EmptyString -> l = [].
Proof. destruct l; [reflexivity | discriminate]. Qed.

(** What [words_from] yields: tokens that are not empty and hold no blank,
    and that spell the input without its blanks. *)
Lemma words_from_proper input : forall cur,
  Forall (fun c => is_blank c = false) cur ->
  Forall proper_token (words_from input cur) /\
  concat (map list_ascii_of_string (words_from input cur))
    = cur ++ List.filter (fun c => negb (is_blank c)) input.
Proof.
  induction input as [|c rest IH]; intros cur Hcur; cbn.
  - destruct cur as [|x cur]; [split; [constructor | reflexivity] |].
    split.
    + constructor; [| constructor]. split; [discriminate |].
      rewrite list_ascii_of_string_of_list_ascii. exact Hcur.
    + cbn -[string_of_list_ascii].
      rewrite list_ascii_of_string_of_list_ascii, !app_nil_r. reflexivity.
  - destruct (is_blank c) eqn:Ec; cbn.
    + destruct (IH [] ltac:(constructor)) as [IH1 IH2].
      destruct cur as [|x cur]; [split; assumption |].
      split.
      * constructor; [| exact IH1]. split; [discriminate |].
        rewrite list_ascii_of_string_of_list_ascii. exact Hcur.
      * cbn -[string_of_list_ascii].
        rewrite list_ascii_of_string_of_list_ascii, IH2. reflexivity.
    + destruct (IH (cur ++ [c])) as [IH1 IH2].
      { apply Forall_app. split; [exact Hcur | constructor; [exact Ec | constructor]]. }
      split; [exact IH1 |]. rewrite IH2, <- app_assoc. reflexivity.
Qed.

(** [parseCommand] returns [NULL] only when an allocation fails. Otherwise
    its tokens are the words of the input, whatever the buffers had to
    grow: none is empty, none holds a space or a tab, and one after the
    other they spell the input without its spaces and tabs. *)
Theorem parseCommand_splits (alloc : nat -> bool) (input : string) :
  (parseCommand alloc input = None -> exists n, alloc n = false) /\
  (forall ts,
     parseCommand alloc input = Some ts ->
     ts = words input /\
     Forall proper_token ts /\
     concat (map list_ascii_of_string ts)
       = List.filter (fun c => negb (is_blank c)) (list_ascii_of_string input)).
Proof.
  split; [apply parseCommand_fails |].
  intros ts Hts. apply parseCommand_words in Hts. subst ts.
  split; [reflexivity |].
  apply (words_from_proper (list_ascii_of_string input) []). constructor.
Qed.

Lemma parseCommand_splits_witness :
  parseCommand (fun _ => true) "  ls   -l /tmp " = Some ["ls"; "-l"; "/tmp"]%string /\
  ["ls"; "-l"; "/tmp"]%string = words "  ls   -l /tmp " /\
  Forall proper_token ["ls"; "-l"; "/tmp"]%string /\
  concat (map list_ascii_of_string ["ls"; "-l"; "/tmp"]%string)
    = List.filter (fun c => negb (is_blank c))
        (list_ascii_of_string "  ls   -l /tmp ").
Proof.
  split; [reflexivity |].
  apply (proj2 (parseCommand_splits (fun _ => true) "  ls   -l /tmp ")).
  reflexivity.
Defined.

Lemma words_from_run l : forall rest cur,
  Forall (fun c => is_blank c = false) l ->
  words_from (l ++ rest) cur = words_from rest (cur ++ l).
Proof.
  induction l as [|c l IH]; intros rest cur Hl; cbn.
  - rewrite app_nil_r. reflexivity.
  - inversion Hl as [|? ? Hc Hl']; subst. rewrite Hc, IH by exact Hl'.
    rewrite <- app_assoc. reflexivity.
Qed.

Lemma words_join ts :
  Forall proper_token ts -> words (join_words ts) = ts.
Proof.
  unfold words. induction ts as [|t ts IH]; intros Hts; [reflexivity |].
  inversion Hts as [|? ? [Hne Hbl] Hts']; subst.
  assert (Hcur : list_ascii_of_string t <> []).
  { intros E. apply Hne. rewrite <- (string_of_list_ascii_of_string t), E.
    reflexivity. }
  destruct ts as [|t' ts].
  - cbn. rewrite <- (app_nil_r (list_ascii_of_string t)).
    rewrite words_from_run by exact Hbl. cbn.
    destruct (list_ascii_of_string t) eqn:E; [congruence |].
    rewrite <- E, string_of_list_ascii_of_string. reflexivity.
  - cbn [join_words]. rewrite list_ascii_of_string_app.
    rewrite words_from_run by exact Hbl. cbn [app list_ascii_of_string words_from].
    replace (is_blank " ") with true by reflexivity.
    destruct (list_ascii_of_string t) eqn:E; [congruence |].
    rewrite <- E, string_of_list_ascii_of_string.
    f_equal. apply IH, Hts'.
Qed.

(** Round trip: tokens written with one space between two are read back by
    [parseCommand], when no allocation fails. *)
Theorem parseCommand_join (alloc : nat -> bool) (ts : list string) :
  (forall n, alloc n = true) -> Forall proper_token ts ->
  parseCommand alloc (join_words ts) = Some ts.
Proof.
  intros Halloc Hts.
  destruct (parseCommand alloc (join_words ts)) as [ts'|] eqn:E.
  - apply parseCommand_words in E. rewrite E, words_join by exact Hts.
    reflexivity.
  - apply parseCommand_fails in E as [n Hn]. rewrite Halloc in Hn. discriminate.
Qed.

Lemma parseCommand_join_witness :
  parseCommand (fun _ => true) (join_words ["sleep"; "1"]%string)
    = Some ["sleep"; "1"]%string.
Proof.
  apply (parseCommand_join (fun _ => true) ["sleep"; "1"]%string).
  - reflexivity.
  - repeat constructor; discriminate.
Defined.

(** ** The boost *)

(** A boost moves every waiting record to queue 0: behind those already
    there come the records of queue 1, then those of queue 2, each queue in
    its order; queues 1 and 2 are left empty. *)
Theorem boost_gathers (MLFQ : arr3 Queue) :
  boost MLFQ = mkArr3 (aget MLFQ 0 ++ aget MLFQ 1 ++ aget MLFQ 2) [] [].
Proof.
  unfold boost. cbn. rewrite !drain_app, <- app_assoc. reflexivity.
Qed.

(** ** Admission of a command *)

(** A line that is read is admitted under the text before its last
    character (the newline of a complete line): not started, not terminal,
    without a process identifier and with all four metrics at zero. *)
Theorem admitted_record (s : string) (c : ascii) (t0 : Z) (w : World) (p : Process) :
  fst (Online.new_process (s ++ String c EmptyString) t0 w) = Some p ->
  command p = s /\ started p = false /\ terminal p = false /\
  process_id p = -1 /\
  burst_time p = 0 /\ turnaround_time p = 0 /\ waiting_time p = 0 /\
  response_time p = 0.
Proof.
  unfold Online.new_process, Online.malloc_Process, Online.malloc. run_os.
  destruct (os_malloc (env w) (tick w)); cbn; [| discriminate].
  destruct (os_malloc (env w) (S (tick w))); cbn; [| discriminate].
  intros [= <-]. cbn. repeat split.
  induction s as [|x s IH]; cbn; [reflexivity |].
  rewrite IH. destruct s; reflexivity.
Qed.

Lemma admitted_record_witness :
  exists p,
    fst (Online.new_process (line "ls -l") 0 (boot (steady_os 0))) = Some p /\
    command p = "ls -l"%string /\ started p = false /\ terminal p = false /\
    process_id p = -1 /\
    burst_time p = 0 /\ turnaround_time p = 0 /\ waiting_time p = 0 /\
    response_time p = 0.
Proof.
  eexists. split; [reflexivity |].
  apply (admitted_record "ls -l" (ascii_of_nat 10) 0 (boot (steady_os 0))).
  reflexivity.
Defined.

(** ** What a run never changes *)

Lemma dispatch_keeps os t0 st a b p d :
  dispatch_at os t0 st a b p d ->
  command d = command p /\ arrival_time d = arrival_time p /\
  terminal d = terminal p /\
  (started p = true -> started d = true) /\
  (started p = true -> st = AsRR ->
   start_time d = start_time p /\ process_id d = process_id p).
Proof.
  intros [Hle Hst | c n Hn Hst | n Hn Hst];
    (split; [reflexivity |]); (split; [reflexivity |]);
    (split; [reflexivity |]);
    (split; [intros E; first [exact E | reflexivity] |]);
    intros E Est; first [split; reflexivity | destruct Hst; congruence].
Qed.

Lemma settle_keeps os t0 a b st d q flag :
  settle_at os t0 a b st d q flag ->
  command q = command d /\ arrival_time q = arrival_time d /\
  started q = started d /\ start_time q = start_time d /\
  process_id q = process_id d.
Proof. intros []; repeat split; reflexivity. Qed.

Lemma pass_keeps_identity os t0 pol a b t t' u :
  pass_at os t0 pol a b t t' u -> keeps_identity (style_of pol) t t'.
Proof.
  intros [Hle | p n Hon Hp Hn Ha | i p d q flag m Hi Hnt Hd Hs] j r Hj.
  - exists r. repeat split; auto.
  - exists r. rewrite lookup_app_l by (eapply lookup_lt_Some, Hj).
    repeat split; auto.
  - destruct (decide (j = i)) as [-> | Hne].
    + exists q. rewrite list_lookup_insert_eq by (eapply lookup_lt_Some, Hi).
      assert (r = p) by congruence. subst r.
      destruct (dispatch_keeps _ _ _ _ _ _ _ Hd) as (Hc & Har & _ & Hst & Hrr).
      destruct (settle_keeps _ _ _ _ _ _ _ _ Hs) as (Hc' & Har' & Hst' & Hs1 & Hs2).
      split; [reflexivity |].
      split; [congruence |]. split; [congruence |].
      split; [intros E; rewrite Hst'; auto |].
      intros E Est. destruct (Hrr E Est). split; congruence.
    + exists r. rewrite list_lookup_insert_ne by congruence.
      repeat split; auto.
Qed.

Lemma keeps_identity_refl st t : keeps_identity st t t.
Proof. intros i p Hi. exists p. repeat split; auto. Qed.

Lemma keeps_identity_trans st t1 t2 t3 :
  keeps_identity st t1 t2 -> keeps_identity st t2 t3 -> keeps_identity st t1 t3.
Proof.
  intros H12 H23 i p Hi.
  destruct (H12 i p Hi) as (q & Hq & Hc & Ha & Hs & Hr).
  destruct (H23 i q Hq) as (r & Hr' & Hc' & Ha' & Hs' & Hr'').
  exists r. split; [exact Hr' |].
  split; [congruence |]. split; [congruence |].
  split; [auto |].
  intros E Est. destruct (Hr E Est). destruct (Hr'' (Hs E) Est).
  split; congruence.
Qed.

(** A scheduler whose passes are [pass_at]es: relations between
    consecutive tables. *)
Section ClockedNext.

Context {S : Type} (pol : policy) (init : M (ctl S)) (body : S -> M (ctl S))
  (table : S -> list Process) (t0 : S -> Z) (Inv : S -> Prop).

Hypothesis init_at : forall w,
  Inv (state_of (fst (init w))) /\ env (snd (init w)) = env w /\
  exists n, (n <= tick (snd (init w)))%nat /\
    t0 (state_of (fst (init w))) = u64 (os_clock (env w) n).
Hypothesis body_at : forall s w, Inv s ->
  (exists u, pass_at (env w) (t0 s) pol (tick w) (tick (snd (body s w)))
               (table s) (table (state_of (fst (body s w)))) u) /\
  Inv (state_of (fst (body s w))) /\
  t0 (state_of (fst (body s w))) = t0 s /\
  env (snd (body s w)) = env w.

Lemma clocked_later (R : list Process -> list Process -> Prop) :
  (forall t, R t t) ->
  (forall t1 t2 t3, R t1 t2 -> R t2 t3 -> R t1 t3) ->
  (forall os t0 a b t t' u, pass_at os t0 pol a b t t' u -> R t t') ->
  forall k n w, R (table (state_of (fst (run init body k w))))
                  (table (state_of (fst (run init body (k + n) w)))).
Proof.
  intros Hrefl Htrans Hpass k n w. induction n as [|n IH].
  - rewrite Nat.add_0_r. apply Hrefl.
  - rewrite Nat.add_succ_r. eapply Htrans; [exact IH |].
    apply (run_next init body Inv (fun s s' => R (table s) (table s'))).
    + intros s. apply Hrefl.
    + intros w'. apply init_at.
    + intros s w' Hs. apply (body_at s w' Hs).
    + intros s w' Hs. destruct (body_at s w' Hs) as [[u Hu] _].
      eapply Hpass, Hu.
Qed.

End ClockedNext.

Lemma tables_clocked_later (R : policy -> list Process -> list Process -> Prop) :
  (forall pol t, R pol t t) ->
  (forall pol t1 t2 t3, R pol t1 t2 -> R pol t2 t3 -> R pol t1 t3) ->
  (forall pol os t0 a b t t' u, pass_at os t0 pol a b t t' u -> R pol t t') ->
  forall c k n w, R (policy_of c) (table_after c k w) (table_after c (k + n) w).
Proof.
  intros Hrefl Htrans Hpass [p | p quantum | p q0 q1 q2 bt | | q0 q1 q2 bt] k n w;
    cbn.
  - apply (clocked_later PolFCFS _ _ Offline.fc_p Offline.fc_t0 FCFS_inv
             (FCFS_clocked_init p) FCFS_clocked (R PolFCFS) (Hrefl _) (Htrans _)
             (Hpass _)).
  - apply (clocked_later PolRR _ _ Offline.rr_p Offline.rr_t0 (fun _ => True)
             (RR_clocked_init p quantum) RR_clocked (R PolRR) (Hrefl _)
             (Htrans _) (Hpass _)).
  - apply (clocked_later PolMLFQ _ _ Offline.mq_p Offline.mq_t0 (fun _ => True)
             (MLFQ_clocked_init p q0 q1 q2 bt) MLFQ_clocked (R PolMLFQ) (Hrefl _)
             (Htrans _) (Hpass _)).
  - apply (clocked_later PolSJF _ _ Online.sj_processList Online.sj_t0
             (fun _ => True) SJF_clocked_init SJF_clocked (R PolSJF) (Hrefl _)
             (Htrans _) (Hpass _)).
  - apply (clocked_later PolOnlineMLFQ _ _ Online.om_heap Online.om_t0
             MLFQ_online_inv (OnlineMLFQ_clocked_init q0 q1 q2 bt)
             OnlineMLFQ_clocked (R PolOnlineMLFQ) (Hrefl _) (Htrans _) (Hpass _)).
Qed.

(** Under each of the five schedulers a record never moves in the table,
    and its command and its arrival time never change; a record that has
    started stays started; under [RoundRobin] and both
    [MultiLevelFeedbackQueue]s a record is forked once only: once started
    it keeps its start time and its process identifier. *)
Theorem records_keep_identity (c : config) (k n : nat) (w : World) :
  keeps_identity (style_of (policy_of c))
    (table_after c k w) (table_after c (k + n) w).
Proof.
  apply (tables_clocked_later (fun pol => keeps_identity (style_of pol))).
  - intros pol t. apply keeps_identity_refl.
  - intros pol t1 t2 t3. apply keeps_identity_trans.
  - intros pol os t0 a b t t' u. apply pass_keeps_identity.
Qed.

Lemma offline_commands c k w :
  online (policy_of c) = false ->
  map command (table_after c k w) = map command (table_at_start c).
Proof.
  intros Hoff. induction k as [|k IH].
  - rewrite table_after_0. reflexivity.
  - rewrite <- IH.
    apply (tables_next (fun pol t t' =>
             online pol = false -> map command t' = map command t));
      [reflexivity | | exact Hoff].
    intros pol t0 t t' u Hp Hoff'. eapply pass_commands; eauto.
Qed.

Lemma offline_length c k w :
  online (policy_of c) = false ->
  length (table_after c k w) = length (table_at_start c).
Proof.
  intros Hoff. rewrite <- (length_map command), (offline_commands c k w Hoff).
  apply length_map.
Qed.

(** The three offline schedulers never add, drop or reorder records: after
    any number of passes the table holds the commands it was given, in the
    order it was given them. *)
Theorem offline_tables_keep_commands :
  (forall p k w, map command (FCFS_table p k w) = map command p) /\
  (forall p quantum k w, map command (RR_table p quantum k w) = map command p) /\
  (forall p quantum0 quantum1 quantum2 boostTime k w,
     map command (MLFQ_table p quantum0 quantum1 quantum2 boostTime k w)
       = map command p).
Proof.
  split; [| split].
  - intros p k w. rewrite <- (initializeProcess_commands p).
    apply (offline_commands (CfgFCFS p)). reflexivity.
  - intros p quantum k w. rewrite <- (initializeProcess_commands p).
    apply (offline_commands (CfgRR p quantum)). reflexivity.
  - intros p q0 q1 q2 bt k w. rewrite <- (initializeProcess_commands p).
    apply (offline_commands (CfgMLFQ p q0 q1 q2 bt)). reflexivity.
Qed.

(** ** [FCFS] takes the records in order *)

Lemma FCFS_step s w pi :
  Offline.fc_p s !! Offline.fc_i s = Some pi ->
  exists q,
    fst (Offline.FCFS_body s w)
      = Next (Offline.mkFCFS (<[Offline.fc_i s := q]> (Offline.fc_p s))
                (Offline.fc_t0 s) (S (Offline.fc_i s))) /\
    env (snd (Offline.FCFS_body s w)) = env w /\
    ((forall n, 0 <= fst (os_waitpid (env w) n)) -> terminal q = true).
Proof.
  intros Hi. unfold Offline.FCFS_body. rewrite Hi. run_os.
  destruct (executeProcess_at AsFCFS pi (Offline.fc_t0 s) w) as [_ Henv];
    [right; discriminate |].
  destruct (executeProcess pi (Offline.fc_t0 s) w) as [d w1]. cbn in Henv.
  cbn. destruct (os_waitpid (env w1) (tick w1)) as [result status] eqn:Ew. cbn.
  destruct (result <? 0) eqn:Er; cbn.
  - eexists. split; [reflexivity |]. split; [exact Henv |].
    intros Hwait. specialize (Hwait (tick w1)). rewrite <- Henv, Ew in Hwait.
    cbn in Hwait. apply Z.ltb_lt in Er. lia.
  - destruct (exited_ok status); cbn; destruct (os_fopen _ _); cbn;
      (eexists; split; [reflexivity |]; split; [exact Henv |]);
      intros _; first [reflexivity | apply orb_true_r].
Qed.

(** [FCFS] takes one record per pass, in the order of the table: after
    [k] passes, for [k] up to the number of records, the loop is still
    running with its index at [k], and the records from [k] on are as
    [initializeProcess] left them; when no [waitpid] fails, the [k] records
    before are all terminal. The pass after the last record leaves the
    loop. *)
Theorem FCFS_in_order (p : list Process) (w : World) :
  (forall k, (k <= length p)%nat ->
     exited (fst (Offline.FCFS p k w)) = false /\
     Offline.fc_i (state_of (fst (Offline.FCFS p k w))) = k /\
     (forall j, (k <= j)%nat ->
        FCFS_table p k w !! j = Offline.initializeProcess p !! j) /\
     ((forall n, 0 <= fst (os_waitpid (env w) n)) ->
      forall j q, (j < k)%nat -> FCFS_table p k w !! j = Some q ->
                  terminal q = true)) /\
  exited (fst (Offline.FCFS p (S (length p)) w)) = true.
Proof.
  assert (Hlen : forall k, length (FCFS_table p k w) = length p).
  { intros k. rewrite <- (initializeProcess_length p).
    apply (offline_length (CfgFCFS p)). reflexivity. }
  assert (H : forall k, (k <= length p)%nat ->
            env (snd (Offline.FCFS p k w)) = env w /\
            exited (fst (Offline.FCFS p k w)) = false /\
            Offline.fc_i (state_of (fst (Offline.FCFS p k w))) = k /\
            (forall j, (k <= j)%nat ->
               FCFS_table p k w !! j = Offline.initializeProcess p !! j) /\
            ((forall n, 0 <= fst (os_waitpid (env w) n)) ->
             forall j q, (j < k)%nat -> FCFS_table p k w !! j = Some q ->
                         terminal q = true)).
  { induction k as [|k IH]; intros Hk.
    - unfold FCFS_table, Offline.FCFS, run, bind, Offline.FCFS_init. run_os. cbn.
      destruct (os_fopen _ _); cbn;
        (split; [reflexivity |]); (split; [reflexivity |]);
        (split; [reflexivity |]); (split; [reflexivity |]); intros _ j q Hj; lia.
    - destruct (IH ltac:(lia)) as (Henv & Hex & Hi & Hrest & Hdone).
      specialize (Hlen k).
      unfold FCFS_table, Offline.FCFS in *. rewrite run_succ.
      destruct (run (Offline.FCFS_init p) Offline.FCFS_body k w) as [[s|s] w1];
        cbn [fst snd state_of exited] in *; [| discriminate].
      destruct (lookup_lt_is_Some_2 (Offline.fc_p s) (Offline.fc_i s)) as [pi Hpi];
        [lia |].
      destruct (FCFS_step s w1 pi Hpi) as (q & Hq & Henv' & Hterm).
      rewrite Hq. cbn [fst snd state_of exited Offline.fc_i Offline.fc_p].
      split; [congruence |]. split; [reflexivity |].
      split; [congruence |]. split.
      + intros j Hj. rewrite list_lookup_insert_ne by lia. apply Hrest. lia.
      + intros Hwait j r Hj Hr.
        destruct (decide (j = k)) as [-> | Hne].
        * rewrite Hi, list_lookup_insert_eq in Hr by lia.
          injection Hr as <-. apply Hterm. rewrite Henv. exact Hwait.
        * rewrite list_lookup_insert_ne in Hr by lia.
          eapply (Hdone Hwait j); [lia | exact Hr]. }
  split.
  - intros k Hk. destruct (H k Hk) as (_ & H1 & H2 & H3 & H4). auto.
  - destruct (H (length p) ltac:(lia)) as (_ & Hex & Hi & _).
    specialize (Hlen (length p)).
    unfold FCFS_table, Offline.FCFS in *. rewrite run_succ.
    destruct (run (Offline.FCFS_init p) Offline.FCFS_body (length p) w)
      as [[s|s] w1]; cbn [fst snd state_of exited] in *; [| discriminate].
    unfold Offline.FCFS_body.
    rewrite (proj2 (lookup_ge_None (Offline.fc_p s) (Offline.fc_i s))) by lia.
    reflexivity.
Qed.

Lemma FCFS_in_order_witness :
  exited (fst (Offline.FCFS [idle_record "a"; idle_record "b"] 2
                 (boot (steady_os 0)))) = false /\
  Offline.fc_i (state_of (fst (Offline.FCFS [idle_record "a"; idle_record "b"] 2
                                 (boot (steady_os 0))))) = 2%nat /\
  (forall j q, (j < 2)%nat ->
     FCFS_table [idle_record "a"; idle_record "b"] 2 (boot (steady_os 0)) !! j
       = Some q ->
     terminal q = true).
Proof.
  destruct (proj1 (FCFS_in_order [idle_record "a"; idle_record "b"]
                     (boot (steady_os 0))) 2%nat)
    as (H1 & H2 & _ & H4); [cbn; lia |].
  split; [exact H1 |]. split; [exact H2 |].
  apply H4. intros n. cbn. lia.
Defined.

(** ** The counters of remaining processes *)

Lemma live_app t1 t2 : live (t1 ++ t2) = (live t1 + live t2)%nat.
Proof. unfold live. rewrite List.filter_app, length_app. reflexivity. Qed.

Lemma live_cons p t :
  live (p :: t) = ((if terminal p then 0 else 1) + live t)%nat.
Proof. unfold live. cbn. destruct (terminal p); reflexivity. Qed.

Lemma live_le_length t : (live t <= length t)%nat.
Proof.
  unfold live. induction t as [|p t IH]; cbn; [lia |].
  destruct (negb (terminal p)); cbn; lia.
Qed.

Lemma live_insert t i p q :
  t !! i = Some p -> terminal p = false ->
  (live (<[i := q]> t) + (if terminal q then 1 else 0) = live t)%nat.
Proof.
  intros Hi Hp.
  rewrite <- (take_drop_middle t i p Hi) at 2.
  rewrite insert_take_drop by (eapply lookup_lt_Some, Hi).
  rewrite !live_app, !live_cons, Hp.
  destruct (terminal q); lia.
Qed.

(** What a visit does to the counter: nothing when the record stays live,
    one less when it becomes terminal. *)
Lemma counter_after_visit t i p q rem :
  t !! i = Some p -> terminal p = false ->
  (Z.of_nat (length t) < 2 ^ 31 -> rem = Z.of_nat (live t)) ->
  Z.of_nat (length (<[i := q]> t)) < 2 ^ 31 ->
  (if terminal q then i32 (rem - 1) else rem) = Z.of_nat (live (<[i := q]> t)).
Proof.
  intros Hi Hp HJ Hlen. rewrite length_insert in Hlen. specialize (HJ Hlen).
  pose proof (live_insert t i p q Hi Hp) as Hl.
  pose proof (live_le_length t) as Hle.
  destruct (terminal q); [rewrite i32_small |]; lia.
Qed.

Lemma counter_after_arrival t p rem :
  terminal p = false ->
  (Z.of_nat (length t) < 2 ^ 31 -> rem = Z.of_nat (live t)) ->
  Z.of_nat (length (t ++ [p])) < 2 ^ 31 ->
  i32 (rem + 1) = Z.of_nat (live (t ++ [p])).
Proof.
  intros Hp HJ Hlen. rewrite length_app in Hlen.
  change (length [p]) with 1%nat in Hlen.
  rewrite HJ by lia. rewrite live_app, live_cons, Hp.
  change (live []) with 0%nat.
  pose proof (live_le_length t). rewrite i32_small; lia.
Qed.

Arguments live : simpl never.

Lemma terminal_dispatched os t0 st a b p d :
  dispatch_at os t0 st a b p d -> terminal d = terminal p.
Proof. intros H. eapply dispatch_terminal, dispatch_at_dispatch, H. Qed.

Lemma RR_body_counts s w :
  (Z.of_nat (length (Offline.rr_p s)) < 2 ^ 31 ->
   Offline.rr_remaining_processes s = Z.of_nat (live (Offline.rr_p s))) ->
  let s' := state_of (fst (Offline.RR_body s w)) in
  Z.of_nat (length (Offline.rr_p s')) < 2 ^ 31 ->
  Offline.rr_remaining_processes s' = Z.of_nat (live (Offline.rr_p s')).
Proof.
  intros HJ. unfold Offline.RR_body.
  destruct (Offline.rr_remaining_processes s <=? 0); cbn; [exact HJ |].
  destruct (Offline.rr_p s !! Offline.rr_i s) as [pi|] eqn:Hi; cbn; [| exact HJ].
  destruct (finished pi || error pi) eqn:Hnt; cbn; [exact HJ |].
  run_os.
  destruct (dispatch_call_at pi (Offline.rr_t0 s) w Hnt) as [Hd _].
  destruct ((if negb (started pi) then executeProcess pi (Offline.rr_t0 s)
             else resumeProcess pi (Offline.rr_t0 s)) w) as [d w1].
  cbn in Hd. apply terminal_dispatched in Hd. fold (terminal pi) in Hnt.
  cbn. destruct (os_waitpid _ _) as [result status]. cbn.
  destruct (result <? 0); cbn.
  - intros Hlen.
    rewrite <- (counter_after_visit _ _ pi d _ Hi Hnt HJ Hlen).
    rewrite Hd, Hnt. reflexivity.
  - destruct (result =? 0); cbn.
    + match goal with
      | |- context [pauseProcess d ?t ?w'] =>
          pose proof (pauseProcess_terminal d t w') as Ht;
          destruct (pauseProcess d t w') as [q w2]
      end.
      cbn in Ht. cbn. intros Hlen.
      rewrite <- (counter_after_visit _ _ pi q _ Hi Hnt HJ Hlen).
      rewrite Ht, Hd, Hnt. reflexivity.
    + destruct (exited_ok status); cbn; destruct (os_fopen _ _); cbn;
        intros Hlen;
        match goal with
        | |- _ = Z.of_nat (live (<[_ := ?q]> _)) =>
            rewrite <- (counter_after_visit _ _ pi q _ Hi Hnt HJ Hlen)
        end;
        first [reflexivity
              | replace (terminal _) with true by (symmetry; apply orb_true_r);
                reflexivity].
Qed.

Lemma MLFQ_offline_body_counts s w :
  (Z.of_nat (length (Offline.mq_p s)) < 2 ^ 31 ->
   Offline.mq_remaining_processes s = Z.of_nat (live (Offline.mq_p s))) ->
  let s' := state_of (fst (Offline.MLFQ_body s w)) in
  Z.of_nat (length (Offline.mq_p s')) < 2 ^ 31 ->
  Offline.mq_remaining_processes s' = Z.of_nat (live (Offline.mq_p s')).
Proof.
  intros HJ. unfold Offline.MLFQ_body.
  destruct (Offline.mq_remaining_processes s <=? 0); cbn; [exact HJ |].
  destruct (dequeue _) as [[p|] q]; cbn; [| exact HJ].
  destruct (Offline.mq_p s !! p) as [pr|] eqn:Hi; cbn; [| exact HJ].
  destruct (finished pr || error pr) eqn:Hnt; cbn; [exact HJ |].
  run_os.
  destruct (dispatch_call_at pr (Offline.mq_t0 s) w Hnt) as [Hd _].
  destruct ((if negb (started pr) then executeProcess pr (Offline.mq_t0 s)
             else resumeProcess pr (Offline.mq_t0 s)) w) as [d w1].
  cbn in Hd. apply terminal_dispatched in Hd. fold (terminal pr) in Hnt.
  cbn. destruct (os_waitpid _ _) as [result status]. cbn.
  destruct (result <? 0); cbn.
  - intros Hlen.
    rewrite <- (counter_after_visit _ _ pr d _ Hi Hnt HJ Hlen).
    rewrite Hd, Hnt. reflexivity.
  - destruct (result =? 0); cbn.
    + match goal with
      | |- context [pauseProcess d ?t ?w'] =>
          pose proof (pauseProcess_terminal d t w') as Ht;
          destruct (pauseProcess d t w') as [r w2]
      end.
      cbn in Ht. split_ifs; intros Hlen;
        rewrite <- (counter_after_visit _ _ pr r _ Hi Hnt HJ Hlen);
        rewrite Ht, Hd, Hnt; reflexivity.
    + destruct (exited_ok status); split_ifs; intros Hlen;
        match goal with
        | |- _ = Z.of_nat (live (<[_ := ?q]> _)) =>
            rewrite <- (counter_after_visit _ _ pr q _ Hi Hnt HJ Hlen)
        end;
        first [reflexivity
              | replace (terminal _) with true by (symmetry; apply orb_true_r);
                reflexivity].
Qed.

Lemma SJF_body_counts s w :
  (Z.of_nat (length (Online.sj_processList s)) < 2 ^ 31 ->
   Online.sj_remainingProcesses s = Z.of_nat (live (Online.sj_processList s))) ->
  let s' := state_of (fst (Online.SJF_body s w)) in
  Z.of_nat (length (Online.sj_processList s')) < 2 ^ 31 ->
  Online.sj_remainingProcesses s' = Z.of_nat (live (Online.sj_processList s')).
Proof.
  intros HJ. unfold Online.SJF_body.
  destruct (Online.sj_phase s).
  - unfold Online.readInput. run_os.
    destruct (os_stdin (env w) (tick w)) as [| | buffer]; cbn; try exact HJ.
    unfold Online.SJF_ingest. run_os.
    pose proof (new_process_fresh buffer (Online.sj_t0 s)
                  (mkWorld (env w) (S (tick w))
                     (EvPoll (Input buffer) :: out w))) as Hf.
    destruct (Online.new_process _ _ _) as [[p|] w1]; cbn; [| exact HJ].
    specialize (Hf p eq_refl). apply fresh_terminal in Hf.
    unfold Online.malloc. run_os.
    split_ifs; try exact HJ; intros Hlen;
      apply (counter_after_arrival _ _ _ Hf HJ Hlen).
  - unfold Online.SJF_schedule.
    destruct (Online.sj_remainingProcesses s =? 0); cbn; [exact HJ |].
    pose proof (SJF_select_spec (Online.sj_hashTable s) (Online.sj_processList s)) as Hsel.
    destruct (fst (Online.SJF_select _ _)) as [i|]; cbn; [| exact HJ].
    destruct Hsel as (p & Hp & Hnt & _). rewrite Hp. run_os.
    destruct (executeProcess_at AsSJF p (Online.sj_t0 s) w) as [Hd _];
      [right; discriminate |].
    destruct (executeProcess p (Online.sj_t0 s) w) as [d w1]. cbn in Hd.
    apply terminal_dispatched in Hd.
    cbn. destruct (os_waitpid _ _) as [result status]. cbn.
    destruct (result <? 0); cbn.
    + intros Hlen.
      rewrite <- (counter_after_visit _ _ p d _ Hp Hnt HJ Hlen).
      rewrite Hd, Hnt. reflexivity.
    + destruct (exited_ok status); cbn; destruct (os_fopen _ _); cbn;
        intros Hlen;
        match goal with
        | |- _ = Z.of_nat (live (<[_ := ?q]> _)) =>
            rewrite <- (counter_after_visit _ _ p q _ Hp Hnt HJ Hlen)
        end;
        first [reflexivity
              | replace (terminal _) with true by (symmetry; apply orb_true_r);
                reflexivity].
Qed.

Lemma MLFQ_turn_counts s w :
  queues_ok (Online.om_heap s) (Online.om_MLFQ s) ->
  (Z.of_nat (length (Online.om_heap s)) < 2 ^ 31 ->
   Online.om_remainingProcesses s = Z.of_nat (live (Online.om_heap s))) ->
  match fst (Online.MLFQ_turn s w) with
  | (heap', _, _, rem') =>
      Z.of_nat (length heap') < 2 ^ 31 -> rem' = Z.of_nat (live heap')
  end.
Proof.
  intros Hok HJ. unfold Online.MLFQ_turn.
  destruct (find _ _) as [i|]; [| exact HJ].
  destruct (dequeue _) as [[x|] q] eqn:Hdq; [| exact HJ].
  pose proof (queued_dequeue _ _ _ _ Hdq) as Hperm.
  destruct Hok as [_ Hval].
  destruct (Hval x) as (pr & Hpr & Hnt).
  { rewrite Hperm. apply elem_of_cons. left. reflexivity. }
  rewrite Hpr. run_os.
  destruct (dispatch_call_at pr (Online.om_t0 s) w Hnt) as [Hd _].
  destruct ((if negb (started pr) then executeProcess pr (Online.om_t0 s)
             else resumeProcess pr (Online.om_t0 s)) w) as [d w1].
  cbn in Hd. apply terminal_dispatched in Hd.
  cbn. destruct (os_waitpid _ _) as [result status]. cbn.
  destruct (result <? 0); cbn.
  - intros Hlen.
    rewrite <- (counter_after_visit _ _ pr d _ Hpr Hnt HJ Hlen).
    rewrite Hd, Hnt. reflexivity.
  - destruct (result =? 0); cbn.
    + match goal with
      | |- context [pauseProcess d ?t ?w'] =>
          pose proof (pauseProcess_terminal d t w') as Ht;
          destruct (pauseProcess d t w') as [r w2]
      end.
      cbn in Ht. cbn. intros Hlen.
      rewrite <- (counter_after_visit _ _ pr r _ Hpr Hnt HJ Hlen).
      rewrite Ht, Hd, Hnt. reflexivity.
    + destruct (exited_ok status); cbn; destruct (os_fopen _ _); cbn;
        intros Hlen;
        match goal with
        | |- _ = Z.of_nat (live (<[_ := ?q]> _)) =>
            rewrite <- (counter_after_visit _ _ pr q _ Hpr Hnt HJ Hlen)
        end;
        first [reflexivity
              | replace (terminal _) with true by (symmetry; apply orb_true_r);
                reflexivity].
Qed.

Lemma MLFQ_online_body_counts s w :
  MLFQ_online_inv s ->
  (Z.of_nat (length (Online.om_heap s)) < 2 ^ 31 ->
   Online.om_remainingProcesses s = Z.of_nat (live (Online.om_heap s))) ->
  let s' := state_of (fst (Online.MLFQ_body s w)) in
  Z.of_nat (length (Online.om_heap s')) < 2 ^ 31 ->
  Online.om_remainingProcesses s' = Z.of_nat (live (Online.om_heap s')).
Proof.
  intros Hok HJ. unfold Online.MLFQ_body, MLFQ_online_inv in *.
  destruct (Online.om_phase s).
  - unfold Online.readInput. run_os.
    destruct (os_stdin (env w) (tick w)) as [| | buffer]; cbn; try exact HJ.
    unfold Online.MLFQ_ingest. run_os.
    pose proof (new_process_fresh buffer (Online.om_t0 s)
                  (mkWorld (env w) (S (tick w))
                     (EvPoll (Input buffer) :: out w))) as Hf.
    destruct (Online.new_process _ _ _) as [[p|] w1]; cbn; [| exact HJ].
    specialize (Hf p eq_refl). apply fresh_terminal in Hf.
    intros Hlen. apply (counter_after_arrival _ _ _ Hf HJ Hlen).
  - unfold Online.MLFQ_schedule.
    destruct (Online.om_remainingProcesses s =? 0); cbn; [exact HJ |].
    run_os. pose proof (MLFQ_turn_counts s w Hok HJ) as Hturn.
    destruct (Online.MLFQ_turn s w) as [[[[heap' h'] M'] rem'] w1].
    cbn in Hturn. cbn. destruct (_ >=? _); cbn; exact Hturn.
Qed.

Lemma live_initial p : live (Offline.initializeProcess p) = length p.
Proof.
  induction p as [|q p IH]; [reflexivity |].
  change (Offline.initializeProcess (q :: p))
    with (idle_record (command q) :: Offline.initializeProcess p).
  rewrite live_cons, IH. reflexivity.
Qed.

Lemma RR_counts_live p quantum k w :
  Z.of_nat (length p) < 2 ^ 31 ->
  Offline.rr_remaining_processes
    (state_of (fst (Offline.RoundRobin p quantum k w)))
    = Z.of_nat (live (RR_table p quantum k w)).
Proof.
  intros Hp.
  apply (run_keeps (Offline.RR_init p quantum) Offline.RR_body
           (fun s => Z.of_nat (length (Offline.rr_p s)) < 2 ^ 31 ->
                     Offline.rr_remaining_processes s
                       = Z.of_nat (live (Offline.rr_p s)))).
  - intros w'. unfold Offline.RR_init. run_os. cbn.
    destruct (os_fopen _ _); cbn; intros _; rewrite live_initial; reflexivity.
  - intros s w'. apply RR_body_counts.
  - pose proof (offline_length (CfgRR p quantum) k w eq_refl) as Hc.
    change (length (RR_table p quantum k w)
            = length (Offline.initializeProcess p)) in Hc.
    rewrite initializeProcess_length in Hc.
    unfold RR_table, Offline.RoundRobin in Hc. rewrite Hc. exact Hp.
Qed.

Lemma MLFQ_offline_counts_live p q0 q1 q2 bt k w :
  Z.of_nat (length p) < 2 ^ 31 ->
  Offline.mq_remaining_processes
    (state_of (fst (Offline.MultiLevelFeedbackQueue p q0 q1 q2 bt k w)))
    = Z.of_nat (live (MLFQ_table p q0 q1 q2 bt k w)).
Proof.
  intros Hp.
  apply (run_keeps (Offline.MLFQ_init p q0 q1 q2 bt) Offline.MLFQ_body
           (fun s => Z.of_nat (length (Offline.mq_p s)) < 2 ^ 31 ->
                     Offline.mq_remaining_processes s
                       = Z.of_nat (live (Offline.mq_p s)))).
  - intros w'. unfold Offline.MLFQ_init. run_os. cbn.
    destruct (os_fopen _ _); cbn; intros _; rewrite live_initial;
      unfold Offline.initializeProcess; rewrite length_map; reflexivity.
  - intros s w'. apply MLFQ_offline_body_counts.
  - pose proof (offline_length (CfgMLFQ p q0 q1 q2 bt) k w eq_refl) as Hc.
    change (length (MLFQ_table p q0 q1 q2 bt k w)
            = length (Offline.initializeProcess p)) in Hc.
    rewrite initializeProcess_length in Hc.
    unfold MLFQ_table, Offline.MultiLevelFeedbackQueue in Hc. rewrite Hc.
    exact Hp.
Qed.

(** The counter of remaining processes of [RoundRobin], of both
    [MultiLevelFeedbackQueue]s and of [ShortestJobFirst] is the number of
    records of the table that are not terminal, whatever calls failed;
    the offline tables are taken to hold fewer than 2^31 records and the
    online runs to have made fewer than 2^31 passes (the counter is an
    [int]). *)
Theorem remaining_counts_live :
  (forall p quantum k w,
     Z.of_nat (length p) < 2 ^ 31 ->
     Offline.rr_remaining_processes
       (state_of (fst (Offline.RoundRobin p quantum k w)))
       = Z.of_nat (live (RR_table p quantum k w))) /\
  (forall p quantum0 quantum1 quantum2 boostTime k w,
     Z.of_nat (length p) < 2 ^ 31 ->
     Offline.mq_remaining_processes
       (state_of (fst (Offline.MultiLevelFeedbackQueue p quantum0 quantum1
                         quantum2 boostTime k w)))
       = Z.of_nat (live (MLFQ_table p quantum0 quantum1 quantum2 boostTime k w))) /\
  (forall k w,
     Z.of_nat k < 2 ^ 31 ->
     Online.sj_remainingProcesses (state_of (fst (Online.ShortestJobFirst k w)))
       = Z.of_nat (live (SJF_table k w))) /\
  (forall quantum0 quantum1 quantum2 boostTime k w,
     Z.of_nat k < 2 ^ 31 ->
     Online.om_remainingProcesses
       (state_of (fst (Online.MultiLevelFeedbackQueue quantum0 quantum1 quantum2
                         boostTime k w)))
       = Z.of_nat (live (OnlineMLFQ_table quantum0 quantum1 quantum2 boostTime k w))).
Proof.
  split; [| split; [| split]].
  - intros p quantum k w. apply RR_counts_live.
  - intros p q0 q1 q2 bt k w. apply MLFQ_offline_counts_live.
  - intros k w Hk.
    apply (run_keeps Online.SJF_init Online.SJF_body
             (fun s => Z.of_nat (length (Online.sj_processList s)) < 2 ^ 31 ->
                       Online.sj_remainingProcesses s
                         = Z.of_nat (live (Online.sj_processList s)))).
    + intros w'. unfold Online.SJF_init, Online.malloc. run_os. cbn.
      destruct (os_fopen _ _); cbn; destruct (os_malloc _ _); cbn;
        intros _; reflexivity.
    + intros s w'. apply SJF_body_counts.
    + pose proof (table_length CfgSJF k w) as Hl. cbn in Hl.
      unfold SJF_table, Online.ShortestJobFirst in Hl. lia.
  - intros q0 q1 q2 bt k w Hk.
    apply (run_keeps (Online.MLFQ_init q0 q1 q2 bt) Online.MLFQ_body
             (fun s => MLFQ_online_inv s /\
                       (Z.of_nat (length (Online.om_heap s)) < 2 ^ 31 ->
                        Online.om_remainingProcesses s
                          = Z.of_nat (live (Online.om_heap s))))).
    + intros w'. split; [apply OnlineMLFQ_init_inv |].
      unfold Online.MLFQ_init. run_os. cbn.
      destruct (os_fopen _ _); cbn; intros _; reflexivity.
    + intros s w' [Hinv HJ]. split.
      * apply (MLFQ_online_body_pass s w' Hinv).
      * apply MLFQ_online_body_counts; assumption.
    + pose proof (table_length (CfgOnlineMLFQ q0 q1 q2 bt) k w) as Hl. cbn in Hl.
      unfold OnlineMLFQ_table, Online.MultiLevelFeedbackQueue in Hl. lia.
Qed.

Lemma remaining_counts_live_witness :
  Offline.rr_remaining_processes
    (state_of (fst (Offline.RoundRobin [idle_record "a"; idle_record "b"] 5 4
                      (boot ticking_os))))
    = Z.of_nat (live (RR_table [idle_record "a"; idle_record "b"] 5 4
                        (boot ticking_os))).
Proof.
  apply (proj1 remaining_counts_live [idle_record "a"; idle_record "b"] 5 4%nat
           (boot ticking_os)).
  reflexivity.
Defined.

(** In the run of the witness one of the two records is terminal. *)
Example ticking_run_remaining :
  live (RR_table [idle_record "a"; idle_record "b"] 5 4 (boot ticking_os)) = 1%nat.
Proof. vm_compute. reflexivity. Qed.

(** ** When the polling loops end *)

Lemma live_none t : live t = 0%nat -> Forall (fun q => terminal q = true) t.
Proof.
  induction t as [|q t IH]; intros H; [constructor |].
  rewrite live_cons in H. destruct (terminal q) eqn:E; cbn in H; [| lia].
  constructor; [exact E | apply IH; lia].
Qed.

(** [RoundRobin] and the offline [MultiLevelFeedbackQueue], on a table of
    fewer than 2^31 records, leave their loop only when every record of the
    table is terminal, unless they leave it on a failed [waitpid]. *)
Theorem polling_loops_end_done (c : config) (k : nat) (w : World) :
  policy_of c = PolRR \/ policy_of c = PolMLFQ ->
  Z.of_nat (length (table_at_start c)) < 2 ^ 31 ->
  exited_after c k w = true ->
  ~ ends_with_failed_wait (log_after c k w) ->
  Forall (fun q => terminal q = true) (table_after c k w).
Proof.
  intros Hpol Hlen Hex Hlog.
  destruct (runs_exit c k w Hex) as [Hdone | Hleft].
  - apply live_none.
    destruct c as [p | p quantum | p q0 q1 q2 bt | | q0 q1 q2 bt];
      try (destruct Hpol; discriminate); cbn in Hlen, Hdone |- *;
      rewrite initializeProcess_length in Hlen.
    + pose proof (RR_counts_live p quantum k w Hlen) as Hc. lia.
    + pose proof (MLFQ_offline_counts_live p q0 q1 q2 bt k w Hlen) as Hc. lia.
  - exfalso. apply Hlog.
    destruct c; try (destruct Hpol; discriminate); exact Hleft.
Qed.

Lemma polling_loops_end_done_witness :
  Forall (fun q => terminal q = true)
    (table_after (CfgRR [idle_record "a"; idle_record "b"] 5) 12
       (boot ticking_os)).
Proof.
  apply (polling_loops_end_done (CfgRR [idle_record "a"; idle_record "b"] 5) 12
           (boot ticking_os)).
  - left. reflexivity.
  - cbn. lia.
  - vm_compute. reflexivity.
  - intros (pid & options & result & status & older & _ & H).
    vm_compute in H. discriminate.
Defined.

(** ** The queues of the two [MultiLevelFeedbackQueue]s *)

Lemma hold_live_same heap M M' :
  queued M' ≡ₚ queued M -> queues_hold_live heap M -> queues_hold_live heap M'.
Proof.
  intros Hperm [Hnd Hiff]. split; [rewrite Hperm; exact Hnd |].
  intros x. rewrite Hperm. apply Hiff.
Qed.

(** The record at [x] is rewritten and stays live, and [x] stays queued. *)
Lemma hold_live_requeue heap M M' x pr r :
  queued M' ≡ₚ queued M ->
  heap !! x = Some pr -> terminal pr = false -> terminal r = false ->
  queues_hold_live heap M -> queues_hold_live (<[x := r]> heap) M'.
Proof.
  intros Hperm Hx Hpr Hr [Hnd Hiff]. split; [rewrite Hperm; exact Hnd |].
  intros y. rewrite Hperm, Hiff.
  destruct (decide (y = x)) as [-> | Hne].
  - rewrite list_lookup_insert_eq by (eapply lookup_lt_Some, Hx).
    split; intros _; eauto.
  - rewrite list_lookup_insert_ne by congruence. reflexivity.
Qed.

(** The record at [x] becomes terminal, and [x] leaves the queues. *)
Lemma hold_live_drop heap M M' x pr q :
  queued M ≡ₚ x :: queued M' ->
  heap !! x = Some pr -> terminal q = true ->
  queues_hold_live heap M -> queues_hold_live (<[x := q]> heap) M'.
Proof.
  intros Hperm Hx Hq [Hnd Hiff].
  rewrite Hperm in Hnd. apply NoDup_cons in Hnd as [Hfresh Hnd].
  split; [exact Hnd |].
  intros y. destruct (decide (y = x)) as [-> | Hne].
  - rewrite list_lookup_insert_eq by (eapply lookup_lt_Some, Hx).
    split; [contradiction |]. intros (p & [= <-] & Hp). congruence.
  - rewrite list_lookup_insert_ne by congruence. rewrite <- Hiff, Hperm.
    rewrite elem_of_cons. tauto.
Qed.

(** A live record is appended and its pointer queued. *)
Lemma hold_live_arrival heap M M' p :
  queued M' ≡ₚ length heap :: queued M -> terminal p = false ->
  queues_hold_live heap M -> queues_hold_live (heap ++ [p]) M'.
Proof.
  intros Hperm Hp [Hnd Hiff]. split.
  - rewrite Hperm. apply NoDup_cons. split; [| exact Hnd].
    intros Hin. apply Hiff in Hin as (r & Hr & _).
    apply lookup_lt_Some in Hr. lia.
  - intros y. rewrite Hperm, elem_of_cons, Hiff.
    destruct (decide (y = length heap)) as [-> | Hne].
    + split; [| auto]. intros _. exists p. split; [| exact Hp].
      apply list_lookup_middle. reflexivity.
    + split.
      * intros [? | (r & Hr & Hnt)]; [contradiction |].
        exists r. split; [| exact Hnt].
        rewrite lookup_app_l; [exact Hr | eapply lookup_lt_Some, Hr].
      * intros (r & Hr & Hnt). right. exists r. split; [| exact Hnt].
        apply lookup_app_Some in Hr as [Hr | [Hlen Hr]]; [exact Hr |].
        destruct (y - length heap)%nat as [|d] eqn:E; [lia |].
        cbn in Hr. discriminate.
Qed.

Lemma hold_live_ok heap M : queues_hold_live heap M -> queues_ok heap M.
Proof. intros [Hnd Hiff]. split; [exact Hnd |]. intros x Hx. apply Hiff, Hx. Qed.

Lemma queued_empty_dequeue M i q :
  dequeue (aget M i) = (None, q) -> queued (aset M i q) ≡ₚ queued M.
Proof.
  unfold dequeue. destruct (aget M i) as [|y rest] eqn:E; [| discriminate].
  intros [= <-]. rewrite (queued_aget M i), E. reflexivity.
Qed.

Lemma MLFQ_offline_body_holds s w :
  (forall n, 0 <= fst (os_waitpid (env w) n)) ->
  queues_hold_live (Offline.mq_p s) (Offline.mq_MLFQ s) ->
  let s' := state_of (fst (Offline.MLFQ_body s w)) in
  queues_hold_live (Offline.mq_p s') (Offline.mq_MLFQ s').
Proof.
  intros Hwait Hh. unfold Offline.MLFQ_body.
  destruct (Offline.mq_remaining_processes s <=? 0); cbn; [exact Hh |].
  destruct (dequeue _) as [[x|] q] eqn:Hdq; cbn.
  2: { eapply hold_live_same; [| exact Hh]. apply queued_empty_dequeue, Hdq. }
  pose proof (queued_dequeue _ _ _ _ Hdq) as Hperm.
  destruct (proj1 (proj2 Hh x)) as (pr & Hpr & Hnt).
  { rewrite Hperm. apply elem_of_cons. left. reflexivity. }
  rewrite Hpr. cbn. unfold terminal in Hnt. rewrite Hnt. cbn.
  fold (terminal pr) in Hnt. run_os.
  destruct (dispatch_call_at pr (Offline.mq_t0 s) w Hnt) as [Hd Henv].
  destruct ((if negb (started pr) then executeProcess pr (Offline.mq_t0 s)
             else resumeProcess pr (Offline.mq_t0 s)) w) as [d w1].
  cbn in Hd, Henv. apply terminal_dispatched in Hd.
  cbn. pose proof (Hwait (tick w1)) as Hw. rewrite <- Henv in Hw.
  destruct (os_waitpid _ _) as [result status]. cbn in Hw. cbn.
  destruct (result <? 0) eqn:Er; [apply Z.ltb_lt in Er; lia |]. cbn.
  destruct (result =? 0); cbn.
  - match goal with
    | |- context [pauseProcess d ?t ?w'] =>
        pose proof (pauseProcess_terminal d t w') as Ht;
        destruct (pauseProcess d t w') as [r w2]
    end.
    cbn in Ht. rewrite Hd, Hnt in Ht.
    split_ifs; (eapply hold_live_requeue; [| exact Hpr | exact Hnt | exact Ht | exact Hh]);
      rewrite ?queued_boost, queued_enqueue, Hperm; reflexivity.
  - destruct (exited_ok status); split_ifs;
      (eapply hold_live_drop; [| exact Hpr | | exact Hh]);
      rewrite ?queued_boost; first [exact Hperm | reflexivity | apply orb_true_r].
Qed.

Lemma MLFQ_turn_holds s w :
  (forall n, 0 <= fst (os_waitpid (env w) n)) ->
  queues_hold_live (Online.om_heap s) (Online.om_MLFQ s) ->
  match fst (Online.MLFQ_turn s w) with
  | (heap', _, M', _) => queues_hold_live heap' M'
  end.
Proof.
  intros Hwait Hh. unfold Online.MLFQ_turn.
  destruct (find _ _) as [i|]; [| exact Hh].
  destruct (dequeue _) as [[x|] q] eqn:Hdq; [| exact Hh].
  pose proof (queued_dequeue _ _ _ _ Hdq) as Hperm.
  destruct (proj1 (proj2 Hh x)) as (pr & Hpr & Hnt).
  { rewrite Hperm. apply elem_of_cons. left. reflexivity. }
  rewrite Hpr. run_os.
  destruct (dispatch_call_at pr (Online.om_t0 s) w Hnt) as [Hd Henv].
  destruct ((if negb (started pr) then executeProcess pr (Online.om_t0 s)
             else resumeProcess pr (Online.om_t0 s)) w) as [d w1].
  cbn in Hd, Henv. apply terminal_dispatched in Hd.
  cbn. pose proof (Hwait (tick w1)) as Hw. rewrite <- Henv in Hw.
  destruct (os_waitpid _ _) as [result status]. cbn in Hw. cbn.
  destruct (result <? 0) eqn:Er; [apply Z.ltb_lt in Er; lia |]. cbn.
  destruct (result =? 0); cbn.
  - match goal with
    | |- context [pauseProcess d ?t ?w'] =>
        pose proof (pauseProcess_terminal d t w') as Ht;
        destruct (pauseProcess d t w') as [r w2]
    end.
    cbn in Ht. rewrite Hd, Hnt in Ht. cbn.
    eapply hold_live_requeue; [| exact Hpr | exact Hnt | exact Ht | exact Hh].
    match goal with |- context [if ?b then _ else _] => destruct b end;
      rewrite queued_enqueue, Hperm; reflexivity.
  - destruct (exited_ok status); cbn; destruct (os_fopen _ _); cbn;
      (eapply hold_live_drop; [exact Hperm | exact Hpr | | exact Hh]);
      first [reflexivity | apply orb_true_r].
Qed.

Lemma MLFQ_online_body_holds s w :
  (forall n, 0 <= fst (os_waitpid (env w) n)) ->
  queues_hold_live (Online.om_heap s) (Online.om_MLFQ s) ->
  let s' := state_of (fst (Online.MLFQ_body s w)) in
  queues_hold_live (Online.om_heap s') (Online.om_MLFQ s').
Proof.
  intros Hwait Hh. unfold Online.MLFQ_body.
  destruct (Online.om_phase s).
  - unfold Online.readInput. run_os.
    destruct (os_stdin (env w) (tick w)) as [| | buffer]; cbn; try exact Hh.
    unfold Online.MLFQ_ingest. run_os.
    pose proof (new_process_fresh buffer (Online.om_t0 s)
                  (mkWorld (env w) (S (tick w))
                     (EvPoll (Input buffer) :: out w))) as Hf.
    destruct (Online.new_process _ _ _) as [[p|] w1]; cbn; [| exact Hh].
    specialize (Hf p eq_refl). apply fresh_terminal in Hf.
    eapply hold_live_arrival; [| exact Hf | exact Hh].
    apply queued_enqueue.
  - unfold Online.MLFQ_schedule.
    destruct (Online.om_remainingProcesses s =? 0); cbn; [exact Hh |].
    run_os. pose proof (MLFQ_turn_holds s w Hwait Hh) as Hturn.
    destruct (Online.MLFQ_turn s w) as [[[[heap' h'] M'] rem'] w1].
    cbn in Hturn. cbn. destruct (_ >=? _); cbn; [| exact Hturn].
    eapply hold_live_same; [| exact Hturn]. rewrite queued_boost. reflexivity.
Qed.

(** As long as no [waitpid] fails, both [MultiLevelFeedbackQueue]s keep
    every record that is not terminal in exactly one place of their three
    queues, and nothing else: no process is lost, queued twice, or queued
    once it has ended. *)
Theorem mlfq_queues_hold_live :
  (forall p quantum0 quantum1 quantum2 boostTime k w,
     (forall n, 0 <= fst (os_waitpid (env w) n)) ->
     let s := state_of (fst (Offline.MultiLevelFeedbackQueue p quantum0 quantum1
                               quantum2 boostTime k w)) in
     queues_hold_live (Offline.mq_p s) (Offline.mq_MLFQ s)) /\
  (forall quantum0 quantum1 quantum2 boostTime k w,
     (forall n, 0 <= fst (os_waitpid (env w) n)) ->
     let s := state_of (fst (Online.MultiLevelFeedbackQueue quantum0 quantum1
                               quantum2 boostTime k w)) in
     queues_hold_live (Online.om_heap s) (Online.om_MLFQ s)).
Proof.
  split.
  - intros p q0 q1 q2 bt k w Hwait.
    apply (run_keeps_at (Offline.MLFQ_init p q0 q1 q2 bt) Offline.MLFQ_body
             (fun w' => w' = w)
             (fun s w' => env w' = env w /\
                          queues_hold_live (Offline.mq_p s) (Offline.mq_MLFQ s)));
      [| | reflexivity].
    + intros w' ->. unfold Offline.MLFQ_init. run_os. cbn.
      assert (Hstart : queues_hold_live (Offline.initializeProcess p)
                (aset (mkArr3 [] [] [])
                   0 (Offline.enqueue_all [] (length (Offline.initializeProcess p))))).
      { rewrite enqueue_all_seq.
        assert (Hq : forall l : list nat, queued (aset (mkArr3 [] [] []) 0 ([] ++ l)) = l).
        { intros l. unfold queued. cbn. apply app_nil_r. }
        unfold queues_hold_live. rewrite Hq.
        split; [apply NoDup_seq |].
        intros x. rewrite elem_of_seq. split.
        - intros Hx. destruct (lookup_lt_is_Some_2 (Offline.initializeProcess p) x)
            as [r Hr]; [lia |].
          exists r. split; [exact Hr |].
          apply (Forall_lookup_1 _ _ _ _ (initializeProcess_idle p)) in Hr.
          rewrite Hr. reflexivity.
        - intros (r & Hr & _). apply lookup_lt_Some in Hr. lia. }
      destruct (os_fopen _ _); cbn; (split; [reflexivity | exact Hstart]).
    + intros s w' [Henv Hh]. split.
      * rewrite <- Henv. apply (MLFQ_offline_body_at s w').
      * apply MLFQ_offline_body_holds; [rewrite Henv; exact Hwait | exact Hh].
  - intros q0 q1 q2 bt k w Hwait.
    apply (run_keeps_at (Online.MLFQ_init q0 q1 q2 bt) Online.MLFQ_body
             (fun w' => w' = w)
             (fun s w' => env w' = env w /\
                          queues_hold_live (Online.om_heap s) (Online.om_MLFQ s)));
      [| | reflexivity].
    + intros w' ->. unfold Online.MLFQ_init. run_os. cbn.
      destruct (os_fopen _ _); cbn;
        (split; [reflexivity |]);
        (split; [constructor |]);
        intros x; (split; [intros Hx; inversion Hx |]);
        intros (r & Hr & _); discriminate.
    + intros s w' [Henv Hh]. split.
      * rewrite <- Henv.
        apply (MLFQ_online_body_at s w'). apply hold_live_ok, Hh.
      * apply MLFQ_online_body_holds; [rewrite Henv; exact Hwait | exact Hh].
Qed.

Lemma mlfq_queues_hold_live_witness :
  let s := state_of (fst (Offline.MultiLevelFeedbackQueue
                            [idle_record "a"; idle_record "b"] 5 10 20 1000 2
                            (boot ticking_os))) in
  queues_hold_live (Offline.mq_p s) (Offline.mq_MLFQ s).
Proof.
  apply (proj1 mlfq_queues_hold_live [idle_record "a"; idle_record "b"]
           5 10 20 1000 2%nat (boot ticking_os)).
  intros n.
  change (0 <= fst (if (n mod 4 =? 0)%nat then (7, 0) else (0, 0))).
  destruct (n mod 4 =? 0)%nat; cbn; lia.
Defined.

(** In the run of the witness the first record has ended and the second,
    paused once, waits in queue 1. *)
Example ticking_run_queues :
  let s := state_of (fst (Offline.MultiLevelFeedbackQueue
                            [idle_record "a"; idle_record "b"] 5 10 20 1000 2
                            (boot ticking_os))) in
  Offline.mq_MLFQ s = mkArr3 [] [1%nat] [] /\
  map terminal (Offline.mq_p s) = [true; false].
Proof. vm_compute. split; reflexivity. Qed.

(** ** The CSV file *)

Lemma filter_terminal_insert t i p q :
  t !! i = Some p -> terminal p = false ->
  List.filter terminal (<[i := q]> t)
    ≡ₚ (if terminal q then [q] else []) ++ List.filter terminal t.
Proof.
  intros Hi Hp.
  rewrite <- (take_drop_middle t i p Hi) at 2.
  rewrite insert_take_drop by (eapply lookup_lt_Some, Hi).
  rewrite !List.filter_app. cbn. rewrite Hp.
  destruct (terminal q); cbn; [| reflexivity].
  symmetry. apply Permutation_middle.
Qed.

Lemma csv_matches_same file log log' t :
  csv_content file log' = csv_content file log ->
  csv_matches file log t -> csv_matches file log' t.
Proof. intros E (rows & Hc & Hp). exists rows. rewrite E. auto. Qed.

Lemma csv_matches_live file log log' t i p q :
  csv_content file log' = csv_content file log ->
  t !! i = Some p -> terminal p = false -> terminal q = false ->
  csv_matches file log t -> csv_matches file log' (<[i := q]> t).
Proof.
  intros E Hi Hp Hq (rows & Hc & Hperm). exists rows. rewrite E.
  split; [exact Hc |].
  rewrite (filter_terminal_insert t i p q Hi Hp), Hq. exact Hperm.
Qed.

Lemma csv_matches_done file log log' t i p q :
  csv_content file log' = csv_content file log ++ [RowLine (csv_row q)] ->
  t !! i = Some p -> terminal p = false -> terminal q = true ->
  csv_matches file log t -> csv_matches file log' (<[i := q]> t).
Proof.
  intros E Hi Hp Hq (rows & Hc & Hperm). exists (rows ++ [q]). rewrite E, Hc.
  split; [rewrite map_app; reflexivity |].
  rewrite (filter_terminal_insert t i p q Hi Hp), Hq, Hperm. cbn.
  rewrite Permutation_app_comm. reflexivity.
Qed.

Lemma csv_matches_arrival file log log' t p :
  csv_content file log' = csv_content file log -> terminal p = false ->
  csv_matches file log t -> csv_matches file log' (t ++ [p]).
Proof.
  intros E Hp (rows & Hc & Hperm). exists rows. rewrite E.
  split; [exact Hc |].
  rewrite List.filter_app. cbn. rewrite Hp, app_nil_r. exact Hperm.
Qed.

(** The calls of process control leave the file alone. *)
Lemma executeProcess_csv file p t0 w :
  csv_content file (out (snd (executeProcess p t0 w))) = csv_content file (out w).
Proof.
  unfold executeProcess. run_os. destruct (os_fork _ _); reflexivity.
Qed.

Lemma resumeProcess_csv file p t0 w :
  csv_content file (out (snd (resumeProcess p t0 w))) = csv_content file (out w).
Proof.
  unfold resumeProcess. destruct (negb (started p) || finished p); [reflexivity |].
  run_os. destruct (_ <? 0); reflexivity.
Qed.

Lemma pauseProcess_csv file p t0 w :
  csv_content file (out (snd (pauseProcess p t0 w))) = csv_content file (out w).
Proof.
  unfold pauseProcess. destruct (negb (started p) || finished p); [reflexivity |].
  run_os. destruct (_ <? 0); reflexivity.
Qed.

Lemma dispatch_call_csv file p t0 w :
  csv_content file
    (out (snd ((if negb (started p) then executeProcess p t0
                else resumeProcess p t0) w)))
    = csv_content file (out w).
Proof.
  destruct (negb (started p)); [apply executeProcess_csv | apply resumeProcess_csv].
Qed.

Lemma new_process_csv file buffer t0 w :
  csv_content file (out (snd (Online.new_process buffer t0 w)))
    = csv_content file (out w).
Proof.
  unfold Online.new_process, Online.malloc_Process, Online.malloc. run_os.
  destruct (os_malloc (env w) (tick w)); cbn; [| reflexivity].
  destruct (os_malloc (env w) (S (tick w))); reflexivity.
Qed.

Lemma terminal_finished_FCFS now t0 d : terminal (finished_FCFS now t0 d) = true.
Proof. reflexivity. Qed.

Lemma terminal_finished_SJF now t0 d : terminal (finished_SJF now t0 d) = true.
Proof. reflexivity. Qed.

Lemma terminal_finished_RR now t0 d : terminal (finished_RR now t0 d) = true.
Proof. reflexivity. Qed.

Lemma terminal_error_FCFS now t0 d : terminal (error_FCFS now t0 d) = true.
Proof. apply orb_true_r. Qed.

Lemma terminal_error_RR now t0 d : terminal (error_RR now t0 d) = true.
Proof. apply orb_true_r. Qed.

Lemma FCFS_body_csv s w :
  (forall n, os_fopen (env w) n = true) -> FCFS_inv s ->
  csv_matches "result_offline_FCFS.csv" (out w) (Offline.fc_p s) ->
  csv_matches "result_offline_FCFS.csv" (out (snd (Offline.FCFS_body s w)))
    (Offline.fc_p (state_of (fst (Offline.FCFS_body s w)))).
Proof.
  intros Hfopen Hinv Hm. unfold Offline.FCFS_body.
  destruct (Offline.fc_p s !! Offline.fc_i s) as [pi|] eqn:Hi; cbn; [| exact Hm].
  assert (Hnt : terminal pi = false) by (eapply Hinv; [reflexivity | exact Hi]).
  run_os.
  destruct (executeProcess_at AsFCFS pi (Offline.fc_t0 s) w) as [Hd Henv];
    [right; discriminate |].
  pose proof (executeProcess_csv "result_offline_FCFS.csv" pi (Offline.fc_t0 s) w)
    as Hq.
  destruct (executeProcess pi (Offline.fc_t0 s) w) as [d w1].
  cbn in Hd, Henv, Hq. apply terminal_dispatched in Hd.
  cbn. destruct (os_waitpid _ _) as [result status]. cbn.
  destruct (result <? 0); cbn.
  - eapply csv_matches_live; [exact Hq | exact Hi | exact Hnt | congruence | exact Hm].
  - destruct (exited_ok status); cbn; rewrite Henv, Hfopen; cbn;
      (eapply csv_matches_done; [| exact Hi | exact Hnt | | exact Hm]);
      first [ apply terminal_finished_FCFS | apply terminal_error_FCFS
            | cbn; rewrite Hq; reflexivity ].
Qed.

Lemma RR_body_csv s w :
  (forall n, os_fopen (env w) n = true) ->
  csv_matches "result_offline_RR.csv" (out w) (Offline.rr_p s) ->
  csv_matches "result_offline_RR.csv" (out (snd (Offline.RR_body s w)))
    (Offline.rr_p (state_of (fst (Offline.RR_body s w)))).
Proof.
  intros Hfopen Hm. unfold Offline.RR_body.
  destruct (Offline.rr_remaining_processes s <=? 0); cbn; [exact Hm |].
  destruct (Offline.rr_p s !! Offline.rr_i s) as [pi|] eqn:Hi; cbn; [| exact Hm].
  destruct (finished pi || error pi) eqn:Hnt; cbn; [exact Hm |].
  run_os.
  destruct (dispatch_call_at pi (Offline.rr_t0 s) w Hnt) as [Hd Henv].
  pose proof (dispatch_call_csv "result_offline_RR.csv" pi (Offline.rr_t0 s) w)
    as Hq.
  destruct ((if negb (started pi) then executeProcess pi (Offline.rr_t0 s)
             else resumeProcess pi (Offline.rr_t0 s)) w) as [d w1].
  cbn in Hd, Henv, Hq. apply terminal_dispatched in Hd. fold (terminal pi) in Hnt.
  cbn. destruct (os_waitpid _ _) as [result status]. cbn.
  destruct (result <? 0); cbn.
  - eapply csv_matches_live; [exact Hq | exact Hi | exact Hnt | congruence | exact Hm].
  - destruct (result =? 0); cbn.
    + match goal with
      | |- context [pauseProcess d ?t ?w'] =>
          pose proof (pauseProcess_terminal d t w') as Ht;
          pose proof (pauseProcess_csv "result_offline_RR.csv" d t w') as Hq2;
          destruct (pauseProcess d t w') as [q w2]
      end.
      cbn in Ht, Hq2. cbn.
      eapply csv_matches_live; [| exact Hi | exact Hnt | congruence | exact Hm].
      cbn. rewrite Hq2. exact Hq.
    + destruct (exited_ok status); cbn; rewrite Henv, Hfopen; cbn;
        (eapply csv_matches_done; [| exact Hi | exact Hnt | | exact Hm]);
        first [ apply terminal_finished_RR | apply terminal_error_RR
              | cbn; rewrite Hq; reflexivity ].
Qed.

Lemma MLFQ_offline_body_csv s w :
  (forall n, os_fopen (env w) n = true) ->
  csv_matches "result_offline_MLFQ.csv" (out w) (Offline.mq_p s) ->
  csv_matches "result_offline_MLFQ.csv" (out (snd (Offline.MLFQ_body s w)))
    (Offline.mq_p (state_of (fst (Offline.MLFQ_body s w)))).
Proof.
  intros Hfopen Hm. unfold Offline.MLFQ_body.
  destruct (Offline.mq_remaining_processes s <=? 0); cbn; [exact Hm |].
  destruct (dequeue _) as [[p|] q]; cbn; [| exact Hm].
  destruct (Offline.mq_p s !! p) as [pr|] eqn:Hi; cbn; [| exact Hm].
  destruct (finished pr || error pr) eqn:Hnt; cbn; [exact Hm |].
  run_os.
  destruct (dispatch_call_at pr (Offline.mq_t0 s) w Hnt) as [Hd Henv].
  pose proof (dispatch_call_csv "result_offline_MLFQ.csv" pr (Offline.mq_t0 s) w)
    as Hq.
  destruct ((if negb (started pr) then executeProcess pr (Offline.mq_t0 s)
             else resumeProcess pr (Offline.mq_t0 s)) w) as [d w1].
  cbn in Hd, Henv, Hq. apply terminal_dispatched in Hd. fold (terminal pr) in Hnt.
  cbn. destruct (os_waitpid _ _) as [result status]. cbn.
  destruct (result <? 0); cbn.
  - eapply csv_matches_live; [exact Hq | exact Hi | exact Hnt | congruence | exact Hm].
  - destruct (result =? 0); cbn.
    + match goal with
      | |- context [pauseProcess d ?t ?w'] =>
          pose proof (pauseProcess_terminal d t w') as Ht;
          pose proof (pauseProcess_csv "result_offline_MLFQ.csv" d t w') as Hq2;
          destruct (pauseProcess d t w') as [r w2]
      end.
      cbn in Ht, Hq2.
      split_ifs;
        (eapply csv_matches_live; [| exact Hi | exact Hnt | congruence | exact Hm]);
        cbn; rewrite Hq2; exact Hq.
    + destruct (exited_ok status); cbn; rewrite Henv, Hfopen; split_ifs;
        (eapply csv_matches_done; [| exact Hi | exact Hnt | | exact Hm]);
        first [ apply terminal_finished_RR | apply terminal_error_RR
              | cbn; rewrite Hq; reflexivity ].
Qed.

Lemma SJF_body_csv s w :
  (forall n, os_fopen (env w) n = true) ->
  csv_matches "result_online_SJF.csv" (out w) (Online.sj_processList s) ->
  csv_matches "result_online_SJF.csv" (out (snd (Online.SJF_body s w)))
    (Online.sj_processList (state_of (fst (Online.SJF_body s w)))).
Proof.
  intros Hfopen Hm. unfold Online.SJF_body.
  destruct (Online.sj_phase s).
  - unfold Online.readInput. run_os.
    destruct (os_stdin (env w) (tick w)) as [| | buffer]; cbn; try exact Hm.
    unfold Online.SJF_ingest. run_os.
    pose proof (new_process_fresh buffer (Online.sj_t0 s)
                  (mkWorld (env w) (S (tick w))
                     (EvPoll (Input buffer) :: out w))) as Hf.
    pose proof (new_process_csv "result_online_SJF.csv" buffer (Online.sj_t0 s)
                  (mkWorld (env w) (S (tick w))
                     (EvPoll (Input buffer) :: out w))) as Hq.
    destruct (Online.new_process _ _ _) as [[p|] w1]; cbn in Hq |- *;
      [| eapply csv_matches_same; [exact Hq | exact Hm]].
    specialize (Hf p eq_refl). apply fresh_terminal in Hf.
    unfold Online.malloc. run_os.
    split_ifs;
      first [ eapply csv_matches_arrival; [| exact Hf | exact Hm]; exact Hq
            | eapply csv_matches_same; [| exact Hm]; exact Hq ].
  - unfold Online.SJF_schedule.
    destruct (Online.sj_remainingProcesses s =? 0); cbn; [exact Hm |].
    pose proof (SJF_select_spec (Online.sj_hashTable s) (Online.sj_processList s)) as Hsel.
    destruct (fst (Online.SJF_select _ _)) as [i|]; cbn; [| exact Hm].
    destruct Hsel as (p & Hp & Hnt & _). rewrite Hp. run_os.
    destruct (executeProcess_at AsSJF p (Online.sj_t0 s) w) as [Hd Henv];
      [right; discriminate |].
    pose proof (executeProcess_csv "result_online_SJF.csv" p (Online.sj_t0 s) w)
      as Hq.
    destruct (executeProcess p (Online.sj_t0 s) w) as [d w1].
    cbn in Hd, Henv, Hq. apply terminal_dispatched in Hd.
    cbn. destruct (os_waitpid _ _) as [result status]. cbn.
    destruct (result <? 0); cbn.
    + eapply csv_matches_live; [exact Hq | exact Hp | exact Hnt | congruence | exact Hm].
    + destruct (exited_ok status); cbn; rewrite Henv, Hfopen; cbn;
        (eapply csv_matches_done; [| exact Hp | exact Hnt | | exact Hm]);
        first [ apply terminal_finished_SJF | apply terminal_error_FCFS
              | cbn; rewrite Hq; reflexivity ].
Qed.

Lemma MLFQ_turn_csv s w :
  (forall n, os_fopen (env w) n = true) ->
  queues_ok (Online.om_heap s) (Online.om_MLFQ s) ->
  csv_matches "result_online_MLFQ.csv" (out w) (Online.om_heap s) ->
  match Online.MLFQ_turn s w with
  | ((heap', _, _, _), w') => csv_matches "result_online_MLFQ.csv" (out w') heap'
  end.
Proof.
  intros Hfopen Hok Hm. unfold Online.MLFQ_turn.
  destruct (find _ _) as [i|]; [| exact Hm].
  destruct (dequeue _) as [[x|] q] eqn:Hdq; [| exact Hm].
  pose proof (queued_dequeue _ _ _ _ Hdq) as Hperm.
  destruct Hok as [_ Hval].
  destruct (Hval x) as (pr & Hpr & Hnt).
  { rewrite Hperm. apply elem_of_cons. left. reflexivity. }
  rewrite Hpr. run_os.
  destruct (dispatch_call_at pr (Online.om_t0 s) w Hnt) as [Hd Henv].
  pose proof (dispatch_call_csv "result_online_MLFQ.csv" pr (Online.om_t0 s) w)
    as Hq.
  destruct ((if negb (started pr) then executeProcess pr (Online.om_t0 s)
             else resumeProcess pr (Online.om_t0 s)) w) as [d w1].
  cbn in Hd, Henv, Hq. apply terminal_dispatched in Hd.
  cbn. destruct (os_waitpid _ _) as [result status]. cbn.
  destruct (result <? 0); cbn.
  - eapply csv_matches_live; [exact Hq | exact Hpr | exact Hnt | congruence | exact Hm].
  - destruct (result =? 0); cbn.
    + match goal with
      | |- context [pauseProcess d ?t ?w'] =>
          pose proof (pauseProcess_terminal d t w') as Ht;
          pose proof (pauseProcess_csv "result_online_MLFQ.csv" d t w') as Hq2;
          destruct (pauseProcess d t w') as [r w2]
      end.
      cbn in Ht, Hq2. cbn.
      eapply csv_matches_live; [| exact Hpr | exact Hnt | congruence | exact Hm].
      cbn. rewrite Hq2. exact Hq.
    + destruct (exited_ok status); cbn; rewrite Henv, Hfopen; cbn;
        (eapply csv_matches_done; [| exact Hpr | exact Hnt | | exact Hm]);
        first [ apply terminal_finished_RR | apply terminal_error_RR
              | cbn; rewrite Hq; reflexivity ].
Qed.

Lemma MLFQ_online_body_csv s w :
  (forall n, os_fopen (env w) n = true) -> MLFQ_online_inv s ->
  csv_matches "result_online_MLFQ.csv" (out w) (Online.om_heap s) ->
  csv_matches "result_online_MLFQ.csv" (out (snd (Online.MLFQ_body s w)))
    (Online.om_heap (state_of (fst (Online.MLFQ_body s w)))).
Proof.
  intros Hfopen Hok Hm. unfold Online.MLFQ_body, MLFQ_online_inv in *.
  destruct (Online.om_phase s).
  - unfold Online.readInput. run_os.
    destruct (os_stdin (env w) (tick w)) as [| | buffer]; cbn; try exact Hm.
    unfold Online.MLFQ_ingest. run_os.
    pose proof (new_process_fresh buffer (Online.om_t0 s)
                  (mkWorld (env w) (S (tick w))
                     (EvPoll (Input buffer) :: out w))) as Hf.
    pose proof (new_process_csv "result_online_MLFQ.csv" buffer (Online.om_t0 s)
                  (mkWorld (env w) (S (tick w))
                     (EvPoll (Input buffer) :: out w))) as Hq.
    destruct (Online.new_process _ _ _) as [[p|] w1]; cbn in Hq |- *;
      [| eapply csv_matches_same; [exact Hq | exact Hm]].
    specialize (Hf p eq_refl). apply fresh_terminal in Hf.
    eapply csv_matches_arrival; [exact Hq | exact Hf | exact Hm].
  - unfold Online.MLFQ_schedule.
    destruct (Online.om_remainingProcesses s =? 0); cbn; [exact Hm |].
    run_os. pose proof (MLFQ_turn_csv s w Hfopen Hok Hm) as Hturn.
    destruct (Online.MLFQ_turn s w) as [[[[heap' h'] M'] rem'] w1].
    cbn. destruct (_ >=? _); cbn; exact Hturn.
Qed.

Lemma filter_terminal_initial p :
  List.filter terminal (Offline.initializeProcess p) = [].
Proof. induction p as [|q p IH]; [reflexivity | exact IH]. Qed.

(** When no [fopen] fails, the CSV file of a scheduler holds, after any
    number of passes, the header line followed by exactly one row for each
    record of the table that is terminal, with the values the record has
    in the table; whatever the file held before the run is gone, and no
    row is written for a record that still runs. *)
Theorem csv_holds_terminal_records (c : config) (k : nat) (w : World) :
  (forall n, os_fopen (env w) n = true) ->
  csv_matches (csv_file_of c) (log_after c k w) (table_after c k w).
Proof.
  intros Hfopen.
  assert (Hstart : forall file t w',
            List.filter terminal t = [] ->
            csv_matches file
              (EvClock (os_clock (env w') (S (tick w'))) :: EvCsvHeader file
                 :: EvFopen file "w" true :: out w') t).
  { intros file t w' Ht. exists []. rewrite Ht. cbn [csv_content].
    rewrite !String.eqb_refl. split; reflexivity. }
  destruct c as [p | p quantum | p q0 q1 q2 bt | | q0 q1 q2 bt]; cbn.
  - apply (run_keeps_at (Offline.FCFS_init p) Offline.FCFS_body (fun w' => w' = w)
             (fun s w' => env w' = env w /\ FCFS_inv s /\
                csv_matches "result_offline_FCFS.csv" (out w') (Offline.fc_p s)));
      [| | reflexivity].
    + intros w' ->. split; [apply FCFS_clocked_init |].
      split; [apply FCFS_init_inv |].
      unfold Offline.FCFS_init. run_os. cbn. rewrite Hfopen. cbn.
      apply Hstart, filter_terminal_initial.
    + intros s w' (Henv & Hinv & Hm).
      destruct (FCFS_body_at s w' Hinv) as (_ & Hinv' & _ & Henv').
      split; [congruence |]. split; [exact Hinv' |].
      apply FCFS_body_csv; [rewrite Henv; exact Hfopen | exact Hinv | exact Hm].
  - apply (run_keeps_at (Offline.RR_init p quantum) Offline.RR_body
             (fun w' => w' = w)
             (fun s w' => env w' = env w /\
                csv_matches "result_offline_RR.csv" (out w') (Offline.rr_p s)));
      [| | reflexivity].
    + intros w' ->. split; [apply RR_clocked_init |].
      unfold Offline.RR_init. run_os. cbn. rewrite Hfopen. cbn.
      apply Hstart, filter_terminal_initial.
    + intros s w' (Henv & Hm).
      destruct (RR_body_at s w') as (_ & _ & Henv').
      split; [congruence |].
      apply RR_body_csv; [rewrite Henv; exact Hfopen | exact Hm].
  - apply (run_keeps_at (Offline.MLFQ_init p q0 q1 q2 bt) Offline.MLFQ_body
             (fun w' => w' = w)
             (fun s w' => env w' = env w /\
                csv_matches "result_offline_MLFQ.csv" (out w') (Offline.mq_p s)));
      [| | reflexivity].
    + intros w' ->. split; [apply MLFQ_clocked_init |].
      unfold Offline.MLFQ_init. run_os. cbn. rewrite Hfopen. cbn.
      apply Hstart, filter_terminal_initial.
    + intros s w' (Henv & Hm).
      destruct (MLFQ_offline_body_at s w') as (_ & _ & Henv').
      split; [congruence |].
      apply MLFQ_offline_body_csv; [rewrite Henv; exact Hfopen | exact Hm].
  - apply (run_keeps_at Online.SJF_init Online.SJF_body (fun w' => w' = w)
             (fun s w' => env w' = env w /\
                csv_matches "result_online_SJF.csv" (out w')
                  (Online.sj_processList s)));
      [| | reflexivity].
    + intros w' ->. split; [apply SJF_clocked_init |].
      unfold Online.SJF_init, Online.malloc. run_os. cbn. rewrite Hfopen. cbn.
      destruct (os_malloc _ _); cbn.
      * eapply csv_matches_same; [| apply (Hstart _ [] w); reflexivity].
        reflexivity.
      * eapply csv_matches_same; [| apply (Hstart _ [] w); reflexivity].
        reflexivity.
    + intros s w' (Henv & Hm).
      destruct (SJF_body_at s w') as (_ & _ & Henv').
      split; [congruence |].
      apply SJF_body_csv; [rewrite Henv; exact Hfopen | exact Hm].
  - apply (run_keeps_at (Online.MLFQ_init q0 q1 q2 bt) Online.MLFQ_body
             (fun w' => w' = w)
             (fun s w' => env w' = env w /\ MLFQ_online_inv s /\
                csv_matches "result_online_MLFQ.csv" (out w') (Online.om_heap s)));
      [| | reflexivity].
    + intros w' ->. split; [apply OnlineMLFQ_clocked_init |].
      split; [apply OnlineMLFQ_init_inv |].
      unfold Online.MLFQ_init. run_os. cbn. rewrite Hfopen. cbn.
      apply Hstart. reflexivity.
    + intros s w' (Henv & Hinv & Hm).
      destruct (MLFQ_online_body_at s w' Hinv) as (_ & Hinv' & _ & Henv').
      split; [congruence |]. split; [exact Hinv' |].
      apply MLFQ_online_body_csv;
        [rewrite Henv; exact Hfopen | exact Hinv | exact Hm].
Qed.

Lemma csv_holds_terminal_records_witness :
  csv_matches "result_offline_MLFQ.csv"
    (log_after (CfgMLFQ [idle_record "a"; idle_record "b"] 5 10 20 1000) 8
       (boot ticking_os))
    (table_after (CfgMLFQ [idle_record "a"; idle_record "b"] 5 10 20 1000) 8
       (boot ticking_os)).
Proof.
  apply (csv_holds_terminal_records
           (CfgMLFQ [idle_record "a"; idle_record "b"] 5 10 20 1000) 8
           (boot ticking_os)).
  reflexivity.
Defined.

(** The file of the run of the witness. *)
Example ticking_run_csv :
  csv_content "result_offline_MLFQ.csv"
    (log_after (CfgMLFQ [idle_record "a"; idle_record "b"] 5 10 20 1000) 8
       (boot ticking_os))
    = [HeaderLine;
       RowLine ("a"%string, true, false, 20, 40, 20, 20);
       RowLine ("b"%string, true, false, 50, 160, 110, 80)].
Proof. vm_compute. reflexivity. Qed.

(** ** The linked queue *)

Lemma chain_length m a xs l : Linked.chain m a xs l -> length xs = length l.
Proof.
  revert a l. induction xs as [|x xs IH]; intros a [|p l] H; cbn in H;
    try contradiction; [reflexivity |].
  destruct H as (_ & nx & _ & H). cbn. f_equal. exact (IH _ _ H).
Qed.

Lemma chain_same m m' a xs l :
  (forall x, x ∈ xs -> m' x = m x) ->
  Linked.chain m a xs l -> Linked.chain m' a xs l.
Proof.
  revert a l. induction xs as [|x xs IH]; intros a [|p l] Hm H; cbn in *;
    try contradiction; [exact H |].
  destruct H as (Ha & nx & Hx & H). split; [exact Ha |].
  exists nx. split.
  - rewrite Hm; [exact Hx | apply elem_of_cons; left; reflexivity].
  - apply IH; [| exact H]. intros y Hy. apply Hm, elem_of_cons. right. exact Hy.
Qed.

Lemma chain_allocated m a xs l x :
  Linked.chain m a xs l -> x ∈ xs -> m x <> None.
Proof.
  revert a l. induction xs as [|y xs IH]; intros a [|p l] H Hin; cbn in H;
    try contradiction.
  - apply elem_of_nil in Hin. contradiction.
  - destruct H as (_ & nx & Hy & H).
    apply elem_of_cons in Hin as [-> | Hin]; [congruence | exact (IH _ _ H Hin)].
Qed.

(** Linking a new last node behind a non-empty chain. *)
Lemma chain_snoc m a xs l t n b p :
  Linked.chain m a xs l -> NoDup xs ->
  last xs = Some t -> m t = Some n -> b ∉ xs ->
  Linked.chain
    (Linked.store (Linked.store m b (Linked.mkQueueNode p None)) t
       (Linked.mkQueueNode (Linked.process n) (Some b)))
    a (xs ++ [b]) (l ++ [p]).
Proof.
  revert a l. induction xs as [|x xs IH]; intros a l H Hnd Hlast Ht Hb;
    [discriminate |].
  destruct l as [|p0 l]; cbn in H; [contradiction |].
  destruct H as (Ha & nx & Hx & H).
  apply NoDup_cons in Hnd as [Hx_xs Hnd].
  assert (Hbx : b <> x).
  { intros ->. apply Hb, elem_of_cons. left. reflexivity. }
  assert (Hb' : b ∉ xs).
  { intros Hin. apply Hb, elem_of_cons. right. exact Hin. }
  destruct xs as [|y xs].
  - destruct l as [|? ?]; cbn in H; [| contradiction].
    cbn in Hlast. injection Hlast as <-. rewrite Hx in Ht. injection Ht as <-.
    cbn. split; [exact Ha |]. exists (Some b). split.
    + unfold Linked.store. rewrite Nat.eqb_refl. reflexivity.
    + split; [reflexivity |]. exists None. split; [| reflexivity].
      unfold Linked.store. rewrite Nat.eqb_refl.
      destruct (Nat.eqb_spec b x); [congruence | reflexivity].
  - rewrite last_cons_cons in Hlast.
    assert (Htx : t <> x).
    { intros ->. apply Hx_xs, last_Some_elem_of, Hlast. }
    change ((x :: y :: xs) ++ [b]) with (x :: ((y :: xs) ++ [b])).
    change ((p0 :: l) ++ [p]) with (p0 :: (l ++ [p])).
    cbn [Linked.chain]. split; [exact Ha |]. exists nx. split.
    + unfold Linked.store.
      destruct (Nat.eqb_spec x t); [congruence |].
      destruct (Nat.eqb_spec x b); [congruence | exact Hx].
    + apply IH; assumption.
Qed.

(** The list model of the queue, [enqueue] and [dequeue] on the list of the
    pointers, is what the chain of the source does. [enqueue] on a queue of
    fewer than 2^31 - 1 nodes, given a block that is not in use, dereferences
    nothing but that block and the last node; afterwards the queue holds the
    old pointers followed by the new one, in the old nodes followed by the
    new node, [size] has counted it, and no other block has changed. *)
Theorem linked_enqueue_appends (m : Linked.Mem) (q : Linked.Queue)
    (xs : list nat) (l : Queue) (a p : nat) :
  Linked.holds m q xs l -> m a = None -> Linked.size q < 2 ^ 31 - 1 ->
  exists m' q',
    Linked.enqueue m q (Some a) p = Some (m', q') /\
    Linked.holds m' q' (xs ++ [a]) (enqueue l p) /\
    forall x, x <> a -> x ∉ xs -> m' x = m x.
Proof.
  intros (Hch & Hnd & Htail & Hsize & _) Ha Hroom.
  assert (Hfresh : a ∉ xs).
  { intros Hin. exact (chain_allocated _ _ _ _ _ Hch Hin Ha). }
  assert (Hnd' : NoDup (xs ++ [a])).
  { apply NoDup_app. split; [exact Hnd |]. split.
    - intros x Hx Hxa. apply list_elem_of_singleton in Hxa. congruence.
    - apply NoDup_singleton. }
  assert (Hsz : i32 (Linked.size q + 1) = Z.of_nat (length (xs ++ [a]))).
  { rewrite length_app. cbn. rewrite i32_small; lia. }
  unfold Linked.enqueue, enqueue.
  destruct xs as [|x xs].
  - destruct l as [|? ?]; cbn in Hch; [| contradiction]. rewrite Hch.
    eexists _, _. split; [reflexivity |]. split.
    + split.
      * cbn. split; [reflexivity |]. exists None. split; [| reflexivity].
        unfold Linked.store. rewrite Nat.eqb_refl. reflexivity.
      * split; [exact Hnd' |]. split; [reflexivity |].
        split; [exact Hsz |]. cbn [Linked.size]. rewrite Hsz. cbn. lia.
    + intros y Hy _. unfold Linked.store.
      destruct (Nat.eqb_spec y a); [congruence | reflexivity].
  - assert (Hhead : Linked.head q = Some x).
    { destruct l; cbn in Hch; [contradiction | tauto]. }
    rewrite Hhead.
    destruct (last (x :: xs)) as [t|] eqn:Hlast;
      [| apply last_None in Hlast; discriminate].
    rewrite Htail.
    assert (Hin : t ∈ x :: xs) by exact (last_Some_elem_of _ _ Hlast).
    destruct (m t) as [n|] eqn:Ht;
      [| exfalso; exact (chain_allocated _ _ _ _ _ Hch Hin Ht)].
    assert (Hta : t <> a) by congruence.
    assert (Hst : Linked.store m a (Linked.mkQueueNode p None) t = Some n).
    { unfold Linked.store. destruct (Nat.eqb_spec t a); [congruence | exact Ht]. }
    rewrite Hst.
    eexists _, _. split; [reflexivity |]. split.
    + split.
      * cbn [Linked.head]. rewrite <- Hhead.
        exact (chain_snoc _ _ _ _ _ _ _ _ Hch Hnd Hlast Ht Hfresh).
      * split; [exact Hnd' |]. split; [symmetry; apply last_snoc |].
        split; [exact Hsz |]. cbn [Linked.size]. rewrite Hsz.
        rewrite length_app in *. cbn in *. lia.
    + intros y Hya Hy. unfold Linked.store.
      destruct (Nat.eqb_spec y t) as [-> | _]; [contradiction |].
      destruct (Nat.eqb_spec y a); [congruence | reflexivity].
Qed.

Lemma two_queue_holds : Linked.holds two_nodes two_queue [5; 7]%nat [1; 2]%nat.
Proof.
  split.
  - cbn. split; [reflexivity |]. exists (Some 7%nat). split; [reflexivity |].
    split; [reflexivity |]. exists None. split; reflexivity.
  - split.
    + apply NoDup_cons. split.
      * intros H. apply list_elem_of_singleton in H. discriminate.
      * apply NoDup_singleton.
    + split; [reflexivity |]. split; reflexivity.
Defined.

Lemma linked_enqueue_appends_witness :
  exists m' q',
    Linked.enqueue two_nodes two_queue (Some 9%nat) 3 = Some (m', q') /\
    Linked.holds m' q' ([5; 7] ++ [9])%nat (enqueue [1; 2]%nat 3) /\
    forall x, x <> 9%nat -> x ∉ [5; 7]%nat -> m' x = two_nodes x.
Proof.
  apply (linked_enqueue_appends two_nodes two_queue [5; 7]%nat [1; 2]%nat 9 3).
  - exact two_queue_holds.
  - reflexivity.
  - reflexivity.
Defined.

(** [dequeue] on an empty queue returns [NULL] and changes nothing. On a
    queue that holds pointers it dereferences only the first node, returns
    the first pointer, frees exactly that node and leaves the queue holding
    the other pointers in the other nodes, in their order; [tail] is [NULL]
    again when the last node has gone. In both cases the result is that of
    [dequeue] on the list of the pointers. *)
Theorem linked_dequeue_pops (m : Linked.Mem) (q : Linked.Queue)
    (xs : list nat) (l : Queue) :
  Linked.holds m q xs l ->
  exists m' q',
    Linked.dequeue m q = Some (m', q', fst (dequeue l)) /\
    Linked.holds m' q' (List.tl xs) (snd (dequeue l)) /\
    (xs = [] -> m' = m /\ q' = q) /\
    forall x, m' x = if bool_decide (Some x = List.head xs) then None else m x.
Proof.
  intros (Hch & Hnd & Htail & Hsize & Hint).
  unfold Linked.dequeue, dequeue.
  destruct xs as [|x xs].
  - destruct l as [|? ?]; cbn in Hch; [| contradiction]. rewrite Hch.
    exists m, q. split; [reflexivity |]. split.
    + split; [exact Hch |]. split; [exact Hnd |]. split; [exact Htail |].
      split; [exact Hsize | exact Hint].
    + split; [intros _; split; reflexivity |].
      intros x. rewrite bool_decide_eq_false_2; [reflexivity | discriminate].
  - destruct l as [|p l]; cbn in Hch; [contradiction |].
    destruct Hch as (Hhead & nx & Hx & Hch). rewrite Hhead, Hx.
    apply NoDup_cons in Hnd as [Hx_xs Hnd].
    eexists _, _. split; [reflexivity |]. split.
    + cbn [Linked.head Linked.tail Linked.size Linked.process Linked.next
           List.tl snd].
      assert (Hch' : Linked.chain (Linked.free m x) nx xs l).
      { apply (chain_same m); [| exact Hch].
        intros y Hy. unfold Linked.free.
        destruct (Nat.eqb_spec y x) as [-> | _]; [contradiction | reflexivity]. }
      assert (Hsz : i32 (Linked.size q - 1) = Z.of_nat (length xs)).
      { cbn [length] in Hsize. rewrite i32_small; lia. }
      destruct xs as [|y xs].
      * destruct l as [|? ?]; cbn in Hch; [| contradiction]. subst nx.
        split; [exact Hch' |]. split; [exact Hnd |]. split; [reflexivity |].
        cbn [Linked.size]. rewrite Hsz. split; [reflexivity | cbn; lia].
      * assert (Hnx : nx = Some y).
        { destruct l; cbn in Hch; [contradiction | tauto]. }
        subst nx. cbn [Linked.head Linked.tail Linked.size].
        split; [exact Hch' |]. split; [exact Hnd |].
        split; [rewrite Htail; apply last_cons_cons |].
        rewrite Hsz. split; [reflexivity |].
        cbn [Linked.size length] in *. lia.
    + split; [discriminate |].
      intros y. unfold Linked.free. cbn [List.head].
      destruct (Nat.eqb_spec y x) as [-> | Hne].
      * rewrite bool_decide_eq_true_2; reflexivity.
      * rewrite bool_decide_eq_false_2; [reflexivity | congruence].
Qed.

Lemma linked_dequeue_pops_witness :
  exists m' q',
    Linked.dequeue two_nodes two_queue = Some (m', q', Some 1%nat) /\
    Linked.holds m' q' [7]%nat [2]%nat /\
    ([5; 7]%nat = [] -> m' = two_nodes /\ q' = two_queue) /\
    forall x, m' x = if bool_decide (Some x = Some 5%nat) then None
                     else two_nodes x.
Proof.
  apply (linked_dequeue_pops two_nodes two_queue [5; 7]%nat [1; 2]%nat).
  exact two_queue_holds.
Defined.

(** ** The context-switch lines *)

Lemma switch_lines_cons e log :
  switch_lines (e :: log)
  = switch_lines log ++ match switch_line e with Some l => [l] | None => [] end.
Proof.
  unfold switch_lines. cbn [rev]. rewrite omap_app. cbn.
  destruct (switch_line e); reflexivity.
Qed.

Arguments switch_lines : simpl never.

Lemma in_sequence_snoc from B lines c s e :
  in_sequence from lines -> Forall (fun l => snd l <= B) lines ->
  from <= s -> B <= s -> s <= e ->
  in_sequence from (lines ++ [(c, s, e)]).
Proof.
  revert from. induction lines as [|[[c0 s0] e0] lines IH]; intros from H HB Hf Hs He.
  - cbn. lia.
  - cbn in H. destruct H as (H1 & H2 & H3).
    apply Forall_cons in HB as [Hb HB]. cbn in Hb.
    cbn. split; [exact H1 |]. split; [exact H2 |].
    apply IH; [exact H3 | exact HB | lia | exact Hs | exact He].
Qed.

Lemma slices_quiet B e log :
  switch_line e = None -> slices_upto B log -> slices_upto B (e :: log).
Proof.
  intros He H. unfold slices_upto. rewrite switch_lines_cons, He, app_nil_r.
  exact H.
Qed.

Lemma slices_later B B' log : B <= B' -> slices_upto B log -> slices_upto B' log.
Proof.
  intros HB [H1 H2]. split; [exact H1 |].
  eapply Forall_impl; [exact H2 |]. cbn. intros l Hl. lia.
Qed.

Lemma slices_line B B' ev log c s e :
  switch_line ev = Some (c, s, e) -> slices_upto B log ->
  0 <= s -> B <= s -> s <= e -> e <= B' ->
  slices_upto B' (ev :: log).
Proof.
  intros Hev [H1 H2] H0 Hs He HB. unfold slices_upto.
  rewrite switch_lines_cons, Hev. split.
  - eapply in_sequence_snoc; eauto.
  - apply Forall_app. split.
    + eapply Forall_impl; [exact H2 |]. cbn. intros l Hl. lia.
    + apply Forall_singleton. cbn. exact HB.
Qed.

(** The line of [print_switch]. *)
Lemma slices_print_switch B B' q w :
  slices_upto B (out w) ->
  0 <= context_start_time q -> B <= context_start_time q ->
  context_start_time q <= context_end_time q -> context_end_time q <= B' ->
  slices_upto B' (out (snd (print_switch q w))).
Proof. intros. eapply slices_line; eauto. Qed.

(** Readings of a steady clock, as the records keep them. *)
Lemma slice_bounds os t0 a n1 n2 b :
  steady_clock os -> 0 <= t0 <= os_clock os a ->
  (a <= n1)%nat -> (n1 <= n2)%nat -> (n2 <= b)%nat ->
  0 <= u64 (u64 (os_clock os n1) - t0) /\
  os_clock os a - t0 <= u64 (u64 (os_clock os n1) - t0) /\
  u64 (u64 (os_clock os n1) - t0) <= u64 (u64 (os_clock os n2) - t0) /\
  u64 (u64 (os_clock os n2) - t0) <= os_clock os b - t0.
Proof.
  intros [Hmono Hfit] Ht0 H1 H2 H3.
  pose proof (Hmono a n1 H1) as Hc1. pose proof (Hmono n1 n2 H2) as Hc2.
  pose proof (Hmono n2 b H3) as Hc3.
  pose proof (Hfit n1) as Hf1. pose proof (Hfit n2) as Hf2.
  rewrite (u64_small (os_clock os n1)), (u64_small (os_clock os n2)) by assumption.
  rewrite !u64_small by lia. lia.
Qed.

(** [executeProcess] when the fork succeeds: the record is stamped with a
    clock reading of the call, and nothing is printed as a slice. *)
Lemma executeProcess_stamp p t0 w :
  (forall n, os_fork (env w) n <> None) ->
  let r := executeProcess p t0 w in
  (exists n, (tick w <= n < tick (snd r))%nat /\
     context_start_time (fst r) = u64 (u64 (os_clock (env w) n) - t0)) /\
  started (fst r) = true /\ finished (fst r) = finished p /\
  switch_lines (out (snd r)) = switch_lines (out w).
Proof.
  intros Hfork. unfold executeProcess. run_os.
  specialize (Hfork (tick w)).
  destruct (os_fork (env w) (tick w)) as [c|]; [| congruence]. cbn.
  split; [exists (S (tick w)); split; [lia |]; destruct p; reflexivity |].
  split; [destruct p; reflexivity |]. split; [destruct p; reflexivity |].
  rewrite !switch_lines_cons. cbn. rewrite !app_nil_r. reflexivity.
Qed.

Lemma resumeProcess_stamp p t0 w :
  started p = true -> finished p = false ->
  let r := resumeProcess p t0 w in
  (exists n, (tick w <= n < tick (snd r))%nat /\
     context_start_time (fst r) = u64 (u64 (os_clock (env w) n) - t0)) /\
  started (fst r) = true /\ finished (fst r) = finished p /\
  switch_lines (out (snd r)) = switch_lines (out w).
Proof.
  intros Hs Hf. unfold resumeProcess. rewrite Hs, Hf. cbn [negb orb].
  run_os. destruct (_ <? 0); cbn;
    (split; [exists (S (tick w)); split; [lia |]; destruct p; reflexivity |];
     split; [destruct p; exact Hs |]; split; [destruct p; exact Hf |];
     rewrite !switch_lines_cons; cbn; rewrite ?app_nil_r; reflexivity).
Qed.

Lemma dispatch_call_stamp p t0 w :
  (forall n, os_fork (env w) n <> None) -> terminal p = false ->
  let r := (if negb (started p) then executeProcess p t0
            else resumeProcess p t0) w in
  (exists n, (tick w <= n < tick (snd r))%nat /\
     context_start_time (fst r) = u64 (u64 (os_clock (env w) n) - t0)) /\
  started (fst r) = true /\ finished (fst r) = false /\
  switch_lines (out (snd r)) = switch_lines (out w).
Proof.
  intros Hfork Hnt. apply orb_false_elim in Hnt as [Hf _].
  destruct (started p) eqn:E; cbn.
  - destruct (resumeProcess_stamp p t0 w E Hf) as (H1 & H2 & H3 & H4).
    repeat split; try assumption. congruence.
  - destruct (executeProcess_stamp p t0 w Hfork) as (H1 & H2 & H3 & H4).
    repeat split; try assumption. congruence.
Qed.

(** [pauseProcess] on a record that runs: the end of the slice is a clock
    reading of the call. *)
Lemma pauseProcess_stamp d t0 w :
  started d = true -> finished d = false ->
  let r := pauseProcess d t0 w in
  (exists n, (tick w <= n < tick (snd r))%nat /\
     context_end_time (fst r) = u64 (u64 (os_clock (env w) n) - t0)) /\
  context_start_time (fst r) = context_start_time d /\
  switch_lines (out (snd r)) = switch_lines (out w).
Proof.
  intros Hs Hf. unfold pauseProcess. rewrite Hs, Hf. cbn [negb orb].
  run_os. destruct (_ <? 0); cbn;
    (split; [exists (S (tick w)); split; [lia |]; destruct d; reflexivity |];
     split; [destruct d; reflexivity |];
     rewrite !switch_lines_cons; cbn; rewrite ?app_nil_r; reflexivity).
Qed.

Lemma slices_same B log log' :
  switch_lines log' = switch_lines log -> slices_upto B log -> slices_upto B log'.
Proof. unfold slices_upto. intros ->. exact id. Qed.

Lemma slices_slice B B' ev log c s e :
  switch_line ev = Some (c, s, e) -> slices_upto B log ->
  0 <= s /\ B <= s /\ s <= e /\ e <= B' ->
  slices_upto B' (ev :: log).
Proof. intros Hev H (H0 & H1 & H2 & H3). eapply slices_line; eauto. Qed.

Lemma later_bound os t0 a b :
  steady_clock os -> (a <= b)%nat -> os_clock os a - t0 <= os_clock os b - t0.
Proof. intros [Hmono _] Hab. pose proof (Hmono a b Hab). lia. Qed.

Lemma context_start_finished_FCFS now t0 d :
  context_start_time (finished_FCFS now t0 d) = context_start_time d.
Proof. destruct d. reflexivity. Qed.
Lemma context_end_finished_FCFS now t0 d :
  context_end_time (finished_FCFS now t0 d) = u64 (now - t0).
Proof. destruct d. reflexivity. Qed.
Lemma context_start_finished_SJF now t0 d :
  context_start_time (finished_SJF now t0 d) = context_start_time d.
Proof. destruct d. reflexivity. Qed.
Lemma context_end_finished_SJF now t0 d :
  context_end_time (finished_SJF now t0 d) = u64 (now - t0).
Proof. destruct d. reflexivity. Qed.
Lemma context_start_finished_RR now t0 d :
  context_start_time (finished_RR now t0 d) = context_start_time d.
Proof. destruct d. reflexivity. Qed.
Lemma context_end_finished_RR now t0 d :
  context_end_time (finished_RR now t0 d) = u64 (now - t0).
Proof. destruct d. reflexivity. Qed.
Lemma context_start_error_FCFS now t0 d :
  context_start_time (error_FCFS now t0 d) = context_start_time d.
Proof. destruct d. reflexivity. Qed.
Lemma context_end_error_FCFS now t0 d :
  context_end_time (error_FCFS now t0 d) = u64 (now - t0).
Proof. destruct d. reflexivity. Qed.
Lemma context_start_error_RR now t0 d :
  context_start_time (error_RR now t0 d) = context_start_time d.
Proof. destruct d. reflexivity. Qed.
Lemma context_end_error_RR now t0 d :
  context_end_time (error_RR now t0 d) = u64 (now - t0).
Proof. destruct d. reflexivity. Qed.

Arguments finished_FCFS : simpl never.
Arguments finished_SJF : simpl never.
Arguments finished_RR : simpl never.
Arguments error_FCFS : simpl never.
Arguments error_RR : simpl never.

(** Events that print no slice. *)
Ltac quiet := repeat (apply slices_quiet; [reflexivity |]).

(** Arithmetic on the numbers of the OS calls alone. *)
Ltac ticks :=
  repeat match goal with
         | H : (_ <= _)%nat |- _ => revert H
         | H : (_ < _)%nat |- _ => revert H
         | H : (_ <= _ < _)%nat |- _ => revert H
         end;
  clear; intros; lia.

(** A pass that prints no slice. *)
Ltac no_slice Hos H :=
  quiet; eapply slices_later;
  [| first [exact H | eapply slices_same; [eassumption | exact H]]];
  apply later_bound; [apply Hos | ticks].

Ltac slice_fields :=
  rewrite ?context_start_finished_FCFS, ?context_end_finished_FCFS,
    ?context_start_finished_SJF, ?context_end_finished_SJF,
    ?context_start_finished_RR, ?context_end_finished_RR,
    ?context_start_error_FCFS, ?context_end_error_FCFS,
    ?context_start_error_RR, ?context_end_error_RR.

(** A pass that prints the slice of the record stamped by [Hcs], closed by
    a clock reading of the pass. *)
Ltac one_slice Hos Ht0 H Hq Hcs :=
  quiet; eapply slices_slice;
  [ reflexivity
  | quiet; eapply slices_same; [exact Hq | exact H]
  | slice_fields; rewrite ?Hcs;
    apply slice_bounds; [apply Hos | exact Ht0 | ticks | ticks | ticks] ].

Lemma FCFS_body_slices s w :
  calm (env w) -> FCFS_inv s ->
  0 <= Offline.fc_t0 s <= os_clock (env w) (tick w) ->
  slices_upto (os_clock (env w) (tick w) - Offline.fc_t0 s) (out w) ->
  slices_upto
    (os_clock (env w) (tick (snd (Offline.FCFS_body s w))) - Offline.fc_t0 s)
    (out (snd (Offline.FCFS_body s w))).
Proof.
  intros (Hos & Hfork & Hwait) Hinv Ht0 H. unfold Offline.FCFS_body.
  destruct (Offline.fc_p s !! Offline.fc_i s) as [pi|] eqn:Hi; cbn; [| exact H].
  run_os.
  destruct (executeProcess_at AsFCFS pi (Offline.fc_t0 s) w) as [Hd Henv];
    [right; discriminate |].
  pose proof (dispatch_at_le _ _ _ _ _ _ _ Hd) as Hle. clear Hd.
  destruct (executeProcess_stamp pi (Offline.fc_t0 s) w Hfork)
    as ((n1 & Hn1 & Hcs) & _ & _ & Hq).
  destruct (executeProcess pi (Offline.fc_t0 s) w) as [d w1].
  cbn in Henv, Hle, Hn1, Hcs, Hq. cbn.
  pose proof (Hwait (tick w1)) as Hw. rewrite <- Henv in Hw.
  destruct (os_waitpid _ _) as [result status]. cbn in Hw. cbn.
  destruct (result <? 0) eqn:Er; [exfalso; clear - Hw Er; lia |]. cbn.
  destruct (exited_ok status); cbn; destruct (os_fopen _ _); cbn; rewrite Henv;
    one_slice Hos Ht0 H Hq Hcs.
Qed.

(** The slice closed by [pauseProcess]: the record [q] was stamped by the
    dispatch ([Hcs], through [Hcs2]) and by the pause ([Hce]). *)
Ltac paused_slice Hos Ht0 H Hq Hq2 Hcs Hcs2 Hce :=
  quiet; eapply slices_slice;
  [ reflexivity
  | eapply slices_same; [| exact H];
    rewrite Hq2, !switch_lines_cons; cbn [switch_line app];
    rewrite ?app_nil_r; exact Hq
  | rewrite Hcs2, Hcs, Hce;
    apply slice_bounds; [apply Hos | exact Ht0 | ticks | ticks | ticks] ].

Lemma RR_body_slices s w :
  calm (env w) ->
  0 <= Offline.rr_t0 s <= os_clock (env w) (tick w) ->
  slices_upto (os_clock (env w) (tick w) - Offline.rr_t0 s) (out w) ->
  slices_upto
    (os_clock (env w) (tick (snd (Offline.RR_body s w))) - Offline.rr_t0 s)
    (out (snd (Offline.RR_body s w))).
Proof.
  intros (Hos & Hfork & Hwait) Ht0 H. unfold Offline.RR_body.
  destruct (Offline.rr_remaining_processes s <=? 0); cbn; [exact H |].
  destruct (Offline.rr_p s !! Offline.rr_i s) as [pi|] eqn:Hi; cbn; [| exact H].
  destruct (finished pi || error pi) eqn:Hnt; cbn; [exact H |].
  run_os.
  destruct (dispatch_call_at pi (Offline.rr_t0 s) w Hnt) as [Hd Henv].
  pose proof (dispatch_at_le _ _ _ _ _ _ _ Hd) as Hle. clear Hd.
  destruct (dispatch_call_stamp pi (Offline.rr_t0 s) w Hfork Hnt)
    as ((n1 & Hn1 & Hcs) & Hst & Hfin & Hq).
  destruct ((if negb (started pi) then executeProcess pi (Offline.rr_t0 s)
             else resumeProcess pi (Offline.rr_t0 s)) w) as [d w1].
  cbn in Henv, Hle, Hn1, Hcs, Hst, Hfin, Hq. cbn.
  pose proof (Hwait (tick w1)) as Hw. rewrite <- Henv in Hw.
  destruct (os_waitpid _ _) as [result status]. cbn in Hw. cbn.
  destruct (result <? 0) eqn:Er; [exfalso; clear - Hw Er; lia |]. cbn.
  destruct (result =? 0); cbn.
  - match goal with
    | |- context [pauseProcess d ?t ?w'] =>
        destruct (pauseProcess_stamp d t w' Hst Hfin)
          as ((n2 & Hn2 & Hce) & Hcs2 & Hq2);
        destruct (pauseProcess d t w') as [q w2]
    end.
    cbn in Hn2, Hce, Hcs2, Hq2. rewrite Henv in Hce. cbn.
    paused_slice Hos Ht0 H Hq Hq2 Hcs Hcs2 Hce.
  - destruct (exited_ok status); cbn; destruct (os_fopen _ _); cbn; rewrite Henv;
      one_slice Hos Ht0 H Hq Hcs.
Qed.

Lemma MLFQ_offline_body_slices s w :
  calm (env w) ->
  0 <= Offline.mq_t0 s <= os_clock (env w) (tick w) ->
  slices_upto (os_clock (env w) (tick w) - Offline.mq_t0 s) (out w) ->
  slices_upto
    (os_clock (env w) (tick (snd (Offline.MLFQ_body s w))) - Offline.mq_t0 s)
    (out (snd (Offline.MLFQ_body s w))).
Proof.
  intros (Hos & Hfork & Hwait) Ht0 H. unfold Offline.MLFQ_body.
  destruct (Offline.mq_remaining_processes s <=? 0); cbn; [exact H |].
  destruct (dequeue _) as [[p|] q0]; cbn; [| exact H].
  destruct (Offline.mq_p s !! p) as [pr|] eqn:Hi; cbn; [| exact H].
  destruct (finished pr || error pr) eqn:Hnt; cbn; [exact H |].
  run_os.
  destruct (dispatch_call_at pr (Offline.mq_t0 s) w Hnt) as [Hd Henv].
  pose proof (dispatch_at_le _ _ _ _ _ _ _ Hd) as Hle. clear Hd.
  destruct (dispatch_call_stamp pr (Offline.mq_t0 s) w Hfork Hnt)
    as ((n1 & Hn1 & Hcs) & Hst & Hfin & Hq).
  destruct ((if negb (started pr) then executeProcess pr (Offline.mq_t0 s)
             else resumeProcess pr (Offline.mq_t0 s)) w) as [d w1].
  cbn in Henv, Hle, Hn1, Hcs, Hst, Hfin, Hq. cbn.
  pose proof (Hwait (tick w1)) as Hw. rewrite <- Henv in Hw.
  destruct (os_waitpid _ _) as [result status]. cbn in Hw. cbn.
  destruct (result <? 0) eqn:Er; [exfalso; clear - Hw Er; lia |]. cbn.
  destruct (result =? 0); cbn.
  - match goal with
    | |- context [pauseProcess d ?t ?w'] =>
        destruct (pauseProcess_stamp d t w' Hst Hfin)
          as ((n2 & Hn2 & Hce) & Hcs2 & Hq2);
        pose proof (proj2 (pauseProcess_at d t w')) as Henv2;
        destruct (pauseProcess d t w') as [q w2]
    end.
    cbn in Hn2, Hce, Hcs2, Hq2, Henv2. rewrite Henv in Hce, Henv2.
    split_ifs; rewrite ?Henv2; paused_slice Hos Ht0 H Hq Hq2 Hcs Hcs2 Hce.
  - destruct (exited_ok status); cbn; destruct (os_fopen _ _); cbn; rewrite Henv;
      split_ifs; one_slice Hos Ht0 H Hq Hcs.
Qed.

Lemma new_process_quiet buffer t0 w :
  switch_lines (out (snd (Online.new_process buffer t0 w))) = switch_lines (out w).
Proof.
  unfold Online.new_process, Online.malloc_Process, Online.malloc. run_os.
  destruct (os_malloc (env w) (tick w)); cbn;
    [| rewrite !switch_lines_cons; cbn; rewrite !app_nil_r; reflexivity].
  destruct (os_malloc (env w) (S (tick w))); cbn;
    rewrite !switch_lines_cons; cbn; rewrite !app_nil_r; reflexivity.
Qed.

Lemma SJF_body_slices s w :
  calm (env w) ->
  0 <= Online.sj_t0 s <= os_clock (env w) (tick w) ->
  slices_upto (os_clock (env w) (tick w) - Online.sj_t0 s) (out w) ->
  slices_upto
    (os_clock (env w) (tick (snd (Online.SJF_body s w))) - Online.sj_t0 s)
    (out (snd (Online.SJF_body s w))).
Proof.
  intros (Hos & Hfork & Hwait) Ht0 H. unfold Online.SJF_body.
  destruct (Online.sj_phase s).
  - unfold Online.readInput. run_os.
    destruct (os_stdin (env w) (tick w)) as [| | buffer]; cbn;
      try (no_slice Hos H).
    unfold Online.SJF_ingest. run_os.
    match goal with
    | |- context [Online.new_process buffer ?t ?w'] =>
        destruct (new_process_at buffer t w') as (Henv & Hle & _);
        pose proof (new_process_quiet buffer t w') as Hq;
        destruct (Online.new_process buffer t w') as [[p|] w1]
    end; cbn in Henv, Hle, Hq |- *.
    + rewrite !switch_lines_cons in Hq. cbn in Hq. rewrite ?app_nil_r in Hq.
      unfold Online.malloc. run_os. split_ifs; no_slice Hos H.
    + rewrite !switch_lines_cons in Hq. cbn in Hq. rewrite ?app_nil_r in Hq.
      no_slice Hos H.
  - unfold Online.SJF_schedule.
    destruct (Online.sj_remainingProcesses s =? 0); cbn; [no_slice Hos H |].
    pose proof (SJF_select_spec (Online.sj_hashTable s) (Online.sj_processList s)) as Hsel.
    destruct (fst (Online.SJF_select _ _)) as [i|]; cbn; [| no_slice Hos H].
    destruct Hsel as (p & Hp & Hnt & _). rewrite Hp. run_os.
    destruct (executeProcess_at AsSJF p (Online.sj_t0 s) w) as [Hd Henv];
      [right; discriminate |].
    pose proof (dispatch_at_le _ _ _ _ _ _ _ Hd) as Hle. clear Hd.
    destruct (executeProcess_stamp p (Online.sj_t0 s) w Hfork)
      as ((n1 & Hn1 & Hcs) & _ & _ & Hq).
    destruct (executeProcess p (Online.sj_t0 s) w) as [d w1].
    cbn in Henv, Hle, Hn1, Hcs, Hq. cbn.
    pose proof (Hwait (tick w1)) as Hw. rewrite <- Henv in Hw.
    destruct (os_waitpid _ _) as [result status]. cbn in Hw. cbn.
    destruct (result <? 0) eqn:Er; [exfalso; clear - Hw Er; lia |]. cbn.
    destruct (exited_ok status); cbn; destruct (os_fopen _ _); cbn; rewrite Henv;
      one_slice Hos Ht0 H Hq Hcs.
Qed.

Lemma MLFQ_turn_slices s w :
  calm (env w) ->
  queues_ok (Online.om_heap s) (Online.om_MLFQ s) ->
  0 <= Online.om_t0 s <= os_clock (env w) (tick w) ->
  slices_upto (os_clock (env w) (tick w) - Online.om_t0 s) (out w) ->
  (tick w <= tick (snd (Online.MLFQ_turn s w)))%nat /\
  slices_upto
    (os_clock (env w) (tick (snd (Online.MLFQ_turn s w))) - Online.om_t0 s)
    (out (snd (Online.MLFQ_turn s w))).
Proof.
  intros (Hos & Hfork & Hwait) Hok Ht0 H. unfold Online.MLFQ_turn.
  destruct (find _ _) as [i|]; [| split; [cbn; lia | exact H]].
  destruct (dequeue _) as [[x|] q0] eqn:Hdq; [| split; [cbn; lia | exact H]].
  pose proof (queued_dequeue _ _ _ _ Hdq) as Hperm.
  destruct Hok as [_ Hval].
  destruct (Hval x) as (pr & Hpr & Hnt).
  { rewrite Hperm. apply elem_of_cons. left. reflexivity. }
  rewrite Hpr. run_os.
  destruct (dispatch_call_at pr (Online.om_t0 s) w Hnt) as [Hd Henv].
  pose proof (dispatch_at_le _ _ _ _ _ _ _ Hd) as Hle. clear Hd.
  destruct (dispatch_call_stamp pr (Online.om_t0 s) w Hfork Hnt)
    as ((n1 & Hn1 & Hcs) & Hst & Hfin & Hq).
  destruct ((if negb (started pr) then executeProcess pr (Online.om_t0 s)
             else resumeProcess pr (Online.om_t0 s)) w) as [d w1].
  cbn in Henv, Hle, Hn1, Hcs, Hst, Hfin, Hq. cbn.
  pose proof (Hwait (tick w1)) as Hw. rewrite <- Henv in Hw.
  destruct (os_waitpid _ _) as [result status]. cbn in Hw. cbn.
  destruct (result <? 0) eqn:Er; [exfalso; clear - Hw Er; lia |]. cbn.
  destruct (result =? 0); cbn.
  - match goal with
    | |- context [pauseProcess d ?t ?w'] =>
        destruct (pauseProcess_stamp d t w' Hst Hfin)
          as ((n2 & Hn2 & Hce) & Hcs2 & Hq2);
        destruct (pauseProcess d t w') as [q w2]
    end.
    cbn in Hn2, Hce, Hcs2, Hq2. rewrite Henv in Hce. cbn.
    split; [ticks |]. paused_slice Hos Ht0 H Hq Hq2 Hcs Hcs2 Hce.
  - destruct (exited_ok status); cbn; destruct (os_fopen _ _); cbn; rewrite Henv;
      (split; [ticks |]); one_slice Hos Ht0 H Hq Hcs.
Qed.

Lemma MLFQ_online_body_slices s w :
  calm (env w) -> MLFQ_online_inv s ->
  0 <= Online.om_t0 s <= os_clock (env w) (tick w) ->
  slices_upto (os_clock (env w) (tick w) - Online.om_t0 s) (out w) ->
  slices_upto
    (os_clock (env w) (tick (snd (Online.MLFQ_body s w))) - Online.om_t0 s)
    (out (snd (Online.MLFQ_body s w))).
Proof.
  intros Hcalm Hok Ht0 H. pose proof Hcalm as (Hos & Hfork & Hwait).
  unfold Online.MLFQ_body, MLFQ_online_inv in *.
  destruct (Online.om_phase s).
  - unfold Online.readInput. run_os.
    destruct (os_stdin (env w) (tick w)) as [| | buffer]; cbn;
      try (no_slice Hos H).
    unfold Online.MLFQ_ingest. run_os.
    match goal with
    | |- context [Online.new_process buffer ?t ?w'] =>
        destruct (new_process_at buffer t w') as (Henv & Hle & _);
        pose proof (new_process_quiet buffer t w') as Hq;
        destruct (Online.new_process buffer t w') as [[p|] w1]
    end; cbn in Henv, Hle, Hq |- *;
      rewrite !switch_lines_cons in Hq; cbn in Hq; rewrite ?app_nil_r in Hq;
      no_slice Hos H.
  - unfold Online.MLFQ_schedule.
    destruct (Online.om_remainingProcesses s =? 0); cbn; [no_slice Hos H |].
    run_os. destruct (MLFQ_turn_slices s w Hcalm Hok Ht0 H) as [Hle Hturn].
    pose proof (proj2 (MLFQ_turn_at s w Hok)) as Henv.
    destruct (Online.MLFQ_turn s w) as [[[[heap' h'] M'] rem'] w1].
    cbn in Hle, Hturn, Henv. cbn. rewrite Henv.
    destruct (_ >=? _); cbn; quiet;
      (eapply slices_later; [| exact Hturn]; apply later_bound; [apply Hos | ticks]).
Qed.

(** A scheduler that reads [t0] from the clock before its first pass, and
    whose passes keep the slices in sequence. *)
Section Sliced.

Context {S : Type} (pol : policy) (init : M (ctl S)) (body : S -> M (ctl S))
  (table : S -> list Process) (t0 : S -> Z) (Inv : S -> Prop).

Hypothesis init_at : forall w,
  Inv (state_of (fst (init w))) /\ env (snd (init w)) = env w /\
  exists n, (n <= tick (snd (init w)))%nat /\
    t0 (state_of (fst (init w))) = u64 (os_clock (env w) n).
Hypothesis init_quiet : forall w,
  switch_lines (out (snd (init w))) = switch_lines (out w).
Hypothesis body_at : forall s w, Inv s ->
  (exists u, pass_at (env w) (t0 s) pol (tick w) (tick (snd (body s w)))
               (table s) (table (state_of (fst (body s w)))) u) /\
  Inv (state_of (fst (body s w))) /\
  t0 (state_of (fst (body s w))) = t0 s /\
  env (snd (body s w)) = env w.
Hypothesis body_slices : forall s w,
  calm (env w) -> Inv s -> 0 <= t0 s <= os_clock (env w) (tick w) ->
  slices_upto (os_clock (env w) (tick w) - t0 s) (out w) ->
  slices_upto (os_clock (env w) (tick (snd (body s w))) - t0 s)
    (out (snd (body s w))).

Lemma sliced_always k w :
  calm (env w) -> switch_lines (out w) = [] ->
  in_sequence 0 (switch_lines (out (snd (run init body k w)))).
Proof.
  intros Hcalm Hnone. pose proof Hcalm as (Hos & _).
  pose (J := fun s w' =>
    Inv s /\ env w' = env w /\ 0 <= t0 s <= os_clock (env w) (tick w') /\
    slices_upto (os_clock (env w) (tick w') - t0 s) (out w')).
  assert (HJ : J (state_of (fst (run init body k w))) (snd (run init body k w))).
  { apply (run_keeps_at init body (fun w' => w' = w) J); [| | reflexivity].
    - intros w' ->. destruct (init_at w) as (Hi & He & n & Hn & Ht).
      split; [exact Hi |]. split; [exact He |]. split.
      + rewrite Ht, u64_small by apply Hos.
        split; [apply Hos | apply Hos, Hn].
      + unfold slices_upto. rewrite init_quiet, Hnone.
        split; [exact I | constructor].
    - intros s w' (Hi & He & Ht & Hsl).
      destruct (body_at s w' Hi) as ((u & Hu) & Hi' & Ht' & He').
      rewrite He in Hu. apply pass_at_le in Hu.
      assert (Hle : os_clock (env w) (tick w')
                    <= os_clock (env w) (tick (snd (body s w')))).
      { apply Hos, Hu. }
      split; [exact Hi' |]. split; [congruence |]. rewrite Ht'.
      split; [lia |].
      rewrite <- He. apply body_slices; rewrite ?He; assumption. }
  apply HJ.
Qed.

End Sliced.

Lemma FCFS_init_quiet p w :
  switch_lines (out (snd (Offline.FCFS_init p w))) = switch_lines (out w).
Proof.
  unfold Offline.FCFS_init. run_os. cbn. destruct (os_fopen _ _); cbn;
    rewrite !switch_lines_cons; cbn; rewrite !app_nil_r; reflexivity.
Qed.

Lemma RR_init_quiet p quantum w :
  switch_lines (out (snd (Offline.RR_init p quantum w))) = switch_lines (out w).
Proof.
  unfold Offline.RR_init. run_os. cbn. destruct (os_fopen _ _); cbn;
    rewrite !switch_lines_cons; cbn; rewrite !app_nil_r; reflexivity.
Qed.

Lemma MLFQ_init_quiet p q0 q1 q2 bt w :
  switch_lines (out (snd (Offline.MLFQ_init p q0 q1 q2 bt w)))
  = switch_lines (out w).
Proof.
  unfold Offline.MLFQ_init. run_os. cbn. destruct (os_fopen _ _); cbn;
    rewrite !switch_lines_cons; cbn; rewrite !app_nil_r; reflexivity.
Qed.

Lemma SJF_init_quiet w :
  switch_lines (out (snd (Online.SJF_init w))) = switch_lines (out w).
Proof.
  unfold Online.SJF_init, Online.malloc. run_os. cbn.
  destruct (os_fopen _ _); cbn; destruct (os_malloc _ _); cbn;
    rewrite !switch_lines_cons; cbn; rewrite !app_nil_r; reflexivity.
Qed.

Lemma OnlineMLFQ_init_quiet q0 q1 q2 bt w :
  switch_lines (out (snd (Online.MLFQ_init q0 q1 q2 bt w)))
  = switch_lines (out w).
Proof.
  unfold Online.MLFQ_init. run_os. cbn. destruct (os_fopen _ _); cbn;
    rewrite !switch_lines_cons; cbn; rewrite !app_nil_r; reflexivity.
Qed.

(** When the clock is steady and no [fork] and no [waitpid] fails, the
    context-switch [printf] calls that the scheduler process makes, taken
    in the order of the calls, pass slices in sequence: every call has
    [0 <= start <= end], and none has a start before the end passed by the
    call before it. This is a statement about the calls of the scheduler
    process; what reaches [stdout] also depends on its buffering and on
    the children (see [switch_lines]). *)
Theorem switch_lines_in_sequence (c : config) (k : nat) (w : World) :
  calm (env w) -> switch_lines (out w) = [] ->
  in_sequence 0 (switch_lines (log_after c k w)).
Proof.
  destruct c as [p | p quantum | p q0 q1 q2 bt | | q0 q1 q2 bt]; cbn.
  - apply (sliced_always PolFCFS (Offline.FCFS_init p) Offline.FCFS_body Offline.fc_p Offline.fc_t0 FCFS_inv
             (FCFS_clocked_init p) (FCFS_init_quiet p) FCFS_clocked).
    intros s w' Hc Hi. apply FCFS_body_slices; assumption.
  - apply (sliced_always PolRR (Offline.RR_init p quantum) Offline.RR_body Offline.rr_p Offline.rr_t0 (fun _ => True)
             (RR_clocked_init p quantum) (RR_init_quiet p quantum) RR_clocked).
    intros s w' Hc _. apply RR_body_slices; assumption.
  - apply (sliced_always PolMLFQ (Offline.MLFQ_init p q0 q1 q2 bt) Offline.MLFQ_body Offline.mq_p Offline.mq_t0 (fun _ => True)
             (MLFQ_clocked_init p q0 q1 q2 bt) (MLFQ_init_quiet p q0 q1 q2 bt)
             MLFQ_clocked).
    intros s w' Hc _. apply MLFQ_offline_body_slices; assumption.
  - apply (sliced_always PolSJF Online.SJF_init Online.SJF_body Online.sj_processList Online.sj_t0
             (fun _ => True) SJF_clocked_init SJF_init_quiet SJF_clocked).
    intros s w' Hc _. apply SJF_body_slices; assumption.
  - apply (sliced_always PolOnlineMLFQ (Online.MLFQ_init q0 q1 q2 bt) Online.MLFQ_body Online.om_heap Online.om_t0
             MLFQ_online_inv (OnlineMLFQ_clocked_init q0 q1 q2 bt)
             (OnlineMLFQ_init_quiet q0 q1 q2 bt) OnlineMLFQ_clocked).
    intros s w' Hc Hi. apply MLFQ_online_body_slices; assumption.
Qed.

Lemma ticking_os_calm : calm ticking_os.
Proof.
  split; [split |].
  - intros n m Hnm. cbn. lia.
  - intros n. cbn. lia.
  - split; [intros n; discriminate |].
    intros n. unfold ticking_os. cbn [os_waitpid].
    destruct (_ =? _)%nat; cbn; lia.
Defined.

Lemma switch_lines_in_sequence_witness :
  in_sequence 0
    (switch_lines
       (log_after (CfgRR [idle_record "a"; idle_record "b"] 5) 8
          (boot ticking_os))).
Proof.
  apply (switch_lines_in_sequence (CfgRR [idle_record "a"; idle_record "b"] 5) 8
           (boot ticking_os)).
  - exact ticking_os_calm.
  - reflexivity.
Defined.

(** The slices of the run of the witness. *)
Example ticking_run_slices :
  switch_lines
    (log_after (CfgRR [idle_record "a"; idle_record "b"] 5) 8 (boot ticking_os))
  = [("a"%string, 20, 40); ("b"%string, 70, 100); ("b"%string, 120, 150);
     ("b"%string, 170, 200); ("b"%string, 220, 240)].
Proof. vm_compute. reflexivity. Qed.

(** ** The order of arrival *)

Lemma ascending_snoc from B l x :
  ascending from l -> Forall (fun y => y <= B) l -> from <= x -> B <= x ->
  ascending from (l ++ [x]).
Proof.
  revert from. induction l as [|y l IH]; intros from H HB Hf Hx.
  - cbn. split; [exact Hf | exact I].
  - destruct H as [H1 H2]. apply Forall_cons in HB as [Hy HB].
    cbn. split; [exact H1 |]. apply IH; [exact H2 | exact HB | lia | exact Hx].
Qed.

Lemma pass_arrivals os t0 pol a b t t' u :
  steady_clock os -> 0 <= t0 <= os_clock os a ->
  pass_at os t0 pol a b t t' u ->
  ascending 0 (map arrival_time t) /\
    Forall (fun y => y <= os_clock os a - t0) (map arrival_time t) ->
  ascending 0 (map arrival_time t') /\
    Forall (fun y => y <= os_clock os b - t0) (map arrival_time t').
Proof.
  intros Hos Ht0 Hpass [Hasc Hbound].
  pose proof (pass_at_le _ _ _ _ _ _ _ _ Hpass) as Hab.
  assert (Hlater : os_clock os a - t0 <= os_clock os b - t0).
  { destruct Hos as [Hmono _]. pose proof (Hmono a b Hab). lia. }
  destruct Hpass as [Hle | p n Hon Hp Hn Ha | i p d q flag m Hi Hnt Hd Hs].
  - split; [exact Hasc |].
    eapply Forall_impl; [exact Hbound |]. cbn. intros y Hy. lia.
  - assert (Hat : os_clock os a - t0 <= arrival_time p <= os_clock os b - t0).
    { rewrite Ha. destruct Hos as [Hmono Hfit].
      assert (Han : (a <= n)%nat) by lia. assert (Hnb : (n <= b)%nat) by lia.
      pose proof (Hmono a n Han) as H1. pose proof (Hmono n b Hnb) as H2.
      pose proof (Hfit n) as H3.
      rewrite (u64_small (os_clock os n)) by exact H3.
      rewrite u64_small by lia. lia. }
    rewrite map_app. cbn [map]. split.
    + eapply ascending_snoc; [exact Hasc | exact Hbound | lia | lia].
    + apply Forall_app. split.
      * eapply Forall_impl; [exact Hbound |]. cbn. intros y Hy. lia.
      * apply Forall_singleton. lia.
  - destruct (dispatch_keeps _ _ _ _ _ _ _ Hd) as (_ & Hda & _).
    destruct (settle_keeps _ _ _ _ _ _ _ _ Hs) as (_ & Hqa & _).
    assert (Hsame : map arrival_time (<[i := q]> t) = map arrival_time t).
    { rewrite list_fmap_insert. apply list_insert_id.
      rewrite list_lookup_fmap, Hi. cbn. congruence. }
    rewrite Hsame. split; [exact Hasc |].
    eapply Forall_impl; [exact Hbound |]. cbn. intros y Hy. lia.
Qed.

(** Under a steady clock the process table of every scheduler is in order
    of arrival: the arrival times of its records, read in table order,
    never decrease and none is negative. The online schedulers append each
    command they read with the time of reading, and no pass moves a record
    or changes its arrival time. *)
Theorem tables_in_arrival_order (c : config) (k : nat) (w : World) :
  steady_clock (env w) ->
  ascending 0 (map arrival_time (table_after c k w)).
Proof.
  intros Hos.
  destruct (tables_clocked
              (fun _ B t => ascending 0 (map arrival_time t) /\
                            Forall (fun y => y <= B) (map arrival_time t)))
    with (c := c) (k := k) (w := w) as (B & H & _).
  - intros pol os t0 a b t t' u. apply pass_arrivals.
  - intros c' B HB.
    assert (Hz : Forall (fun y => y = 0) (map arrival_time (table_at_start c'))).
    { apply Forall_fmap. eapply Forall_impl; [apply table_at_start_idle |].
      intros q ->. reflexivity. }
    split.
    + induction Hz as [|y l Hy _ IH]; [exact I |].
      subst y. cbn. split; [lia |]. exact IH.
    + eapply Forall_impl; [exact Hz |]. cbn. intros y ->. exact HB.
  - exact Hos.
  - exact H.
Qed.

Lemma repeat_job_steady : steady_clock repeat_job_os.
Proof.
  split.
  - intros n m Hnm. unfold repeat_job_os. cbn [os_clock].
    destruct (Nat.ltb_spec n 10), (Nat.ltb_spec m 10); lia.
  - intros n. unfold repeat_job_os. cbn [os_clock].
    destruct (n <? 10)%nat; lia.
Defined.

Lemma tables_in_arrival_order_witness :
  ascending 0 (map arrival_time (table_after CfgSJF 16 (boot repeat_job_os))).
Proof.
  apply (tables_in_arrival_order CfgSJF 16 (boot repeat_job_os)).
  exact repeat_job_steady.
Defined.

(** The arrival times of the run of the witness. *)
Example repeat_job_arrivals :
  map arrival_time (table_after CfgSJF 16 (boot repeat_job_os)) = [0; 1000000000].
Proof. vm_compute. reflexivity. Qed.

(** ** The selection of [ShortestJobFirst] *)

(** The selection loop of [ShortestJobFirst] returns the index of a record
    that is not terminal and whose estimate is below 10^9 and the least
    among the records that are not terminal; of several such records it
    returns the first. It returns nothing ([minIndex == -1]) exactly when
    no record that is not terminal has an estimate below 10^9. *)
Theorem SJF_selects_shortest (h : arr3 Online.Cell) (l : list Process) :
  match fst (Online.SJF_select h l) with
  | Some i =>
      exists p, l !! i = Some p /\ terminal p = false /\
        Online.getExpectedBurstTime h p < 1000000000 /\
        forall j q, l !! j = Some q -> terminal q = false ->
          Online.getExpectedBurstTime h p <= Online.getExpectedBurstTime h q /\
          (Online.getExpectedBurstTime h q = Online.getExpectedBurstTime h p ->
           (i <= j)%nat)
  | None =>
      forall j q, l !! j = Some q -> terminal q = false ->
        1000000000 <= Online.getExpectedBurstTime h q
  end.
Proof. exact (SJF_select_spec h l). Qed.

(** ** Signals *)

Lemma signals_event e log :
  match e with EvKill pid _ _ => 0 < pid | _ => True end ->
  signals_children log -> signals_children (e :: log).
Proof. intros He H. apply Forall_cons. split; assumption. Qed.

Arguments signals_children : simpl never.

(** Events that are no signal, calls whose signals are known. *)
Ltac signals :=
  repeat first
    [ assumption
    | apply signals_event; [exact I |]
    | match goal with
      | H : signals_children _ -> signals_children ?l |- signals_children ?l =>
          apply H
      end ].

Lemma executeProcess_signals p t0 w :
  signals_children (out w) ->
  signals_children (out (snd (executeProcess p t0 w))).
Proof.
  intros H. unfold executeProcess. run_os.
  destruct (os_fork (env w) (tick w)); cbn; signals.
Qed.

Lemma resumeProcess_signals p t0 w :
  holds_child p -> signals_children (out w) ->
  signals_children (out (snd (resumeProcess p t0 w))).
Proof.
  intros Hp H. unfold resumeProcess.
  destruct (started p) eqn:Hs; cbn [negb orb]; [| exact H].
  destruct (finished p); [exact H |].
  specialize (Hp Hs). run_os. destruct (_ <? 0); cbn; signals;
    (apply signals_event; [exact Hp | exact H]).
Qed.

Lemma pauseProcess_signals p t0 w :
  holds_child p -> signals_children (out w) ->
  signals_children (out (snd (pauseProcess p t0 w))).
Proof.
  intros Hp H. unfold pauseProcess.
  destruct (started p) eqn:Hs; cbn [negb orb]; [| exact H].
  destruct (finished p); [exact H |].
  specialize (Hp Hs). run_os. destruct (_ <? 0); cbn; signals;
    (apply signals_event; [exact Hp | exact H]).
Qed.

Lemma dispatch_call_signals p t0 w :
  holds_child p -> signals_children (out w) ->
  signals_children
    (out (snd ((if negb (started p) then executeProcess p t0
                else resumeProcess p t0) w))).
Proof.
  intros Hp H. destruct (started p); cbn.
  - apply resumeProcess_signals; assumption.
  - apply executeProcess_signals, H.
Qed.

Lemma dispatch_holds_child os t0 st a b p d :
  dispatch_at os t0 st a b p d -> holds_child p -> holds_child d.
Proof.
  intros [Hle Hst | c n Hn Hst | n Hn Hst] Hp.
  - exact Hp.
  - intros _. destruct p. cbn. lia.
  - destruct p. exact Hp.
Qed.

Lemma pass_holds_child os t0 pol a b t t' u :
  pass_at os t0 pol a b t t' u ->
  Forall holds_child t -> Forall holds_child t'.
Proof.
  intros [Hle | p n Hon Hp Hn Ha | i p d q flag m Hi Hnt Hd Hs] Ht.
  - exact Ht.
  - apply Forall_app. split; [exact Ht |]. apply Forall_singleton.
    intros Hs. destruct Hp as (_ & _ & Hns & _). congruence.
  - apply Forall_insert; [exact Ht |].
    pose proof (Forall_lookup_1 _ _ _ _ Ht Hi) as Hp.
    pose proof (dispatch_holds_child _ _ _ _ _ _ _ Hd Hp) as Hdc.
    destruct (settle_keeps _ _ _ _ _ _ _ _ Hs) as (_ & _ & Hst & _ & Hpid).
    unfold holds_child. rewrite Hst, Hpid. exact Hdc.
Qed.

Lemma FCFS_body_signals s w :
  signals_children (out w) ->
  signals_children (out (snd (Offline.FCFS_body s w))).
Proof.
  intros H. unfold Offline.FCFS_body.
  destruct (Offline.fc_p s !! Offline.fc_i s) as [pi|]; cbn; [| exact H].
  run_os.
  pose proof (executeProcess_signals pi (Offline.fc_t0 s) w H) as Hq.
  destruct (executeProcess pi (Offline.fc_t0 s) w) as [d w1].
  cbn in Hq. cbn. destruct (os_waitpid _ _) as [result status]. cbn.
  destruct (result <? 0); cbn; [signals |].
  destruct (exited_ok status); cbn; destruct (os_fopen _ _); cbn; signals.
Qed.

Lemma RR_body_signals s w :
  Forall holds_child (Offline.rr_p s) -> signals_children (out w) ->
  signals_children (out (snd (Offline.RR_body s w))).
Proof.
  intros Ht H. unfold Offline.RR_body.
  destruct (Offline.rr_remaining_processes s <=? 0); cbn; [exact H |].
  destruct (Offline.rr_p s !! Offline.rr_i s) as [pi|] eqn:Hi; cbn; [| exact H].
  destruct (finished pi || error pi) eqn:Hnt; cbn; [exact H |].
  run_os.
  pose proof (Forall_lookup_1 _ _ _ _ Ht Hi) as Hp.
  destruct (dispatch_call_at pi (Offline.rr_t0 s) w Hnt) as [Hd _].
  pose proof (dispatch_call_signals pi (Offline.rr_t0 s) w Hp H) as Hq.
  destruct ((if negb (started pi) then executeProcess pi (Offline.rr_t0 s)
             else resumeProcess pi (Offline.rr_t0 s)) w) as [d w1].
  cbn in Hd, Hq. apply dispatch_holds_child in Hd; [| exact Hp].
  cbn. destruct (os_waitpid _ _) as [result status]. cbn.
  destruct (result <? 0); cbn; [signals |].
  destruct (result =? 0); cbn.
  - match goal with
    | |- context [pauseProcess d ?t ?w'] =>
        pose proof (pauseProcess_signals d t w' Hd) as Hq2;
        destruct (pauseProcess d t w') as [q w2]
    end.
    cbn in Hq2. cbn. signals.
  - destruct (exited_ok status); cbn; destruct (os_fopen _ _); cbn; signals.
Qed.

Lemma MLFQ_offline_body_signals s w :
  Forall holds_child (Offline.mq_p s) -> signals_children (out w) ->
  signals_children (out (snd (Offline.MLFQ_body s w))).
Proof.
  intros Ht H. unfold Offline.MLFQ_body.
  destruct (Offline.mq_remaining_processes s <=? 0); cbn; [exact H |].
  destruct (dequeue _) as [[p|] q0]; cbn; [| exact H].
  destruct (Offline.mq_p s !! p) as [pr|] eqn:Hi; cbn; [| exact H].
  destruct (finished pr || error pr) eqn:Hnt; cbn; [exact H |].
  run_os.
  pose proof (Forall_lookup_1 _ _ _ _ Ht Hi) as Hp.
  destruct (dispatch_call_at pr (Offline.mq_t0 s) w Hnt) as [Hd _].
  pose proof (dispatch_call_signals pr (Offline.mq_t0 s) w Hp H) as Hq.
  destruct ((if negb (started pr) then executeProcess pr (Offline.mq_t0 s)
             else resumeProcess pr (Offline.mq_t0 s)) w) as [d w1].
  cbn in Hd, Hq. apply dispatch_holds_child in Hd; [| exact Hp].
  cbn. destruct (os_waitpid _ _) as [result status]. cbn.
  destruct (result <? 0); cbn; [signals |].
  destruct (result =? 0); cbn.
  - match goal with
    | |- context [pauseProcess d ?t ?w'] =>
        pose proof (pauseProcess_signals d t w' Hd) as Hq2;
        destruct (pauseProcess d t w') as [q w2]
    end.
    cbn in Hq2. split_ifs; signals.
  - destruct (exited_ok status); cbn; destruct (os_fopen _ _); cbn;
      split_ifs; signals.
Qed.

Lemma new_process_signals buffer t0 w :
  signals_children (out w) ->
  signals_children (out (snd (Online.new_process buffer t0 w))).
Proof.
  intros H. unfold Online.new_process, Online.malloc_Process, Online.malloc.
  run_os. destruct (os_malloc (env w) (tick w)); cbn; [| signals].
  destruct (os_malloc (env w) (S (tick w))); cbn; signals.
Qed.

Lemma SJF_body_signals s w :
  signals_children (out w) ->
  signals_children (out (snd (Online.SJF_body s w))).
Proof.
  intros H. unfold Online.SJF_body.
  destruct (Online.sj_phase s).
  - unfold Online.readInput. run_os.
    destruct (os_stdin (env w) (tick w)) as [| | buffer]; cbn; try (signals; fail).
    unfold Online.SJF_ingest. run_os.
    match goal with
    | |- context [Online.new_process buffer ?t ?w'] =>
        pose proof (new_process_signals buffer t w') as Hq;
        destruct (Online.new_process buffer t w') as [[p|] w1]
    end; cbn in Hq |- *; [| signals].
    unfold Online.malloc. run_os. split_ifs; signals.
  - unfold Online.SJF_schedule.
    destruct (Online.sj_remainingProcesses s =? 0); cbn; [signals |].
    destruct (fst (Online.SJF_select _ _)) as [i|]; cbn; [| signals].
    destruct (Online.sj_processList s !! i) as [p|]; cbn; [| exact H].
    run_os.
    pose proof (executeProcess_signals p (Online.sj_t0 s) w H) as Hq.
    destruct (executeProcess p (Online.sj_t0 s) w) as [d w1].
    cbn in Hq. cbn. destruct (os_waitpid _ _) as [result status]. cbn.
    destruct (result <? 0); cbn; [signals |].
    destruct (exited_ok status); cbn; destruct (os_fopen _ _); cbn; signals.
Qed.

Lemma MLFQ_turn_signals s w :
  queues_ok (Online.om_heap s) (Online.om_MLFQ s) ->
  Forall holds_child (Online.om_heap s) -> signals_children (out w) ->
  signals_children (out (snd (Online.MLFQ_turn s w))).
Proof.
  intros Hok Ht H. unfold Online.MLFQ_turn.
  destruct (find _ _) as [i|]; [| exact H].
  destruct (dequeue _) as [[x|] q0] eqn:Hdq; [| exact H].
  pose proof (queued_dequeue _ _ _ _ Hdq) as Hperm.
  destruct Hok as [_ Hval].
  destruct (Hval x) as (pr & Hpr & Hnt).
  { rewrite Hperm. apply elem_of_cons. left. reflexivity. }
  rewrite Hpr. run_os.
  pose proof (Forall_lookup_1 _ _ _ _ Ht Hpr) as Hp.
  destruct (dispatch_call_at pr (Online.om_t0 s) w Hnt) as [Hd _].
  pose proof (dispatch_call_signals pr (Online.om_t0 s) w Hp H) as Hq.
  destruct ((if negb (started pr) then executeProcess pr (Online.om_t0 s)
             else resumeProcess pr (Online.om_t0 s)) w) as [d w1].
  cbn in Hd, Hq. apply dispatch_holds_child in Hd; [| exact Hp].
  cbn. destruct (os_waitpid _ _) as [result status]. cbn.
  destruct (result <? 0); cbn; [signals |].
  destruct (result =? 0); cbn.
  - match goal with
    | |- context [pauseProcess d ?t ?w'] =>
        pose proof (pauseProcess_signals d t w' Hd) as Hq2;
        destruct (pauseProcess d t w') as [q w2]
    end.
    cbn in Hq2. cbn. signals.
  - destruct (exited_ok status); cbn; destruct (os_fopen _ _); cbn; signals.
Qed.

Lemma MLFQ_online_body_signals s w :
  MLFQ_online_inv s ->
  Forall holds_child (Online.om_heap s) -> signals_children (out w) ->
  signals_children (out (snd (Online.MLFQ_body s w))).
Proof.
  intros Hok Ht H. unfold Online.MLFQ_body, MLFQ_online_inv in *.
  destruct (Online.om_phase s).
  - unfold Online.readInput. run_os.
    destruct (os_stdin (env w) (tick w)) as [| | buffer]; cbn; try (signals; fail).
    unfold Online.MLFQ_ingest. run_os.
    match goal with
    | |- context [Online.new_process buffer ?t ?w'] =>
        pose proof (new_process_signals buffer t w') as Hq;
        destruct (Online.new_process buffer t w') as [[p|] w1]
    end; cbn in Hq |- *; signals.
  - unfold Online.MLFQ_schedule.
    destruct (Online.om_remainingProcesses s =? 0); cbn; [signals |].
    run_os. pose proof (MLFQ_turn_signals s w Hok Ht H) as Hturn.
    destruct (Online.MLFQ_turn s w) as [[[[heap' h'] M'] rem'] w1].
    cbn in Hturn. cbn. destruct (_ >=? _); cbn; signals.
Qed.

(** A scheduler whose passes keep the signals with the children. *)
Section Signalled.

Context {S : Type} (pol : policy) (init : M (ctl S)) (body : S -> M (ctl S))
  (table : S -> list Process) (t0 : S -> Z) (Inv : S -> Prop).

Hypothesis init_at : forall w,
  Inv (state_of (fst (init w))) /\
  Forall holds_child (table (state_of (fst (init w)))) /\
  (signals_children (out w) -> signals_children (out (snd (init w)))).
Hypothesis body_at : forall s w, Inv s ->
  (exists u, pass_at (env w) (t0 s) pol (tick w) (tick (snd (body s w)))
               (table s) (table (state_of (fst (body s w)))) u) /\
  Inv (state_of (fst (body s w))) /\
  t0 (state_of (fst (body s w))) = t0 s /\
  env (snd (body s w)) = env w.
Hypothesis body_signals : forall s w,
  Inv s -> Forall holds_child (table s) -> signals_children (out w) ->
  signals_children (out (snd (body s w))).

Lemma signalled_always k w :
  signals_children (out w) ->
  Forall holds_child (table (state_of (fst (run init body k w)))) /\
  signals_children (out (snd (run init body k w))).
Proof.
  intros H.
  pose (J := fun s w' =>
    Inv s /\ Forall holds_child (table s) /\ signals_children (out w')).
  assert (HJ : J (state_of (fst (run init body k w))) (snd (run init body k w))).
  { apply (run_keeps_at init body (fun w' => w' = w) J); [| | reflexivity].
    - intros w' ->. destruct (init_at w) as (Hi & Ht & Hs).
      split; [exact Hi |]. split; [exact Ht | exact (Hs H)].
    - intros s w' (Hi & Ht & Hs).
      destruct (body_at s w' Hi) as ((u & Hu) & Hi' & _ & _).
      split; [exact Hi' |]. split.
      + eapply pass_holds_child; [exact Hu | exact Ht].
      + apply body_signals; assumption. }
  split; apply HJ.
Qed.

End Signalled.

Lemma initial_hold_child p : Forall holds_child (Offline.initializeProcess p).
Proof.
  unfold Offline.initializeProcess. apply Forall_fmap, Forall_forall.
  intros q _. intros Hs. discriminate.
Qed.

(** A scheduler signals single processes only: in a run of any of the five
    schedulers every [kill] is called with a positive process identifier,
    never with the -1 that a record keeps when its [fork] failed (which
    would signal every process the scheduler may signal) and never with 0
    (its own process group); and every record of the table that has started
    holds a positive identifier. *)
Theorem signals_go_to_children (c : config) (k : nat) (w : World) :
  signals_children (out w) ->
  Forall holds_child (table_after c k w) /\
  signals_children (log_after c k w).
Proof.
  destruct c as [p | p quantum | p q0 q1 q2 bt | | q0 q1 q2 bt]; cbn.
  - apply (signalled_always PolFCFS (Offline.FCFS_init p) Offline.FCFS_body
             Offline.fc_p Offline.fc_t0 FCFS_inv).
    + intros w'. split; [apply FCFS_init_inv |].
      unfold Offline.FCFS_init. run_os. cbn. destruct (os_fopen _ _); cbn;
        (split; [apply initial_hold_child | intros H; signals]).
    + apply FCFS_clocked.
    + intros s w' _ _. apply FCFS_body_signals.
  - apply (signalled_always PolRR (Offline.RR_init p quantum) Offline.RR_body
             Offline.rr_p Offline.rr_t0 (fun _ => True)).
    + intros w'. split; [exact I |].
      unfold Offline.RR_init. run_os. cbn. destruct (os_fopen _ _); cbn;
        (split; [apply initial_hold_child | intros H; signals]).
    + apply RR_clocked.
    + intros s w' _. apply RR_body_signals.
  - apply (signalled_always PolMLFQ (Offline.MLFQ_init p q0 q1 q2 bt)
             Offline.MLFQ_body Offline.mq_p Offline.mq_t0 (fun _ => True)).
    + intros w'. split; [exact I |].
      unfold Offline.MLFQ_init. run_os. cbn. destruct (os_fopen _ _); cbn;
        (split; [apply initial_hold_child | intros H; signals]).
    + apply MLFQ_clocked.
    + intros s w' _. apply MLFQ_offline_body_signals.
  - apply (signalled_always PolSJF Online.SJF_init Online.SJF_body
             Online.sj_processList Online.sj_t0 (fun _ => True)).
    + intros w'. split; [exact I |].
      unfold Online.SJF_init, Online.malloc. run_os. cbn.
      destruct (os_fopen _ _); cbn; destruct (os_malloc _ _); cbn;
        (split; [constructor | intros H; signals]).
    + apply SJF_clocked.
    + intros s w' _ _. apply SJF_body_signals.
  - apply (signalled_always PolOnlineMLFQ (Online.MLFQ_init q0 q1 q2 bt)
             Online.MLFQ_body Online.om_heap Online.om_t0 MLFQ_online_inv).
    + intros w'. split; [apply OnlineMLFQ_init_inv |].
      unfold Online.MLFQ_init. run_os. cbn. destruct (os_fopen _ _); cbn;
        (split; [constructor | intros H; signals]).
    + apply OnlineMLFQ_clocked.
    + intros s w'. apply MLFQ_online_body_signals.
Qed.

Lemma signals_go_to_children_witness :
  Forall holds_child
    (table_after (CfgRR [idle_record "a"; idle_record "b"] 5) 8
       (boot ticking_os)) /\
  signals_children
    (log_after (CfgRR [idle_record "a"; idle_record "b"] 5) 8 (boot ticking_os)).
Proof.
  apply (signals_go_to_children (CfgRR [idle_record "a"; idle_record "b"] 5) 8
           (boot ticking_os)).
  constructor.
Defined.

(** ** The order of the metrics *)

Lemma settle_lifetime os t0 st m b d q flag :
  steady_clock os -> 0 <= t0 <= os_clock os m ->
  terminal d = false -> timely st (os_clock os m - t0) d ->
  (started d = true -> burst_time d <= context_start_time d - start_time d) ->
  settle_at os t0 m b st d q flag ->
  within_lifetime q.
Proof.
  intros [Hmono Hfit] Ht0 Hnt Hp Hrun Hs. unfold within_lifetime.
  destruct Hs as [st d Hle | d n Hn Hst | d n Hn | d n Hn | d n Hn
                 | d n Hn | d n Hn | d n Hn].
  1: { apply orb_false_elim in Hnt as [Hf _]. congruence. }
  all: pose proof (Hmono m n ltac:(lia)) as Hc1;
    pose proof (Hmono n b ltac:(lia)) as Hc2;
    pose proof (Hfit n) as Hc3; pose proof (Hfit m) as Hc4;
    destruct Hp as (Ha & Hb & Hz & Hs);
    specialize (Hz Hnt);
    destruct d as [? ? ? sta ? ? ? ? ? ? ? ? ? ?];
    unfold terminal in Hnt; cbn in Hnt;
    apply orb_false_elim in Hnt as [-> ->];
    timely_fields; destruct sta; settle_premises; try discriminate.
  all: try match type of Hz with
           | false = false \/ _ -> _ => specialize (Hz (or_introl eq_refl))
           | _ \/ ?P -> _ =>
               let Hne := fresh in
               assert (Hne : P) by discriminate; specialize (Hz (or_intror Hne))
           end.
  all: subst; u64_exact; u64_bounds.
  all: intros; try discriminate; try lia.
Qed.

Lemma pass_lifetime os t0 pol a b t t' u :
  steady_clock os -> 0 <= t0 <= os_clock os a ->
  pass_at os t0 pol a b t t' u ->
  Forall (timely (style_of pol) (os_clock os a - t0)) t ->
  Forall within_lifetime t -> Forall within_lifetime t'.
Proof.
  intros Hos Ht0 Hpass Ht Hl.
  destruct Hpass as [Hle | p n Hon Hp Hn Harr | i p d q flag m Hi Hnt Hd Hs].
  - exact Hl.
  - apply Forall_app. split; [exact Hl |]. apply Forall_singleton.
    destruct Hp as (Hf & _). intros _ E. congruence.
  - apply Forall_insert; [exact Hl |].
    pose proof (Forall_lookup_1 _ _ _ _ Ht Hi) as Hp.
    destruct (dispatch_timely os t0 _ a m p d Hos Ht0 Hnt Hp Hd)
      as (Hd1 & Hd2 & Hd3).
    eapply settle_lifetime;
      [exact Hos | | exact Hd2 | exact Hd1 | exact Hd3 | exact Hs].
    split; [lia |]. transitivity (os_clock os a); [lia |].
    apply Hos. eapply dispatch_at_le, Hd.
Qed.

(** Under a steady clock, every record that was started and has finished
    was on the processor for no longer than it lived: its burst time is at
    most its completion time minus its start time. Hence its metrics are in
    order: [0 <= response <= waiting <= turnaround] and
    [burst <= turnaround]. *)
Theorem finished_metrics_in_order (c : config) (k : nat) (w : World) :
  steady_clock (env w) ->
  Forall within_lifetime (table_after c k w) /\
  Forall metrics_ordered (table_after c k w).
Proof.
  intros Hos.
  destruct (tables_clocked
              (fun pol B t => Forall (timely (style_of pol) B) t /\
                              Forall within_lifetime t))
    with (c := c) (k := k) (w := w) as (B & Ht & Hl).
  - intros pol os t0 a b t t' u Hs Ht0 Hpass [Ht Hl]. split.
    + eapply pass_timely; eauto.
    + eapply pass_lifetime; eauto.
  - intros c' B HB. split.
    + eapply Forall_impl; [apply table_at_start_idle |].
      intros q ->. unfold timely, terminal. cbn.
      repeat split; try lia; discriminate.
    + eapply Forall_impl; [apply table_at_start_idle |].
      intros q ->. intros E. discriminate.
  - exact Hos.
  - split; [exact Hl |].
    apply Forall_forall. intros p Hp.
    pose proof (proj1 (Forall_forall _ _) Ht p Hp) as Htp.
    pose proof (proj1 (Forall_forall _ _) Hl p Hp) as Hlp.
    intros Hs Hf. specialize (Hlp Hs Hf).
    destruct Htp as (_ & _ & _ & Hrun).
    destruct (Hrun Hs) as (_ & _ & _ & _ & Hex & _).
    destruct (Hex Hf) as (E1 & E2 & E3 & Hb & Htu & Hw & Hr).
    lia.
Qed.

Lemma ticking_os_steady : steady_clock ticking_os.
Proof.
  split.
  - intros n m Hnm. cbn. lia.
  - intros n. cbn. lia.
Defined.

Lemma finished_metrics_in_order_witness :
  Forall within_lifetime
    (table_after (CfgRR [idle_record "a"; idle_record "b"] 5) 12
       (boot ticking_os)) /\
  Forall metrics_ordered
    (table_after (CfgRR [idle_record "a"; idle_record "b"] 5) 12
       (boot ticking_os)).
Proof.
  apply (finished_metrics_in_order
           (CfgRR [idle_record "a"; idle_record "b"] 5) 12 (boot ticking_os)).
  exact ticking_os_steady.
Defined.

(** The metrics of the run of the witness: burst, turnaround, waiting and
    response of the two records. *)
Example ticking_run_order :
  map (fun p => (burst_time p, turnaround_time p, waiting_time p, response_time p))
    (table_after (CfgRR [idle_record "a"; idle_record "b"] 5) 12
       (boot ticking_os))
  = [(20, 40, 20, 20); (110, 240, 130, 70)].
Proof. vm_compute. reflexivity. Qed.

(** ** The shape of the history *)

Lemma find_in_unique chain node :
  NoDup (map Online.node_command chain) -> node ∈ chain ->
  Online.find_in chain (Online.node_command node) = Some node.
Proof.
  induction chain as [|x chain IH]; intros Hnd Hin.
  - apply elem_of_nil in Hin. contradiction.
  - cbn in Hnd. apply NoDup_cons in Hnd as [Hx Hnd]. cbn.
    apply elem_of_cons in Hin as [-> | Hin].
    + rewrite String.eqb_refl. reflexivity.
    + destruct (String.eqb (Online.node_command x) (Online.node_command node))
        eqn:E.
      * apply String.eqb_eq in E. exfalso. apply Hx. rewrite E.
        apply list_elem_of_fmap. exists node. split; [reflexivity | exact Hin].
      * apply IH; assumption.
Qed.

Lemma find_in_none chain cmd :
  Online.find_in chain cmd = None -> cmd ∉ map Online.node_command chain.
Proof.
  induction chain as [|x chain IH]; cbn; intros H Hin.
  - apply elem_of_nil in Hin. contradiction.
  - destruct (String.eqb (Online.node_command x) cmd) eqn:E; [discriminate |].
    apply elem_of_cons in Hin as [-> | Hin].
    + rewrite String.eqb_refl in E. discriminate.
    + exact (IH H Hin).
Qed.

Lemma add_burst_commands chain cmd b :
  map Online.node_command (Online.add_burst chain cmd b)
  = map Online.node_command chain.
Proof.
  induction chain as [|x chain IH]; cbn; [reflexivity |].
  destruct (String.eqb (Online.node_command x) cmd); cbn; [reflexivity |].
  rewrite IH. reflexivity.
Qed.

Lemma tidy_update h b cmd : tidy h -> tidy (Online.updateBurstTime h b cmd).
Proof.
  intros Hh i Hi. unfold Online.updateBurstTime.
  pose proof (cell_of_le_2 cmd) as Hc.
  destruct (decide (Online.cell_of cmd = i)) as [<- | Hne].
  - destruct (Hh _ Hc) as [Hnd Hcell].
    destruct (Online.findNode h cmd) eqn:Hf; rewrite aget_aset.
    + rewrite add_burst_commands. split; assumption.
    + rewrite findNode_find_in in Hf. apply find_in_none in Hf.
      cbn [map Online.node_command]. split.
      * apply NoDup_cons. split; assumption.
      * intros cmd' Hin. apply elem_of_cons in Hin as [-> | Hin];
          [reflexivity | apply Hcell, Hin].
  - destruct (Online.findNode h cmd); rewrite aget_aset_ne by assumption;
      apply Hh, Hi.
Qed.

Lemma tidy_found h : tidy h -> nodes_found h.
Proof.
  intros Hh i node Hi Hin. destruct (Hh i Hi) as [Hnd Hcell].
  rewrite findNode_find_in, (Hcell (Online.node_command node)).
  - apply find_in_unique; assumption.
  - apply list_elem_of_fmap. exists node. split; [reflexivity | exact Hin].
Qed.

Lemma tidy_empty : tidy Online.empty_table.
Proof.
  intros i Hi. destruct i as [|[|[|i]]]; cbn; try lia;
    (split; [apply NoDup_nil_2 | intros cmd Hin; apply elem_of_nil in Hin;
                                 contradiction]).
Qed.

(** The history of the two online schedulers never holds two nodes for one
    command, and holds every node in the bucket its command hashes to:
    after any number of passes each node of the history is the node that
    [findNode] returns for its command, so no node is out of reach. *)
Theorem history_nodes_found :
  (forall k w, tidy (SJF_history k w) /\ nodes_found (SJF_history k w)) /\
  (forall quantum0 quantum1 quantum2 boostTime k w,
     tidy (OnlineMLFQ_history quantum0 quantum1 quantum2 boostTime k w) /\
     nodes_found (OnlineMLFQ_history quantum0 quantum1 quantum2 boostTime k w)).
Proof.
  assert (Hpass : forall (u : option (Z * string)) h, tidy h -> tidy (observe h u)).
  { intros [[b cmd]|] h Hh; [apply tidy_update, Hh | exact Hh]. }
  split.
  - intros k w.
    assert (Ht : tidy (SJF_history k w)).
    { apply (online_always PolSJF Online.SJF_init Online.SJF_body
               Online.sj_processList Online.sj_hashTable
               Online.sj_t0 (fun _ => True) (fun _ => I) SJF_online_policy
               (fun _ h => tidy h)).
      - intros t0 t t' u h _. apply Hpass.
      - intros w'. rewrite SJF_init_history. apply tidy_empty. }
    split; [exact Ht | apply tidy_found, Ht].
  - intros q0 q1 q2 bt k w.
    assert (Ht : tidy (OnlineMLFQ_history q0 q1 q2 bt k w)).
    { apply (online_always PolOnlineMLFQ (Online.MLFQ_init q0 q1 q2 bt)
               Online.MLFQ_body Online.om_heap Online.om_hashTable
               Online.om_t0 MLFQ_online_inv (OnlineMLFQ_init_inv q0 q1 q2 bt)
               OnlineMLFQ_online_policy (fun _ h => tidy h)).
      - intros t0 t t' u h _. apply Hpass.
      - intros w'. rewrite OnlineMLFQ_init_history. apply tidy_empty. }
    split; [exact Ht | apply tidy_found, Ht].
Qed.
